(** * Barangay Document Management System: a shallow embedding

    The Flask application under [src/barangay_project] is embedded as pure
    functions over an explicit database state.  Tables are lists of records
    (one record per row, in insertion order), a request handler is a function
    from the request, the session and the database to a response and the new
    session and database, and the clock, the random OTP and the result of file
    rendering are inputs of the handler.  The PostgreSQL catalogue that the
    start-up schema healing works on is a finite map from table names to
    column descriptions. *)

From Stdlib Require Import ZArith Lia Ascii String Bool.
From stdpp Require Import base option list strings gmap.

Local Open Scope string_scope.

(** ** Python built-ins used by the application

    Strings are sequences of ASCII characters; the classification functions
    follow [str.isalnum], [str.upper], [str.lower] and [str.strip] on that
    range. *)
Module Py.

Definition code (c : ascii) : nat := nat_of_ascii c.

Definition is_upper (c : ascii) : bool := (65 <=? code c)%nat && (code c <=? 90)%nat.
Definition is_lower (c : ascii) : bool := (97 <=? code c)%nat && (code c <=? 122)%nat.
Definition is_digit (c : ascii) : bool := (48 <=? code c)%nat && (code c <=? 57)%nat.
Definition isalnum (c : ascii) : bool := is_upper c || is_lower c || is_digit c.

(** [str.isspace] on ASCII: TAB..CR, FS..US and the blank. *)
Definition is_space (c : ascii) : bool :=
  ((9 <=? code c)%nat && (code c <=? 13)%nat)
  || ((28 <=? code c)%nat && (code c <=? 32)%nat).

Definition upper_char (c : ascii) : ascii :=
  if is_lower c then ascii_of_nat (code c - 32) else c.
Definition lower_char (c : ascii) : ascii :=
  if is_upper c then ascii_of_nat (code c + 32) else c.

Fixpoint map_string (f : ascii -> ascii) (s : string) : string :=
  match s with
  | EmptyString => EmptyString
  | String c r => String (f c) (map_string f r)
  end.

Definition upper : string -> string := map_string upper_char.
Definition lower : string -> string := map_string lower_char.

Fixpoint lstrip_by (p : ascii -> bool) (s : string) : string :=
  match s with
  | EmptyString => EmptyString
  | String c r => if p c then lstrip_by p r else s
  end.

Fixpoint rstrip_by (p : ascii -> bool) (s : string) : string :=
  match s with
  | EmptyString => EmptyString
  | String c r =>
      match rstrip_by p r with
      | EmptyString => if p c then EmptyString else String c EmptyString
      | r' => String c r'
      end
  end.

Definition strip_by (p : ascii -> bool) (s : string) : string :=
  rstrip_by p (lstrip_by p s).

(** [s.strip()] *)
Definition strip : string -> string := strip_by is_space.

(** Truth value of a [str] and of a [str | None]. *)
Definition truthy (s : string) : bool :=
  match s with EmptyString => false | _ => true end.
Definition truthy_opt (o : option string) : bool :=
  match o with Some s => truthy s | None => false end.

(** [o or ""] *)
Definition or_empty (o : option string) : string := default "" o.

(** [s or None] *)
Definition or_none (s : string) : option string :=
  if truthy s then Some s else None.

Fixpoint starts_with (p s : string) : bool :=
  match p, s with
  | EmptyString, _ => true
  | String a p', String b s' => Ascii.eqb a b && starts_with p' s'
  | String _ _, EmptyString => false
  end.

(** [p in s] for strings. *)
Fixpoint contains (p s : string) : bool :=
  starts_with p s
  || match s with
     | EmptyString => false
     | String _ s' => contains p s'
     end.

(** Decimal digits of a natural number, most significant first. *)
Fixpoint digits_go (fuel n : nat) (acc : string) : string :=
  match fuel with
  | O => acc
  | S f =>
      let acc' := String (ascii_of_nat (48 + n mod 10)) acc in
      if (n <? 10)%nat then acc' else digits_go f (n / 10) acc'
  end.

(** [str(n)] for [n >= 0]. *)
Definition str_nat (n : nat) : string := digits_go (S n) n EmptyString.

Fixpoint zeros (k : nat) : string :=
  match k with O => EmptyString | S k' => String "0" (zeros k') end.

(** [f"{n:0wd}"] for [n >= 0]: left-padded with zeros to width [w]. *)
Definition zfill (w n : nat) : string :=
  let s := str_nat n in zeros (w - String.length s) +:+ s.

(** The integer formatted by [f"{z}"] and [f"{z:0wd}"]. *)
Definition str_Z (z : Z) : string :=
  if (z <? 0)%Z then "-" +:+ str_nat (Z.to_nat (- z)) else str_nat (Z.to_nat z).
Definition zfill_Z (w : nat) (z : Z) : string :=
  if (z <? 0)%Z then "-" +:+ zfill (w - 1) (Z.to_nat (- z)) else zfill w (Z.to_nat z).

End Py.

(** ** The subset of [re] that the application's patterns use

  A pattern is compiled from its source text: [^] and [$] anchors, ordinary
  characters, the escapes [\d] (a decimal digit) and backslash-backslash (a
  literal backslash), and the bounded repetition [{n}] after an atom. *)
Module Re.

Inductive atom :=
| Lit (c : ascii)
| Digit.

Inductive node :=
| Begin
| End_
| Rep (a : atom) (n : nat).

Definition regex := list node.

Definition digit_val (c : ascii) : nat := Py.code c - 48.

(** Reads the count of [{n}] up to the closing brace. *)
Fixpoint read_count (s : string) (acc : nat) : option (nat * string) :=
  match s with
  | EmptyString => None
  | String c r =>
      if Ascii.eqb c "}" then Some (acc, r)
      else if Py.is_digit c then read_count r (10 * acc + digit_val c)
      else None
  end.

Definition unsupported (c : ascii) : bool :=
  existsb (Ascii.eqb c)
    ["."; "*"; "+"; "?"; "["; "]"; "("; ")"; "|"; "{"; "}"]%char.

Fixpoint parse (fuel : nat) (s : string) : option regex :=
  match fuel with
  | O => None
  | S f =>
      let quantified (a : atom) (rest : string) : option regex :=
        match rest with
        | String "{" r =>
            match read_count r 0 with
            | Some (n, r') => cons (Rep a n) <$> parse f r'
            | None => None
            end
        | _ => cons (Rep a 1) <$> parse f rest
        end in
      match s with
      | EmptyString => Some []
      | String "^" r => cons Begin <$> parse f r
      | String "$" r => cons End_ <$> parse f r
      | String "\" (String "d" r) => quantified Digit r
      | String "\" (String "\" r) => quantified (Lit "\") r
      | String "\" _ => None
      | String c r => if unsupported c then None else quantified (Lit c) r
      end
  end.

(** [re.compile(pattern)] *)
Definition compile (pattern : string) : option regex :=
  parse (S (String.length pattern)) pattern.

Definition atom_matches (ignorecase : bool) (a : atom) (c : ascii) : bool :=
  match a with
  | Lit l =>
      if ignorecase then Ascii.eqb (Py.lower_char l) (Py.lower_char c)
      else Ascii.eqb l c
  | Digit => Py.is_digit c
  end.

Fixpoint eat (ignorecase : bool) (a : atom) (n : nat) (s : string) : option string :=
  match n with
  | O => Some s
  | S n' =>
      match s with
      | String c r => if atom_matches ignorecase a c then eat ignorecase a n' r else None
      | EmptyString => None
      end
  end.

(** Matching from the current position; [at_start] tells whether that
    position is the start of the subject. *)
Fixpoint run (ignorecase : bool) (r : regex) (at_start : bool) (s : string) : bool :=
  match r with
  | [] => true
  | Begin :: r' => at_start && run ignorecase r' at_start s
  | End_ :: r' =>
      (* [$] matches at the end and just before a final newline *)
      (String.eqb s "" || String.eqb s (String (ascii_of_nat 10) ""))
      && run ignorecase r' at_start s
  | Rep a n :: r' =>
      match eat ignorecase a n s with
      | Some s' => run ignorecase r' (at_start && Nat.eqb n 0) s'
      | None => false
      end
  end.

(** [pattern.match(s)] as a truth value; a pattern that does not compile
    matches nothing. *)
Definition match_ (ignorecase : bool) (p : option regex) (s : string) : bool :=
  match p with
  | Some r => run ignorecase r true s
  | None => false
  end.

End Re.


(** ** models.py: one record per table

  A nullable column is an [option]; [datetime] is a naive UTC instant in
  microseconds, [date] a calendar date. *)
Module Models.

Definition datetime := Z.

(** [timedelta(seconds=n)] *)
Definition seconds (n : Z) : Z := (n * 1000000)%Z.

Record date := Date { year : Z; month : Z; day : Z }.

Definition date_ltb (a b : date) : bool :=
  ((year a <? year b)
   || ((year a =? year b) && ((month a <? month b)
       || ((month a =? month b) && (day a <? day b)))))%Z.

Definition date_eqb (a b : date) : bool :=
  ((year a =? year b) && (month a =? month b) && (day a =? day b))%Z.

Module Resident.
Record t := Make {
  id : Z;
  barangay_id : option string;
  first_name : string;
  middle_name : option string;
  last_name : string;
  gender : string;
  birth_date : date;
  marital_status : option string;
  address : string;
  photo_path : option string;
  created_at : option datetime;
  updated_at : option datetime;
  created_by_id : option Z;
  updated_by_id : option Z;
  is_archived : bool;
  archived_at : option datetime;
  archived_by_id : option Z
}.
End Resident.

Module DocumentType.
Record t := Make {
  id : Z;
  name : string;
  description : option string;
  template_path : option string;
  requires_photo : bool
}.
End DocumentType.

Module Document.
Record t := Make {
  id : Z;
  resident_id : Z;
  document_type_id : Z;
  status : string;
  details : option string;
  issue_date : date;
  file_path : option string;
  created_at : datetime;
  updated_at : option datetime;
  approved_at : option datetime;
  issued_at : option datetime;
  is_archived : bool;
  archived_at : option datetime;
  created_by_id : option Z;
  updated_by_id : option Z;
  approved_by_id : option Z;
  issued_by_id : option Z;
  archived_by_id : option Z
}.
End Document.

Module User.
Record t := Make {
  id : Z;
  username : string;
  email : option string;
  password_hash : string;
  role : string;
  created_at : option datetime
}.
End User.

(** A value of the JSON [meta] column. *)
Inductive MetaValue :=
| MStr (s : string)
| MInt (z : Z)
| MNone.

Module TransactionLog.
Record t := Make {
  id : Z;
  user_id : option Z;
  action : string;
  entity_type : option string;
  entity_id : option Z;
  ip_address : option string;
  user_agent : option string;
  meta : option (list (string * MetaValue));
  timestamp : datetime
}.
End TransactionLog.

Module PasswordReset.
Record t := Make {
  id : Z;
  user_id : Z;
  otp_code : string;
  expires_at : datetime;
  used : bool;
  created_at : datetime
}.
End PasswordReset.

Module LoginAttempt.
Record t := Make {
  id : Z;
  username : option string;
  ip_address : option string;
  success : bool;
  created_at : datetime
}.
End LoginAttempt.

Module LoginMfaCode.
Record t := Make {
  id : Z;
  user_id : Z;
  otp_code : string;
  expires_at : datetime;
  used : bool;
  created_at : datetime
}.
End LoginMfaCode.

(** The database: every table with its rows in insertion order. *)
Record Database := {
  residents : list Resident.t;
  document_types : list DocumentType.t;
  documents : list Document.t;
  users : list User.t;
  transaction_logs : list TransactionLog.t;
  password_resets : list PasswordReset.t;
  login_attempts : list LoginAttempt.t;
  login_mfa_codes : list LoginMfaCode.t
}.

Definition with_residents (v : list Resident.t) (d : Database) : Database :=
  {| residents := v; document_types := document_types d; documents := documents d;
     users := users d; transaction_logs := transaction_logs d;
     password_resets := password_resets d; login_attempts := login_attempts d;
     login_mfa_codes := login_mfa_codes d |}.

Definition with_document_types (v : list DocumentType.t) (d : Database) : Database :=
  {| residents := residents d; document_types := v; documents := documents d;
     users := users d; transaction_logs := transaction_logs d;
     password_resets := password_resets d; login_attempts := login_attempts d;
     login_mfa_codes := login_mfa_codes d |}.

Definition with_documents (v : list Document.t) (d : Database) : Database :=
  {| residents := residents d; document_types := document_types d; documents := v;
     users := users d; transaction_logs := transaction_logs d;
     password_resets := password_resets d; login_attempts := login_attempts d;
     login_mfa_codes := login_mfa_codes d |}.

Definition with_users (v : list User.t) (d : Database) : Database :=
  {| residents := residents d; document_types := document_types d; documents := documents d;
     users := v; transaction_logs := transaction_logs d;
     password_resets := password_resets d; login_attempts := login_attempts d;
     login_mfa_codes := login_mfa_codes d |}.

Definition with_transaction_logs (v : list TransactionLog.t) (d : Database) : Database :=
  {| residents := residents d; document_types := document_types d; documents := documents d;
     users := users d; transaction_logs := v;
     password_resets := password_resets d; login_attempts := login_attempts d;
     login_mfa_codes := login_mfa_codes d |}.

Definition with_password_resets (v : list PasswordReset.t) (d : Database) : Database :=
  {| residents := residents d; document_types := document_types d; documents := documents d;
     users := users d; transaction_logs := transaction_logs d;
     password_resets := v; login_attempts := login_attempts d;
     login_mfa_codes := login_mfa_codes d |}.

Definition with_login_attempts (v : list LoginAttempt.t) (d : Database) : Database :=
  {| residents := residents d; document_types := document_types d; documents := documents d;
     users := users d; transaction_logs := transaction_logs d;
     password_resets := password_resets d; login_attempts := v;
     login_mfa_codes := login_mfa_codes d |}.

Definition with_login_mfa_codes (v : list LoginMfaCode.t) (d : Database) : Database :=
  {| residents := residents d; document_types := document_types d; documents := documents d;
     users := users d; transaction_logs := transaction_logs d;
     password_resets := password_resets d; login_attempts := login_attempts d;
     login_mfa_codes := v |}.

(** The value a serial primary key takes on insertion: above every key in
    use. *)
Definition next_id (ids : list Z) : Z := (1 + fold_right Z.max 0 ids)%Z.

(** [db.session.get(Model, pk)] *)
Definition get {A} (key : A -> Z) (pk : Z) (rows : list A) : option A :=
  List.find (fun r => (key r =? pk)%Z) rows.

(** The UPDATE issued for the rows selected by [p]. *)
Definition update_where {A} (p : A -> bool) (f : A -> A) (rows : list A) : list A :=
  List.map (fun r => if p r then f r else r) rows.

(** The DELETE issued for the rows selected by [p]. *)
Definition delete_where {A} (p : A -> bool) (rows : list A) : list A :=
  List.filter (fun r => negb (p r)) rows.

Definition opt_Z_eqb (o : option Z) (z : Z) : bool :=
  match o with Some x => (x =? z)%Z | None => false end.

Definition opt_string_eqb (o : option string) (s : string) : bool :=
  match o with Some x => String.eqb x s | None => false end.

End Models.

(** ** The web layer: configuration, request, session, responses *)
Module Web.
Import Models.

(** config.py, the settings the modelled code reads. *)
Record Config := {
  LOGIN_RATE_LIMIT_WINDOW_SECONDS : Z;
  LOGIN_RATE_LIMIT_MAX : Z;
  ADMIN_MFA_REQUIRED : bool;
  MFA_CODE_TTL_SECONDS : Z;
  UPLOAD_FOLDER : option string;
  root_path : string
}.

(** The defaults of [class Config] for an application installed at [root]. *)
Definition default_config (root : string) : Config :=
  {| LOGIN_RATE_LIMIT_WINDOW_SECONDS := 600;
     LOGIN_RATE_LIMIT_MAX := 5;
     ADMIN_MFA_REQUIRED := true;
     MFA_CODE_TTL_SECONDS := 600;
     UPLOAD_FOLDER := Some (root +:+ "/static/uploads");
     root_path := root |}.

Inductive Method := GET | POST.

(** What a handler reads from the request and from its environment: the
    clock ([utcnow()], taken once per request), [date.today()],
    [time.time()] and the token drawn by [secrets.token_hex(3)]. *)
Record Request := {
  method : Method;
  remote_addr : option string;
  x_forwarded_for : string;
  user_agent : option string;
  arg_next : option string;
  now : datetime;
  today : date;
  time_time : Z;
  token_hex3 : string
}.

(** The Flask session cookie, with the keys the application uses;
    [_user_id] is the key Flask-Login keeps the logged-in user under. *)
Record Session := {
  _user_id : option Z;
  mfa_user_id : option Z;
  mfa_remember : option bool;
  mfa_next : option string;
  force_password_change : bool;
  last_activity : option Z;
  permanent : bool;
  _flashes : list (string * string)
}.

Definition anonymous_session : Session :=
  {| _user_id := None; mfa_user_id := None; mfa_remember := None; mfa_next := None;
     force_password_change := false; last_activity := None; permanent := false;
     _flashes := [] |}.

Inductive Response :=
| Redirect (endpoint : string)
| RedirectUrl (url : string)
| Render (template : string) (errors : list (string * string))
| Abort (status : Z)
| SendFile (path : string).

Record World := { db : Database; session : Session }.

(** [flash(message, category)] *)
Definition flash (message category : string) (s : Session) : Session :=
  {| _user_id := _user_id s; mfa_user_id := mfa_user_id s; mfa_remember := mfa_remember s;
     mfa_next := mfa_next s; force_password_change := force_password_change s;
     last_activity := last_activity s; permanent := permanent s;
     _flashes := _flashes s ++ [(category, message)] |}.

(** Flask-Login's [current_user]: the user [load_user] finds for the id in
    the session, if any. *)
Definition current_user (w : World) : option User.t :=
  match _user_id (session w) with
  | Some uid => get User.id uid (users (db w))
  | None => None
  end.

Definition is_authenticated (w : World) : bool :=
  match current_user w with Some _ => true | None => false end.

Definition with_db (d : Database) (w : World) : World :=
  {| db := d; session := session w |}.
Definition with_session (s : Session) (w : World) : World :=
  {| db := db w; session := s |}.

Definition do_flash (message category : string) (w : World) : World :=
  with_session (flash message category (session w)) w.

End Web.

(** ** helpers.py *)
Module Helpers.
Import Models Web.

(** [forwarded.split(",")[0]] *)
Fixpoint before_comma (s : string) : string :=
  match s with
  | EmptyString => EmptyString
  | String c r => if Ascii.eqb c "," then EmptyString else String c (before_comma r)
  end.

Definition get_client_ip (rq : Request) : option string :=
  if Py.truthy (x_forwarded_for rq)
  then Py.or_none (Py.strip (before_comma (x_forwarded_for rq)))
  else remote_addr rq.

(** [s[:n]] *)
Fixpoint take_string (n : nat) (s : string) : string :=
  match n, s with
  | S n', String c r => String c (take_string n' r)
  | _, _ => EmptyString
  end.

(** The row [log_action] builds for the authenticated user [u]. *)
Definition log_row (rq : Request) (u : User.t) (rows : list TransactionLog.t)
    (action : string) (entity_type : option string) (entity_id : option Z)
    (meta : option (list (string * MetaValue))) : TransactionLog.t :=
  {| TransactionLog.id := next_id (List.map TransactionLog.id rows);
     TransactionLog.user_id := Some (User.id u);
     TransactionLog.action := action;
     TransactionLog.entity_type := entity_type;
     TransactionLog.entity_id := entity_id;
     TransactionLog.ip_address := get_client_ip rq;
     TransactionLog.user_agent := Some (take_string 255 (Py.or_empty (user_agent rq)));
     TransactionLog.meta := meta;
     TransactionLog.timestamp := now rq |}.

Definition log_action (rq : Request) (action : string) (entity_type : option string)
    (entity_id : option Z) (meta : option (list (string * MetaValue))) (w : World) : World :=
  match current_user w with
  | Some u =>
      let rows := transaction_logs (db w) in
      with_db (with_transaction_logs
                 (rows ++ [log_row rq u rows action entity_type entity_id meta]) (db w)) w
  | None => w
  end.

(** The decorators [login_required] and [roles_required] around a view:
    an anonymous visitor is sent to the login page, a user whose role is
    not among the (non-empty) [roles] gets 403. *)
Definition guarded (roles : list string) (w : World)
    (view : User.t -> World * Response) : World * Response :=
  match current_user w with
  | None => (w, Redirect "auth.login")
  | Some u =>
      match roles with
      | [] => view u
      | _ => if existsb (String.eqb (User.role u)) roles then view u
             else (w, Abort 403)
      end
  end.

End Helpers.

(** ** forms.py: the validators the modelled handlers rely on *)
Module Forms.
Import Web.

(** [DataRequired()] on a string field. *)
Definition data_required (o : option string) : bool :=
  match o with
  | Some s => Py.truthy s && Py.truthy (Py.strip s)
  | None => false
  end.

Record LoginForm := {
  username : option string;
  password : option string;
  remember : bool
}.

Record MfaVerifyForm := { otp_code : option string }.

Definition is_post (rq : Request) : bool :=
  match method rq with POST => true | GET => false end.

Definition login_validate_on_submit (rq : Request) (f : LoginForm) : bool :=
  is_post rq && data_required (username f) && data_required (password f).

Definition mfa_validate_on_submit (rq : Request) (f : MfaVerifyForm) : bool :=
  is_post rq && data_required (otp_code f).

End Forms.

(** ** auth.py *)
Module Auth.
Import Models Web Helpers Forms.
Local Open Scope Z_scope.

Section WithHash.

(** [werkzeug.security.check_password_hash], applied to the stored hash
    and the candidate password. *)
Variable check_password_hash : string -> string -> bool.

Definition check_password (u : User.t) (password : string) : bool :=
  check_password_hash (User.password_hash u) password.

Definition _record_login_attempt (rq : Request) (username ip : option string)
    (success : bool) (w : World) : World :=
  let rows := login_attempts (db w) in
  let attempt :=
    {| LoginAttempt.id := next_id (List.map LoginAttempt.id rows);
       LoginAttempt.username := if Py.truthy_opt username then username else None;
       LoginAttempt.ip_address := if Py.truthy_opt ip then ip else None;
       LoginAttempt.success := success;
       LoginAttempt.created_at := now rq |} in
  with_db (with_login_attempts (rows ++ [attempt]) (db w)) w.

(** The rows of [base_query]: failed attempts not older than the cutoff. *)
Definition recent_failures (cutoff : datetime) (rows : list LoginAttempt.t)
    : list LoginAttempt.t :=
  List.filter (fun a => negb (LoginAttempt.success a)
                        && (cutoff <=? LoginAttempt.created_at a)) rows.

Definition count_ip (ip : string) (rows : list LoginAttempt.t) : Z :=
  Z.of_nat (length (List.filter
    (fun a => opt_string_eqb (LoginAttempt.ip_address a) ip) rows)).

Definition count_username (username : string) (rows : list LoginAttempt.t) : Z :=
  Z.of_nat (length (List.filter
    (fun a => opt_string_eqb (LoginAttempt.username a) username) rows)).

Definition _is_rate_limited (cfg : Config) (rq : Request) (d : Database)
    (username ip : option string) : bool :=
  let max_attempts := LOGIN_RATE_LIMIT_MAX cfg in
  let window_seconds := LOGIN_RATE_LIMIT_WINDOW_SECONDS cfg in
  if (max_attempts <=? 0) || (window_seconds <=? 0) then false
  else
    let cutoff := now rq - seconds window_seconds in
    let base_query := recent_failures cutoff (login_attempts d) in
    let ip_count :=
      match ip with
      | Some i => if Py.truthy i then count_ip i base_query else 0
      | None => 0
      end in
    let user_count :=
      match username with
      | Some n => if Py.truthy n then count_username n base_query else 0
      | None => 0
      end in
    max_attempts <=? Z.max ip_count user_count.

Definition set_mfa (uid : Z) (remember : bool) (next_page : option string)
    (s : Session) : Session :=
  {| _user_id := _user_id s;
     mfa_user_id := Some uid;
     mfa_remember := Some remember;
     mfa_next := if Py.truthy_opt next_page then next_page else mfa_next s;
     force_password_change := force_password_change s;
     last_activity := last_activity s;
     permanent := permanent s;
     _flashes := _flashes s |}.

(** The e-mail sent by [send_login_otp_email] leaves no trace in the
    database or the session and is not part of the state. *)
Definition _start_mfa (cfg : Config) (rq : Request) (user : User.t) (remember : bool)
    (next_page : option string) (w : World) : World :=
  let code := Py.upper (token_hex3 rq) in
  let ttl := MFA_CODE_TTL_SECONDS cfg in
  let expires_at := now rq + seconds ttl in
  let rows := login_mfa_codes (db w) in
  let mfa :=
    {| LoginMfaCode.id := next_id (List.map LoginMfaCode.id rows);
       LoginMfaCode.user_id := User.id user;
       LoginMfaCode.otp_code := code;
       LoginMfaCode.expires_at := expires_at;
       LoginMfaCode.used := false;
       LoginMfaCode.created_at := now rq |} in
  let w1 := with_db (with_login_mfa_codes (rows ++ [mfa]) (db w)) w in
  with_session (set_mfa (User.id user) remember next_page (session w1)) w1.

(** [login_user(user, remember=remember)], [session.permanent = True] and
    [session["last_activity"] = int(time.time())]. *)
Definition login_user (rq : Request) (user : User.t) (s : Session) : Session :=
  {| _user_id := Some (User.id user);
     mfa_user_id := mfa_user_id s;
     mfa_remember := mfa_remember s;
     mfa_next := mfa_next s;
     force_password_change := force_password_change s;
     last_activity := Some (time_time rq);
     permanent := true;
     _flashes := _flashes s |}.

Definition set_force_password_change (b : bool) (s : Session) : Session :=
  {| _user_id := _user_id s; mfa_user_id := mfa_user_id s;
     mfa_remember := mfa_remember s; mfa_next := mfa_next s;
     force_password_change := b; last_activity := last_activity s;
     permanent := permanent s; _flashes := _flashes s |}.

Definition _finalize_login (rq : Request) (user : User.t) (remember : bool)
    (next_page : option string) (action : string) (w : World) : World * Response :=
  let w1 := with_session (login_user rq user (session w)) w in
  let w2 := log_action rq action (Some "user") (Some (User.id user))
              (Some [("username", MStr (User.username user));
                     ("role", MStr (User.role user))]) w1 in
  if String.eqb (User.username user) "admin" && check_password user "admin" then
    let w3 := with_session (set_force_password_change true (session w2)) w2 in
    (do_flash "Please change the default admin password before continuing." "warning" w3,
     Redirect "auth.change_password")
  else
    let w3 := with_session (set_force_password_change false (session w2)) w2 in
    (w3, match next_page with
         | Some n => if Py.truthy n then RedirectUrl n else Redirect "main.index"
         | None => Redirect "main.index"
         end).

(** [User.query.filter_by(username=username).first()] *)
Definition user_by_username (username : string) (d : Database) : option User.t :=
  List.find (fun u => String.eqb (User.username u) username) (users d).

Definition login (cfg : Config) (rq : Request) (form : LoginForm) (w : World)
    : World * Response :=
  if is_authenticated w then (w, Redirect "main.index")
  else if login_validate_on_submit rq form then
    let username := Py.strip (Py.or_empty (Forms.username form)) in
    let ip := get_client_ip rq in
    if _is_rate_limited cfg rq (db w) (Some username) ip then
      (do_flash "Too many failed login attempts. Please try again later." "danger" w,
       Render "login.html" [])
    else
      let user := user_by_username username (db w) in
      let rejected :=
        (do_flash "Invalid username or password." "danger"
           (_record_login_attempt rq (Some username) ip false w),
         Render "login.html" []) in
      match user with
      | None => rejected
      | Some user =>
          if negb (check_password user (Py.or_empty (password form))) then rejected
          else
            let w1 := _record_login_attempt rq (Some username) ip true w in
            if String.eqb (User.role user) "admin" && ADMIN_MFA_REQUIRED cfg then
              if negb (Py.truthy_opt (User.email user)) then
                (do_flash "Admin accounts must have a valid email address for MFA."
                   "danger" w1,
                 Render "login.html" [])
              else
                let w2 := _start_mfa cfg rq user (remember form) (arg_next rq) w1 in
                (do_flash "Verification code sent. Please check your email." "info" w2,
                 Redirect "auth.mfa_verify")
            else
              _finalize_login rq user (remember form) (arg_next rq) "Logged in"
                (do_flash "Logged in successfully." "success" w1)
      end
  else (w, Render "login.html" []).

Definition pop_mfa (s : Session) : Session :=
  {| _user_id := _user_id s; mfa_user_id := None; mfa_remember := None;
     mfa_next := None; force_password_change := force_password_change s;
     last_activity := last_activity s; permanent := permanent s;
     _flashes := _flashes s |}.

(** The rows of [LoginMfaCode.query.filter_by(user_id=.., otp_code=..,
    used=False)]. *)
Definition mfa_candidates (uid : Z) (code : string) (rows : list LoginMfaCode.t)
    : list LoginMfaCode.t :=
  List.filter (fun r => (LoginMfaCode.user_id r =? uid)
                        && String.eqb (LoginMfaCode.otp_code r) code
                        && negb (LoginMfaCode.used r)) rows.

(** [.order_by(LoginMfaCode.expires_at.desc()).first()]: a row with the
    greatest expiry, the earliest inserted one among equals. *)
Definition latest_expiry (rows : list LoginMfaCode.t) : option LoginMfaCode.t :=
  fold_left (fun best r =>
               match best with
               | None => Some r
               | Some b => if LoginMfaCode.expires_at b <? LoginMfaCode.expires_at r
                           then Some r else Some b
               end) rows None.

Definition mark_used (r : LoginMfaCode.t) : LoginMfaCode.t :=
  {| LoginMfaCode.id := LoginMfaCode.id r;
     LoginMfaCode.user_id := LoginMfaCode.user_id r;
     LoginMfaCode.otp_code := LoginMfaCode.otp_code r;
     LoginMfaCode.expires_at := LoginMfaCode.expires_at r;
     LoginMfaCode.used := true;
     LoginMfaCode.created_at := LoginMfaCode.created_at r |}.

Definition mfa_verify (rq : Request) (form : MfaVerifyForm) (w : World)
    : World * Response :=
  if is_authenticated w then (w, Redirect "main.index")
  else
    let relogin (w' : World) :=
      (do_flash "Please log in again." "warning" w', Redirect "auth.login") in
    match mfa_user_id (session w) with
    | None => relogin w
    | Some user_id =>
        if user_id =? 0 then relogin w
        else
          match get User.id user_id (users (db w)) with
          | None => relogin (with_session (pop_mfa (session w)) w)
          | Some user =>
              if mfa_validate_on_submit rq form then
                let code := Py.upper (Py.strip (Py.or_empty (otp_code form))) in
                let pr := latest_expiry
                            (mfa_candidates (User.id user) code (login_mfa_codes (db w))) in
                match pr with
                | Some pr =>
                    if now rq <? LoginMfaCode.expires_at pr then
                      let rows' :=
                        update_where
                          (fun r => LoginMfaCode.id r =? LoginMfaCode.id pr)
                          mark_used (login_mfa_codes (db w)) in
                      let w1 := with_db (with_login_mfa_codes rows' (db w)) w in
                      let remember := default false (mfa_remember (session w1)) in
                      let next_page := mfa_next (session w1) in
                      let w2 := with_session (pop_mfa (session w1)) w1 in
                      _finalize_login rq user remember next_page "Logged in (MFA)"
                        (do_flash "Logged in successfully." "success" w2)
                    else
                      (do_flash "Invalid or expired verification code." "danger" w,
                       Render "mfa_verify.html" [])
                | None =>
                    (do_flash "Invalid or expired verification code." "danger" w,
                     Render "mfa_verify.html" [])
                end
              else (w, Render "mfa_verify.html" [])
          end
    end.

End WithHash.

End Auth.

(** ** routes.py: residents *)
Module Routes.
Import Models Web Helpers Forms.
Local Open Scope Z_scope.

Definition DOCUMENT_STATUSES : list string := ["draft"; "pending"; "approved"; "issued"].
Definition DRAFT_LIKE_STATUSES : list string := ["draft"; "pending"; "approved"].

(** [re.compile(r"...", re.IGNORECASE)], from the pattern text of the
    source. *)
Definition BRGY_ID_PATTERN : option Re.regex := Re.compile "^BRGY-\\d{4}-\\d{5}$".

Definition BRGY_ID_PATTERN_match (s : string) : bool :=
  Re.match_ true BRGY_ID_PATTERN s.

Record ResidentForm := {
  photo_data : option string;
  f_barangay_id : option string;
  f_first_name : option string;
  f_middle_name : option string;
  f_last_name : option string;
  f_gender : option string;
  f_birth_date : option date;
  f_marital_status : option string;
  f_address : option string
}.

Definition in_choices (choices : list string) (o : option string) : bool :=
  match o with Some s => existsb (String.eqb s) choices | None => false end.

(** [validators=[Optional(), Length(max=50)]] *)
Definition optional_length_max (n : nat) (o : option string) : bool :=
  match o with
  | None => true
  | Some s => negb (Py.truthy (Py.strip s)) || (String.length s <=? n)%nat
  end.

Definition resident_validate_on_submit (rq : Request) (f : ResidentForm) : bool :=
  is_post rq
  && optional_length_max 50 (f_barangay_id f)
  && data_required (f_first_name f)
  && data_required (f_last_name f)
  && in_choices ["Male"; "Female"; "Other"] (f_gender f)
  && bool_decide (is_Some (f_birth_date f))
  && in_choices ["Single"; "Married"; "Separated"; "Widowed"; "Annulled"; "Other"]
       (f_marital_status f)
  && data_required (f_address f).

Definition FORMAT_ERROR : string :=
  "Barangay ID must follow format BRGY-YYYY-##### (e.g., BRGY-2026-00001).".

(** [f"BRGY-{dt_date.today().year}-{resident.id:05d}"] *)
Definition auto_barangay_id (today : date) (id : Z) : string :=
  "BRGY-" +:+ Py.str_Z (year today) +:+ "-" +:+ Py.zfill_Z 5 id.

Definition set_barangay_id (b : option string) (r : Resident.t) : Resident.t :=
  {| Resident.id := Resident.id r; Resident.barangay_id := b;
     Resident.first_name := Resident.first_name r;
     Resident.middle_name := Resident.middle_name r;
     Resident.last_name := Resident.last_name r; Resident.gender := Resident.gender r;
     Resident.birth_date := Resident.birth_date r;
     Resident.marital_status := Resident.marital_status r;
     Resident.address := Resident.address r; Resident.photo_path := Resident.photo_path r;
     Resident.created_at := Resident.created_at r;
     Resident.updated_at := Resident.updated_at r;
     Resident.created_by_id := Resident.created_by_id r;
     Resident.updated_by_id := Resident.updated_by_id r;
     Resident.is_archived := Resident.is_archived r;
     Resident.archived_at := Resident.archived_at r;
     Resident.archived_by_id := Resident.archived_by_id r |}.

Definition set_photo_path (p : option string) (r : Resident.t) : Resident.t :=
  {| Resident.id := Resident.id r; Resident.barangay_id := Resident.barangay_id r;
     Resident.first_name := Resident.first_name r;
     Resident.middle_name := Resident.middle_name r;
     Resident.last_name := Resident.last_name r; Resident.gender := Resident.gender r;
     Resident.birth_date := Resident.birth_date r;
     Resident.marital_status := Resident.marital_status r;
     Resident.address := Resident.address r; Resident.photo_path := p;
     Resident.created_at := Resident.created_at r;
     Resident.updated_at := Resident.updated_at r;
     Resident.created_by_id := Resident.created_by_id r;
     Resident.updated_by_id := Resident.updated_by_id r;
     Resident.is_archived := Resident.is_archived r;
     Resident.archived_at := Resident.archived_at r;
     Resident.archived_by_id := Resident.archived_by_id r |}.

(** The assignments of [delete_resident] to the resident row. *)
Definition archive_resident (at_ : datetime) (by_ : Z) (r : Resident.t) : Resident.t :=
  {| Resident.id := Resident.id r; Resident.barangay_id := Resident.barangay_id r;
     Resident.first_name := Resident.first_name r;
     Resident.middle_name := Resident.middle_name r;
     Resident.last_name := Resident.last_name r; Resident.gender := Resident.gender r;
     Resident.birth_date := Resident.birth_date r;
     Resident.marital_status := Resident.marital_status r;
     Resident.address := Resident.address r; Resident.photo_path := Resident.photo_path r;
     Resident.created_at := Resident.created_at r;
     Resident.updated_at := Some at_;
     Resident.created_by_id := Resident.created_by_id r;
     Resident.updated_by_id := Some by_;
     Resident.is_archived := true;
     Resident.archived_at := Some at_;
     Resident.archived_by_id := Some by_ |}.

(** The assignments of [restore_resident] to the resident row. *)
Definition unarchive_resident (at_ : datetime) (by_ : Z) (r : Resident.t) : Resident.t :=
  {| Resident.id := Resident.id r; Resident.barangay_id := Resident.barangay_id r;
     Resident.first_name := Resident.first_name r;
     Resident.middle_name := Resident.middle_name r;
     Resident.last_name := Resident.last_name r; Resident.gender := Resident.gender r;
     Resident.birth_date := Resident.birth_date r;
     Resident.marital_status := Resident.marital_status r;
     Resident.address := Resident.address r; Resident.photo_path := Resident.photo_path r;
     Resident.created_at := Resident.created_at r;
     Resident.updated_at := Some at_;
     Resident.created_by_id := Resident.created_by_id r;
     Resident.updated_by_id := Some by_;
     Resident.is_archived := false;
     Resident.archived_at := None;
     Resident.archived_by_id := None |}.

(** The column values of the bulk UPDATE of [delete_resident] on a
    document row. *)
Definition archive_document (at_ : datetime) (by_ : Z) (d : Document.t) : Document.t :=
  {| Document.id := Document.id d; Document.resident_id := Document.resident_id d;
     Document.document_type_id := Document.document_type_id d;
     Document.status := Document.status d; Document.details := Document.details d;
     Document.issue_date := Document.issue_date d;
     Document.file_path := Document.file_path d;
     Document.created_at := Document.created_at d;
     Document.updated_at := Some at_;
     Document.approved_at := Document.approved_at d;
     Document.issued_at := Document.issued_at d;
     Document.is_archived := true;
     Document.archived_at := Some at_;
     Document.created_by_id := Document.created_by_id d;
     Document.updated_by_id := Some by_;
     Document.approved_by_id := Document.approved_by_id d;
     Document.issued_by_id := Document.issued_by_id d;
     Document.archived_by_id := Some by_ |}.

Section WithUploads.

(** [helpers.save_captured_image(data_url, subfolder)]: the relative path
    of the stored image, or [None]. *)
Variable save_captured_image : string -> string -> option string.

Definition captured (data : option string) : option string :=
  match data with
  | Some d => if Py.truthy d then save_captured_image d "residents" else None
  | None => None
  end.

Definition add_resident (rq : Request) (form : ResidentForm) (w : World)
    : World * Response :=
  guarded ["admin"; "clerk"] w (fun current_user =>
    let page errors := (w, Render "resident_form.html" errors) in
    if negb (resident_validate_on_submit rq form) then page []
    else
      match f_birth_date form with
      | None => page []
      | Some birth_date =>
      if date_ltb (today rq) birth_date then
        page [("birth_date", "Birth date cannot be in the future.")]
      else
        let first := Py.strip (Py.or_empty (f_first_name form)) in
        let last := Py.strip (Py.or_empty (f_last_name form)) in
        let existing :=
          List.find (fun r => String.eqb (Py.lower (Resident.first_name r)) (Py.lower first)
                              && String.eqb (Py.lower (Resident.last_name r)) (Py.lower last)
                              && date_eqb (Resident.birth_date r) birth_date)
            (residents (db w)) in
        match existing with
        | Some e =>
            page [("first_name",
                   if Resident.is_archived e
                   then "Resident already exists but is archived. Restore the record instead."
                   else "Resident already exists.")]
        | None =>
            let barangay_id :=
              match f_barangay_id form with
              | Some b => if Py.truthy b then Some (Py.strip b) else None
              | None => None
              end in
            let insert (barangay_id : option string) : World * Response :=
              let rows := residents (db w) in
              let id := next_id (List.map Resident.id rows) in
              let resident :=
                {| Resident.id := id; Resident.barangay_id := barangay_id;
                   Resident.first_name := Py.or_empty (f_first_name form);
                   Resident.middle_name := f_middle_name form;
                   Resident.last_name := Py.or_empty (f_last_name form);
                   Resident.gender := Py.or_empty (f_gender form);
                   Resident.birth_date := birth_date;
                   Resident.marital_status := f_marital_status form;
                   Resident.address := Py.or_empty (f_address form);
                   Resident.photo_path := captured (photo_data form);
                   Resident.created_at := Some (now rq);
                   Resident.updated_at := None;
                   Resident.created_by_id := Some (User.id current_user);
                   Resident.updated_by_id := None;
                   Resident.is_archived := false;
                   Resident.archived_at := None;
                   Resident.archived_by_id := None |} in
              let resident :=
                if Py.truthy_opt (Resident.barangay_id resident) then resident
                else set_barangay_id (Some (auto_barangay_id (today rq) id)) resident in
              (* the UNIQUE constraint on residents.barangay_id *)
              if existsb (fun r => bool_decide (Resident.barangay_id r
                                                = Resident.barangay_id resident)) rows
              then (w, Abort 500)
              else
                let w1 := with_db (with_residents (rows ++ [resident]) (db w)) w in
                let w2 :=
                  log_action rq
                    ("Created resident #" +:+ Py.str_Z id +:+ " ("
                       +:+ Resident.last_name resident +:+ ", "
                       +:+ Resident.first_name resident +:+ ")")
                    (Some "resident") (Some id)
                    (Some [("barangay_id",
                            match Resident.barangay_id resident with
                            | Some b => MStr b | None => MNone end)]) w1 in
                (do_flash "Resident added successfully!" "success" w2,
                 Redirect "main.list_residents") in
            match barangay_id with
            | Some b =>
                if Py.truthy b then
                  let normalized := Py.upper (Py.strip b) in
                  if negb (BRGY_ID_PATTERN_match normalized) then
                    page [("barangay_id", FORMAT_ERROR)]
                  else if existsb (fun r =>
                            match Resident.barangay_id r with
                            | Some x => String.eqb (Py.upper x) normalized
                            | None => false
                            end) (residents (db w))
                  then page [("barangay_id", "Barangay ID is already in use.")]
                  else insert (Some normalized)
                else insert barangay_id
            | None => insert None
            end
        end
      end).

End WithUploads.

Definition delete_resident (rq : Request) (resident_id : Z) (w : World)
    : World * Response :=
  guarded ["admin"; "clerk"] w (fun current_user =>
    match get Resident.id resident_id (residents (db w)) with
    | None => (w, Abort 404)
    | Some resident =>
        let display := Resident.last_name resident +:+ ", " +:+ Resident.first_name resident in
        let uid := User.id current_user in
        let residents' :=
          update_where (fun r => Resident.id r =? Resident.id resident)
            (archive_resident (now rq) uid) (residents (db w)) in
        let documents' :=
          update_where (fun d => (Document.resident_id d =? Resident.id resident)
                                 && negb (Document.is_archived d))
            (archive_document (now rq) uid) (documents (db w)) in
        let w1 := with_db (with_documents documents' (with_residents residents' (db w))) w in
        let w2 :=
          log_action rq
            ("Archived resident #" +:+ Py.str_Z resident_id +:+ " (" +:+ display +:+ ")")
            (Some "resident") (Some resident_id) None w1 in
        (do_flash "Resident archived." "info" w2, Redirect "main.list_residents")
    end).

Definition restore_resident (rq : Request) (resident_id : Z) (w : World)
    : World * Response :=
  guarded ["admin"; "clerk"] w (fun current_user =>
    match get Resident.id resident_id (residents (db w)) with
    | None => (w, Abort 404)
    | Some resident =>
        let residents' :=
          update_where (fun r => Resident.id r =? Resident.id resident)
            (unarchive_resident (now rq) (User.id current_user)) (residents (db w)) in
        let w1 := with_db (with_residents residents' (db w)) w in
        let w2 :=
          log_action rq ("Restored resident #" +:+ Py.str_Z resident_id)
            (Some "resident") (Some resident_id) None w1 in
        (do_flash "Resident restored." "success" w2, Redirect "main.list_archived_residents")
    end).

End Routes.

(** ** pdf_utils.py: where a generated PDF is stored *)
Module PdfUtils.
Import Models Web.

Definition _safe_filename (text : string) : string :=
  Py.strip_by (Ascii.eqb "_")
    (Py.map_string
       (fun ch => if Py.isalnum ch || Ascii.eqb ch "-" || Ascii.eqb ch "_" then ch else "_"%char)
       text).

Fixpoint ends_with_slash (s : string) : bool :=
  match s with
  | EmptyString => false
  | String c EmptyString => Ascii.eqb c "/"
  | String _ r => ends_with_slash r
  end.

(** One step of POSIX [os.path.join]: an absolute component replaces what
    came before, otherwise it is appended after a single separator. *)
Definition join2 (a b : string) : string :=
  if Py.starts_with "/" b then b
  else if negb (Py.truthy a) || ends_with_slash a then a +:+ b
  else a +:+ "/" +:+ b.

(** [os.path.join(a, *parts)] *)
Definition path_join (a : string) (parts : list string) : string :=
  fold_left join2 parts a.

(** The layout functions that draw a document; [residency_overlay] is the
    overlay of [_build_residency_overlay] merged onto the form. *)
Inductive Template :=
| residency_overlay
| barangay_id
| barangay_clearance
| business_clearance
| residency
| generic.

(** A stored PDF: the layout and the document row it was drawn from. *)
Record Pdf := { pdf_template : Template; pdf_document : Document.t }.

(** The files on local disk, by absolute path. *)
Definition FileSystem := gmap string Pdf.

Definition exists_ (path : string) (fs : FileSystem) : bool :=
  bool_decide (is_Some (fs !! path)).

(** [doc.document_type], the row the foreign key points to. *)
Definition document_type_of (d : Database) (doc : Document.t) : option DocumentType.t :=
  get DocumentType.id (Document.document_type_id doc) (document_types d).

Definition doc_type_name (d : Database) (doc : Document.t) : string :=
  match document_type_of d doc with
  | Some t => DocumentType.name t
  | None => "document"
  end.

Definition folder_of (d : Database) (doc : Document.t) : string :=
  let f := _safe_filename (Py.lower (doc_type_name d doc)) in
  if Py.truthy f then f else "document".

Definition uploads_root (cfg : Config) : string :=
  match UPLOAD_FOLDER cfg with
  | Some u => u
  | None => path_join (root_path cfg) ["static"; "uploads"]
  end.

Definition template_key (d : Database) (doc : Document.t) : string :=
  match document_type_of d doc with
  | Some t =>
      match DocumentType.template_path t with
      | Some p => if Py.truthy p then Py.lower (Py.strip p) else ""
      | None => ""
      end
  | None => ""
  end.

Section WithLibraries.

(** [datetime.strftime], applied to the instant and the format. *)
Variable strftime : datetime -> string -> string.

(** Whether ReportLab and pypdf draw the document without raising. *)
Variable draws : Template -> Document.t -> bool.

(** [os.path.exists] on the files shipped beside the application (the PDF
    forms of template_assets/pdf), which the application never writes. *)
Variable installed : string -> bool.

(** [_template_pdf_path(filename)]; [os.path.abspath], which only
    normalises the path, is left out. *)
Definition _template_pdf_path (cfg : Config) (filename : string) : option string :=
  let base_dir := path_join (root_path cfg) [".."; "template_assets"; "pdf"] in
  let abs_path := path_join base_dir [filename] in
  if installed abs_path then Some abs_path else None.

(** [_generate_residency_pdf(doc, output_path)]: the layout it draws with,
    the overlay merged onto the form, or [_template_residency] when the form
    is missing. *)
Definition _generate_residency_pdf (cfg : Config) : Template :=
  match _template_pdf_path cfg "CERTIFICATE-OF-RESIDENCY.pdf" with
  | Some template_path => if Py.truthy template_path then residency_overlay else residency
  | None => residency
  end.

Definition choose_template (cfg : Config) (d : Database) (doc : Document.t) : Template :=
  let key := template_key d doc in
  let name := Py.lower (doc_type_name d doc) in
  if String.eqb key "residency" || Py.contains "residency" name
  then _generate_residency_pdf cfg
  else if String.eqb key "barangay_id" then barangay_id
  else if String.eqb key "barangay_clearance" then barangay_clearance
  else if String.eqb key "business_clearance" then business_clearance
  else if String.eqb key "residency" then residency
  else if String.eqb key "generic" then generic
  else if Py.contains "barangay id" name || String.eqb (Py.strip name) "barangay id"
          || Py.contains "identification" name then barangay_id
  else if Py.contains "business" name && Py.contains "clearance" name then business_clearance
  else if Py.contains "clearance" name then barangay_clearance
  else if Py.contains "residency" name then residency
  else generic.

Definition filename_of (rq : Request) (d : Database) (doc : Document.t) : string :=
  let ts := strftime (now rq) "%Y%m%d_%H%M%S" in
  folder_of d doc +:+ "_resident_" +:+ Py.str_Z (Document.resident_id doc)
    +:+ "_" +:+ ts +:+ ".pdf".

(** [generate_document_pdf(doc)]: the new file system and the returned
    relative path, or [None] when drawing raises. *)
Definition generate_document_pdf (cfg : Config) (rq : Request) (d : Database)
    (doc : Document.t) (fs : FileSystem) : option (FileSystem * string) :=
  let folder := folder_of d doc in
  let root_upload_dir := path_join (uploads_root cfg) ["documents"; folder] in
  let filename := filename_of rq d doc in
  let abs_path := path_join root_upload_dir [filename] in
  let template := choose_template cfg d doc in
  if draws template doc then
    Some (<[abs_path := {| pdf_template := template; pdf_document := doc |}]> fs,
          path_join "uploads" ["documents"; folder; filename])
  else None.

End WithLibraries.

End PdfUtils.

(** ** routes.py: documents *)
Module DocumentRoutes.
Import Models Web Helpers Forms PdfUtils.
Local Open Scope Z_scope.

Record DocumentForm := {
  f_resident_id : option Z;
  f_document_type_id : option Z;
  f_details : option string;
  resident_photo_data : option string;
  f_issue_date : option date
}.

(** [form.resident_id.choices]: the residents that are not archived. *)
Definition resident_choices (d : Database) : list Z :=
  List.map Resident.id (List.filter (fun r => negb (Resident.is_archived r)) (residents d)).

(** [form.document_type_id.choices] *)
Definition document_type_choices (d : Database) : list Z :=
  List.map DocumentType.id (document_types d).

(** A [SelectField(coerce=int, validators=[DataRequired()])]: the value is
    one of the choices and is not zero. *)
Definition select_valid (choices : list Z) (o : option Z) : bool :=
  match o with
  | Some v => negb (v =? 0) && existsb (Z.eqb v) choices
  | None => false
  end.

Definition document_validate_on_submit (rq : Request) (d : Database) (f : DocumentForm)
    : bool :=
  is_post rq
  && select_valid (resident_choices d) (f_resident_id f)
  && select_valid (document_type_choices d) (f_document_type_id f).

Definition set_file_path (p : option string) (d : Document.t) : Document.t :=
  {| Document.id := Document.id d; Document.resident_id := Document.resident_id d;
     Document.document_type_id := Document.document_type_id d;
     Document.status := Document.status d; Document.details := Document.details d;
     Document.issue_date := Document.issue_date d;
     Document.file_path := p;
     Document.created_at := Document.created_at d;
     Document.updated_at := Document.updated_at d;
     Document.approved_at := Document.approved_at d;
     Document.issued_at := Document.issued_at d;
     Document.is_archived := Document.is_archived d;
     Document.archived_at := Document.archived_at d;
     Document.created_by_id := Document.created_by_id d;
     Document.updated_by_id := Document.updated_by_id d;
     Document.approved_by_id := Document.approved_by_id d;
     Document.issued_by_id := Document.issued_by_id d;
     Document.archived_by_id := Document.archived_by_id d |}.

(** The row [Document(...)] builds, with the column defaults. *)
Definition new_draft (rq : Request) (rows : list Document.t) (resident_id type_id : Z)
    (details : option string) (issue_date : date) (by_ : Z) : Document.t :=
  {| Document.id := next_id (List.map Document.id rows);
     Document.resident_id := resident_id;
     Document.document_type_id := type_id;
     Document.status := "draft"; Document.details := details;
     Document.issue_date := issue_date;
     Document.file_path := None;
     Document.created_at := now rq;
     Document.updated_at := None;
     Document.approved_at := None;
     Document.issued_at := None;
     Document.is_archived := false;
     Document.archived_at := None;
     Document.created_by_id := Some by_;
     Document.updated_by_id := None;
     Document.approved_by_id := None;
     Document.issued_by_id := None;
     Document.archived_by_id := None |}.

(** The assignments of [edit_document] to the document row. *)
Definition edited (rq : Request) (form : DocumentForm) (by_ : Z) (d : Document.t)
    : Document.t :=
  let reset := existsb (String.eqb (Document.status d)) ["approved"; "pending"] in
  {| Document.id := Document.id d;
     Document.resident_id := default (Document.resident_id d) (f_resident_id form);
     Document.document_type_id :=
       default (Document.document_type_id d) (f_document_type_id form);
     Document.status := if reset then "draft" else Document.status d;
     Document.details := f_details form;
     Document.issue_date := default (Document.issue_date d) (f_issue_date form);
     Document.file_path := Document.file_path d;
     Document.created_at := Document.created_at d;
     Document.updated_at := Some (now rq);
     Document.approved_at := if reset then None else Document.approved_at d;
     Document.issued_at := Document.issued_at d;
     Document.is_archived := Document.is_archived d;
     Document.archived_at := Document.archived_at d;
     Document.created_by_id := Document.created_by_id d;
     Document.updated_by_id := Some by_;
     Document.approved_by_id := if reset then None else Document.approved_by_id d;
     Document.issued_by_id := Document.issued_by_id d;
     Document.archived_by_id := Document.archived_by_id d |}.

Definition meta_int (k : string) (v : Z) : string * MetaValue := (k, MInt v).

Section WithUploads.

Variable save_captured_image : string -> string -> option string.

Definition issue_document (rq : Request) (form : DocumentForm) (w : World)
    : World * Response :=
  guarded ["admin"; "clerk"] w (fun current_user =>
    let page (w' : World) errors := (w', Render "document_form.html" errors) in
    if negb (document_validate_on_submit rq (db w) form) then page w []
    else
      match get Resident.id (default 0 (f_resident_id form)) (residents (db w)),
            get DocumentType.id (default 0 (f_document_type_id form)) (document_types (db w))
      with
      | Some resident, Some doc_type =>
          if Resident.is_archived resident then
            page (do_flash "Cannot create documents for archived residents." "warning" w) []
          else if match f_issue_date form with
                  | Some i => date_ltb (today rq) i | None => false end then
            page w [("issue_date", "Issue date cannot be in the future.")]
          else if match f_issue_date form with
                  | Some i => date_ltb i (Resident.birth_date resident)
                  | None => false end then
            page w [("issue_date", "Issue date cannot be before the resident's birth date.")]
          else
            let residents' :=
              match resident_photo_data form with
              | Some p =>
                  if Py.truthy p then
                    update_where (fun r => Resident.id r =? Resident.id resident)
                      (Routes.set_photo_path (save_captured_image p "residents"))
                      (residents (db w))
                  else residents (db w)
              | None => residents (db w)
              end in
            let issued := default (today rq) (f_issue_date form) in
            let doc := new_draft rq (documents (db w)) (Resident.id resident)
                         (DocumentType.id doc_type) (f_details form) issued
                         (User.id current_user) in
            let w1 := with_db (with_documents (documents (db w) ++ [doc])
                                 (with_residents residents' (db w))) w in
            let w2 :=
              log_action rq
                ("Created document draft #" +:+ Py.str_Z (Document.id doc)
                   +:+ " (type_id=" +:+ Py.str_Z (Document.document_type_id doc)
                   +:+ ") for resident_id=" +:+ Py.str_Z (Document.resident_id doc))
                (Some "document") (Some (Document.id doc))
                (Some [meta_int "resident_id" (Document.resident_id doc);
                       meta_int "document_type_id" (Document.document_type_id doc);
                       ("status", MStr (Document.status doc))]) w1 in
            (do_flash "Document draft created." "success" w2, Redirect "main.list_documents")
      | _, _ => (w, Abort 404)
      end).

End WithUploads.

Definition edit_document (rq : Request) (document_id : Z) (form : DocumentForm) (w : World)
    : World * Response :=
  guarded ["admin"; "clerk"] w (fun current_user =>
    match get Document.id document_id (documents (db w)) with
    | None => (w, Abort 404)
    | Some document =>
        if Document.is_archived document then
          (do_flash "Archived documents cannot be edited." "warning" w,
           Redirect "main.list_documents")
        else if String.eqb (Document.status document) "issued" then
          (do_flash "Issued documents cannot be edited. Use Revise to create a new draft."
             "warning" w,
           Redirect "main.list_documents")
        else
          let page (w' : World) errors := (w', Render "document_form.html" errors) in
          if negb (document_validate_on_submit rq (db w) form) then page w []
          else
            match get Resident.id (default 0 (f_resident_id form)) (residents (db w)) with
            | None => (w, Abort 404)
            | Some resident =>
                if Resident.is_archived resident then
                  page (do_flash "Cannot assign archived residents to documents." "warning" w) []
                else if match f_issue_date form with
                        | Some i => date_ltb (today rq) i | None => false end then
                  page w [("issue_date", "Issue date cannot be in the future.")]
                else if match f_issue_date form with
                        | Some i => date_ltb i (Resident.birth_date resident)
                        | None => false end then
                  page w [("issue_date",
                           "Issue date cannot be before the resident's birth date.")]
                else
                  let documents' :=
                    update_where (fun d => Document.id d =? Document.id document)
                      (edited rq form (User.id current_user)) (documents (db w)) in
                  let w1 := with_db (with_documents documents' (db w)) w in
                  let status' := Document.status (edited rq form (User.id current_user) document) in
                  let w2 :=
                    log_action rq ("Updated document #" +:+ Py.str_Z (Document.id document))
                      (Some "document") (Some (Document.id document))
                      (Some [("status", MStr status')]) w1 in
                  (do_flash "Document updated successfully!" "success" w2,
                   Redirect "main.list_documents")
            end
    end).

Definition revise_document (rq : Request) (document_id : Z) (w : World)
    : World * Response :=
  guarded ["admin"; "clerk"] w (fun current_user =>
    match get Document.id document_id (documents (db w)) with
    | None => (w, Abort 404)
    | Some document =>
        if Document.is_archived document then
          (do_flash "Archived documents cannot be revised." "warning" w,
           Redirect "main.list_documents")
        else if negb (String.eqb (Document.status document) "issued") then
          (do_flash "Only issued documents can be revised." "warning" w,
           Redirect "main.list_documents")
        else
          let new_doc := new_draft rq (documents (db w)) (Document.resident_id document)
                           (Document.document_type_id document) (Document.details document)
                           (today rq) (User.id current_user) in
          let w1 := with_db (with_documents (documents (db w) ++ [new_doc]) (db w)) w in
          let w2 :=
            log_action rq
              ("Created revision draft #" +:+ Py.str_Z (Document.id new_doc)
                 +:+ " from document #" +:+ Py.str_Z (Document.id document))
              (Some "document") (Some (Document.id new_doc))
              (Some [meta_int "source_document_id" (Document.id document)]) w1 in
          (do_flash "Draft created from issued document. Update it and re-issue." "success" w2,
           Redirect "main.edit_document")
    end).

Section WithLibraries.

Variable strftime : datetime -> string -> string.
Variable draws : Template -> Document.t -> bool.
Variable installed : string -> bool.

Definition store_file_path (doc : Document.t) (p : string) (w : World) : World :=
  with_db (with_documents
             (update_where (fun d => Document.id d =? Document.id doc)
                (set_file_path (Some p)) (documents (db w))) (db w)) w.

(** [download_document_pdf(document_id)] over the database and the local
    disk. *)
Definition download_document_pdf (cfg : Config) (rq : Request) (document_id : Z)
    (w : World) (fs : FileSystem) : World * FileSystem * Response :=
  match current_user w with
  | None => (w, fs, Redirect "auth.login")
  | Some u =>
  if negb (existsb (String.eqb (User.role u)) ["admin"; "clerk"]) then (w, fs, Abort 403)
  else
  match get Document.id document_id (documents (db w)) with
  | None => (w, fs, Abort 404)
  | Some doc =>
      if Document.is_archived doc then
        (do_flash "Archived documents cannot be downloaded." "warning" w, fs,
         Redirect "main.list_documents")
      else if negb (String.eqb (Document.status doc) "issued") then
        (do_flash "Only issued documents can be downloaded." "warning" w, fs,
         Redirect "main.list_documents")
      else
        (* the file is served once the stored path names a file on disk *)
        let serve (doc : Document.t) (w : World) (fs : FileSystem)
            : World * FileSystem * Response :=
          let pdf_abs_path :=
            path_join (root_path cfg) ["static"; Py.or_empty (Document.file_path doc)] in
          let send (pdf_abs_path : string) (w : World) (fs : FileSystem) :=
            if negb (exists_ pdf_abs_path fs) then
              (do_flash "PDF file is missing on disk. Please re-issue or regenerate."
                 "danger" w, fs, Redirect "main.list_documents")
            else
              (log_action rq "Downloaded document PDF" (Some "document")
                 (Some (Document.id doc))
                 (Some [meta_int "resident_id" (Document.resident_id doc);
                        meta_int "document_type_id" (Document.document_type_id doc)]) w,
               fs, SendFile pdf_abs_path) in
          if negb (exists_ pdf_abs_path fs) then
            match generate_document_pdf strftime draws installed cfg rq (db w) doc fs with
            | Some (fs', rel) =>
                send (path_join (root_path cfg) ["static"; rel])
                  (store_file_path doc rel w) fs'
            | None =>
                (do_flash "PDF file is missing on disk and could not be regenerated."
                   "danger" w, fs, Redirect "main.list_documents")
            end
          else send pdf_abs_path w fs in
        if negb (Py.truthy_opt (Document.file_path doc)) then
          match generate_document_pdf strftime draws installed cfg rq (db w) doc fs with
          | Some (fs', pdf_rel_path) =>
              if Py.truthy pdf_rel_path then
                serve (set_file_path (Some pdf_rel_path) doc)
                  (store_file_path doc pdf_rel_path w) fs'
              else
                (do_flash "PDF could not be generated for this document." "danger" w, fs',
                 Redirect "main.list_documents")
          | None => (w, fs, Abort 500)
          end
        else serve doc w fs
  end end.

End WithLibraries.

End DocumentRoutes.

(** ** admin.py *)
Module Admin.
Import Models Web Helpers.
Local Open Scope Z_scope.

Definition detach_user (l : TransactionLog.t) : TransactionLog.t :=
  {| TransactionLog.id := TransactionLog.id l;
     TransactionLog.user_id := None;
     TransactionLog.action := TransactionLog.action l;
     TransactionLog.entity_type := TransactionLog.entity_type l;
     TransactionLog.entity_id := TransactionLog.entity_id l;
     TransactionLog.ip_address := TransactionLog.ip_address l;
     TransactionLog.user_agent := TransactionLog.user_agent l;
     TransactionLog.meta := TransactionLog.meta l;
     TransactionLog.timestamp := TransactionLog.timestamp l |}.

(** Whether a resident or document row still points to the user through one
    of the [*_by_id] foreign keys of models.py. *)
Definition user_referenced (uid : Z) (d : Database) : bool :=
  existsb (fun r => opt_Z_eqb (Resident.created_by_id r) uid
                    || opt_Z_eqb (Resident.updated_by_id r) uid
                    || opt_Z_eqb (Resident.archived_by_id r) uid) (residents d)
  || existsb (fun x => opt_Z_eqb (Document.created_by_id x) uid
                       || opt_Z_eqb (Document.updated_by_id x) uid
                       || opt_Z_eqb (Document.approved_by_id x) uid
                       || opt_Z_eqb (Document.issued_by_id x) uid
                       || opt_Z_eqb (Document.archived_by_id x) uid) (documents d).

(** [delete_user(user_id)].  [fk_enforced] tells whether the database
    carries the [*_by_id] foreign keys (tables made by [create_all] do, the
    columns added by the start-up ALTERs do not); when it does, deleting a
    user that is still referenced fails at commit and nothing is kept. *)
Definition delete_user (fk_enforced : bool) (rq : Request) (user_id : Z) (w : World)
    : World * Response :=
  guarded ["admin"] w (fun current_user =>
    match get User.id user_id (users (db w)) with
    | None => (w, Abort 404)
    | Some user =>
        if User.id user =? User.id current_user then
          (do_flash "You cannot delete your own account." "danger" w,
           Redirect "admin.list_users")
        else if fk_enforced && user_referenced (User.id user) (db w) then (w, Abort 500)
        else
          let username := User.username user in
          let uid := User.id user in
          let logs' :=
            update_where (fun l => opt_Z_eqb (TransactionLog.user_id l) uid)
              detach_user (transaction_logs (db w)) in
          let resets' :=
            delete_where (fun p => PasswordReset.user_id p =? uid) (password_resets (db w)) in
          let codes' :=
            delete_where (fun c => LoginMfaCode.user_id c =? uid) (login_mfa_codes (db w)) in
          let users' := delete_where (fun u => User.id u =? uid) (users (db w)) in
          let w1 :=
            with_db (with_users users'
                       (with_login_mfa_codes codes'
                          (with_password_resets resets'
                             (with_transaction_logs logs' (db w))))) w in
          let w2 := log_action rq "Deleted user" (Some "user") None
                      (Some [("username", MStr username)]) w1 in
          (do_flash "User deleted successfully." "success" w2, Redirect "admin.list_users")
    end).

Definition delete_document_type (rq : Request) (type_id : Z) (w : World)
    : World * Response :=
  guarded ["admin"] w (fun current_user =>
    match get DocumentType.id type_id (document_types (db w)) with
    | None => (w, Abort 404)
    | Some dt =>
        let in_use :=
          List.find (fun d => Document.document_type_id d =? DocumentType.id dt)
            (documents (db w)) in
        match in_use with
        | Some _ =>
            (do_flash "Cannot delete a document type that is already in use." "danger" w,
             Redirect "admin.list_document_types")
        | None =>
            (* [db.session.delete(dt)], with the delete cascade of
               [DocumentType.documents] *)
            let types' :=
              delete_where (fun t => DocumentType.id t =? DocumentType.id dt)
                (document_types (db w)) in
            let documents' :=
              delete_where (fun d => Document.document_type_id d =? DocumentType.id dt)
                (documents (db w)) in
            let w1 := with_db (with_documents documents'
                                 (with_document_types types' (db w))) w in
            let w2 := log_action rq "Deleted document type" (Some "document_type")
                        (Some type_id) (Some [("name", MStr (DocumentType.name dt))]) w1 in
            (do_flash "Document type deleted." "success" w2,
             Redirect "admin.list_document_types")
        end
    end).

End Admin.

(** ** app.py: expiry of documents and the background worker *)
Module App.
Import Models Web PdfUtils.
Local Open Scope Z_scope.

Definition is_leap (y : Z) : bool :=
  ((y mod 4 =? 0) && negb (y mod 100 =? 0)) || (y mod 400 =? 0).

(** [calendar.monthrange(year, month)[1]] *)
Definition days_in_month (y m : Z) : Z :=
  if m =? 2 then (if is_leap y then 29 else 28)
  else if (m =? 4) || (m =? 6) || (m =? 9) || (m =? 11) then 30
  else 31.

(** [datetime.date(year, month, day)]: the date, or [None] for the
    ValueError raised when the year is not in MINYEAR..MAXYEAR, the month
    not in 1..12 or the day not in the month. *)
Definition dt_date (y m d : Z) : option date :=
  if (1 <=? y) && (y <=? 9999) && (1 <=? m) && (m <=? 12)
     && (1 <=? d) && (d <=? days_in_month y m)
  then Some (Date y m d) else None.

Definition _add_months (value : date) (months : Z) : option date :=
  let month0 := month value - 1 + months in
  let year' := year value + month0 / 12 in
  let month' := month0 mod 12 + 1 in
  let day' := Z.min (day value) (days_in_month year' month') in
  dt_date year' month' day'.

Definition days_before_month (y m : Z) : Z :=
  fold_right Z.add 0 (List.map (days_in_month y) (List.map Z.of_nat (seq 1 (Z.to_nat (m - 1))))).

(** [date.toordinal()] *)
Definition toordinal (d : date) : Z :=
  let y := year d - 1 in
  y * 365 + y / 4 - y / 100 + y / 400 + days_before_month (year d) (month d) + day d.

Record PurgeResult := {
  archived : Z; deleted : Z; res_months : Z; res_grace_days : Z
}.

(** The assignments of the purge to a document it archives. *)
Definition auto_archive (now_ : datetime) (d : Document.t) : Document.t :=
  {| Document.id := Document.id d; Document.resident_id := Document.resident_id d;
     Document.document_type_id := Document.document_type_id d;
     Document.status := Document.status d; Document.details := Document.details d;
     Document.issue_date := Document.issue_date d;
     Document.file_path := Document.file_path d;
     Document.created_at := Document.created_at d;
     Document.updated_at := Some now_;
     Document.approved_at := Document.approved_at d;
     Document.issued_at := Document.issued_at d;
     Document.is_archived := true;
     Document.archived_at := Some now_;
     Document.created_by_id := Document.created_by_id d;
     Document.updated_by_id := Document.updated_by_id d;
     Document.approved_by_id := Document.approved_by_id d;
     Document.issued_by_id := Document.issued_by_id d;
     Document.archived_by_id := None |}.

Definition system_log (rows : list TransactionLog.t) (now_ : datetime) (action : string)
    (meta : list (string * MetaValue)) : TransactionLog.t :=
  {| TransactionLog.id := next_id (List.map TransactionLog.id rows);
     TransactionLog.user_id := None;
     TransactionLog.action := action;
     TransactionLog.entity_type := Some "document";
     TransactionLog.entity_id := None;
     TransactionLog.ip_address := None;
     TransactionLog.user_agent := None;
     TransactionLog.meta := Some meta;
     TransactionLog.timestamp := now_ |}.

Definition is_issued (d : Document.t) : bool := String.eqb (Document.status d) "issued".

Definition in_ids (ids : list Z) (d : Document.t) : bool :=
  existsb (Z.eqb (Document.id d)) ids.

(** One of the two loops of the purge over the rows of a query: the rows
    whose expiry date passes the test, or [None] when [_add_months] raises
    for one of the rows. *)
Fixpoint expired (months : Z) (before : date -> bool) (docs : list Document.t)
    : option (list Document.t) :=
  match docs with
  | [] => Some []
  | doc :: rest =>
      expiry_dt ← _add_months (Document.issue_date doc) months;
      found ← expired months before rest;
      Some (if before expiry_dt then doc :: found else found)
  end.

(** [date.max.toordinal()] *)
Definition MAX_ORDINAL : Z := 3652059.

(** [today - timedelta(days=grace_days)] as an ordinal, or [None] for the
    OverflowError raised when it leaves the range of dates. *)
Definition cutoff_date (today_ : date) (grace_days : Z) : option Z :=
  let o := toordinal today_ - grace_days in
  if (1 <=? o) && (o <=? MAX_ORDINAL) then Some o else None.

(** [_process_expired_documents(months=.., grace_days=.., dry_run=..)] with
    the settings already resolved to integers; [None] when it raises, which
    it can only do before it writes anything. *)
Definition _process_expired_documents (static_root : string) (months grace_days : Z)
    (dry_run : bool) (now_ : datetime) (today_ : date) (d : Database) (fs : FileSystem)
    : option (Database * FileSystem * PurgeResult) :=
  if months <=? 0 then
    Some (d, fs, {| archived := 0; deleted := 0; res_months := months;
                    res_grace_days := grace_days |})
  else
    to_archive ←
      expired months (fun expiry_dt => date_ltb expiry_dt today_)
        (List.filter (fun doc => is_issued doc && negb (Document.is_archived doc))
           (documents d));
    cutoff ← cutoff_date today_ grace_days;
    to_delete ←
      expired months (fun expiry_dt => toordinal expiry_dt <? cutoff)
        (List.filter (fun doc => is_issued doc && Document.is_archived doc) (documents d));
    let result :=
      {| archived := Z.of_nat (length to_archive); deleted := Z.of_nat (length to_delete);
         res_months := months; res_grace_days := grace_days |} in
    if dry_run then Some (d, fs, result)
    else
      let archive_ids := List.map Document.id to_archive in
      let delete_ids := List.map Document.id to_delete in
      let documents' :=
        delete_where (in_ids delete_ids)
          (update_where (in_ids archive_ids) (auto_archive now_) (documents d)) in
      let fs' :=
        fold_left (fun acc doc =>
                     match Document.file_path doc with
                     | Some p => if Py.truthy p
                                 then delete (path_join static_root [p]) acc else acc
                     | None => acc
                     end) to_delete fs in
      let logs1 :=
        match to_archive with
        | [] => transaction_logs d
        | _ => (transaction_logs d
                 ++ [system_log (transaction_logs d) now_ "Auto-archived expired documents"
                       [("count", MInt (Z.of_nat (length to_archive)));
                        ("months", MInt months)]])%list
        end in
      let logs2 :=
        match to_delete with
        | [] => logs1
        | _ => (logs1
                 ++ [system_log logs1 now_ "Auto-deleted expired documents"
                       [("count", MInt (Z.of_nat (length to_delete)));
                        ("grace_days", MInt grace_days)]])%list
        end in
      Some (with_transaction_logs logs2 (with_documents documents' d), fs', result).

(** The database and the disk after a run of the purge, in the worker
    (which logs the exception and waits for the next run) or from the
    command line: an exception leaves both as they were. *)
Definition purged (static_root : string) (months grace_days : Z) (dry_run : bool)
    (now_ : datetime) (today_ : date) (d : Database) (fs : FileSystem)
    : Database * FileSystem :=
  match _process_expired_documents static_root months grace_days dry_run now_ today_ d fs with
  | Some r => fst r
  | None => (d, fs)
  end.

(** The part of the Flask application object that the worker start-up
    reads and writes. *)
Record Thread := { thread_name : string; daemon : bool; interval_seconds : Z }.

Record Application := {
  AUTO_PURGE_EXPIRED : bool;
  PURGE_CHECK_INTERVAL_MINUTES : Z;
  testing : bool;
  debug : bool;
  WERKZEUG_RUN_MAIN : option string;
  auto_purge_started : bool;
  threads : list Thread
}.

Definition _start_auto_purge_worker (app : Application) : Application :=
  if negb (AUTO_PURGE_EXPIRED app) then app
  else if testing app then app
  else if debug app && negb (bool_decide (WERKZEUG_RUN_MAIN app = Some "true")) then app
  else if auto_purge_started app then app
  else
    let interval_minutes := PURGE_CHECK_INTERVAL_MINUTES app in
    let interval_seconds := Z.max 60 (interval_minutes * 60) in
    {| AUTO_PURGE_EXPIRED := AUTO_PURGE_EXPIRED app;
       PURGE_CHECK_INTERVAL_MINUTES := PURGE_CHECK_INTERVAL_MINUTES app;
       testing := testing app;
       debug := debug app;
       WERKZEUG_RUN_MAIN := WERKZEUG_RUN_MAIN app;
       auto_purge_started := true;
       threads := (threads app
                  ++ [{| thread_name := "auto-purge-expired"; daemon := true;
                         interval_seconds := interval_seconds |}])%list |}.

(** [_start_auto_purge_on_first_request], the last of the functions
    registered to run before a request. *)
Definition _start_auto_purge_on_first_request (app : Application) : Application :=
  _start_auto_purge_worker app.

(** The application object of a production deployment with the defaults of
    config.py, before its first request. *)
Definition production_app : Application :=
  {| AUTO_PURGE_EXPIRED := true; PURGE_CHECK_INTERVAL_MINUTES := 1440;
     testing := false; debug := false; WERKZEUG_RUN_MAIN := None;
     auto_purge_started := false; threads := [] |}.

End App.

(** ** app.py: the schema healing run at start-up

    PostgreSQL is modelled by its catalogue (tables with their columns and
    named foreign keys, and indexes) and by the rows of the columns that the
    healing statements read or write.  A statement either yields the new
    database or fails; DDL is transactional, so a failed or rolled-back
    statement leaves no trace.  The names of document types are unique, as
    declared in models.py and in the healing's own CREATE TABLE: the rows of
    [document_types] are a map from name to id. *)
Module Schema.
Local Open Scope Z_scope.

Inductive Default :=
| NoDefault
| DefaultText (s : string)
| DefaultFalse
| DefaultNow
| DefaultSerial.

#[global] Instance Default_eq_dec : EqDecision Default.
Proof. solve_decision. Defined.

Record Column := {
  col_type : string;
  col_notnull : bool;
  col_default : Default;
  (* PRIMARY KEY or UNIQUE *)
  col_key : bool
}.

Record ForeignKey := {
  fk_column : string;
  fk_ref_table : string;
  fk_ref_column : string;
  fk_on_delete_set_null : bool
}.

Record Table := {
  columns : gmap string Column;
  foreign_keys : gmap string ForeignKey
}.

Record Catalog := {
  tables : gmap string Table;
  indexes : gmap string (string * string)
}.

(** A row of [documents], with the columns the healing touches; NULL and
    a column that does not exist yet are both [None]. *)
Record DocumentRow := {
  doc_type : option string;
  document_type_id : option Z;
  status : option string;
  issue_date : option Z;
  created_at : option Z;
  issued_at : option Z
}.

Record Rows := {
  documents : list DocumentRow;
  (* name and id of each row of document_types *)
  document_types : gmap string Z;
  (* user_id of each row of transaction_logs *)
  transaction_log_users : list (option Z);
  (* id of each row of users *)
  users : list Z
}.

Record Database := { catalog : Catalog; rows : Rows }.

(** *** Column definitions of the statements *)

Definition column (ty : string) : Column :=
  {| col_type := ty; col_notnull := false; col_default := NoDefault; col_key := false |}.

Definition not_null (ty : string) : Column :=
  {| col_type := ty; col_notnull := true; col_default := NoDefault; col_key := false |}.

Definition not_null_default (ty : string) (dflt : Default) : Column :=
  {| col_type := ty; col_notnull := true; col_default := dflt; col_key := false |}.

Definition with_default (ty : string) (dflt : Default) : Column :=
  {| col_type := ty; col_notnull := false; col_default := dflt; col_key := false |}.

Definition not_null_unique (ty : string) : Column :=
  {| col_type := ty; col_notnull := true; col_default := NoDefault; col_key := true |}.

Definition serial_primary_key : Column :=
  {| col_type := "SERIAL"; col_notnull := true; col_default := DefaultSerial; col_key := true |}.

Definition TIMESTAMP : string := "TIMESTAMP WITHOUT TIME ZONE".

(** *** Statements *)

Inductive Statement :=
(* ALTER TABLE t ADD COLUMN IF NOT EXISTS c ... *)
| AddColumnIfNotExists (table column_ : string) (definition : Column)
(* CREATE INDEX IF NOT EXISTS i ON t (c) *)
| CreateIndexIfNotExists (index table column_ : string)
(* CREATE TABLE IF NOT EXISTS t (...), with its REFERENCES clauses *)
| CreateTableIfNotExists (table : string) (cols : list (string * Column))
    (references : list (string * string * string))
(* ALTER TABLE t ALTER COLUMN c DROP NOT NULL *)
| DropNotNull (table column_ : string)
(* ALTER TABLE t ALTER COLUMN c SET NOT NULL *)
| SetNotNull (table column_ : string)
(* ALTER TABLE t ALTER COLUMN c SET DEFAULT 'v' *)
| SetDefault (table column_ value : string)
(* DO block: drop the constraint if one of that name exists, then add it
   with ON DELETE SET NULL *)
| ReplaceForeignKey (name table column_ ref_table ref_column : string)
(* DO block: add the constraint unless one of that name exists *)
| AddForeignKeyIfMissing (name table column_ ref_table ref_column : string)
(* UPDATE documents SET status='issued' WHERE status IS NULL *)
| UpdateStatusIssued
(* UPDATE documents SET created_at = issue_date WHERE created_at IS NULL *)
| UpdateCreatedAt
(* UPDATE documents SET issued_at = issue_date
   WHERE issued_at IS NULL AND status='issued' *)
| UpdateIssuedAt
(* INSERT INTO document_types(name) SELECT DISTINCT doc_type FROM documents
   WHERE doc_type IS NOT NULL AND doc_type <> '' ON CONFLICT (name) DO NOTHING *)
| InsertTypesFromDocType
(* UPDATE documents d SET document_type_id = dt.id FROM document_types dt
   WHERE d.document_type_id IS NULL AND d.doc_type = dt.name *)
| UpdateTypeIdFromDocType
(* UPDATE documents SET doc_type='Unknown' WHERE doc_type IS NULL *)
| UpdateDocTypeUnknown
(* INSERT INTO document_types(name) VALUES ('Unknown') ON CONFLICT (name) DO NOTHING *)
| InsertUnknownType
(* UPDATE documents SET document_type_id =
   (SELECT id FROM document_types WHERE name='Unknown') WHERE document_type_id IS NULL *)
| UpdateTypeIdUnknown.

(** *** Reading the catalogue *)

Definition lookup_table (t : string) (d : Database) : option Table :=
  tables (catalog d) !! t.

Definition lookup_column (t c : string) (d : Database) : option Column :=
  match lookup_table t d with
  | Some tb => columns tb !! c
  | None => None
  end.

Definition has_column (t c : string) (d : Database) : bool :=
  bool_decide (is_Some (lookup_column t c d)).

Definition is_key (t c : string) (d : Database) : bool :=
  match lookup_column t c d with
  | Some col => col_key col
  | None => false
  end.

(** Whether any table carries a constraint of that name (pg_constraint). *)
Definition constraint_exists (name : string) (d : Database) : bool :=
  bool_decide (map_Exists (fun _ tb => is_Some (foreign_keys tb !! name))
                 (tables (catalog d))).

(** *** Writing the catalogue and the rows *)

Definition with_tables (ts : gmap string Table) (d : Database) : Database :=
  {| catalog := {| tables := ts; indexes := indexes (catalog d) |}; rows := rows d |}.

Definition with_indexes (ix : gmap string (string * string)) (d : Database) : Database :=
  {| catalog := {| tables := tables (catalog d); indexes := ix |}; rows := rows d |}.

Definition with_rows (r : Rows) (d : Database) : Database :=
  {| catalog := catalog d; rows := r |}.

Definition put_column (c : string) (col : Column) (tb : Table) : Table :=
  {| columns := <[c := col]> (columns tb); foreign_keys := foreign_keys tb |}.

Definition put_foreign_key (name : string) (fk : ForeignKey) (tb : Table) : Table :=
  {| columns := columns tb; foreign_keys := <[name := fk]> (foreign_keys tb) |}.

Definition put_table (t : string) (tb : Table) (d : Database) : Database :=
  with_tables (<[t := tb]> (tables (catalog d))) d.

Definition with_documents (v : list DocumentRow) (r : Rows) : Rows :=
  {| documents := v; document_types := document_types r;
     transaction_log_users := transaction_log_users r; users := users r |}.

Definition with_document_types (v : gmap string Z) (r : Rows) : Rows :=
  {| documents := documents r; document_types := v;
     transaction_log_users := transaction_log_users r; users := users r |}.

Definition map_documents (f : DocumentRow -> DocumentRow) (d : Database) : Database :=
  with_rows (with_documents (List.map f (documents (rows d))) (rows d)) d.

Definition default_text (dflt : Default) : option string :=
  match dflt with DefaultText s => Some s | _ => None end.

Definition default_time (now : Z) (dflt : Default) : option Z :=
  match dflt with DefaultNow => Some now | _ => None end.

(** The value a new column takes in an existing row of [documents]. *)
Definition fill_document (c : string) (dflt : Default) (now : Z) (r : DocumentRow)
    : DocumentRow :=
  {| doc_type := if String.eqb c "doc_type" then default_text dflt else doc_type r;
     document_type_id := if String.eqb c "document_type_id" then None else document_type_id r;
     status := if String.eqb c "status" then default_text dflt else status r;
     issue_date := if String.eqb c "issue_date" then default_time now dflt else issue_date r;
     created_at := if String.eqb c "created_at" then default_time now dflt else created_at r;
     issued_at := if String.eqb c "issued_at" then default_time now dflt else issued_at r |}.

(** The rows after ADD COLUMN: the new column holds its default. *)
Definition fill_rows (t c : string) (dflt : Default) (now : Z) (r : Rows) : Rows :=
  if String.eqb t "documents" then
    with_documents (List.map (fill_document c dflt now) (documents r)) r
  else if String.eqb t "transaction_logs" && String.eqb c "user_id" then
    {| documents := documents r; document_types := document_types r;
       transaction_log_users := List.map (fun _ => None) (transaction_log_users r);
       users := users r |}
  else r.

(** The rows after CREATE TABLE: the new table is empty. *)
Definition clear_rows (t : string) (r : Rows) : Rows :=
  {| documents := if String.eqb t "documents" then [] else documents r;
     document_types := if String.eqb t "document_types" then ∅ else document_types r;
     transaction_log_users :=
       if String.eqb t "transaction_logs" then [] else transaction_log_users r;
     users := if String.eqb t "users" then [] else users r |}.

(** Whether a column holds no NULL. *)
Definition no_nulls (t c : string) (r : Rows) : bool :=
  if String.eqb t "documents" then
    forallb (fun row =>
               if String.eqb c "doc_type" then bool_decide (is_Some (doc_type row))
               else if String.eqb c "document_type_id"
                    then bool_decide (is_Some (document_type_id row))
               else if String.eqb c "status" then bool_decide (is_Some (status row))
               else if String.eqb c "issue_date" then bool_decide (is_Some (issue_date row))
               else if String.eqb c "created_at" then bool_decide (is_Some (created_at row))
               else if String.eqb c "issued_at" then bool_decide (is_Some (issued_at row))
               else true) (documents r)
  else if String.eqb t "transaction_logs" && String.eqb c "user_id" then
    forallb (fun u => bool_decide (is_Some u)) (transaction_log_users r)
  else true.

Definition type_id_exists (i : Z) (r : Rows) : bool :=
  bool_decide (map_Exists (fun _ j => j = i) (document_types r)).

(** Whether every non-NULL value of the referencing column occurs in the
    referenced one. *)
Definition references_valid (t c rt rc : string) (r : Rows) : bool :=
  if String.eqb t "documents" && String.eqb c "document_type_id"
     && String.eqb rt "document_types" && String.eqb rc "id" then
    forallb (fun row => match document_type_id row with
                        | Some i => type_id_exists i r
                        | None => true
                        end) (documents r)
  else if String.eqb t "transaction_logs" && String.eqb c "user_id"
          && String.eqb rt "users" && String.eqb rc "id" then
    forallb (fun u => match u with
                      | Some i => existsb (Z.eqb i) (users r)
                      | None => true
                      end) (transaction_log_users r)
  else true.

(** The id that the sequence of [document_types] hands out next. *)
Definition fresh_type_id (types : gmap string Z) : Z :=
  1 + map_fold (fun _ i acc => Z.max i acc) 0 types.

(** INSERT ... ON CONFLICT (name) DO NOTHING of one name. *)
Definition insert_type (name : string) (types : gmap string Z) : gmap string Z :=
  match types !! name with
  | Some _ => types
  | None => <[name := fresh_type_id types]> types
  end.

(** Whether INSERT INTO document_types(name) can fill every other column. *)
Definition can_insert_name (tb : Table) : bool :=
  bool_decide (map_Forall (fun c col =>
                             c = "name" \/ col_notnull col = false
                             \/ col_default col <> NoDefault) (columns tb)).

Definition insertable_document_types (d : Database) : bool :=
  match lookup_table "document_types" d with
  | Some tb =>
      match columns tb !! "name" with
      | Some col => col_key col && can_insert_name tb
      | None => false
      end
  | None => false
  end.

Definition references_ok (refs : list (string * string * string)) (d : Database) : bool :=
  forallb (fun '(_, rt, rc) => is_key rt rc d) refs.

Definition reference_constraints (t : string) (refs : list (string * string * string))
    : gmap string ForeignKey :=
  list_to_map
    (List.map (fun '(c, rt, rc) =>
                 (t +:+ "_" +:+ c +:+ "_fkey",
                  {| fk_column := c; fk_ref_table := rt; fk_ref_column := rc;
                     fk_on_delete_set_null := false |})) refs).

(** ALTER TABLE t ADD CONSTRAINT name FOREIGN KEY (c) REFERENCES rt (rc) *)
Definition add_foreign_key (name t c rt rc : string) (set_null : bool) (d : Database)
    : option Database :=
  match lookup_table t d with
  | None => None
  | Some tb =>
      if has_column t c d && is_key rt rc d
         && negb (bool_decide (is_Some (foreign_keys tb !! name)))
         && references_valid t c rt rc (rows d)
      then Some (put_table t
                   (put_foreign_key name
                      {| fk_column := c; fk_ref_table := rt; fk_ref_column := rc;
                         fk_on_delete_set_null := set_null |} tb) d)
      else None
  end.

(** ALTER TABLE t DROP CONSTRAINT name *)
Definition drop_foreign_key (name t : string) (d : Database) : option Database :=
  match lookup_table t d with
  | None => None
  | Some tb =>
      match foreign_keys tb !! name with
      | None => None
      | Some _ =>
          Some (put_table t {| columns := columns tb;
                               foreign_keys := delete name (foreign_keys tb) |} d)
      end
  end.

Definition alter_column (t c : string) (f : Column -> Column) (d : Database)
    : option Database :=
  match lookup_table t d with
  | None => None
  | Some tb =>
      match columns tb !! c with
      | None => None
      | Some col => Some (put_table t (put_column c (f col) tb) d)
      end
  end.

Definition set_notnull (b : bool) (col : Column) : Column :=
  {| col_type := col_type col; col_notnull := b; col_default := col_default col;
     col_key := col_key col |}.

Definition set_default (dflt : Default) (col : Column) : Column :=
  {| col_type := col_type col; col_notnull := col_notnull col; col_default := dflt;
     col_key := col_key col |}.

(** The documents rows after a data statement that needs the listed columns
    of [documents]. *)
Definition update_documents (needs : list string) (f : DocumentRow -> DocumentRow)
    (d : Database) : option Database :=
  if forallb (fun c => has_column "documents" c d) needs then Some (map_documents f d)
  else None.

(** SET status='issued' WHERE status IS NULL *)
Definition status_issued (r : DocumentRow) : DocumentRow :=
  {| doc_type := doc_type r; document_type_id := document_type_id r;
     status := match status r with None => Some "issued" | s => s end;
     issue_date := issue_date r; created_at := created_at r; issued_at := issued_at r |}.

(** SET created_at = issue_date WHERE created_at IS NULL *)
Definition created_at_from_issue_date (r : DocumentRow) : DocumentRow :=
  {| doc_type := doc_type r; document_type_id := document_type_id r;
     status := status r; issue_date := issue_date r;
     created_at := match created_at r with None => issue_date r | t => t end;
     issued_at := issued_at r |}.

(** SET issued_at = issue_date WHERE issued_at IS NULL AND status='issued' *)
Definition issued_at_from_issue_date (r : DocumentRow) : DocumentRow :=
  {| doc_type := doc_type r; document_type_id := document_type_id r;
     status := status r; issue_date := issue_date r; created_at := created_at r;
     issued_at := match issued_at r, status r with
                  | None, Some s => if String.eqb s "issued" then issue_date r else None
                  | t, _ => t
                  end |}.

(** SELECT DISTINCT doc_type FROM documents
    WHERE doc_type IS NOT NULL AND doc_type <> '' *)
Definition doc_type_names (rs : list DocumentRow) : list string :=
  omap (fun r => match doc_type r with
                 | Some n => if Py.truthy n then Some n else None
                 | None => None
                 end) rs.

(** SET document_type_id = dt.id FROM document_types dt
    WHERE d.document_type_id IS NULL AND d.doc_type = dt.name *)
Definition type_id_from_doc_type (types : gmap string Z) (r : DocumentRow) : DocumentRow :=
  {| doc_type := doc_type r;
     document_type_id := match document_type_id r, doc_type r with
                         | None, Some n => types !! n
                         | i, _ => i
                         end;
     status := status r; issue_date := issue_date r;
     created_at := created_at r; issued_at := issued_at r |}.

(** SET doc_type='Unknown' WHERE doc_type IS NULL *)
Definition doc_type_unknown (r : DocumentRow) : DocumentRow :=
  {| doc_type := match doc_type r with None => Some "Unknown" | n => n end;
     document_type_id := document_type_id r;
     status := status r; issue_date := issue_date r;
     created_at := created_at r; issued_at := issued_at r |}.

(** SET document_type_id = (SELECT id FROM document_types WHERE name='Unknown')
    WHERE document_type_id IS NULL *)
Definition type_id_unknown (types : gmap string Z) (r : DocumentRow) : DocumentRow :=
  {| doc_type := doc_type r;
     document_type_id := match document_type_id r with
                         | None => types !! "Unknown"
                         | i => i
                         end;
     status := status r; issue_date := issue_date r;
     created_at := created_at r; issued_at := issued_at r |}.

(** The effect of one statement run at time [now], or [None] when
    PostgreSQL raises an error. *)
Definition run (now : Z) (sql : Statement) (d : Database) : option Database :=
  match sql with
  | AddColumnIfNotExists t c def =>
      match lookup_table t d with
      | None => None
      | Some tb =>
          match columns tb !! c with
          | Some _ => Some d
          | None =>
              Some (with_rows (fill_rows t c (col_default def) now (rows d))
                      (put_table t (put_column c def tb) d))
          end
      end
  | CreateIndexIfNotExists i t c =>
      match lookup_table t d with
      | None => None
      | Some tb =>
          match indexes (catalog d) !! i with
          | Some _ => Some d
          | None =>
              if has_column t c d then Some (with_indexes (<[i := (t, c)]> (indexes (catalog d))) d)
              else None
          end
      end
  | CreateTableIfNotExists t cols refs =>
      match lookup_table t d with
      | Some _ => Some d
      | None =>
          if references_ok refs d then
            Some (with_rows (clear_rows t (rows d))
                    (put_table t {| columns := list_to_map cols;
                                    foreign_keys := reference_constraints t refs |} d))
          else None
      end
  | DropNotNull t c => alter_column t c (set_notnull false) d
  | SetNotNull t c =>
      if no_nulls t c (rows d) then alter_column t c (set_notnull true) d else None
  | SetDefault t c v => alter_column t c (set_default (DefaultText v)) d
  | ReplaceForeignKey name t c rt rc =>
      match (if constraint_exists name d then drop_foreign_key name t d else Some d) with
      | Some d1 => add_foreign_key name t c rt rc true d1
      | None => None
      end
  | AddForeignKeyIfMissing name t c rt rc =>
      if constraint_exists name d then Some d
      else add_foreign_key name t c rt rc false d
  | UpdateStatusIssued => update_documents ["status"] status_issued d
  | UpdateCreatedAt =>
      update_documents ["created_at"; "issue_date"] created_at_from_issue_date d
  | UpdateIssuedAt =>
      update_documents ["issued_at"; "issue_date"; "status"] issued_at_from_issue_date d
  | InsertTypesFromDocType =>
      if has_column "documents" "doc_type" d && insertable_document_types d then
        Some (with_rows (with_document_types
                           (fold_left (fun acc n => insert_type n acc)
                              (doc_type_names (documents (rows d)))
                              (document_types (rows d))) (rows d)) d)
      else None
  | UpdateTypeIdFromDocType =>
      if has_column "document_types" "id" d && has_column "document_types" "name" d then
        update_documents ["document_type_id"; "doc_type"]
          (type_id_from_doc_type (document_types (rows d))) d
      else None
  | UpdateDocTypeUnknown => update_documents ["doc_type"] doc_type_unknown d
  | InsertUnknownType =>
      if insertable_document_types d then
        Some (with_rows (with_document_types (insert_type "Unknown" (document_types (rows d)))
                           (rows d)) d)
      else None
  | UpdateTypeIdUnknown =>
      if has_column "document_types" "id" d && has_column "document_types" "name" d then
        update_documents ["document_type_id"] (type_id_unknown (document_types (rows d))) d
      else None
  end.

(** *** The SQLAlchemy session *)

Record Session := {
  (* what every connection sees *)
  committed : Database;
  (* the open transaction of the session, if any, with its view *)
  pending : option Database
}.

Definition begin (d : Database) : Session := {| committed := d; pending := None |}.

Definition view (s : Session) : Database := default (committed s) (pending s).

(** [db.session.execute(text(sql))]: [None] when the statement raises. *)
Definition execute (now : Z) (sql : Statement) (s : Session) : option Session :=
  match run now sql (view s) with
  | Some d => Some {| committed := committed s; pending := Some d |}
  | None => None
  end.

(** [db.session.commit()] *)
Definition commit (s : Session) : Session := {| committed := view s; pending := None |}.

(** [db.session.rollback()] *)
Definition rollback (s : Session) : Session := {| committed := committed s; pending := None |}.

(** The body of [_exec_try] on the session. *)
Definition _exec_try_session (now : Z) (sql : Statement) (s : Session) : Session :=
  match execute now sql s with
  | Some s' => commit s'
  | None => rollback s
  end.

(** [_exec_try(sql)] during start-up: the session has no open transaction
    between two calls, since each call ends in a commit or a rollback, so the
    state that is threaded through the healing is the committed database. *)
Definition _exec_try (now : Z) (sql : Statement) (d : Database) : Database :=
  committed (_exec_try_session now sql (begin d)).

(** *** The inspector *)

(** [insp.has_table(table)] *)
Definition has_table (t : string) (d : Database) : bool :=
  bool_decide (is_Some (lookup_table t d)).

(** [_colnames(table)]: the column names, the empty set when there is no such
    table. *)
Definition _colnames (t : string) (d : Database) : gset string :=
  match lookup_table t d with
  | Some tb => dom (columns tb)
  | None => ∅
  end.

(** [if "c" not in cols: _exec_try("ALTER TABLE t ADD COLUMN IF NOT EXISTS c ...")] *)
Definition add_if_missing (now : Z) (cols : gset string) (t c : string) (def : Column)
    (d : Database) : Database :=
  if bool_decide (c ∈ cols) then d
  else _exec_try now (AddColumnIfNotExists t c def) d.

(** *** The healing itself (the block under
    [if db.engine.dialect.name == "postgresql"]) *)

(** residents: add missing columns used by the current models *)
Definition heal_residents (now : Z) (d : Database) : Database :=
  if has_table "residents" d then
    let cols := _colnames "residents" d in
    let d := add_if_missing now cols "residents" "middle_name" (column "VARCHAR(100)") d in
    let d := add_if_missing now cols "residents" "marital_status" (column "VARCHAR(50)") d in
    let d := add_if_missing now cols "residents" "created_by_id" (column "INTEGER") d in
    let d := add_if_missing now cols "residents" "updated_by_id" (column "INTEGER") d in
    let d := add_if_missing now cols "residents" "updated_at" (column TIMESTAMP) d in
    let d := add_if_missing now cols "residents" "is_archived"
               (not_null_default "BOOLEAN" DefaultFalse) d in
    let d := add_if_missing now cols "residents" "archived_at" (column TIMESTAMP) d in
    let d := add_if_missing now cols "residents" "archived_by_id" (column "INTEGER") d in
    let d := _exec_try now
               (CreateIndexIfNotExists "ix_residents_last_name" "residents" "last_name") d in
    _exec_try now
      (CreateIndexIfNotExists "ix_residents_barangay_id" "residents" "barangay_id") d
  else d.

Definition CREATE_TABLE_document_types : Statement :=
  CreateTableIfNotExists "document_types"
    [("id", serial_primary_key);
     ("name", not_null_unique "VARCHAR(100)");
     ("description", column "VARCHAR(255)");
     ("template_path", column "VARCHAR(255)");
     ("requires_photo", not_null_default "BOOLEAN" DefaultFalse)]
    [].

(** document_types: ensure the table exists *)
Definition heal_document_types (now : Z) (d : Database) : Database :=
  if negb (has_table "document_types" d) then
    _exec_try now CREATE_TABLE_document_types d
  else
    let dt_cols := _colnames "document_types" d in
    let d := add_if_missing now dt_cols "document_types" "description"
               (column "VARCHAR(255)") d in
    let d := add_if_missing now dt_cols "document_types" "template_path"
               (column "VARCHAR(255)") d in
    add_if_missing now dt_cols "document_types" "requires_photo"
      (not_null_default "BOOLEAN" DefaultFalse) d.

Definition CREATE_TABLE_users : Statement :=
  CreateTableIfNotExists "users"
    [("id", serial_primary_key);
     ("username", not_null_unique "VARCHAR(150)");
     ("email", not_null_unique "VARCHAR(255)");
     ("password_hash", not_null "VARCHAR(255)");
     ("role", not_null_default "VARCHAR(50)" (DefaultText "clerk"));
     ("created_at", with_default TIMESTAMP DefaultNow)]
    [].

(** users: ensure the table exists *)
Definition heal_users_table (now : Z) (d : Database) : Database :=
  if negb (has_table "users" d) then _exec_try now CREATE_TABLE_users d else d.

Definition CREATE_TABLE_transaction_logs : Statement :=
  CreateTableIfNotExists "transaction_logs"
    [("id", serial_primary_key);
     ("user_id", column "INTEGER");
     ("action", not_null "VARCHAR(255)");
     ("entity_type", column "VARCHAR(50)");
     ("entity_id", column "INTEGER");
     ("ip_address", column "VARCHAR(64)");
     ("user_agent", column "VARCHAR(255)");
     ("meta", column "JSONB");
     ("timestamp", not_null_default TIMESTAMP DefaultNow)]
    [("user_id", "users", "id")].

(** transaction_logs: ensure the table exists *)
Definition heal_transaction_logs_table (now : Z) (d : Database) : Database :=
  if negb (has_table "transaction_logs" d) then
    _exec_try now CREATE_TABLE_transaction_logs d
  else d.

(** transaction_logs: add missing columns, make [user_id] nullable and
    ON DELETE SET NULL *)
Definition heal_transaction_logs (now : Z) (d : Database) : Database :=
  if has_table "transaction_logs" d then
    let lcols := _colnames "transaction_logs" d in
    let d := add_if_missing now lcols "transaction_logs" "entity_type"
               (column "VARCHAR(50)") d in
    let d := add_if_missing now lcols "transaction_logs" "entity_id" (column "INTEGER") d in
    let d := add_if_missing now lcols "transaction_logs" "ip_address"
               (column "VARCHAR(64)") d in
    let d := add_if_missing now lcols "transaction_logs" "user_agent"
               (column "VARCHAR(255)") d in
    let d := add_if_missing now lcols "transaction_logs" "meta" (column "JSONB") d in
    if bool_decide ("user_id" ∈ lcols) then
      let d := _exec_try now (DropNotNull "transaction_logs" "user_id") d in
      _exec_try now
        (ReplaceForeignKey "transaction_logs_user_id_fkey" "transaction_logs" "user_id"
           "users" "id") d
    else d
  else d.

Definition CREATE_TABLE_login_attempts : Statement :=
  CreateTableIfNotExists "login_attempts"
    [("id", serial_primary_key);
     ("username", column "VARCHAR(150)");
     ("ip_address", column "VARCHAR(64)");
     ("success", not_null_default "BOOLEAN" DefaultFalse);
     ("created_at", not_null_default TIMESTAMP DefaultNow)]
    [].

(** login_attempts: ensure the table exists *)
Definition heal_login_attempts (now : Z) (d : Database) : Database :=
  if negb (has_table "login_attempts" d) then
    _exec_try now CREATE_TABLE_login_attempts d
  else d.

Definition CREATE_TABLE_login_mfa_codes : Statement :=
  CreateTableIfNotExists "login_mfa_codes"
    [("id", serial_primary_key);
     ("user_id", not_null "INTEGER");
     ("otp_code", not_null "VARCHAR(20)");
     ("expires_at", not_null TIMESTAMP);
     ("used", not_null_default "BOOLEAN" DefaultFalse);
     ("created_at", not_null_default TIMESTAMP DefaultNow)]
    [("user_id", "users", "id")].

(** login_mfa_codes: ensure the table exists *)
Definition heal_login_mfa_codes (now : Z) (d : Database) : Database :=
  if negb (has_table "login_mfa_codes" d) then
    _exec_try now CREATE_TABLE_login_mfa_codes d
  else d.

(** users: add missing columns used by the current models *)
Definition heal_users (now : Z) (d : Database) : Database :=
  if has_table "users" d then
    let ucols := _colnames "users" d in
    let d := add_if_missing now ucols "users" "email" (column "VARCHAR(255)") d in
    let d := add_if_missing now ucols "users" "role"
               (not_null_default "VARCHAR(50)" (DefaultText "clerk")) d in
    add_if_missing now ucols "users" "password_hash" (column "VARCHAR(255)") d
  else d.

(** documents: the body of [if "doc_type" in dcols] *)
Definition backfill_from_doc_type (now : Z) (d : Database) : Database :=
  let d := _exec_try now InsertTypesFromDocType d in
  let d := _exec_try now UpdateTypeIdFromDocType d in
  let d := _exec_try now (SetDefault "documents" "doc_type" "Unknown") d in
  _exec_try now UpdateDocTypeUnknown d.

(** documents: migrate the old [doc_type] string to [document_type_id] *)
Definition heal_documents (now : Z) (d : Database) : Database :=
  if has_table "documents" d then
    let dcols := _colnames "documents" d in
    let '(d, dcols) :=
      if bool_decide ("document_type_id" ∈ dcols) then (d, dcols)
      else
        let d := _exec_try now
                   (AddColumnIfNotExists "documents" "document_type_id" (column "INTEGER")) d in
        (d, _colnames "documents" d) in
    let d := add_if_missing now dcols "documents" "status"
               (not_null_default "VARCHAR(20)" (DefaultText "draft")) d in
    let d := _exec_try now UpdateStatusIssued d in
    let d := add_if_missing now dcols "documents" "created_at"
               (with_default TIMESTAMP DefaultNow) d in
    let d := add_if_missing now dcols "documents" "updated_at" (column TIMESTAMP) d in
    let d := add_if_missing now dcols "documents" "approved_at" (column TIMESTAMP) d in
    let d := add_if_missing now dcols "documents" "issued_at" (column TIMESTAMP) d in
    let d := add_if_missing now dcols "documents" "is_archived"
               (not_null_default "BOOLEAN" DefaultFalse) d in
    let d := add_if_missing now dcols "documents" "archived_at" (column TIMESTAMP) d in
    let d := add_if_missing now dcols "documents" "created_by_id" (column "INTEGER") d in
    let d := add_if_missing now dcols "documents" "updated_by_id" (column "INTEGER") d in
    let d := add_if_missing now dcols "documents" "approved_by_id" (column "INTEGER") d in
    let d := add_if_missing now dcols "documents" "issued_by_id" (column "INTEGER") d in
    let d := add_if_missing now dcols "documents" "archived_by_id" (column "INTEGER") d in
    let d := _exec_try now UpdateCreatedAt d in
    let d := _exec_try now UpdateIssuedAt d in
    let d := if bool_decide ("doc_type" ∈ dcols) then backfill_from_doc_type now d else d in
    let d := _exec_try now InsertUnknownType d in
    let d := _exec_try now UpdateTypeIdUnknown d in
    let d := _exec_try now (SetNotNull "documents" "document_type_id") d in
    let d := _exec_try now
               (AddForeignKeyIfMissing "documents_document_type_id_fkey" "documents"
                  "document_type_id" "document_types" "id") d in
    let d := _exec_try now
               (CreateIndexIfNotExists "ix_documents_issue_date" "documents" "issue_date") d in
    let d := _exec_try now
               (CreateIndexIfNotExists "ix_documents_resident_id" "documents" "resident_id") d in
    _exec_try now
      (CreateIndexIfNotExists "ix_documents_document_type_id" "documents"
         "document_type_id") d
  else d.

(** The whole block; [dialect] is [db.engine.dialect.name]. *)
Definition heal (dialect : string) (now : Z) (d : Database) : Database :=
  if String.eqb dialect "postgresql" then
    let d := heal_residents now d in
    let d := heal_document_types now d in
    let d := heal_users_table now d in
    let d := heal_transaction_logs_table now d in
    let d := heal_transaction_logs now d in
    let d := heal_login_attempts now d in
    let d := heal_login_mfa_codes now d in
    let d := heal_users now d in
    heal_documents now d
  else d.

End Schema.

(** ** routes.py: issuing, archiving and restoring a document *)
Module DocumentLifecycle.
Import Models Web Helpers Forms PdfUtils.
Local Open Scope Z_scope.

(** The assignments of [finalize_document_issue] to the document row.  The
    column [issue_date] is NOT NULL, so [if not document.issue_date] never
    fires. *)
Definition issued (rq : Request) (by_ : Z) (d : Document.t) : Document.t :=
  let reset := existsb (String.eqb (Document.status d)) ["pending"; "approved"] in
  {| Document.id := Document.id d; Document.resident_id := Document.resident_id d;
     Document.document_type_id := Document.document_type_id d;
     Document.status := "issued"; Document.details := Document.details d;
     Document.issue_date := Document.issue_date d;
     Document.file_path := Document.file_path d;
     Document.created_at := Document.created_at d;
     Document.updated_at := Some (now rq);
     Document.approved_at := if reset then None else Document.approved_at d;
     Document.issued_at := Some (now rq);
     Document.is_archived := Document.is_archived d;
     Document.archived_at := Document.archived_at d;
     Document.created_by_id := Document.created_by_id d;
     Document.updated_by_id := Some by_;
     Document.approved_by_id := if reset then None else Document.approved_by_id d;
     Document.issued_by_id := Some by_;
     Document.archived_by_id := Document.archived_by_id d |}.

(** The assignments of [restore_document] to the document row. *)
Definition unarchive_document (at_ : datetime) (by_ : Z) (d : Document.t) : Document.t :=
  {| Document.id := Document.id d; Document.resident_id := Document.resident_id d;
     Document.document_type_id := Document.document_type_id d;
     Document.status := Document.status d; Document.details := Document.details d;
     Document.issue_date := Document.issue_date d;
     Document.file_path := Document.file_path d;
     Document.created_at := Document.created_at d;
     Document.updated_at := Some at_;
     Document.approved_at := Document.approved_at d;
     Document.issued_at := Document.issued_at d;
     Document.is_archived := false;
     Document.archived_at := None;
     Document.created_by_id := Document.created_by_id d;
     Document.updated_by_id := Some by_;
     Document.approved_by_id := Document.approved_by_id d;
     Document.issued_by_id := Document.issued_by_id d;
     Document.archived_by_id := None |}.

(** [document.resident], the row the foreign key points to. *)
Definition resident_of (d : Database) (doc : Document.t) : option Resident.t :=
  get Resident.id (Document.resident_id doc) (residents d).

Section WithLibraries.

Variable strftime : datetime -> string -> string.
Variable draws : Template -> Document.t -> bool.
Variable installed : string -> bool.

(** [finalize_document_issue(document_id)] over the database and the local
    disk.  The new status is committed before the PDF is drawn: when drawing
    raises, the request ends in an error and the document stays issued
    without a file. *)
Definition finalize_document_issue (cfg : Config) (rq : Request) (document_id : Z)
    (w : World) (fs : FileSystem) : World * FileSystem * Response :=
  match current_user w with
  | None => (w, fs, Redirect "auth.login")
  | Some u =>
  if negb (existsb (String.eqb (User.role u)) ["admin"; "clerk"]) then (w, fs, Abort 403)
  else
  match get Document.id document_id (documents (db w)) with
  | None => (w, fs, Abort 404)
  | Some document =>
      let back (message : string) :=
        (do_flash message "warning" w, fs, Redirect "main.list_documents") in
      if Document.is_archived document then back "Archived documents cannot be issued."
      else if negb (existsb (String.eqb (Document.status document))
                      Routes.DRAFT_LIKE_STATUSES) then
        back "Only draft documents can be issued."
      else
        let resident := resident_of (db w) document in
        let doc_type := document_type_of (db w) document in
        if match resident with Some r => Resident.is_archived r | None => false end then
          back "Cannot issue documents for archived residents."
        else if match doc_type, resident with
                | Some t, Some r =>
                    DocumentType.requires_photo t
                    && negb (Py.truthy_opt (Resident.photo_path r))
                | _, _ => false
                end then
          back (match doc_type with Some t => DocumentType.name t | None => "" end
                +:+ " requires a resident photo. Please capture a photo before issuing.")
        else
          let issue_date := Document.issue_date document in
          if date_ltb (today rq) issue_date then
            back "Issue date cannot be in the future."
          else if match resident with
                  | Some r => date_ltb issue_date (Resident.birth_date r)
                  | None => false
                  end then
            back "Issue date cannot be before the resident's birth date."
          else
            let document' := issued rq (User.id u) document in
            let documents' :=
              update_where (fun d => Document.id d =? Document.id document)
                (issued rq (User.id u)) (documents (db w)) in
            let w1 := with_db (with_documents documents' (db w)) w in
            match generate_document_pdf strftime draws installed cfg rq (db w1) document' fs with
            | None => (w1, fs, Abort 500)
            | Some (fs', pdf_rel_path) =>
                let w2 :=
                  if Py.truthy pdf_rel_path
                  then DocumentRoutes.store_file_path document' pdf_rel_path w1
                  else w1 in
                let w3 :=
                  log_action rq ("Issued document #" +:+ Py.str_Z (Document.id document))
                    (Some "document") (Some (Document.id document))
                    (Some [("status", MStr "issued")]) w2 in
                (do_flash "Document issued successfully!" "success" w3, fs',
                 Redirect "main.list_documents")
            end
  end end.

End WithLibraries.

(** [delete_document(document_id)]: the document is archived, whatever its
    status and whether or not it is archived already. *)
Definition delete_document (rq : Request) (document_id : Z) (w : World)
    : World * Response :=
  guarded ["admin"; "clerk"] w (fun current_user =>
    match get Document.id document_id (documents (db w)) with
    | None => (w, Abort 404)
    | Some document =>
        let documents' :=
          update_where (fun d => Document.id d =? Document.id document)
            (Routes.archive_document (now rq) (User.id current_user)) (documents (db w)) in
        let w1 := with_db (with_documents documents' (db w)) w in
        let w2 := log_action rq ("Archived document #" +:+ Py.str_Z document_id)
                    (Some "document") (Some document_id) None w1 in
        (do_flash "Document archived." "info" w2, Redirect "main.list_documents")
    end).

(** [restore_document(document_id)] *)
Definition restore_document (rq : Request) (document_id : Z) (w : World)
    : World * Response :=
  guarded ["admin"; "clerk"] w (fun current_user =>
    match get Document.id document_id (documents (db w)) with
    | None => (w, Abort 404)
    | Some document =>
        let documents' :=
          update_where (fun d => Document.id d =? Document.id document)
            (unarchive_document (now rq) (User.id current_user)) (documents (db w)) in
        let w1 := with_db (with_documents documents' (db w)) w in
        let w2 := log_action rq ("Restored document #" +:+ Py.str_Z document_id)
                    (Some "document") (Some document_id) None w1 in
        (do_flash "Document restored." "success" w2,
         Redirect "main.list_archived_documents")
    end).

End DocumentLifecycle.

(** ** forms.py and auth.py: the password policy and the password routes *)
Module Passwords.
Import Models Web Helpers Forms.
Local Open Scope Z_scope.

(** The settings of config.py that [_password_policy_errors] reads. *)
Record PasswordPolicy := {
  PASSWORD_MIN_LENGTH : Z;
  PASSWORD_REQUIRE_UPPER : bool;
  PASSWORD_REQUIRE_LOWER : bool;
  PASSWORD_REQUIRE_DIGIT : bool;
  PASSWORD_REQUIRE_SYMBOL : bool;
  PASSWORD_DISALLOW_SPACES : bool
}.

(** The defaults of [class Config]. *)
Definition default_policy : PasswordPolicy :=
  {| PASSWORD_MIN_LENGTH := 10; PASSWORD_REQUIRE_UPPER := true;
     PASSWORD_REQUIRE_LOWER := true; PASSWORD_REQUIRE_DIGIT := true;
     PASSWORD_REQUIRE_SYMBOL := true; PASSWORD_DISALLOW_SPACES := true |}.

(** [re.search] of a pattern that is one character class. *)
Fixpoint search_class (cls : ascii -> bool) (s : string) : bool :=
  match s with
  | EmptyString => false
  | String c r => cls c || search_class cls r
  end.

(** The classes [\w] and [[^\w\s]] on ASCII. *)
Definition is_word (c : ascii) : bool := Py.isalnum c || Ascii.eqb c "_".
Definition is_symbol (c : ascii) : bool := negb (is_word c) && negb (Py.is_space c).

Definition _password_policy_errors (cfg : PasswordPolicy) (password : string)
    : list string :=
  let min_len := PASSWORD_MIN_LENGTH cfg in
  ((if Z.of_nat (String.length password) <? min_len
    then ["at least " +:+ Py.str_Z min_len +:+ " characters"] else [])
   ++ (if PASSWORD_REQUIRE_UPPER cfg && negb (search_class Py.is_upper password)
       then ["an uppercase letter"] else [])
   ++ (if PASSWORD_REQUIRE_LOWER cfg && negb (search_class Py.is_lower password)
       then ["a lowercase letter"] else [])
   ++ (if PASSWORD_REQUIRE_DIGIT cfg && negb (search_class Py.is_digit password)
       then ["a number"] else [])
   ++ (if PASSWORD_REQUIRE_SYMBOL cfg && negb (search_class is_symbol password)
       then ["a symbol"] else [])
   ++ (if PASSWORD_DISALLOW_SPACES cfg && search_class Py.is_space password
       then ["no spaces"] else []))%list.

(** [password_strength_required(form, field)]: whether the validator lets
    the field through. *)
Definition password_strength_required (cfg : PasswordPolicy) (field : option string)
    : bool :=
  match _password_policy_errors cfg (Py.or_empty field) with
  | [] => true
  | _ => false
  end.

(** [EqualTo("new_password")] *)
Definition equal_to (field other : option string) : bool :=
  bool_decide (field = other).

Record PasswordChangeForm := {
  current_password : option string;
  c_new_password : option string;
  c_confirm_new_password : option string
}.

Record ForgotPasswordForm := { f_username : option string }.

Record ResetPasswordForm := {
  r_username : option string;
  r_otp_code : option string;
  r_new_password : option string;
  r_confirm_new_password : option string
}.

Definition change_validate_on_submit (cfg : PasswordPolicy) (rq : Request)
    (f : PasswordChangeForm) : bool :=
  is_post rq && data_required (current_password f)
  && (data_required (c_new_password f)
      && password_strength_required cfg (c_new_password f))
  && (data_required (c_confirm_new_password f)
      && equal_to (c_confirm_new_password f) (c_new_password f)).

Definition forgot_validate_on_submit (rq : Request) (f : ForgotPasswordForm) : bool :=
  is_post rq && data_required (f_username f).

Definition reset_validate_on_submit (cfg : PasswordPolicy) (rq : Request)
    (f : ResetPasswordForm) : bool :=
  is_post rq && data_required (r_username f) && data_required (r_otp_code f)
  && (data_required (r_new_password f)
      && password_strength_required cfg (r_new_password f))
  && (data_required (r_confirm_new_password f)
      && equal_to (r_confirm_new_password f) (r_new_password f)).

Section WithHash.

(** [werkzeug.security.check_password_hash] and
    [werkzeug.security.generate_password_hash]. *)
Variable check_password_hash : string -> string -> bool.
Variable generate_password_hash : string -> string.

(** [user.set_password(password)] *)
Definition set_password (password : string) (u : User.t) : User.t :=
  {| User.id := User.id u; User.username := User.username u; User.email := User.email u;
     User.password_hash := generate_password_hash password;
     User.role := User.role u; User.created_at := User.created_at u |}.

(** [session.pop("force_password_change", None)] *)
Definition pop_force_password_change (s : Session) : Session :=
  Auth.set_force_password_change false s.

(** [change_password()]; [login_required] is its only decorator. *)
Definition change_password (cfg : PasswordPolicy) (rq : Request)
    (form : PasswordChangeForm) (w : World) : World * Response :=
  guarded [] w (fun current_user =>
    if change_validate_on_submit cfg rq form then
      if negb (Auth.check_password check_password_hash current_user
                 (Py.or_empty (current_password form))) then
        (do_flash "Incorrect current password." "danger" w,
         Render "change_password.html" [])
      else
        let users' :=
          update_where (fun u => User.id u =? User.id current_user)
            (set_password (Py.or_empty (c_new_password form))) (users (db w)) in
        let w1 := with_db (with_users users' (db w)) w in
        let w2 := with_session (pop_force_password_change (session w1)) w1 in
        let w3 := log_action rq "Changed own password" None None None w2 in
        (do_flash "Your password has been updated." "success" w3, Redirect "main.index")
    else (w, Render "change_password.html" [])).

(** The e-mail sent by [send_otp_email] leaves no trace in the database or
    the session and is not part of the state. *)
Definition forgot_password (rq : Request) (form : ForgotPasswordForm) (w : World)
    : World * Response :=
  if is_authenticated w then (w, Redirect "main.index")
  else if forgot_validate_on_submit rq form then
    let w2 :=
      match Auth.user_by_username (Py.or_empty (f_username form)) (db w) with
      | Some user =>
          let code := Py.upper (token_hex3 rq) in
          let expires_at := now rq + seconds (10 * 60) in
          let rows := password_resets (db w) in
          let pr :=
            {| PasswordReset.id := next_id (List.map PasswordReset.id rows);
               PasswordReset.user_id := User.id user;
               PasswordReset.otp_code := code;
               PasswordReset.expires_at := expires_at;
               PasswordReset.used := false;
               PasswordReset.created_at := now rq |} in
          let w1 := with_db (with_password_resets (rows ++ [pr]) (db w)) w in
          log_action rq ("Requested password reset for '" +:+ User.username user +:+ "'")
            None None None w1
      | None => w
      end in
    (do_flash "If an account exists for the provided username, an OTP has been sent."
       "info" w2,
     Redirect "auth.reset_password")
  else (w, Render "forgot_password.html" []).

(** The rows of [PasswordReset.query.filter_by(user_id=.., otp_code=..,
    used=False)]. *)
Definition reset_candidates (uid : Z) (code : string) (rows : list PasswordReset.t)
    : list PasswordReset.t :=
  List.filter (fun r => (PasswordReset.user_id r =? uid)
                        && String.eqb (PasswordReset.otp_code r) code
                        && negb (PasswordReset.used r)) rows.

(** [.order_by(PasswordReset.expires_at.desc()).first()]: a row with the
    greatest expiry, the earliest inserted one among equals. *)
Definition latest_reset (rows : list PasswordReset.t) : option PasswordReset.t :=
  fold_left (fun best r =>
               match best with
               | None => Some r
               | Some b => if PasswordReset.expires_at b <? PasswordReset.expires_at r
                           then Some r else Some b
               end) rows None.

Definition mark_reset_used (r : PasswordReset.t) : PasswordReset.t :=
  {| PasswordReset.id := PasswordReset.id r;
     PasswordReset.user_id := PasswordReset.user_id r;
     PasswordReset.otp_code := PasswordReset.otp_code r;
     PasswordReset.expires_at := PasswordReset.expires_at r;
     PasswordReset.used := true;
     PasswordReset.created_at := PasswordReset.created_at r |}.

Definition reset_password (cfg : PasswordPolicy) (rq : Request) (form : ResetPasswordForm)
    (w : World) : World * Response :=
  if is_authenticated w then (w, Redirect "main.index")
  else if reset_validate_on_submit cfg rq form then
    match Auth.user_by_username (Py.or_empty (r_username form)) (db w) with
    | None =>
        (do_flash "Invalid username or OTP code." "danger" w,
         Render "reset_password.html" [])
    | Some user =>
        let refused :=
          (do_flash "Invalid or expired OTP code." "danger" w,
           Render "reset_password.html" []) in
        let pr := latest_reset
                    (reset_candidates (User.id user) (Py.or_empty (r_otp_code form))
                       (password_resets (db w))) in
        match pr with
        | Some pr =>
            if now rq <? PasswordReset.expires_at pr then
              let users' :=
                update_where (fun u => User.id u =? User.id user)
                  (set_password (Py.or_empty (r_new_password form))) (users (db w)) in
              let resets' :=
                update_where (fun r => PasswordReset.id r =? PasswordReset.id pr)
                  mark_reset_used (password_resets (db w)) in
              let w1 := with_db (with_password_resets resets' (with_users users' (db w))) w in
              let w2 :=
                log_action rq ("Reset password for '" +:+ User.username user +:+ "'")
                  None None None w1 in
              (do_flash "Your password has been reset. You may now log in." "success" w2,
               Redirect "auth.login")
            else refused
        | None => refused
        end
    end
  else (w, Render "reset_password.html" []).

End WithHash.

End Passwords.

(** ** app.py and auth.py: the session checks before a request, and logout *)
Module SessionSecurity.
Import Models Web Helpers.
Local Open Scope Z_scope.

(** [logout_user()] followed by the five [session.pop] calls. *)
Definition clear_login (s : Session) : Session :=
  {| _user_id := None; mfa_user_id := None; mfa_remember := None; mfa_next := None;
     force_password_change := false; last_activity := None;
     permanent := permanent s; _flashes := _flashes s |}.

(** [session["last_activity"] = now_ts] *)
Definition set_last_activity (t : Z) (s : Session) : Session :=
  {| _user_id := _user_id s; mfa_user_id := mfa_user_id s;
     mfa_remember := mfa_remember s; mfa_next := mfa_next s;
     force_password_change := force_password_change s;
     last_activity := Some t; permanent := permanent s; _flashes := _flashes s |}.

(** [enforce_session_security()], the hook that runs before every request.
    [idle_timeout] is SESSION_IDLE_TIMEOUT_SECONDS as an integer and
    [endpoint] is [request.endpoint]; the result is the response that ends
    the request, or [None] when the view runs. *)
Definition enforce_session_security (idle_timeout : Z) (endpoint : option string)
    (rq : Request) (w : World) : World * option Response :=
  if negb (is_authenticated w) then (w, None)
  else
    let endpoint := Py.or_empty endpoint in
    if Py.starts_with "static" endpoint then (w, None)
    else
      let expired :=
        (0 <? idle_timeout)
        && match last_activity (session w) with
           | Some last => negb (last =? 0) && (idle_timeout <? time_time rq - last)
           | None => false
           end in
      if expired then
        (do_flash "Your session expired due to inactivity. Please log in again." "warning"
           (with_session (clear_login (session w)) w),
         Some (Redirect "auth.login"))
      else
        let w1 :=
          if 0 <? idle_timeout
          then with_session (set_last_activity (time_time rq) (session w)) w
          else w in
        if force_password_change (session w1)
           && negb (existsb (String.eqb endpoint) ["auth.change_password"; "auth.logout"])
        then (w1, Some (Redirect "auth.change_password"))
        else (w1, None).

(** [logout()] *)
Definition logout (rq : Request) (w : World) : World * Response :=
  guarded [] w (fun current_user =>
    let w1 := log_action rq "Logged out" (Some "user") (Some (User.id current_user))
                (Some [("username", MStr (User.username current_user));
                       ("role", MStr (User.role current_user))]) w in
    let w2 := with_session (clear_login (session w1)) w1 in
    (do_flash "You have been logged out." "success" w2, Redirect "auth.login")).

End SessionSecurity.

(** ** app.py: the functions that run before each request *)
Module Hooks.
Import Models Web Helpers App SessionSecurity.
Local Open Scope Z_scope.

(** A request as the hooks see it: the endpoint it is routed to, the page it
    came from, and whether Flask-WTF's [csrf_protect], the function that
    [csrf.init_app] registers to run first, lets it through. *)
Record Arrival := {
  request : Request;
  endpoint : option string;
  referrer : option string;
  csrf_ok : bool
}.

(** [handle_csrf_error] *)
Definition handle_csrf_error (a : Arrival) (w : World) : World * Response :=
  (do_flash "Security token missing/expired. Please retry the action." "danger" w,
   match referrer a with
   | Some r => if Py.truthy r then RedirectUrl r else Redirect "main.index"
   | None => Redirect "main.index"
   end).

(** Flask's [preprocess_request] over the [before_request] functions of
    [create_app], in the order of their registration: [csrf_protect],
    [assign_request_id] (which writes to [g] only),
    [enforce_session_security], [_start_auto_purge_on_first_request].  The
    first that raises or returns a response ends the chain: the later
    functions and the view do not run.  The result is the application
    object, the session and database, and that response, if any. *)
Definition preprocess_request (idle_timeout : Z) (a : Arrival) (app : Application)
    (w : World) : Application * World * option Response :=
  if negb (csrf_ok a) then
    let r := handle_csrf_error a w in
    (app, fst r, Some (snd r))
  else
    match enforce_session_security idle_timeout (endpoint a) (request a) w with
    | (w1, Some response) => (app, w1, Some response)
    | (w1, None) => (_start_auto_purge_on_first_request app, w1, None)
    end.

(** The application object after the requests of a list, the oldest first,
    each with the session and database it meets. *)
Definition after_requests (idle_timeout : Z) (requests : list (Arrival * World))
    (app : Application) : Application :=
  fold_left (fun acc r => fst (fst (preprocess_request idle_timeout (fst r) acc (snd r))))
    requests app.

End Hooks.

(** ** The operations of the program as one transition system *)
Module Program.
Import Models Web Helpers Forms PdfUtils Passwords.

(** The persistent state: the database with the session of the client, and
    the local disk. *)
Definition State := (World * FileSystem)%type.

Section WithLibraries.

Variable check_password_hash : string -> string -> bool.
Variable generate_password_hash : string -> string.
Variable save_captured_image : string -> string -> option string.
Variable strftime : datetime -> string -> string.
Variable draws : Template -> Document.t -> bool.
Variable installed : string -> bool.

(** One constructor per modelled operation: the views of auth.py, routes.py
    and admin.py that are embedded above, the session check that runs before
    a view, and the purge of expired documents.  The remaining views
    (add_user, edit_user, edit_resident, the two bulk archive views,
    add_document_type, edit_document_type, export_reports, the backup views
    and the pages that only read) have no constructor. *)
Inductive Operation :=
| Login (cfg : Config) (rq : Request) (form : LoginForm)
| MfaVerify (rq : Request) (form : MfaVerifyForm)
| Logout (rq : Request)
| ChangePassword (policy : PasswordPolicy) (rq : Request) (form : PasswordChangeForm)
| ForgotPassword (rq : Request) (form : ForgotPasswordForm)
| ResetPassword (policy : PasswordPolicy) (rq : Request) (form : ResetPasswordForm)
| EnforceSessionSecurity (idle_timeout : Z) (endpoint : option string) (rq : Request)
| AddResident (rq : Request) (form : Routes.ResidentForm)
| DeleteResident (rq : Request) (resident_id : Z)
| RestoreResident (rq : Request) (resident_id : Z)
| IssueDocument (rq : Request) (form : DocumentRoutes.DocumentForm)
| EditDocument (rq : Request) (document_id : Z) (form : DocumentRoutes.DocumentForm)
| FinalizeDocumentIssue (cfg : Config) (rq : Request) (document_id : Z)
| ReviseDocument (rq : Request) (document_id : Z)
| DeleteDocument (rq : Request) (document_id : Z)
| RestoreDocument (rq : Request) (document_id : Z)
| DownloadDocumentPdf (cfg : Config) (rq : Request) (document_id : Z)
| DeleteUser (fk_enforced : bool) (rq : Request) (user_id : Z)
| DeleteDocumentType (rq : Request) (type_id : Z)
| ProcessExpiredDocuments (static_root : string) (months grace_days : Z) (dry_run : bool)
    (now_ : datetime) (today_ : date).

Definition on_world {R} (f : World -> World * R) (s : State) : State :=
  (fst (f (fst s)), snd s).

Definition on_disk {R} (f : World -> FileSystem -> World * FileSystem * R) (s : State)
    : State :=
  fst (f (fst s) (snd s)).

Definition run (op : Operation) (s : State) : State :=
  match op with
  | Login cfg rq form => on_world (Auth.login check_password_hash cfg rq form) s
  | MfaVerify rq form => on_world (Auth.mfa_verify check_password_hash rq form) s
  | Logout rq => on_world (SessionSecurity.logout rq) s
  | ChangePassword policy rq form =>
      on_world (change_password check_password_hash generate_password_hash policy rq form) s
  | ForgotPassword rq form => on_world (forgot_password rq form) s
  | ResetPassword policy rq form =>
      on_world (reset_password generate_password_hash policy rq form) s
  | EnforceSessionSecurity idle_timeout endpoint rq =>
      on_world (SessionSecurity.enforce_session_security idle_timeout endpoint rq) s
  | AddResident rq form => on_world (Routes.add_resident save_captured_image rq form) s
  | DeleteResident rq rid => on_world (Routes.delete_resident rq rid) s
  | RestoreResident rq rid => on_world (Routes.restore_resident rq rid) s
  | IssueDocument rq form =>
      on_world (DocumentRoutes.issue_document save_captured_image rq form) s
  | EditDocument rq id form => on_world (DocumentRoutes.edit_document rq id form) s
  | FinalizeDocumentIssue cfg rq id =>
      on_disk (DocumentLifecycle.finalize_document_issue strftime draws installed cfg rq id) s
  | ReviseDocument rq id => on_world (DocumentRoutes.revise_document rq id) s
  | DeleteDocument rq id => on_world (DocumentLifecycle.delete_document rq id) s
  | RestoreDocument rq id => on_world (DocumentLifecycle.restore_document rq id) s
  | DownloadDocumentPdf cfg rq id =>
      on_disk (DocumentRoutes.download_document_pdf strftime draws installed cfg rq id) s
  | DeleteUser fk rq id => on_world (Admin.delete_user fk rq id) s
  | DeleteDocumentType rq id => on_world (Admin.delete_document_type rq id) s
  | ProcessExpiredDocuments static_root months grace_days dry_run now_ today_ =>
      let r := App.purged static_root months grace_days dry_run now_ today_
                 (db (fst s)) (snd s) in
      (with_db (fst r) (fst s), snd r)
  end.


End WithLibraries.

End Program.

(** ** Concrete data used to exercise the handlers *)
Module Examples.
Import Models Web Forms.
Local Open Scope Z_scope.

(** A password "hash" that can be run: the hash of [p] is [p] itself. *)
Definition plain_check (hash password : string) : bool := String.eqb hash password.

(** The hash function that goes with it. *)
Definition plain_hash (password : string) : string := password.

Definition no_upload (data subfolder : string) : option string := None.

Definition mk_user (id : Z) (name : string) (email : option string) (pw role : string)
    : User.t :=
  {| User.id := id; User.username := name; User.email := email;
     User.password_hash := pw; User.role := role; User.created_at := None |}.

Definition boss : User.t := mk_user 1 "boss" (Some "boss@example.com") "Admin123!" "admin".
Definition legacy_admin : User.t := mk_user 2 "chief" None "Chief123!" "admin".
Definition clerk : User.t := mk_user 3 "clerk" (Some "clerk@example.com") "Clerk123!" "clerk".

Definition empty_db : Database :=
  {| residents := []; document_types := []; documents := []; users := [];
     transaction_logs := []; password_resets := []; login_attempts := [];
     login_mfa_codes := [] |}.

Definition staff_db : Database := with_users [boss; legacy_admin; clerk] empty_db.

Definition cfg : Config := default_config "/srv/app/barangay_project".

Definition post_at (t : datetime) : Request :=
  {| method := POST; remote_addr := Some "10.0.0.7"; x_forwarded_for := "";
     user_agent := Some "Mozilla/5.0"; arg_next := None; now := t;
     today := Date 2026 11 4; time_time := 1793923200; token_hex3 := "a1b2c3" |}.

Definition visitor : World := {| db := staff_db; session := anonymous_session |}.

Definition logged_in (u : User.t) (d : Database) : World :=
  {| db := d;
     session := {| _user_id := Some (User.id u); mfa_user_id := None; mfa_remember := None;
                   mfa_next := None; force_password_change := false;
                   last_activity := None; permanent := true; _flashes := [] |} |}.

Definition credentials (name pw : string) : LoginForm :=
  {| username := Some name; password := Some pw; remember := false |}.

Definition failed_attempt (id : Z) (name ip : string) (t : datetime) : LoginAttempt.t :=
  {| LoginAttempt.id := id; LoginAttempt.username := Some name;
     LoginAttempt.ip_address := Some ip; LoginAttempt.success := false;
     LoginAttempt.created_at := t |}.

(** Five failed attempts for "clerk" from five different addresses. *)
Definition five_failures : list LoginAttempt.t :=
  [failed_attempt 1 "clerk" "10.0.0.1" 100; failed_attempt 2 "clerk" "10.0.0.2" 200;
   failed_attempt 3 "clerk" "10.0.0.3" 300; failed_attempt 4 "clerk" "10.0.0.4" 400;
   failed_attempt 5 "clerk" "10.0.0.5" 500].

Definition besieged : World :=
  {| db := with_login_attempts five_failures staff_db; session := anonymous_session |}.

Definition jane : Resident.t :=
  {| Resident.id := 1; Resident.barangay_id := Some "BRGY-2025-00001";
     Resident.first_name := "Jane"; Resident.middle_name := None;
     Resident.last_name := "Doe"; Resident.gender := "Female";
     Resident.birth_date := Date 1990 1 1; Resident.marital_status := Some "Single";
     Resident.address := "Purok 1"; Resident.photo_path := None;
     Resident.created_at := Some 1000; Resident.updated_at := Some 2000;
     Resident.created_by_id := Some 3; Resident.updated_by_id := Some 3;
     Resident.is_archived := false; Resident.archived_at := None;
     Resident.archived_by_id := None |}.

Definition clearance : DocumentType.t :=
  {| DocumentType.id := 1; DocumentType.name := "Barangay Clearance";
     DocumentType.description := None; DocumentType.template_path := Some "generic";
     DocumentType.requires_photo := false |}.

Definition jane_clearance : Document.t :=
  {| Document.id := 1; Document.resident_id := 1; Document.document_type_id := 1;
     Document.status := "issued"; Document.details := Some "For employment";
     Document.issue_date := Date 2026 10 1; Document.file_path := None;
     Document.created_at := 3000; Document.updated_at := None;
     Document.approved_at := None; Document.issued_at := Some 3500;
     Document.is_archived := false; Document.archived_at := None;
     Document.created_by_id := Some 3; Document.updated_by_id := None;
     Document.approved_by_id := None; Document.issued_by_id := Some 3;
     Document.archived_by_id := None |}.

Definition office_db : Database :=
  with_documents [jane_clearance]
    (with_document_types [clearance] (with_residents [jane] staff_db)).

Definition manual_id_form : Routes.ResidentForm :=
  {| Routes.photo_data := None;
     Routes.f_barangay_id := Some "BRGY-2026-00001";
     Routes.f_first_name := Some "Juan"; Routes.f_middle_name := None;
     Routes.f_last_name := Some "Cruz"; Routes.f_gender := Some "Male";
     Routes.f_birth_date := Some (Date 1985 6 12);
     Routes.f_marital_status := Some "Married";
     Routes.f_address := Some "Purok 2" |}.

(** A clock that always prints the same stamp, and a renderer that never
    fails. *)
Definition fixed_stamp (t : datetime) (format : string) : string := "20261104_031500".
Definition always_draws (t : PdfUtils.Template) (doc : Document.t) : bool := true.

(** An installation with every PDF form in place. *)
Definition forms_installed (path : string) : bool := true.

Definition nothing_on_disk : PdfUtils.FileSystem := ∅.

Definition auto_id_form : Routes.ResidentForm :=
  {| Routes.photo_data := None;
     Routes.f_barangay_id := None;
     Routes.f_first_name := Some "Juan"; Routes.f_middle_name := None;
     Routes.f_last_name := Some "Cruz"; Routes.f_gender := Some "Male";
     Routes.f_birth_date := Some (Date 1985 6 12);
     Routes.f_marital_status := Some "Married";
     Routes.f_address := Some "Purok 2" |}.

End Examples.

(** ** A database of an older version of the application *)
Module SchemaExamples.
Import Schema.
Local Open Scope Z_scope.

Definition old_documents : Table :=
  {| columns := list_to_map [("id", serial_primary_key); ("resident_id", not_null "INTEGER");
                             ("doc_type", column "VARCHAR(100)");
                             ("issue_date", column TIMESTAMP)];
     foreign_keys := ∅ |}.

Definition old_document_types : Table :=
  {| columns := list_to_map [("id", serial_primary_key);
                             ("name", not_null_unique "VARCHAR(100)")];
     foreign_keys := ∅ |}.

Definition old_row (name : option string) (issued : Z) : DocumentRow :=
  {| doc_type := name; document_type_id := None; status := None;
     issue_date := Some issued; created_at := None; issued_at := None |}.

Definition legacy : Database :=
  {| catalog := {| tables := list_to_map [("documents", old_documents);
                                           ("document_types", old_document_types)];
                   indexes := ∅ |};
     rows := {| documents := [old_row (Some "Barangay Clearance") 10; old_row None 20;
                              old_row (Some "Residency") 30];
                document_types := {[ "Residency" := 4 ]};
                transaction_log_users := [];
                users := [] |} |}.

Definition old_users : Table :=
  {| columns := list_to_map [("id", serial_primary_key);
                             ("username", not_null_unique "VARCHAR(150)")];
     foreign_keys := ∅ |}.

Definition old_logs : Table :=
  {| columns := list_to_map [("id", serial_primary_key); ("user_id", not_null "INTEGER");
                             ("action", not_null "VARCHAR(255)")];
     foreign_keys := ∅ |}.

(** The same for the log: every entry must name a user. *)
Definition legacy_logs : Database :=
  {| catalog := {| tables := list_to_map [("users", old_users);
                                           ("transaction_logs", old_logs)];
                   indexes := ∅ |};
     rows := {| documents := []; document_types := ∅;
                transaction_log_users := [Some 1; Some 1]; users := [1] |} |}.

End SchemaExamples.

(** * Verified properties *)

(** ** Barangay IDs (routes.py, [add_resident]) *)
Module BarangayIdFacts.
Import Models Web Routes Examples.
Local Open Scope Z_scope.

Lemma BRGY_ID_PATTERN_compiled :
  BRGY_ID_PATTERN
  = Some [Re.Begin; Re.Rep (Re.Lit "B") 1%nat; Re.Rep (Re.Lit "R") 1%nat; Re.Rep (Re.Lit "G") 1%nat;
          Re.Rep (Re.Lit "Y") 1%nat; Re.Rep (Re.Lit "-") 1%nat; Re.Rep (Re.Lit "\") 1%nat;
          Re.Rep (Re.Lit "d") 4%nat; Re.Rep (Re.Lit "-") 1%nat; Re.Rep (Re.Lit "\") 1%nat;
          Re.Rep (Re.Lit "d") 5%nat; Re.End_].
Proof. reflexivity. Qed.

(** What the compiled pattern accepts: a backslash and the letter d where
    the digits were meant. *)
Example pattern_accepts_backslash_d :
  BRGY_ID_PATTERN_match "BRGY-\DDDD-\DDDDD" = true.
Proof. reflexivity. Qed.

Example generated_id_written_on_insert :
  residents (db (fst (add_resident no_upload (post_at 0) auto_id_form
                        (logged_in clerk office_db))))
  = (residents office_db
    ++ [{| Resident.id := 2; Resident.barangay_id := Some "BRGY-2026-00002";
           Resident.first_name := "Juan"; Resident.middle_name := None;
           Resident.last_name := "Cruz"; Resident.gender := "Male";
           Resident.birth_date := Date 1985 6 12;
           Resident.marital_status := Some "Married";
           Resident.address := "Purok 2"; Resident.photo_path := None;
           Resident.created_at := Some 0; Resident.updated_at := None;
           Resident.created_by_id := Some 3; Resident.updated_by_id := None;
           Resident.is_archived := false; Resident.archived_at := None;
           Resident.archived_by_id := None |}])%list.
Proof. vm_compute. reflexivity. Qed.

(** C9 (the code departs from the claim).  The identifier generated for
    row 1 in 2026 is "BRGY-2026-00001", as the claim says; but the same
    string typed into the form is refused with the format error, because
    the pattern of the source was compiled from doubled backslashes: the
    resident is not stored. *)
Theorem C9_manual_barangay_id_rejected :
  auto_barangay_id (Date 2026 11 4) 1 = "BRGY-2026-00001"
  /\ BRGY_ID_PATTERN_match (Py.upper (Py.strip "BRGY-2026-00001")) = false
  /\ resident_validate_on_submit (post_at 0) manual_id_form = true
  /\ add_resident no_upload (post_at 0) manual_id_form (logged_in clerk office_db)
     = (logged_in clerk office_db, Render "resident_form.html" [("barangay_id", FORMAT_ERROR)]).
Proof. repeat split; vm_compute; reflexivity. Qed.

End BarangayIdFacts.

(** ** Login rate limiting and the second factor (auth.py) *)
Module AuthFacts.
Import Models Web Helpers Forms Auth Examples.
Local Open Scope Z_scope.

(** A failed attempt not older than the window that ends at the request. *)
Definition failed_in_window (cfg : Config) (rq : Request) (a : LoginAttempt.t) : bool :=
  negb (LoginAttempt.success a)
  && (now rq - seconds (LOGIN_RATE_LIMIT_WINDOW_SECONDS cfg) <=? LoginAttempt.created_at a).

(** The number of such attempts recorded for a client address. *)
Definition failures_from_ip (cfg : Config) (rq : Request) (d : Database) (ip : string) : Z :=
  Z.of_nat (length (List.filter
    (fun a => failed_in_window cfg rq a && opt_string_eqb (LoginAttempt.ip_address a) ip)
    (login_attempts d))).

(** The number of such attempts recorded for a submitted username. *)
Definition failures_for_username (cfg : Config) (rq : Request) (d : Database)
    (username : string) : Z :=
  Z.of_nat (length (List.filter
    (fun a => failed_in_window cfg rq a && opt_string_eqb (LoginAttempt.username a) username)
    (login_attempts d))).

Definition only_failures (d : Database) : Database :=
  with_login_attempts
    (List.filter (fun a => negb (LoginAttempt.success a)) (login_attempts d)) d.

Lemma filter_filter {A} (f g : A -> bool) (l : list A) :
  List.filter f (List.filter g l) = List.filter (fun x => g x && f x) l.
Proof.
  induction l as [|x l IH]; simpl; [reflexivity|].
  destruct (g x); simpl; [destruct (f x)|]; rewrite IH; reflexivity.
Qed.

Lemma filter_ext_bool {A} (f g : A -> bool) (l : list A) :
  (forall x, f x = g x) -> List.filter f l = List.filter g l.
Proof.
  intros E. induction l as [|x l IH]; simpl; [reflexivity|].
  rewrite E, IH. reflexivity.
Qed.

Lemma count_ip_recent cfg rq d ip :
  count_ip ip (recent_failures (now rq - seconds (LOGIN_RATE_LIMIT_WINDOW_SECONDS cfg))
                 (login_attempts d))
  = failures_from_ip cfg rq d ip.
Proof.
  unfold count_ip, recent_failures, failures_from_ip, failed_in_window.
  rewrite filter_filter. reflexivity.
Qed.

Lemma count_username_recent cfg rq d n :
  count_username n (recent_failures (now rq - seconds (LOGIN_RATE_LIMIT_WINDOW_SECONDS cfg))
                      (login_attempts d))
  = failures_for_username cfg rq d n.
Proof.
  unfold count_username, recent_failures, failures_for_username, failed_in_window.
  rewrite filter_filter. reflexivity.
Qed.

(** [_is_rate_limited] in terms of the two counts. *)
Lemma _is_rate_limited_counts cfg rq d username ip :
  0 < LOGIN_RATE_LIMIT_MAX cfg -> 0 < LOGIN_RATE_LIMIT_WINDOW_SECONDS cfg ->
  _is_rate_limited cfg rq d username ip
  = (LOGIN_RATE_LIMIT_MAX cfg
     <=? Z.max (match ip with
                | Some i => if Py.truthy i then failures_from_ip cfg rq d i else 0
                | None => 0 end)
               (match username with
                | Some n => if Py.truthy n then failures_for_username cfg rq d n else 0
                | None => 0 end)).
Proof.
  intros Hm Hw. unfold _is_rate_limited.
  replace (LOGIN_RATE_LIMIT_MAX cfg <=? 0) with false by (symmetry; apply Z.leb_gt; lia).
  replace (LOGIN_RATE_LIMIT_WINDOW_SECONDS cfg <=? 0) with false
    by (symmetry; apply Z.leb_gt; lia).
  cbv [orb].
  destruct ip as [i|], username as [n|];
    rewrite <- ?count_ip_recent, <- ?count_username_recent; reflexivity.
Qed.

Lemma _is_rate_limited_disabled cfg rq d username ip :
  LOGIN_RATE_LIMIT_MAX cfg <= 0 \/ LOGIN_RATE_LIMIT_WINDOW_SECONDS cfg <= 0 ->
  _is_rate_limited cfg rq d username ip = false.
Proof.
  intros H. unfold _is_rate_limited.
  destruct (LOGIN_RATE_LIMIT_MAX cfg <=? 0) eqn:E1; [reflexivity|].
  destruct (LOGIN_RATE_LIMIT_WINDOW_SECONDS cfg <=? 0) eqn:E2; [reflexivity|].
  apply Z.leb_gt in E1, E2. lia.
Qed.

Lemma recent_failures_only_failures cutoff rows :
  recent_failures cutoff (List.filter (fun a => negb (LoginAttempt.success a)) rows)
  = recent_failures cutoff rows.
Proof.
  unfold recent_failures. rewrite filter_filter. apply filter_ext_bool.
  intros a. destruct (LoginAttempt.success a); reflexivity.
Qed.

Lemma _is_rate_limited_ignores_successes cfg rq d username ip :
  _is_rate_limited cfg rq (only_failures d) username ip
  = _is_rate_limited cfg rq d username ip.
Proof.
  unfold _is_rate_limited, only_failures. simpl.
  rewrite recent_failures_only_failures. reflexivity.
Qed.

Lemma data_required_strip o :
  data_required o = true -> Py.truthy (Py.strip (Py.or_empty o)) = true.
Proof.
  destruct o as [s|]; simpl; [|discriminate].
  intros H. apply andb_true_iff in H. apply H.
Qed.

Definition TOO_MANY : string := "Too many failed login attempts. Please try again later.".

(** C10.  With both settings positive, once the failed attempts recorded
    inside the window for the client address, or for the submitted username,
    reach the maximum, [login] answers with the "too many attempts" page
    whatever the password and whatever the password check would say, and
    records nothing; attempts that succeeded never count; and a non-positive
    maximum or window switches the limit off. *)
Theorem C10_login_rate_limited
    (check_password_hash : string -> string -> bool)
    (cfg : Config) (rq : Request) (form : LoginForm) (w : World) :
  (is_authenticated w = false ->
   login_validate_on_submit rq form = true ->
   0 < LOGIN_RATE_LIMIT_MAX cfg ->
   0 < LOGIN_RATE_LIMIT_WINDOW_SECONDS cfg ->
   (exists ip, get_client_ip rq = Some ip /\ ip <> ""
               /\ LOGIN_RATE_LIMIT_MAX cfg <= failures_from_ip cfg rq (db w) ip)
   \/ LOGIN_RATE_LIMIT_MAX cfg
      <= failures_for_username cfg rq (db w) (Py.strip (Py.or_empty (username form))) ->
   login check_password_hash cfg rq form w
   = (do_flash TOO_MANY "danger" w, Render "login.html" []))
  /\ (forall username ip,
        _is_rate_limited cfg rq (only_failures (db w)) username ip
        = _is_rate_limited cfg rq (db w) username ip)
  /\ (LOGIN_RATE_LIMIT_MAX cfg <= 0 \/ LOGIN_RATE_LIMIT_WINDOW_SECONDS cfg <= 0 ->
      forall username ip, _is_rate_limited cfg rq (db w) username ip = false).
Proof.
  split; [|split].
  - intros Hanon Hvalid Hm Hw Hreach.
    unfold login. rewrite Hanon, Hvalid.
    assert (Huser : Py.truthy (Py.strip (Py.or_empty (username form))) = true).
    { apply data_required_strip.
      unfold login_validate_on_submit in Hvalid.
      apply andb_true_iff in Hvalid as [Hvalid _].
      apply andb_true_iff in Hvalid as [_ Hvalid]. exact Hvalid. }
    rewrite _is_rate_limited_counts by assumption.
    rewrite Huser.
    match goal with
    | |- (if ?b then _ else _) = _ => replace b with true; [reflexivity|]
    end.
    symmetry. apply Z.leb_le.
    destruct Hreach as [(ip & Hip & Hne & Hcount)|Hcount].
    + rewrite Hip.
      assert (Py.truthy ip = true) as -> by (destruct ip; [congruence|reflexivity]).
      lia.
    + lia.
  - intros. apply _is_rate_limited_ignores_successes.
  - intros H username ip. apply _is_rate_limited_disabled. exact H.
Qed.

Lemma C10_witness :
  login plain_check cfg (post_at 600000000) (credentials "clerk" "Clerk123!") besieged
  = (do_flash TOO_MANY "danger" besieged, Render "login.html" []).
Proof.
  apply (C10_login_rate_limited plain_check cfg (post_at 600000000)
           (credentials "clerk" "Clerk123!") besieged).
  - reflexivity.
  - reflexivity.
  - vm_compute. reflexivity.
  - vm_compute. reflexivity.
  - right. vm_compute. discriminate.
Defined.

(** *** The second factor *)

Lemma is_authenticated_ext (w w' : World) :
  users (db w') = users (db w) -> _user_id (session w') = _user_id (session w) ->
  is_authenticated w' = is_authenticated w.
Proof.
  intros Hu Hs. unfold is_authenticated, current_user. rewrite Hu, Hs. reflexivity.
Qed.

Lemma log_action_session rq a et ei m w : session (log_action rq a et ei m w) = session w.
Proof. unfold log_action. destruct (current_user w); reflexivity. Qed.

Lemma log_action_users rq a et ei m w : users (db (log_action rq a et ei m w)) = users (db w).
Proof. unfold log_action. destruct (current_user w); reflexivity. Qed.

Lemma log_action_login_mfa_codes rq a et ei m w :
  login_mfa_codes (db (log_action rq a et ei m w)) = login_mfa_codes (db w).
Proof. unfold log_action. destruct (current_user w); reflexivity. Qed.

Section SecondFactor.

Variable check_password_hash : string -> string -> bool.

Lemma _finalize_login_effect rq user remember next_page action w :
  let w' := fst (_finalize_login check_password_hash rq user remember next_page action w) in
  users (db w') = users (db w)
  /\ login_mfa_codes (db w') = login_mfa_codes (db w)
  /\ _user_id (session w') = Some (User.id user).
Proof.
  unfold _finalize_login.
  destruct (String.eqb (User.username user) "admin"
            && check_password check_password_hash user "admin"); cbn [fst];
    unfold do_flash, with_session; cbn [db session _user_id flash set_force_password_change];
    rewrite ?log_action_users, ?log_action_login_mfa_codes, ?log_action_session;
    repeat split; reflexivity.
Qed.

Lemma latest_expiry_from best rows x :
  fold_left (fun best r =>
               match best with
               | None => Some r
               | Some b => if LoginMfaCode.expires_at b <? LoginMfaCode.expires_at r
                           then Some r else Some b
               end) rows best = Some x ->
  best = Some x \/ In x rows.
Proof.
  revert best. induction rows as [|r rows IH]; intros best H; simpl in H.
  - left. exact H.
  - apply IH in H as [H|H]; [|right; right; exact H].
    destruct best as [b|].
    + destruct (LoginMfaCode.expires_at b <? LoginMfaCode.expires_at r);
        inversion H; subst; [right; left; reflexivity | left; reflexivity].
    + inversion H; subst. right. left. reflexivity.
Qed.

Lemma latest_expiry_In rows x : latest_expiry rows = Some x -> In x rows.
Proof.
  intros H. apply latest_expiry_from in H as [H|H]; [discriminate | exact H].
Qed.

Lemma update_where_In {A} (p : A -> bool) (f : A -> A) (rows : list A) (x : A) :
  In x rows -> p x = true -> In (f x) (update_where p f rows).
Proof.
  intros Hin Hp. unfold update_where. apply in_map_iff.
  exists x. rewrite Hp. split; [reflexivity | exact Hin].
Qed.

(** What a successful [mfa_verify] consumed. *)
Lemma mfa_verify_authenticates_only_with_code rq form w :
  is_authenticated w = false ->
  is_authenticated (fst (mfa_verify check_password_hash rq form w)) = true ->
  exists pr u,
    In pr (login_mfa_codes (db w))
    /\ mfa_user_id (session w) = Some (User.id u)
    /\ LoginMfaCode.user_id pr = User.id u
    /\ LoginMfaCode.otp_code pr = Py.upper (Py.strip (Py.or_empty (otp_code form)))
    /\ LoginMfaCode.used pr = false
    /\ now rq < LoginMfaCode.expires_at pr
    /\ login_mfa_codes (db (fst (mfa_verify check_password_hash rq form w)))
       = update_where (fun r => LoginMfaCode.id r =? LoginMfaCode.id pr) mark_used
           (login_mfa_codes (db w))
    /\ In (mark_used pr) (login_mfa_codes (db (fst (mfa_verify check_password_hash rq form w))))
    /\ _user_id (session (fst (mfa_verify check_password_hash rq form w))) = Some (User.id u).
Proof.
  intros Hanon. unfold mfa_verify. rewrite Hanon.
  destruct (mfa_user_id (session w)) as [uid|] eqn:Huid;
    [|cbn [fst]; intros H; rewrite (is_authenticated_ext w) in H by reflexivity; congruence].
  destruct (uid =? 0) eqn:Hz;
    [cbn [fst]; intros H; rewrite (is_authenticated_ext w) in H by reflexivity; congruence|].
  destruct (get User.id uid (users (db w))) as [user|] eqn:Huser;
    [|cbn [fst]; intros H; rewrite (is_authenticated_ext w) in H by reflexivity; congruence].
  assert (Hid : User.id user = uid).
  { unfold get in Huser. apply find_some in Huser as [_ Huser]. apply Z.eqb_eq in Huser.
    exact Huser. }
  destruct (mfa_validate_on_submit rq form);
    [|cbn [fst]; intros H; congruence].
  destruct (latest_expiry _) as [pr|] eqn:Hpr;
    [|cbn [fst]; intros H; rewrite (is_authenticated_ext w) in H by reflexivity; congruence].
  destruct (now rq <? LoginMfaCode.expires_at pr) eqn:Hexp;
    [|cbn [fst]; intros H; rewrite (is_authenticated_ext w) in H by reflexivity; congruence].
  intros _.
  apply latest_expiry_In in Hpr. unfold mfa_candidates in Hpr.
  apply filter_In in Hpr as [Hin Hsel].
  apply andb_true_iff in Hsel as [Hsel Hunused].
  apply andb_true_iff in Hsel as [Hu Hcode].
  apply Z.eqb_eq in Hu. apply String.eqb_eq in Hcode. apply negb_true_iff in Hunused.
  apply Z.ltb_lt in Hexp.
  match goal with
  | |- context [fst (_finalize_login ?c ?r ?u ?rem ?np ?a ?w0)] =>
      destruct (_finalize_login_effect r u rem np a w0) as (_ & Hcodes & Hsess)
  end.
  subst uid. exists pr, user.
  split; [exact Hin|]. split; [reflexivity|]. split; [exact Hu|].
  split; [exact Hcode|]. split; [exact Hunused|]. split; [exact Hexp|].
  rewrite Hcodes, Hsess. cbn [do_flash with_session with_db db session
    login_mfa_codes with_login_mfa_codes].
  split; [reflexivity|]. split; [|reflexivity].
  apply update_where_In; [exact Hin | apply Z.eqb_refl].
Qed.

(** The row [_start_mfa] adds. *)
Definition issued_code (cfg : Config) (rq : Request) (u : User.t) (d : Database)
    : LoginMfaCode.t :=
  {| LoginMfaCode.id := next_id (List.map LoginMfaCode.id (login_mfa_codes d));
     LoginMfaCode.user_id := User.id u;
     LoginMfaCode.otp_code := Py.upper (token_hex3 rq);
     LoginMfaCode.expires_at := now rq + seconds (MFA_CODE_TTL_SECONDS cfg);
     LoginMfaCode.used := false;
     LoginMfaCode.created_at := now rq |}.

(** C1 (as amended).  With ADMIN_MFA_REQUIRED on, a login request naming an
    account whose role is "admin" never leaves an anonymous session
    authenticated.  When the form is valid, the attempt is not rate limited,
    the password is right and the account has an e-mail address, [login]
    adds one unused LoginMfaCode row for the account, remembers the account
    in the session and redirects to the verification page.  And whenever
    [mfa_verify] turns an anonymous session into an authenticated one, an
    unused row of that account with the submitted code and an expiry strictly
    after the request existed, and it is marked used in the resulting
    database. *)
Theorem C1_admin_login_needs_the_emailed_code
    (cfg : Config) (rq : Request) (form : LoginForm) (w : World) (u : User.t) :
  ADMIN_MFA_REQUIRED cfg = true ->
  is_authenticated w = false ->
  user_by_username (Py.strip (Py.or_empty (username form))) (db w) = Some u ->
  User.role u = "admin" ->
  is_authenticated (fst (login check_password_hash cfg rq form w)) = false
  /\ (login_validate_on_submit rq form = true ->
      _is_rate_limited cfg rq (db w) (Some (Py.strip (Py.or_empty (username form))))
        (get_client_ip rq) = false ->
      check_password check_password_hash u (Py.or_empty (password form)) = true ->
      Py.truthy_opt (User.email u) = true ->
      login_mfa_codes (db (fst (login check_password_hash cfg rq form w)))
      = (login_mfa_codes (db w) ++ [issued_code cfg rq u (db w)])%list
      /\ mfa_user_id (session (fst (login check_password_hash cfg rq form w)))
         = Some (User.id u)
      /\ snd (login check_password_hash cfg rq form w) = Redirect "auth.mfa_verify")
  /\ (forall rq' form' w',
        is_authenticated w' = false ->
        is_authenticated (fst (mfa_verify check_password_hash rq' form' w')) = true ->
        exists pr a,
          In pr (login_mfa_codes (db w'))
          /\ mfa_user_id (session w') = Some (User.id a)
          /\ LoginMfaCode.user_id pr = User.id a
          /\ LoginMfaCode.otp_code pr = Py.upper (Py.strip (Py.or_empty (otp_code form')))
          /\ LoginMfaCode.used pr = false
          /\ now rq' < LoginMfaCode.expires_at pr
          /\ login_mfa_codes (db (fst (mfa_verify check_password_hash rq' form' w')))
             = update_where (fun r => LoginMfaCode.id r =? LoginMfaCode.id pr) mark_used
                 (login_mfa_codes (db w'))
          /\ In (mark_used pr)
               (login_mfa_codes (db (fst (mfa_verify check_password_hash rq' form' w'))))
          /\ _user_id (session (fst (mfa_verify check_password_hash rq' form' w')))
             = Some (User.id a)).
Proof.
  intros Hmfa Hanon Hlookup Hrole.
  split; [|split].
  - unfold login. rewrite Hanon.
    destruct (login_validate_on_submit rq form); [|exact Hanon].
    destruct (_is_rate_limited _ _ _ _ _);
      [cbn [fst]; rewrite (is_authenticated_ext w) by reflexivity; exact Hanon|].
    rewrite Hlookup.
    destruct (check_password check_password_hash u (Py.or_empty (password form)));
      cbn [negb];
      [|cbn [fst]; rewrite (is_authenticated_ext w) by reflexivity; exact Hanon].
    rewrite Hrole, Hmfa. cbn [String.eqb Ascii.eqb andb Bool.eqb].
    destruct (Py.truthy_opt (User.email u)); cbn [negb fst];
      rewrite (is_authenticated_ext w) by reflexivity; exact Hanon.
  - intros Hvalid Hfree Hpw Hemail.
    unfold login. rewrite Hanon, Hvalid, Hfree, Hlookup, Hpw. cbn [negb].
    rewrite Hrole, Hmfa. cbn [String.eqb Ascii.eqb andb Bool.eqb].
    rewrite Hemail. cbn [negb fst snd].
    repeat split; reflexivity.
  - intros rq' form' w'. apply mfa_verify_authenticates_only_with_code.
Qed.

End SecondFactor.

Lemma C1_witness :
  is_authenticated
    (fst (login plain_check cfg (post_at 0) (credentials "boss" "Admin123!") visitor)) = false
  /\ login_mfa_codes
       (db (fst (login plain_check cfg (post_at 0) (credentials "boss" "Admin123!") visitor)))
     = [issued_code cfg (post_at 0) boss staff_db].
Proof.
  destruct (C1_admin_login_needs_the_emailed_code plain_check cfg (post_at 0)
              (credentials "boss" "Admin123!") visitor boss) as (H1 & H2 & _).
  - reflexivity.
  - reflexivity.
  - reflexivity.
  - reflexivity.
  - split; [exact H1|].
    destruct H2 as (H2 & _); [reflexivity | reflexivity | reflexivity | reflexivity |].
    exact H2.
Defined.

(** C1 as stated fails for an administrator without an e-mail address: the
    right password, with the limit not reached, creates no LoginMfaCode row
    and the login page is shown again. *)
Lemma C1_admin_without_email_gets_no_code :
  User.role legacy_admin = "admin"
  /\ ADMIN_MFA_REQUIRED cfg = true
  /\ check_password plain_check legacy_admin "Chief123!" = true
  /\ _is_rate_limited cfg (post_at 0) (db visitor) (Some "chief")
       (get_client_ip (post_at 0)) = false
  /\ login_mfa_codes
       (db (fst (login plain_check cfg (post_at 0) (credentials "chief" "Chief123!") visitor)))
     = login_mfa_codes (db visitor)
  /\ snd (login plain_check cfg (post_at 0) (credentials "chief" "Chief123!") visitor)
     = Render "login.html" [].
Proof. repeat split; vm_compute; reflexivity. Qed.

End AuthFacts.

(** ** What [log_action] and the decorators leave alone *)
Module Frame.
Import Models Web Helpers.

Lemma log_action_residents rq a et ei m w :
  residents (db (log_action rq a et ei m w)) = residents (db w).
Proof. unfold log_action. destruct (current_user w); reflexivity. Qed.

Lemma log_action_documents rq a et ei m w :
  documents (db (log_action rq a et ei m w)) = documents (db w).
Proof. unfold log_action. destruct (current_user w); reflexivity. Qed.

Lemma log_action_document_types rq a et ei m w :
  document_types (db (log_action rq a et ei m w)) = document_types (db w).
Proof. unfold log_action. destruct (current_user w); reflexivity. Qed.

Lemma guarded_allowed roles w view u :
  current_user w = Some u ->
  existsb (String.eqb (User.role u)) roles = true ->
  guarded roles w view = view u.
Proof.
  intros Hu Hrole. unfold guarded. rewrite Hu, Hrole.
  destruct roles; reflexivity.
Qed.

Lemma get_id {A} (key : A -> Z) pk rows r :
  get key pk rows = Some r -> key r = pk /\ In r rows.
Proof.
  unfold get. intros H. apply find_some in H as [Hin H].
  apply Z.eqb_eq in H. split; assumption.
Qed.

Lemma update_where_keys {A} (key : A -> Z) (p : A -> bool) (f : A -> A) rows :
  (forall r, key (f r) = key r) ->
  List.map key (update_where p f rows) = List.map key rows.
Proof.
  intros Hk. unfold update_where. rewrite List.map_map. apply List.map_ext.
  intros r. destruct (p r); [apply Hk | reflexivity].
Qed.

Lemma update_where_inv {A} (p : A -> bool) (f : A -> A) rows r' :
  In r' (update_where p f rows) ->
  exists r, In r rows /\ ((p r = true /\ r' = f r) \/ (p r = false /\ r' = r)).
Proof.
  unfold update_where. intros H. apply in_map_iff in H as (r & Hr & Hin).
  exists r. split; [exact Hin|].
  destruct (p r); [left | right]; split; congruence.
Qed.

Lemma update_where_Forall2 {A} (p : A -> bool) (f : A -> A) rows :
  Forall2 (fun r r' => if p r then r' = f r else r' = r) rows (update_where p f rows).
Proof.
  induction rows as [|r rows IH]; simpl; constructor; [|exact IH].
  destruct (p r); reflexivity.
Qed.

End Frame.

(** ** Archiving and restoring residents (routes.py) *)
Module ResidentFacts.
Import Models Web Helpers Routes Examples Frame.
Local Open Scope Z_scope.

(** The columns of a resident other than the archive flag, the archive stamp
    and the update stamp. *)
Definition same_profile (a b : Resident.t) : Prop :=
  Resident.id a = Resident.id b
  /\ Resident.barangay_id a = Resident.barangay_id b
  /\ Resident.first_name a = Resident.first_name b
  /\ Resident.middle_name a = Resident.middle_name b
  /\ Resident.last_name a = Resident.last_name b
  /\ Resident.gender a = Resident.gender b
  /\ Resident.birth_date a = Resident.birth_date b
  /\ Resident.marital_status a = Resident.marital_status b
  /\ Resident.address a = Resident.address b
  /\ Resident.photo_path a = Resident.photo_path b
  /\ Resident.created_at a = Resident.created_at b
  /\ Resident.created_by_id a = Resident.created_by_id b.

Definition staff (u : User.t) : Prop := User.role u = "admin" \/ User.role u = "clerk".

Lemma staff_allowed u : staff u -> existsb (String.eqb (User.role u)) ["admin"; "clerk"] = true.
Proof. intros [H|H]; rewrite H; reflexivity. Qed.

Lemma delete_resident_db rq rid w u r :
  current_user w = Some u -> staff u ->
  get Resident.id rid (residents (db w)) = Some r ->
  residents (db (fst (delete_resident rq rid w)))
  = update_where (fun x => Resident.id x =? rid) (archive_resident (now rq) (User.id u))
      (residents (db w))
  /\ documents (db (fst (delete_resident rq rid w)))
     = update_where (fun d => (Document.resident_id d =? rid) && negb (Document.is_archived d))
         (archive_document (now rq) (User.id u)) (documents (db w)).
Proof.
  intros Hu Hs Hr. unfold delete_resident.
  rewrite (guarded_allowed _ _ _ u Hu (staff_allowed u Hs)). rewrite Hr.
  destruct (get_id _ _ _ _ Hr) as [Hid _]. rewrite Hid. cbn [fst].
  unfold do_flash, with_session. cbn [db].
  rewrite log_action_residents, log_action_documents. split; reflexivity.
Qed.

Lemma restore_resident_db rq rid w u r :
  current_user w = Some u -> staff u ->
  get Resident.id rid (residents (db w)) = Some r ->
  residents (db (fst (restore_resident rq rid w)))
  = update_where (fun x => Resident.id x =? rid) (unarchive_resident (now rq) (User.id u))
      (residents (db w))
  /\ documents (db (fst (restore_resident rq rid w))) = documents (db w).
Proof.
  intros Hu Hs Hr. unfold restore_resident.
  rewrite (guarded_allowed _ _ _ u Hu (staff_allowed u Hs)). rewrite Hr.
  destruct (get_id _ _ _ _ Hr) as [Hid _]. rewrite Hid. cbn [fst].
  unfold do_flash, with_session. cbn [db].
  rewrite log_action_residents, log_action_documents. split; reflexivity.
Qed.

(** C2 (as amended).  For a signed-in admin or clerk and an existing
    resident, [delete_resident] keeps every resident row (the keys are the
    same, in the same order), leaves the row of the resident archived with
    the archive and update stamps of the request, and leaves every document
    of the resident archived without removing any document;
    [restore_resident] clears the archive flag and stamp of the row, writes
    the update stamp of the request, keeps every other column of the row, and
    changes no other resident and no document. *)
Theorem C2_resident_soft_delete_and_restore
    (rq : Request) (rid : Z) (w : World) (u : User.t) (r : Resident.t) :
  current_user w = Some u -> staff u ->
  get Resident.id rid (residents (db w)) = Some r ->
  (List.map Resident.id (residents (db (fst (delete_resident rq rid w))))
   = List.map Resident.id (residents (db w))
   /\ (forall r', In r' (residents (db (fst (delete_resident rq rid w)))) ->
                  Resident.id r' = rid ->
                  Resident.is_archived r' = true
                  /\ Resident.archived_at r' = Some (now rq)
                  /\ Resident.archived_by_id r' = Some (User.id u)
                  /\ Resident.updated_at r' = Some (now rq)
                  /\ Resident.updated_by_id r' = Some (User.id u))
   /\ List.map Document.id (documents (db (fst (delete_resident rq rid w))))
      = List.map Document.id (documents (db w))
   /\ (forall d', In d' (documents (db (fst (delete_resident rq rid w)))) ->
                  Document.resident_id d' = rid -> Document.is_archived d' = true))
  /\ (Forall2 (fun old new =>
                 if Resident.id old =? rid
                 then Resident.is_archived new = false
                      /\ Resident.archived_at new = None
                      /\ Resident.archived_by_id new = None
                      /\ Resident.updated_at new = Some (now rq)
                      /\ Resident.updated_by_id new = Some (User.id u)
                      /\ same_profile old new
                 else new = old)
        (residents (db w)) (residents (db (fst (restore_resident rq rid w))))
      /\ documents (db (fst (restore_resident rq rid w))) = documents (db w)).
Proof.
  intros Hu Hs Hr.
  destruct (delete_resident_db rq rid w u r Hu Hs Hr) as [Hres Hdocs].
  destruct (restore_resident_db rq rid w u r Hu Hs Hr) as [Hres' Hdocs'].
  split; [split; [|split; [|split]] | split].
  - rewrite Hres. apply update_where_keys. reflexivity.
  - intros r' Hin Hid. rewrite Hres in Hin.
    apply update_where_inv in Hin as (r0 & _ & [[Hp ->]|[Hp ->]]).
    + repeat split; reflexivity.
    + apply Z.eqb_neq in Hp. contradiction.
  - rewrite Hdocs. apply update_where_keys. reflexivity.
  - intros d' Hin Hid. rewrite Hdocs in Hin.
    apply update_where_inv in Hin as (d0 & _ & [[Hp ->]|[Hp ->]]).
    + reflexivity.
    + apply andb_false_iff in Hp as [Hp|Hp].
      * apply Z.eqb_neq in Hp. contradiction.
      * apply negb_false_iff in Hp. exact Hp.
  - rewrite Hres'.
    eapply Forall2_impl; [apply update_where_Forall2|].
    intros old new H. cbv beta in H.
    destruct (Resident.id old =? rid); [|exact H].
    subst new. repeat split; reflexivity.
  - exact Hdocs'.
Qed.

Lemma C2_witness :
  List.map Resident.id
    (residents (db (fst (delete_resident (post_at 5000) 1 (logged_in clerk office_db)))))
  = [1].
Proof.
  apply (C2_resident_soft_delete_and_restore (post_at 5000) 1 (logged_in clerk office_db)
           clerk jane).
  - reflexivity.
  - right. reflexivity.
  - reflexivity.
Defined.

(** C2 as stated fails in its last part: restoring a resident also rewrites
    [updated_at] and [updated_by_id]. *)
Lemma C2_restore_rewrites_the_update_stamp :
  get Resident.id 1 (residents (db (logged_in boss office_db))) = Some jane
  /\ Resident.updated_at jane = Some 2000
  /\ Resident.updated_by_id jane = Some 3
  /\ exists jane',
       get Resident.id 1
         (residents (db (fst (restore_resident (post_at 5000) 1 (logged_in boss office_db)))))
       = Some jane'
       /\ Resident.updated_at jane' = Some 5000
       /\ Resident.updated_by_id jane' = Some 1.
Proof.
  repeat split. eexists. repeat split; vm_compute; reflexivity.
Qed.

End ResidentFacts.

(** ** The audit log (helpers.py, admin.py, app.py) *)
Module AuditFacts.
Import Models Web Helpers Forms PdfUtils Passwords Program Examples.
Local Open Scope Z_scope.


















Ltac reduce_world :=
  cbn [fst snd db session do_flash with_session with_db transaction_logs
       with_residents with_documents with_document_types with_users
       with_login_attempts with_login_mfa_codes with_password_resets
       Auth._record_login_attempt Auth._start_mfa DocumentRoutes.store_file_path].



Section Handlers.

Variable check_password_hash : string -> string -> bool.
Variable generate_password_hash : string -> string.
Variable save_captured_image : string -> string -> option string.
Variable strftime : datetime -> string -> string.
Variable draws : Template -> Document.t -> bool.
Variable installed : string -> bool.


























End Handlers.



End AuditFacts.

(** ** References from documents to residents and document types *)
Module ReferenceFacts.
Import Models Web Helpers Forms PdfUtils Passwords Program Examples Frame.
Local Open Scope Z_scope.

Definition resident_ids (d : Database) : list Z := List.map Resident.id (residents d).
Definition document_type_ids (d : Database) : list Z :=
  List.map DocumentType.id (document_types d).

(** Both foreign keys of every document point to a row that exists. *)
Definition refs_ok (d : Database) : Prop :=
  forall doc, In doc (documents d) ->
    In (Document.resident_id doc) (resident_ids d)
    /\ In (Document.document_type_id doc) (document_type_ids d).

Lemma refs_ok_same d d' :
  residents d' = residents d -> document_types d' = document_types d ->
  documents d' = documents d -> refs_ok d -> refs_ok d'.
Proof.
  unfold refs_ok, resident_ids, document_type_ids. intros -> -> ->. auto.
Qed.

Lemma refs_ok_log_action rq a et ei m w :
  refs_ok (db w) -> refs_ok (db (log_action rq a et ei m w)).
Proof.
  apply refs_ok_same;
    [apply log_action_residents | apply log_action_document_types | apply log_action_documents].
Qed.

Lemma In_map_get {A} (key : A -> Z) pk rows r :
  get key pk rows = Some r -> In (key r) (List.map key rows).
Proof. intros H. apply get_id in H as [_ H]. apply in_map. exact H. Qed.

(** Rows changed in place, keeping both references, and rows added with
    references that exist. *)
Lemma refs_ok_documents d rs docs :
  List.map Resident.id rs = resident_ids d ->
  (forall doc', In doc' docs ->
     (exists doc, In doc (documents d)
                  /\ Document.resident_id doc' = Document.resident_id doc
                  /\ Document.document_type_id doc' = Document.document_type_id doc)
     \/ (In (Document.resident_id doc') (resident_ids d)
         /\ In (Document.document_type_id doc') (document_type_ids d))) ->
  refs_ok d -> refs_ok (with_documents docs (with_residents rs d)).
Proof.
  intros Hrs Hdocs Hok doc' Hin.
  unfold resident_ids, document_type_ids in *. cbn [residents document_types with_documents
    with_residents documents] in *. rewrite Hrs.
  destruct (Hdocs doc' Hin) as [(doc & Hd & -> & ->)|H]; [apply Hok; exact Hd | exact H].
Qed.

Lemma update_where_refs (p : Document.t -> bool) (f : Document.t -> Document.t) docs doc' :
  (forall x, Document.resident_id (f x) = Document.resident_id x
             /\ Document.document_type_id (f x) = Document.document_type_id x) ->
  In doc' (update_where p f docs) ->
  exists doc, In doc docs
              /\ Document.resident_id doc' = Document.resident_id doc
              /\ Document.document_type_id doc' = Document.document_type_id doc.
Proof.
  intros Hf Hin. apply update_where_inv in Hin as (doc & Hd & [[_ ->]|[_ ->]]);
    exists doc; (split; [exact Hd|]); [apply Hf | split; reflexivity].
Qed.

Ltac reduce_world :=
  cbn [fst snd db session do_flash with_session with_db
       Auth._record_login_attempt Auth._start_mfa DocumentRoutes.store_file_path].

Ltac split_handler :=
  repeat match goal with
         | |- refs_ok (db (fst (match ?x with _ => _ end))) => destruct x eqn:?
         | |- refs_ok (db (fst (fst (match ?x with _ => _ end)))) => destruct x eqn:?
         end.

Ltac unchanged H :=
  reduce_world;
  first [ exact H
        | apply refs_ok_log_action; unchanged H
        | (eapply refs_ok_same; [| | | exact H]); reflexivity ].

Section Handlers.

Variable check_password_hash : string -> string -> bool.
Variable generate_password_hash : string -> string.
Variable save_captured_image : string -> string -> option string.
Variable strftime : datetime -> string -> string.
Variable draws : Template -> Document.t -> bool.
Variable installed : string -> bool.

Lemma guarded_refs roles w view :
  refs_ok (db w) -> (forall u, refs_ok (db (fst (view u)))) ->
  refs_ok (db (fst (guarded roles w view))).
Proof.
  intros H Hv. unfold guarded.
  destruct (current_user w) as [u|]; [|exact H].
  destruct roles; [apply Hv|].
  destruct (existsb _ _); [apply Hv | exact H].
Qed.

Lemma _finalize_login_refs rq user remember next_page action w :
  refs_ok (db w) ->
  refs_ok (db (fst (Auth._finalize_login check_password_hash rq user remember next_page
                      action w))).
Proof.
  intros H. unfold Auth._finalize_login. cbv zeta.
  destruct (_ && _); reduce_world; apply refs_ok_log_action; exact H.
Qed.

Lemma login_refs cfg rq form w :
  refs_ok (db w) -> refs_ok (db (fst (Auth.login check_password_hash cfg rq form w))).
Proof.
  intros H. unfold Auth.login. cbv zeta.
  destruct (is_authenticated w); [exact H|].
  destruct (login_validate_on_submit rq form); [|exact H].
  destruct (Auth._is_rate_limited _ _ _ _ _); [exact H|].
  destruct (Auth.user_by_username _ _) as [user|]; [|unchanged H].
  destruct (negb _); [unchanged H|].
  destruct (_ && _).
  - destruct (negb _); unchanged H.
  - apply _finalize_login_refs. unchanged H.
Qed.

Lemma mfa_verify_refs rq form w :
  refs_ok (db w) -> refs_ok (db (fst (Auth.mfa_verify check_password_hash rq form w))).
Proof.
  intros H. unfold Auth.mfa_verify. cbv zeta.
  destruct (is_authenticated w); [exact H|].
  destruct (mfa_user_id (session w)) as [uid|]; [|exact H].
  destruct (uid =? 0); [exact H|].
  destruct (get User.id uid (users (db w))) as [user|]; [|exact H].
  destruct (mfa_validate_on_submit rq form); [|exact H].
  destruct (Auth.latest_expiry _) as [pr|]; [|exact H].
  destruct (now rq <? _); [|exact H].
  apply _finalize_login_refs. unchanged H.
Qed.

Lemma add_resident_refs rq form w :
  refs_ok (db w) ->
  refs_ok (db (fst (Routes.add_resident save_captured_image rq form w))).
Proof.
  intros H. unfold Routes.add_resident. apply guarded_refs; [exact H|]. intros u. cbv zeta.
  split_handler; try (unchanged H); reduce_world; apply refs_ok_log_action;
    intros doc Hin; destruct (H doc Hin) as [Hr Ht];
    (split; [|exact Ht]);
    unfold resident_ids in *; cbn [residents db with_db with_residents];
    rewrite List.map_app; apply in_or_app; left; exact Hr.
Qed.

Lemma delete_resident_refs rq rid w :
  refs_ok (db w) -> refs_ok (db (fst (Routes.delete_resident rq rid w))).
Proof.
  intros H. unfold Routes.delete_resident. apply guarded_refs; [exact H|]. intros u. cbv zeta.
  split_handler; try (unchanged H). reduce_world. apply refs_ok_log_action.
  apply refs_ok_documents; [apply update_where_keys; reflexivity | | exact H].
  intros doc' Hin. left. eapply update_where_refs; [|exact Hin].
  intros x. split; reflexivity.
Qed.

Lemma restore_resident_refs rq rid w :
  refs_ok (db w) -> refs_ok (db (fst (Routes.restore_resident rq rid w))).
Proof.
  intros H. unfold Routes.restore_resident. apply guarded_refs; [exact H|]. intros u. cbv zeta.
  split_handler; try (unchanged H). reduce_world. apply refs_ok_log_action.
  intros doc Hin. destruct (H doc Hin) as [Hr Ht]. split; [|exact Ht].
  unfold resident_ids in *. cbn [residents with_residents db with_db].
  rewrite update_where_keys by reflexivity. exact Hr.
Qed.

Lemma new_draft_refs rq rows r t details issued by_ :
  Document.resident_id (DocumentRoutes.new_draft rq rows r t details issued by_) = r
  /\ Document.document_type_id (DocumentRoutes.new_draft rq rows r t details issued by_) = t.
Proof. split; reflexivity. Qed.

Lemma issue_document_refs rq form w :
  refs_ok (db w) ->
  refs_ok (db (fst (DocumentRoutes.issue_document save_captured_image rq form w))).
Proof.
  intros H. unfold DocumentRoutes.issue_document. apply guarded_refs; [exact H|].
  intros u. cbv zeta.
  destruct (negb _); [exact H|].
  destruct (get Resident.id _ _) as [resident|] eqn:Hres; [|exact H].
  destruct (get DocumentType.id _ _) as [doc_type|] eqn:Htype; [|exact H].
  apply In_map_get in Hres, Htype.
  split_handler; try (unchanged H). reduce_world. apply refs_ok_log_action.
  cbn [db with_db]. apply refs_ok_documents; [| | exact H].
  - destruct (DocumentRoutes.resident_photo_data form) as [p|]; [|reflexivity].
    destruct (Py.truthy p); [|reflexivity].
    apply update_where_keys. reflexivity.
  - intros doc' Hin. apply in_app_or in Hin as [Hin|[<-|[]]].
    + left. exists doc'. repeat split. exact Hin.
    + right. split; assumption.
Qed.

Lemma select_valid_In choices o :
  DocumentRoutes.select_valid choices o = true -> exists v, o = Some v /\ In v choices.
Proof.
  destruct o as [v|]; [|discriminate]. cbn. intros H.
  apply andb_true_iff in H as [_ H]. apply existsb_exists in H as (x & Hx & E).
  apply Z.eqb_eq in E. subst x. exists v. split; [reflexivity | exact Hx].
Qed.

Lemma resident_choices_incl d v :
  In v (DocumentRoutes.resident_choices d) -> In v (resident_ids d).
Proof.
  unfold DocumentRoutes.resident_choices, resident_ids. intros H.
  apply in_map_iff in H as (r & <- & Hr). apply filter_In in Hr as [Hr _].
  apply in_map. exact Hr.
Qed.

Lemma edit_document_refs rq id form w :
  refs_ok (db w) -> refs_ok (db (fst (DocumentRoutes.edit_document rq id form w))).
Proof.
  intros H. unfold DocumentRoutes.edit_document. apply guarded_refs; [exact H|].
  intros u. cbv zeta.
  destruct (get Document.id id _) as [document|]; [|exact H].
  destruct (Document.is_archived document); [exact H|].
  destruct (String.eqb _ _); [exact H|].
  destruct (negb _) eqn:Hvalid; [exact H|].
  apply negb_false_iff in Hvalid. unfold DocumentRoutes.document_validate_on_submit in Hvalid.
  apply andb_true_iff in Hvalid as [Hvalid Ht].
  apply andb_true_iff in Hvalid as [_ Hr].
  apply select_valid_In in Hr as (r & Hr & Hrin), Ht as (t & Ht & Htin).
  apply resident_choices_incl in Hrin.
  split_handler; try (unchanged H). reduce_world. apply refs_ok_log_action.
  intros doc' Hin. cbn [documents with_documents] in Hin.
  apply update_where_inv in Hin as (doc & Hd & [[_ ->]|[_ ->]]).
  - unfold DocumentRoutes.edited. cbn [Document.resident_id Document.document_type_id].
    rewrite Hr, Ht. split; assumption.
  - apply H. exact Hd.
Qed.

Lemma revise_document_refs rq id w :
  refs_ok (db w) -> refs_ok (db (fst (DocumentRoutes.revise_document rq id w))).
Proof.
  intros H. unfold DocumentRoutes.revise_document. apply guarded_refs; [exact H|].
  intros u. cbv zeta.
  destruct (get Document.id id _) as [document|] eqn:Hdoc; [|exact H].
  apply get_id in Hdoc as [_ Hdoc].
  split_handler; try (unchanged H). reduce_world. apply refs_ok_log_action.
  intros doc' Hin. cbn [documents with_documents] in Hin.
  apply in_app_or in Hin as [Hin|[<-|[]]]; [apply H; exact Hin|].
  apply (H document Hdoc).
Qed.

Lemma download_document_pdf_refs cfg rq id w fs :
  refs_ok (db w) ->
  refs_ok (db (fst (fst (DocumentRoutes.download_document_pdf strftime draws installed
                           cfg rq id w fs)))).
Proof.
  intros H. unfold DocumentRoutes.download_document_pdf. cbv zeta.
  assert (Hstore : forall doc p w', refs_ok (db w') ->
                   refs_ok (db (DocumentRoutes.store_file_path doc p w'))).
  { intros doc p w' Hw doc' Hin. cbn in Hin.
    apply update_where_inv in Hin as (d0 & Hd & [[_ ->]|[_ ->]]); apply (Hw d0 Hd). }
  split_handler;
    cbn [fst snd db session do_flash with_session with_db];
    repeat first [ exact H | apply Hstore | apply refs_ok_log_action ].
Qed.

Lemma delete_user_refs fk rq id w :
  refs_ok (db w) -> refs_ok (db (fst (Admin.delete_user fk rq id w))).
Proof.
  intros H. unfold Admin.delete_user. apply guarded_refs; [exact H|]. intros u. cbv zeta.
  split_handler; unchanged H.
Qed.

Lemma delete_document_type_refs rq id w :
  refs_ok (db w) -> refs_ok (db (fst (Admin.delete_document_type rq id w))).
Proof.
  intros H. unfold Admin.delete_document_type. apply guarded_refs; [exact H|].
  intros u. cbv zeta.
  split_handler; try (unchanged H). reduce_world. apply refs_ok_log_action.
  intros doc Hin. cbn [documents with_documents] in Hin.
  unfold delete_where in Hin. apply filter_In in Hin as [Hin Hkeep].
  apply negb_true_iff, Z.eqb_neq in Hkeep.
  destruct (H doc Hin) as [Hr Ht]. split; [exact Hr|].
  unfold document_type_ids in *. cbn [document_types with_documents with_document_types].
  apply in_map_iff in Ht as (ty & Hty & Htin). apply in_map_iff. exists ty.
  split; [exact Hty|]. unfold delete_where. apply filter_In. split; [exact Htin|].
  apply negb_true_iff, Z.eqb_neq. congruence.
Qed.

Lemma purged_refs root months grace dry now_ today_ d fs :
  refs_ok d -> refs_ok (fst (App.purged root months grace dry now_ today_ d fs)).
Proof.
  intros H. unfold App.purged, App._process_expired_documents.
  destruct (months <=? 0); [exact H|].
  destruct (App.expired months (fun e => date_ltb e today_) _) as [la|];
    cbn [mbind option_bind]; [|exact H].
  destruct (App.cutoff_date today_ grace) as [cutoff|]; cbn [mbind option_bind]; [|exact H].
  destruct (App.expired months _ _) as [ld|]; cbn [mbind option_bind]; [|exact H].
  destruct dry; [exact H|].
  cbn [fst]. intros doc' Hin.
  cbn [documents with_transaction_logs with_documents] in Hin.
  unfold delete_where in Hin. apply filter_In in Hin as [Hin _].
  apply update_where_inv in Hin as (doc & Hd & [[_ ->]|[_ ->]]); apply (H doc Hd).
Qed.

Lemma refs_ok_update (p : Document.t -> bool) (f : Document.t -> Document.t) d :
  (forall x, Document.resident_id (f x) = Document.resident_id x
             /\ Document.document_type_id (f x) = Document.document_type_id x) ->
  refs_ok d -> refs_ok (with_documents (update_where p f (documents d)) d).
Proof.
  intros Hf H doc' Hin. cbn [documents with_documents] in Hin.
  apply (update_where_refs p f) in Hin as (doc & Hd & Er & Et); [|exact Hf].
  rewrite Er, Et. apply (H doc Hd).
Qed.

Lemma store_file_path_refs doc p w :
  refs_ok (db w) -> refs_ok (db (DocumentRoutes.store_file_path doc p w)).
Proof.
  intros H doc' Hin. cbn in Hin.
  apply update_where_inv in Hin as (d0 & Hd & [[_ ->]|[_ ->]]); apply (H d0 Hd).
Qed.

Ltac kept H :=
  reduce_world;
  repeat first [ exact H
               | apply refs_ok_log_action
               | apply store_file_path_refs
               | apply refs_ok_update; [intros x; split; reflexivity|]
               | match goal with
                 | |- refs_ok (db (if ?c then _ else _)) => destruct c
                 | |- refs_ok (db (match ?x with _ => _ end)) => destruct x
                 end
               | (eapply refs_ok_same; [| | | exact H]); reflexivity ].

Lemma logout_refs rq w :
  refs_ok (db w) -> refs_ok (db (fst (SessionSecurity.logout rq w))).
Proof.
  intros H. unfold SessionSecurity.logout. apply guarded_refs; [exact H|]. intros u.
  cbv zeta. kept H.
Qed.

Lemma enforce_session_security_refs idle endpoint rq w :
  refs_ok (db w) ->
  refs_ok (db (fst (SessionSecurity.enforce_session_security idle endpoint rq w))).
Proof.
  intros H. unfold SessionSecurity.enforce_session_security. cbv zeta.
  split_handler; kept H.
Qed.

Lemma change_password_refs policy rq form w :
  refs_ok (db w) ->
  refs_ok (db (fst (change_password check_password_hash generate_password_hash
                      policy rq form w))).
Proof.
  intros H. unfold change_password. apply guarded_refs; [exact H|]. intros u. cbv zeta.
  split_handler; kept H.
Qed.

Lemma forgot_password_refs rq form w :
  refs_ok (db w) -> refs_ok (db (fst (forgot_password rq form w))).
Proof.
  intros H. unfold forgot_password. cbv zeta. split_handler; kept H.
Qed.

Lemma reset_password_refs policy rq form w :
  refs_ok (db w) ->
  refs_ok (db (fst (reset_password generate_password_hash policy rq form w))).
Proof.
  intros H. unfold reset_password. cbv zeta. split_handler; kept H.
Qed.

Lemma finalize_document_issue_refs cfg rq id w fs :
  refs_ok (db w) ->
  refs_ok (db (fst (fst (DocumentLifecycle.finalize_document_issue strftime draws installed
                           cfg rq id w fs)))).
Proof.
  intros H. unfold DocumentLifecycle.finalize_document_issue. cbv zeta.
  split_handler; kept H.
Qed.

Lemma delete_document_refs rq id w :
  refs_ok (db w) -> refs_ok (db (fst (DocumentLifecycle.delete_document rq id w))).
Proof.
  intros H. unfold DocumentLifecycle.delete_document. apply guarded_refs; [exact H|].
  intros u. cbv zeta. split_handler; kept H.
Qed.

Lemma restore_document_refs rq id w :
  refs_ok (db w) -> refs_ok (db (fst (DocumentLifecycle.restore_document rq id w))).
Proof.
  intros H. unfold DocumentLifecycle.restore_document. apply guarded_refs; [exact H|].
  intros u. cbv zeta. split_handler; kept H.
Qed.

(** The guard of [delete_document_type]: a type that a document refers to
    stays in the table. *)
Lemma delete_document_type_refuses rq type_id w doc :
  In doc (documents (db w)) -> Document.document_type_id doc = type_id ->
  document_types (db (fst (Admin.delete_document_type rq type_id w))) = document_types (db w).
Proof.
  intros Hin Hty. unfold Admin.delete_document_type, guarded.
  destruct (current_user w) as [u|]; [|reflexivity].
  cbn [existsb]. destruct (_ || _); [|reflexivity].
  destruct (get DocumentType.id type_id _) as [dt|] eqn:Hdt; [|reflexivity].
  apply get_id in Hdt as [Hid _].
  destruct (List.find _ (documents (db w))) as [used|] eqn:Hfind; [reflexivity|].
  exfalso. eapply find_none in Hfind; [|exact Hin].
  apply Z.eqb_neq in Hfind. congruence.
Qed.

(** C6.  The two references of a document are integers, not NULL.  If every
    document of the database refers to an existing resident and an existing
    document type, the same holds after any modelled operation: the rows
    that [issue_document] and [revise_document] add take both references
    from rows that exist, [edit_document] only accepts values among the
    existing rows, and [delete_document_type] leaves in place every type
    that a document refers to. *)
Theorem C6_document_references_never_dangle
    (op : Operation) (s : State) :
  refs_ok (db (fst s)) ->
  refs_ok (db (fst (run check_password_hash generate_password_hash save_captured_image
                      strftime draws installed op s)))
  /\ (forall rq type_id doc,
        op = DeleteDocumentType rq type_id ->
        In doc (documents (db (fst s))) -> Document.document_type_id doc = type_id ->
        document_types
          (db (fst (run check_password_hash generate_password_hash save_captured_image
                      strftime draws installed op s)))
        = document_types (db (fst s))).
Proof.
  intros H. split.
  - destruct op; cbn [run on_world on_disk fst snd].
    + apply login_refs; exact H.
    + apply mfa_verify_refs; exact H.
    + apply logout_refs; exact H.
    + apply change_password_refs; exact H.
    + apply forgot_password_refs; exact H.
    + apply reset_password_refs; exact H.
    + apply enforce_session_security_refs; exact H.
    + apply add_resident_refs; exact H.
    + apply delete_resident_refs; exact H.
    + apply restore_resident_refs; exact H.
    + apply issue_document_refs; exact H.
    + apply edit_document_refs; exact H.
    + apply finalize_document_issue_refs; exact H.
    + apply revise_document_refs; exact H.
    + apply delete_document_refs; exact H.
    + apply restore_document_refs; exact H.
    + apply download_document_pdf_refs; exact H.
    + apply delete_user_refs; exact H.
    + apply delete_document_type_refs; exact H.
    + cbn [db with_db]. apply purged_refs; exact H.
  - intros rq type_id doc -> Hin Hty. cbn [run on_world fst].
    eapply delete_document_type_refuses; eassumption.
Qed.

End Handlers.

Lemma office_db_refs_ok : refs_ok office_db.
Proof.
  intros doc [<-|[]]. split; vm_compute; auto.
Defined.

Lemma C6_witness :
  refs_ok
    (db (fst (run plain_check plain_hash no_upload fixed_stamp always_draws forms_installed
                (ReviseDocument (post_at 7000) 1)
                (logged_in clerk office_db, nothing_on_disk)))).
Proof.
  apply (C6_document_references_never_dangle plain_check plain_hash no_upload fixed_stamp
           always_draws forms_installed
           (ReviseDocument (post_at 7000) 1) (logged_in clerk office_db, nothing_on_disk)).
  exact office_db_refs_ok.
Defined.

End ReferenceFacts.

(** ** The background worker (app.py) *)
Module WorkerFacts.
Import Models Web App SessionSecurity Hooks Examples.
Local Open Scope Z_scope.

(** The worker thread that [_start_auto_purge_worker] creates. *)
Definition purge_thread (app : Application) : Thread :=
  {| thread_name := "auto-purge-expired"; daemon := true;
     interval_seconds := Z.max 60 (PURGE_CHECK_INTERVAL_MINUTES app * 60) |}.

(** The conditions under which [_start_auto_purge_worker] finds no worker
    and starts one. *)
Definition starts_worker (app : Application) : bool :=
  AUTO_PURGE_EXPIRED app && negb (testing app)
  && negb (debug app && negb (bool_decide (WERKZEUG_RUN_MAIN app = Some "true")))
  && negb (auto_purge_started app).

(** Whether a request gets as far as the function that starts the worker:
    the CSRF check lets it through and [enforce_session_security] returns
    no response. *)
Definition reaches_worker (idle_timeout : Z) (r : Arrival * World) : bool :=
  csrf_ok (fst r)
  && match snd (enforce_session_security idle_timeout (endpoint (fst r)) (request (fst r))
                  (snd r)) with
     | None => true
     | Some _ => false
     end.

Lemma hook_threads app :
  threads (_start_auto_purge_on_first_request app)
  = if starts_worker app then (threads app ++ [purge_thread app])%list else threads app.
Proof.
  unfold _start_auto_purge_on_first_request, _start_auto_purge_worker, starts_worker.
  destruct (AUTO_PURGE_EXPIRED app), (testing app), (debug app),
    (bool_decide (WERKZEUG_RUN_MAIN app = Some "true")), (auto_purge_started app);
    reflexivity.
Qed.

Lemma hook_started app :
  starts_worker app = true ->
  auto_purge_started (_start_auto_purge_on_first_request app) = true.
Proof.
  unfold _start_auto_purge_on_first_request, _start_auto_purge_worker, starts_worker.
  destruct (AUTO_PURGE_EXPIRED app), (testing app), (debug app),
    (bool_decide (WERKZEUG_RUN_MAIN app = Some "true")), (auto_purge_started app);
    cbn; congruence.
Qed.

Lemma hook_idle app :
  starts_worker app = false -> _start_auto_purge_on_first_request app = app.
Proof.
  unfold _start_auto_purge_on_first_request, _start_auto_purge_worker, starts_worker.
  destruct (AUTO_PURGE_EXPIRED app), (testing app), (debug app),
    (bool_decide (WERKZEUG_RUN_MAIN app = Some "true")), (auto_purge_started app);
    cbn; first [reflexivity | discriminate].
Qed.

Lemma started_idle app : auto_purge_started app = true -> starts_worker app = false.
Proof. unfold starts_worker. intros ->. rewrite andb_false_r. reflexivity. Qed.

(** The application object after the functions that run before a request. *)
Lemma preprocess_request_app idle a app w :
  fst (fst (preprocess_request idle a app w))
  = if reaches_worker idle (a, w) then _start_auto_purge_on_first_request app else app.
Proof.
  unfold preprocess_request, reaches_worker. cbn [fst snd].
  destruct (csrf_ok a); [|reflexivity]. cbn [negb andb].
  destruct (enforce_session_security idle (endpoint a) (request a) w) as [w1 [r|]];
    reflexivity.
Qed.

Lemma after_requests_idle idle requests app :
  starts_worker app = false -> after_requests idle requests app = app.
Proof.
  intros H. unfold after_requests.
  induction requests as [|[a w] requests IH]; [reflexivity|].
  cbn [fold_left fst snd]. rewrite preprocess_request_app.
  destruct (reaches_worker idle (a, w)); [rewrite (hook_idle app H)|]; exact IH.
Qed.

Lemma after_requests_app idle requests app :
  after_requests idle requests app
  = if starts_worker app && existsb (reaches_worker idle) requests
    then _start_auto_purge_on_first_request app else app.
Proof.
  destruct (starts_worker app) eqn:Hs; [|apply after_requests_idle; exact Hs].
  cbn [andb]. revert app Hs.
  induction requests as [|[a w] requests IH]; intros app Hs; [reflexivity|].
  change (after_requests idle ((a, w) :: requests) app)
    with (after_requests idle requests (fst (fst (preprocess_request idle a app w)))).
  rewrite preprocess_request_app. cbn [existsb].
  destruct (reaches_worker idle (a, w)); cbn [orb].
  - apply after_requests_idle, started_idle, hook_started. exact Hs.
  - apply IH. exact Hs.
Qed.

(** C8 (as amended).  The application does start a thread of its own.  The
    last of the functions that run before a request creates, under the
    conditions of [starts_worker], one daemon thread named
    "auto-purge-expired" that repeats the purge of expired documents at an
    interval of max(60, 60 * PURGE_CHECK_INTERVAL_MINUTES) seconds.  Over
    any requests handled one after the other, whatever session and database
    each of them meets, the threads of the application are those it had,
    plus that one as soon as a request gets past the CSRF check and
    [enforce_session_security]; a request that one of these two ends starts
    no thread, and no second thread is ever added. *)
Theorem C8_one_background_worker
    (idle_timeout : Z) (requests : list (Arrival * World)) (app : Application) :
  let app' := after_requests idle_timeout requests app in
  (starts_worker app && existsb (reaches_worker idle_timeout) requests = true ->
   threads app' = (threads app ++ [purge_thread app])%list
   /\ auto_purge_started app' = true)
  /\ (starts_worker app && existsb (reaches_worker idle_timeout) requests = false ->
      app' = app)
  /\ (forall more,
        auto_purge_started app' = true ->
        after_requests idle_timeout more app' = app')
  /\ thread_name (purge_thread app) = "auto-purge-expired"
  /\ daemon (purge_thread app) = true
  /\ interval_seconds (purge_thread app) = Z.max 60 (60 * PURGE_CHECK_INTERVAL_MINUTES app).
Proof.
  cbv zeta. rewrite after_requests_app.
  split; [|split; [|split; [|split; [|split]]]].
  - intros H. rewrite H. apply andb_true_iff in H as [Hs _].
    rewrite hook_threads, Hs. split; [reflexivity|apply hook_started; exact Hs].
  - intros H. rewrite H. reflexivity.
  - intros more H. apply after_requests_idle, started_idle. exact H.
  - reflexivity.
  - reflexivity.
  - cbn. rewrite Z.mul_comm. reflexivity.
Qed.

(** A first request: the login form, submitted with a valid CSRF token. *)
Definition first_request : Arrival :=
  {| request := post_at 0; endpoint := Some "auth.login"; referrer := None;
     csrf_ok := true |}.

(** C8 as stated fails: the first request to a production deployment with
    the default settings starts a thread that schedules the purge once a
    day. *)
Lemma C8_first_request_starts_a_thread :
  threads production_app = []
  /\ threads (fst (fst (preprocess_request 1800 first_request production_app visitor)))
     = [{| thread_name := "auto-purge-expired"; daemon := true; interval_seconds := 86400 |}].
Proof. split; reflexivity. Qed.

End WorkerFacts.

(** ** Where generated PDFs are stored and served from (pdf_utils.py, routes.py) *)
Module PdfFacts.
Import Models Web Helpers PdfUtils DocumentRoutes Examples Frame.
Local Open Scope Z_scope.

Fixpoint no_slash (s : string) : bool :=
  match s with
  | EmptyString => true
  | String c r => negb (Ascii.eqb c "/") && no_slash r
  end.

Lemma no_slash_lstrip p s : no_slash s = true -> no_slash (Py.lstrip_by p s) = true.
Proof.
  induction s as [|c r IH]; [reflexivity|]. intros H. cbn [Py.lstrip_by].
  destruct (p c); [|exact H].
  apply IH. cbn in H. apply andb_true_iff in H. apply H.
Qed.

Lemma no_slash_rstrip p s : no_slash s = true -> no_slash (Py.rstrip_by p s) = true.
Proof.
  induction s as [|c r IH]; [reflexivity|]. intros H. cbn in H.
  apply andb_true_iff in H as [Hc Hr]. specialize (IH Hr). cbn [Py.rstrip_by].
  destruct (Py.rstrip_by p r) as [|c' r'].
  - destruct (p c); [reflexivity|]. cbn. rewrite Hc. reflexivity.
  - cbn [no_slash]. rewrite Hc. exact IH.
Qed.

Lemma isalnum_not_slash c : Py.isalnum c = true -> Ascii.eqb c "/" = false.
Proof.
  destruct (Ascii.eqb c "/") eqn:E; [|reflexivity].
  apply Ascii.eqb_eq in E. subst c. vm_compute. congruence.
Qed.

Lemma _safe_filename_no_slash text : no_slash (_safe_filename text) = true.
Proof.
  unfold _safe_filename, Py.strip_by. apply no_slash_rstrip, no_slash_lstrip.
  induction text as [|c r IH]; [reflexivity|]. cbn [Py.map_string no_slash].
  rewrite IH, andb_true_r.
  destruct (Py.isalnum c) eqn:Ha; cbn [orb].
  - rewrite (isalnum_not_slash c Ha). reflexivity.
  - destruct (Ascii.eqb c "-") eqn:Hd; cbn [orb].
    + apply Ascii.eqb_eq in Hd. subst c. reflexivity.
    + destruct (Ascii.eqb c "_") eqn:Hu; [|reflexivity].
      apply Ascii.eqb_eq in Hu. subst c. reflexivity.
Qed.

Lemma folder_of_shape d doc :
  no_slash (folder_of d doc) = true /\ Py.truthy (folder_of d doc) = true.
Proof.
  unfold folder_of. destruct (Py.truthy (_safe_filename _)) eqn:E.
  - split; [apply _safe_filename_no_slash | exact E].
  - split; reflexivity.
Qed.

Lemma no_slash_starts s : no_slash s = true -> Py.starts_with "/" s = false.
Proof.
  destruct s as [|c r]; [reflexivity|]. cbn [no_slash]. intros H.
  apply andb_true_iff in H as [H _]. apply negb_true_iff in H.
  change (Py.starts_with "/" (String c r)) with (Ascii.eqb "/" c && true).
  rewrite Ascii.eqb_sym. rewrite H. reflexivity.
Qed.

Lemma no_slash_ends s : no_slash s = true -> ends_with_slash s = false.
Proof.
  induction s as [|c r IH]; [reflexivity|]. cbn [no_slash ends_with_slash]. intros H.
  apply andb_true_iff in H as [Hc Hr]. apply negb_true_iff in Hc.
  destruct r; [exact Hc | apply IH; exact Hr].
Qed.

Lemma ends_with_slash_app a b :
  Py.truthy b = true -> ends_with_slash (a +:+ b) = ends_with_slash b.
Proof.
  intros Hb. induction a as [|c r IH]; [reflexivity|].
  change (ends_with_slash (String c (r +:+ b)) = ends_with_slash b).
  rewrite <- IH. cbn [ends_with_slash].
  destruct (r +:+ b) eqn:E; [|reflexivity].
  destruct r; [change (b = "") in E; rewrite E in Hb; discriminate | discriminate].
Qed.

Lemma truthy_app a b : Py.truthy b = true -> Py.truthy (a +:+ b) = true.
Proof. destruct a; [tauto | reflexivity]. Qed.

Lemma starts_with_app a b :
  Py.truthy a = true -> Py.starts_with "/" (a +:+ b) = Py.starts_with "/" a.
Proof.
  destruct a as [|c r]; [discriminate|]. intros _.
  change (Ascii.eqb "/" c && true = Ascii.eqb "/" c && true). reflexivity.
Qed.

Lemma app_assoc_s a b c : (a +:+ b) +:+ c = a +:+ (b +:+ c).
Proof.
  induction a as [|x a IH]; [reflexivity|].
  change (String x ((a +:+ b) +:+ c) = String x (a +:+ (b +:+ c))). f_equal. exact IH.
Qed.

(** Joining a relative, non-empty component that does not end in a slash. *)
Lemma join2_plain a b :
  Py.truthy a = true -> ends_with_slash a = false -> Py.starts_with "/" b = false ->
  join2 a b = a +:+ "/" +:+ b.
Proof. intros Ha He Hb. unfold join2. rewrite Hb, Ha, He. reflexivity. Qed.

Section Layout.

Variable strftime : datetime -> string -> string.
Variable draws : Template -> Document.t -> bool.
Variable installed : string -> bool.

Lemma filename_of_shape rq d doc :
  Py.starts_with "/" (filename_of strftime rq d doc) = false
  /\ Py.truthy (filename_of strftime rq d doc) = true.
Proof.
  destruct (folder_of_shape d doc) as [Hn Ht]. unfold filename_of.
  split.
  - rewrite starts_with_app by exact Ht. apply no_slash_starts. exact Hn.
  - destruct (folder_of d doc); [discriminate | reflexivity].
Qed.

(** The relative path returned by [generate_document_pdf]. *)
Lemma relative_path rq d doc :
  path_join "uploads" ["documents"; folder_of d doc; filename_of strftime rq d doc]
  = "uploads/documents/" +:+ folder_of d doc +:+ "/" +:+ filename_of strftime rq d doc.
Proof.
  destruct (folder_of_shape d doc) as [Hn Ht].
  destruct (filename_of_shape rq d doc) as [Hf _].
  unfold path_join. cbn [fold_left].
  change (join2 "uploads" "documents") with "uploads/documents".
  rewrite (join2_plain "uploads/documents") by (first [reflexivity | apply no_slash_starts; exact Hn]).
  rewrite join2_plain.
  - rewrite !app_assoc_s. reflexivity.
  - reflexivity.
  - rewrite !ends_with_slash_app by (first [exact Ht | apply truthy_app; exact Ht]).
    apply no_slash_ends. exact Hn.
  - exact Hf.
Qed.

(** Below an uploads folder that sits at [static/uploads] of the
    application, the returned path resolved against [static] is the file
    that was written. *)
Lemma resolves_under_static root rq d doc :
  path_join root ["static"; path_join "uploads"
                              ["documents"; folder_of d doc; filename_of strftime rq d doc]]
  = path_join (path_join root ["static"; "uploads"])
      ["documents"; folder_of d doc; filename_of strftime rq d doc].
Proof.
  rewrite relative_path.
  destruct (folder_of_shape d doc) as [Hn Ht].
  destruct (filename_of_shape rq d doc) as [Hf _].
  unfold path_join. cbn [fold_left].
  set (s := join2 root "static").
  assert (Hs : Py.truthy s = true /\ ends_with_slash s = false).
  { unfold s, join2. cbn [Py.starts_with Ascii.eqb Bool.eqb andb].
    destruct (negb (Py.truthy root) || ends_with_slash root).
    - split; [apply truthy_app; reflexivity | rewrite ends_with_slash_app; reflexivity].
    - split; [apply truthy_app; reflexivity | rewrite !ends_with_slash_app; reflexivity]. }
  destruct Hs as [Hs1 Hs2].
  rewrite (join2_plain s) by (first [assumption | reflexivity]).
  rewrite (join2_plain s "uploads") by (first [assumption | reflexivity]).
  rewrite (join2_plain _ "documents");
    [| apply truthy_app; reflexivity | rewrite !ends_with_slash_app; reflexivity | reflexivity].
  rewrite (join2_plain _ (folder_of d doc));
    [| apply truthy_app; reflexivity | rewrite !ends_with_slash_app; reflexivity
     | apply no_slash_starts; exact Hn].
  rewrite (join2_plain _ (filename_of strftime rq d doc));
    [| apply truthy_app, truthy_app; exact Ht
     | rewrite !ends_with_slash_app by (first [exact Ht | apply truthy_app; exact Ht]);
       apply no_slash_ends; exact Hn
     | exact Hf].
  rewrite !app_assoc_s. reflexivity.
Qed.

(** The path the download route resolves: the stored [file_path] against
    the [static] directory of the application. *)
Definition stored_path (cfg : Config) (doc : Document.t) : string :=
  path_join (root_path cfg) ["static"; Py.or_empty (Document.file_path doc)].

Lemma generate_document_pdf_spec cfg rq d doc fs fs' rel :
  generate_document_pdf strftime draws installed cfg rq d doc fs = Some (fs', rel) ->
  rel = path_join "uploads" ["documents"; folder_of d doc; filename_of strftime rq d doc]
  /\ fs' = <[path_join (uploads_root cfg)
               ["documents"; folder_of d doc; filename_of strftime rq d doc]
             := {| pdf_template := choose_template installed cfg d doc; pdf_document := doc |}]> fs.
Proof.
  unfold generate_document_pdf. destruct (draws _ _); [|discriminate].
  intros H. inversion H. split; reflexivity.
Qed.

Lemma get_update_where (p : Document.t -> bool) f id rows doc :
  (forall x, Document.id (f x) = Document.id x) ->
  (forall x, Document.id x = id -> p x = true) ->
  get Document.id id rows = Some doc ->
  get Document.id id (update_where p f rows) = Some (f doc).
Proof.
  intros Hf Hp. unfold get, update_where. induction rows as [|r rows IH]; [discriminate|].
  cbn [List.find List.map]. destruct (Document.id r =? id) eqn:E.
  - intros H. inversion H; subst r. apply Z.eqb_eq in E.
    rewrite (Hp doc E), Hf, E, Z.eqb_refl. reflexivity.
  - intros H. destruct (p r); [rewrite Hf|]; rewrite E; apply IH; exact H.
Qed.

Lemma get_store_file_path id doc rel w :
  get Document.id id (documents (db w)) = Some doc ->
  get Document.id id (documents (db (store_file_path doc rel w)))
  = Some (set_file_path (Some rel) doc).
Proof.
  intros H. destruct (get_id _ _ _ _ H) as [Hid _]. unfold store_file_path.
  cbn [db with_db documents with_documents].
  apply get_update_where; [reflexivity | | exact H].
  intros x Hx. apply Z.eqb_eq. congruence.
Qed.

Lemma get_log_action rq a et ei m id w :
  get Document.id id (documents (db (log_action rq a et ei m w)))
  = get Document.id id (documents (db w)).
Proof. rewrite log_action_documents. reflexivity. Qed.

(** What the download route did whenever it answers with a file. *)
Lemma download_document_pdf_serves cfg rq id w fs w' fs' p :
  download_document_pdf strftime draws installed cfg rq id w fs = (w', fs', SendFile p) ->
  exists doc0 doc' fp,
    get Document.id id (documents (db w)) = Some doc0
    /\ get Document.id id (documents (db w')) = Some doc'
    /\ Document.file_path doc' = Some fp
    /\ p = path_join (root_path cfg) ["static"; fp]
    /\ exists_ p fs' = true
    /\ ((Py.truthy_opt (Document.file_path doc0) = true
         /\ exists_ (stored_path cfg doc0) fs = true /\ fs' = fs /\ doc' = doc0)
        \/ ((Py.truthy_opt (Document.file_path doc0) = false
             \/ exists_ (stored_path cfg doc0) fs = false)
            /\ exists d1 doc1 fs1,
                 generate_document_pdf strftime draws installed cfg rq d1 doc1 fs1 = Some (fs', fp))).
Proof.
  unfold download_document_pdf. cbv zeta.
  destruct (current_user w) as [u|]; [|discriminate].
  destruct (negb (existsb _ _)); [discriminate|].
  destruct (get Document.id id (documents (db w))) as [doc|] eqn:Hget; [|discriminate].
  destruct (Document.is_archived doc); [discriminate|].
  destruct (negb (String.eqb _ _)); [discriminate|].
  destruct (negb (Py.truthy_opt (Document.file_path doc))) eqn:Hempty.
  - apply negb_true_iff in Hempty.
    destruct (generate_document_pdf strftime draws installed cfg rq (db w) doc fs)
      as [[fs1 rel1]|] eqn:Hgen1; [|discriminate].
    destruct (Py.truthy rel1); [|discriminate].
    cbn [Document.file_path set_file_path Py.or_empty default from_option Datatypes.id].
    destruct (negb (exists_ (path_join (root_path cfg) ["static"; rel1]) fs1)) eqn:Hmiss.
    + destruct (generate_document_pdf strftime draws installed cfg rq _ _ fs1)
        as [[fs2 rel2]|] eqn:Hgen2; [|discriminate].
      destruct (negb (exists_ (path_join (root_path cfg) ["static"; rel2]) fs2)) eqn:Hmiss2;
        [discriminate|].
      intros H. inversion H; subst. apply negb_false_iff in Hmiss2.
      exists doc, (set_file_path (Some rel2) (set_file_path (Some rel1) doc)), rel2.
      split; [reflexivity|]. split.
      { rewrite get_log_action. apply get_store_file_path.
        apply get_store_file_path. exact Hget. }
      split; [reflexivity|]. split; [reflexivity|]. split; [exact Hmiss2|].
      right. split; [left; exact Hempty|]. eauto.
    + intros H. inversion H; subst. apply negb_false_iff in Hmiss.
      exists doc, (set_file_path (Some rel1) doc), rel1.
      split; [reflexivity|]. split.
      { rewrite get_log_action. apply get_store_file_path. exact Hget. }
      split; [reflexivity|]. split; [reflexivity|]. split; [exact Hmiss|].
      right. split; [left; exact Hempty|]. eauto.
  - apply negb_false_iff in Hempty.
    destruct (Document.file_path doc) as [fp0|] eqn:Hfp; [|discriminate].
    cbn [Py.or_empty default from_option Datatypes.id].
    destruct (negb (exists_ (path_join (root_path cfg) ["static"; fp0]) fs)) eqn:Hmiss.
    + apply negb_true_iff in Hmiss.
      destruct (generate_document_pdf strftime draws installed cfg rq (db w) doc fs)
        as [[fs1 rel1]|] eqn:Hgen1; [|discriminate].
      destruct (negb (exists_ (path_join (root_path cfg) ["static"; rel1]) fs1)) eqn:Hmiss1;
        [discriminate|].
      intros H. inversion H; subst. apply negb_false_iff in Hmiss1.
      exists doc, (set_file_path (Some rel1) doc), rel1.
      split; [reflexivity|]. split.
      { rewrite get_log_action. apply get_store_file_path. exact Hget. }
      split; [reflexivity|]. split; [reflexivity|]. split; [exact Hmiss1|].
      right. split; [right; unfold stored_path; rewrite Hfp; exact Hmiss|]. eauto.
    + apply negb_false_iff in Hmiss.
      intros H. inversion H; subst.
      exists doc, doc, fp0.
      split; [reflexivity|]. split; [rewrite get_log_action; exact Hget|].
      split; [exact Hfp|]. split; [reflexivity|]. split; [exact Hmiss|].
      left. unfold stored_path. rewrite Hfp. repeat split; assumption.
Qed.

(** X28: [generate_document_pdf] writes the PDF at
    UPLOAD_FOLDER/documents/<folder>/<filename>, where <folder> is the
    lower-cased, sanitized name of the document type ("document" when that is
    empty) and <filename> starts with it and ends in ".pdf", and it returns
    "uploads/documents/<folder>/<filename>"; that is the path of the written
    file relative to the [static] directory when UPLOAD_FOLDER is
    [static/uploads] of the application.  Whenever the download route
    answers with a file, the file is the one at the stored [file_path]
    resolved against [static], it exists on disk, and it was either already
    there or has just been generated because [file_path] was empty or named
    a missing file. *)
Theorem pdf_written_under_uploads_and_served_from_static
    (cfg : Config) (rq : Request) (d : Database) (doc : Document.t) (fs : FileSystem) :
  (forall fs' rel,
     generate_document_pdf strftime draws installed cfg rq d doc fs = Some (fs', rel) ->
     rel = "uploads/documents/" +:+ folder_of d doc +:+ "/" +:+ filename_of strftime rq d doc
     /\ fs' = <[path_join (uploads_root cfg)
                  ["documents"; folder_of d doc; filename_of strftime rq d doc]
                := {| pdf_template := choose_template installed cfg d doc; pdf_document := doc |}]> fs
     /\ (uploads_root cfg = path_join (root_path cfg) ["static"; "uploads"] ->
         path_join (root_path cfg) ["static"; rel]
         = path_join (uploads_root cfg)
             ["documents"; folder_of d doc; filename_of strftime rq d doc]))
  /\ (forall id w w' fs' p,
        download_document_pdf strftime draws installed cfg rq id w fs = (w', fs', SendFile p) ->
        exists doc0 doc' fp,
          get Document.id id (documents (db w)) = Some doc0
          /\ get Document.id id (documents (db w')) = Some doc'
          /\ Document.file_path doc' = Some fp
          /\ p = path_join (root_path cfg) ["static"; fp]
          /\ exists_ p fs' = true
          /\ ((Py.truthy_opt (Document.file_path doc0) = true
               /\ exists_ (stored_path cfg doc0) fs = true /\ fs' = fs /\ doc' = doc0)
              \/ ((Py.truthy_opt (Document.file_path doc0) = false
                   \/ exists_ (stored_path cfg doc0) fs = false)
                  /\ exists d1 doc1 fs1,
                       generate_document_pdf strftime draws installed cfg rq d1 doc1 fs1
                       = Some (fs', fp)))).
Proof.
  split.
  - intros fs' rel H. apply generate_document_pdf_spec in H as [-> ->].
    split; [apply relative_path|]. split; [reflexivity|].
    intros Hroot. rewrite Hroot. apply resolves_under_static.
  - intros id w w' fs' p. apply download_document_pdf_serves.
Qed.

End Layout.

Definition tmp_uploads_cfg : Config :=
  {| LOGIN_RATE_LIMIT_WINDOW_SECONDS := 60; LOGIN_RATE_LIMIT_MAX := 3;
     ADMIN_MFA_REQUIRED := false; MFA_CODE_TTL_SECONDS := 600;
     UPLOAD_FOLDER := Some "/tmp/pytest-0/uploads";
     root_path := "/srv/app/barangay_project" |}.

Definition clearance_pdf : string :=
  "documents/barangay_clearance/barangay_clearance_resident_1_20261104_031500.pdf".

Lemma pdf_written_under_uploads_and_served_from_static_witness :
  fst (download_document_pdf fixed_stamp always_draws forms_installed cfg (post_at 7000) 1
         (logged_in clerk office_db) nothing_on_disk)
  = (fst (fst (download_document_pdf fixed_stamp always_draws forms_installed cfg (post_at 7000) 1
                 (logged_in clerk office_db) nothing_on_disk)),
     <["/srv/app/barangay_project/static/uploads/" +:+ clearance_pdf
       := {| pdf_template := generic; pdf_document := jane_clearance |}]> nothing_on_disk)
  /\ exists doc0 doc' fp,
       get Document.id 1 (documents office_db) = Some doc0
       /\ get Document.id 1
            (documents (db (fst (fst (download_document_pdf fixed_stamp always_draws forms_installed cfg
                                        (post_at 7000) 1 (logged_in clerk office_db)
                                        nothing_on_disk))))) = Some doc'
       /\ Document.file_path doc' = Some fp
       /\ "/srv/app/barangay_project/static/uploads/" +:+ clearance_pdf
          = path_join (root_path cfg) ["static"; fp].
Proof.
  destruct (pdf_written_under_uploads_and_served_from_static fixed_stamp always_draws forms_installed
              cfg (post_at 7000) office_db jane_clearance nothing_on_disk) as [_ H].
  split; [vm_compute; reflexivity|].
  destruct (H 1 (logged_in clerk office_db)
              (fst (fst (download_document_pdf fixed_stamp always_draws forms_installed cfg (post_at 7000) 1
                           (logged_in clerk office_db) nothing_on_disk)))
              (snd (fst (download_document_pdf fixed_stamp always_draws forms_installed cfg (post_at 7000) 1
                           (logged_in clerk office_db) nothing_on_disk)))
              ("/srv/app/barangay_project/static/uploads/" +:+ clearance_pdf))
    as (doc0 & doc' & fp & H0 & H1 & H2 & H3 & _).
  - vm_compute. reflexivity.
  - exists doc0, doc', fp. repeat split; assumption.
Defined.

(** C5 (the code departs from the claim).  With an uploads folder that is
    not [static/uploads] of the application, as in the configuration of the
    repository's own tests, [generate_document_pdf] writes the file below
    UPLOAD_FOLDER and still returns "uploads/documents/<type>/<file>", which
    its docstring calls the path relative to [static]: resolved against
    [static] that path names no file, and the download route, which
    generates the PDF on demand, finds nothing to serve and answers with a
    redirect. *)
Theorem C5_upload_folder_outside_static :
  exists fs' rel,
    generate_document_pdf fixed_stamp always_draws forms_installed tmp_uploads_cfg (post_at 7000) office_db
      jane_clearance nothing_on_disk = Some (fs', rel)
    /\ rel = "uploads/" +:+ clearance_pdf
    /\ exists_ ("/tmp/pytest-0/uploads/" +:+ clearance_pdf) fs' = true
    /\ exists_ (path_join (root_path tmp_uploads_cfg) ["static"; rel]) fs' = false
    /\ snd (download_document_pdf fixed_stamp always_draws forms_installed tmp_uploads_cfg (post_at 7000) 1
              (logged_in clerk office_db) nothing_on_disk)
       = Redirect "main.list_documents".
Proof.
  eexists. eexists. split; [vm_compute; reflexivity|].
  repeat split; vm_compute; reflexivity.
Qed.

End PdfFacts.

(** ** The start-up schema healing (app.py) *)
Module SchemaFacts.
Import Schema SchemaExamples.
Local Open Scope Z_scope.

(** *** [_exec_try] *)

Lemma _exec_try_session_pending now sql s :
  pending (_exec_try_session now sql s) = None.
Proof.
  unfold _exec_try_session, execute.
  destruct (run now sql (view s)); reflexivity.
Qed.

Lemma _exec_try_run now sql d :
  _exec_try now sql d = default d (run now sql d).
Proof.
  unfold _exec_try, _exec_try_session, execute, begin, view; simpl.
  destruct (run now sql d); reflexivity.
Qed.

Lemma _exec_try_failed now sql d :
  run now sql d = None -> _exec_try now sql d = d.
Proof. intros H. rewrite _exec_try_run, H. reflexivity. Qed.

Lemma _exec_try_done now sql d d' :
  run now sql d = Some d' -> _exec_try now sql d = d'.
Proof. intros H. rewrite _exec_try_run, H. reflexivity. Qed.

(** *** Equality of databases *)

Lemma database_eq d d' :
  tables (catalog d) = tables (catalog d') ->
  indexes (catalog d) = indexes (catalog d') ->
  rows d = rows d' ->
  d = d'.
Proof.
  destruct d as [[t i] r], d' as [[t' i'] r']; simpl.
  intros -> -> ->. reflexivity.
Qed.

Lemma put_table_same t tb d :
  lookup_table t d = Some tb -> put_table t tb d = d.
Proof.
  intros H. apply database_eq; try reflexivity.
  simpl. apply insert_id. exact H.
Qed.

Lemma with_rows_same d : with_rows (rows d) d = d.
Proof. destruct d as [[t i] r]; reflexivity. Qed.

Lemma with_documents_same r : with_documents (documents r) r = r.
Proof. destruct r; reflexivity. Qed.

Lemma with_document_types_same r : with_document_types (document_types r) r = r.
Proof. destruct r; reflexivity. Qed.

Lemma put_column_same c col tb :
  columns tb !! c = Some col -> put_column c col tb = tb.
Proof.
  intros H. destruct tb as [cs fs]. unfold put_column; simpl in *.
  f_equal. apply insert_id. exact H.
Qed.

Lemma put_foreign_key_same name fk tb :
  foreign_keys tb !! name = Some fk -> put_foreign_key name fk tb = tb.
Proof.
  intros H. destruct tb as [cs fs]. unfold put_foreign_key; simpl in *.
  f_equal. apply insert_id. exact H.
Qed.

(** *** Reading a database that was written *)

Lemma lookup_table_put_table t t' tb d :
  lookup_table t (put_table t' tb d) =
  if decide (t' = t) then Some tb else lookup_table t d.
Proof.
  unfold lookup_table, put_table, with_tables; simpl.
  destruct (decide (t' = t)) as [->|Hne].
  - apply lookup_insert_eq.
  - apply lookup_insert_ne. exact Hne.
Qed.

Lemma lookup_table_with_rows t r d : lookup_table t (with_rows r d) = lookup_table t d.
Proof. reflexivity. Qed.

Lemma lookup_table_with_indexes t ix d :
  lookup_table t (with_indexes ix d) = lookup_table t d.
Proof. reflexivity. Qed.

Lemma has_table_true t d : has_table t d = true <-> is_Some (lookup_table t d).
Proof. unfold has_table. apply bool_decide_eq_true. Qed.

Lemma has_table_false t d : has_table t d = false <-> lookup_table t d = None.
Proof.
  unfold has_table. rewrite bool_decide_eq_false, <- eq_None_not_Some. reflexivity.
Qed.

Lemma has_column_true t c d : has_column t c d = true <-> c ∈ _colnames t d.
Proof.
  unfold has_column, _colnames, lookup_column.
  rewrite bool_decide_eq_true.
  destruct (lookup_table t d) as [tb|].
  - rewrite elem_of_dom. reflexivity.
  - split; [intros [? ?]; discriminate | intros H; set_solver].
Qed.

Lemma has_column_false t c d : has_column t c d = false <-> c ∉ _colnames t d.
Proof.
  rewrite <- has_column_true. destruct (has_column t c d); split; congruence.
Qed.

(** *** What a statement leaves in place *)

(** Every column of [tb] is a column of [tb'] with the same type and key,
    and every constraint name of [tb] is one of [tb']. *)
Definition table_kept (tb tb' : Table) : Prop :=
  (forall c col, columns tb !! c = Some col ->
     exists col', columns tb' !! c = Some col'
                  /\ col_type col' = col_type col /\ col_key col' = col_key col)
  /\ dom (foreign_keys tb) ⊆ dom (foreign_keys tb').

Lemma table_kept_refl tb : table_kept tb tb.
Proof. split; [intros c col H; eauto | reflexivity]. Qed.

Lemma table_kept_trans tb1 tb2 tb3 :
  table_kept tb1 tb2 -> table_kept tb2 tb3 -> table_kept tb1 tb3.
Proof.
  intros [H1 F1] [H2 F2]. split; [|set_solver].
  intros c col Hc.
  destruct (H1 c col Hc) as (col2 & Hc2 & Ht2 & Hk2).
  destruct (H2 c col2 Hc2) as (col3 & Hc3 & Ht3 & Hk3).
  exists col3. split; [exact Hc3|]. split; congruence.
Qed.

(** The table that a statement may write. *)
Definition written_table (sql : Statement) : option string :=
  match sql with
  | AddColumnIfNotExists t _ _ => Some t
  | CreateTableIfNotExists t _ _ => Some t
  | DropNotNull t _ => Some t
  | SetNotNull t _ => Some t
  | SetDefault t _ _ => Some t
  | ReplaceForeignKey _ t _ _ _ => Some t
  | AddForeignKeyIfMissing _ t _ _ _ => Some t
  | _ => None
  end.

(** The tables after a statement: unchanged, or one table written. *)
Definition tables_written (t : string) (d d' : Database) : Prop :=
  exists tb', tables (catalog d') = <[t := tb']> (tables (catalog d))
              /\ match lookup_table t d with
                 | Some tb => table_kept tb tb'
                 | None => True
                 end.

Lemma tables_written_same t tb d d' :
  lookup_table t d = Some tb ->
  tables (catalog d') = tables (catalog d) ->
  tables_written t d d'.
Proof.
  intros H E. exists tb. rewrite E, H. split; [|apply table_kept_refl].
  symmetry. apply insert_id. exact H.
Qed.

Lemma alter_column_written t c f d d' :
  (forall col, col_type (f col) = col_type col /\ col_key (f col) = col_key col) ->
  alter_column t c f d = Some d' ->
  tables_written t d d' /\ indexes (catalog d') = indexes (catalog d) /\ rows d' = rows d.
Proof.
  intros Hf. unfold alter_column.
  destruct (lookup_table t d) as [tb|] eqn:Ht; [|discriminate].
  destruct (columns tb !! c) as [col|] eqn:Hc; [|discriminate].
  intros [= <-]. split; [|split; reflexivity].
  exists (put_column c (f col) tb). split; [reflexivity|].
  rewrite Ht. split; [|reflexivity].
  intros c0 col0 H0. simpl.
  destruct (decide (c = c0)) as [->|Hne].
  - rewrite lookup_insert_eq. exists (f col). split; [reflexivity|].
    assert (col0 = col) as -> by congruence. apply Hf.
  - rewrite lookup_insert_ne by exact Hne. eauto.
Qed.

Lemma add_foreign_key_shape name t c rt rc b d d' :
  add_foreign_key name t c rt rc b d = Some d' ->
  exists tb, lookup_table t d = Some tb
    /\ d' = put_table t
              (put_foreign_key name
                 {| fk_column := c; fk_ref_table := rt; fk_ref_column := rc;
                    fk_on_delete_set_null := b |} tb) d.
Proof.
  unfold add_foreign_key.
  destruct (lookup_table t d) as [tb|] eqn:Ht; [|discriminate].
  destruct (_ && _); [|discriminate].
  intros [= <-]. eauto.
Qed.

Lemma put_foreign_key_kept name fk tb : table_kept tb (put_foreign_key name fk tb).
Proof.
  split; [intros c0 col0 H0; eauto|].
  simpl. rewrite dom_insert. set_solver.
Qed.

Lemma add_foreign_key_written name t c rt rc b d d' :
  add_foreign_key name t c rt rc b d = Some d' ->
  tables_written t d d'.
Proof.
  intros H. apply add_foreign_key_shape in H as (tb & Ht & ->).
  eexists. split; [reflexivity|]. rewrite Ht. apply put_foreign_key_kept.
Qed.

Lemma drop_foreign_key_written name t d d' :
  drop_foreign_key name t d = Some d' ->
  exists tb, lookup_table t d = Some tb
    /\ d' = put_table t {| columns := columns tb;
                           foreign_keys := delete name (foreign_keys tb) |} d.
Proof.
  unfold drop_foreign_key.
  destruct (lookup_table t d) as [tb|] eqn:Ht; [|discriminate].
  destruct (foreign_keys tb !! name); [|discriminate].
  intros [= <-]. eauto.
Qed.

Lemma update_documents_written needs f d d' :
  update_documents needs f d = Some d' ->
  catalog d' = catalog d.
Proof.
  unfold update_documents. destruct (forallb _ _); [|discriminate].
  intros [= <-]. reflexivity.
Qed.

(** The effect of a statement on the tables. *)
Lemma run_tables now sql d d' :
  run now sql d = Some d' ->
  tables (catalog d') = tables (catalog d)
  \/ exists t, written_table sql = Some t /\ tables_written t d d'.
Proof.
  destruct sql as [t c def|i t c|t cols refs|t c|t c|t c v|name t c rt rc|name t c rt rc
                  | | | | | | | |]; simpl.
  - destruct (lookup_table t d) as [tb|] eqn:Ht; [|discriminate].
    destruct (columns tb !! c) as [col|] eqn:Hc; intros [= <-]; [left; reflexivity|].
    right. exists t. split; [reflexivity|].
    eexists. split; [reflexivity|]. rewrite Ht. split; [|reflexivity].
    intros c0 col0 H0. simpl. rewrite lookup_insert_ne by congruence. eauto.
  - destruct (lookup_table t d) as [tb|]; [|discriminate].
    destruct (indexes (catalog d) !! i); [intros [= <-]; left; reflexivity|].
    destruct (has_column t c d); [|discriminate].
    intros [= <-]. left. reflexivity.
  - destruct (lookup_table t d) as [tb|] eqn:Ht; [intros [= <-]; left; reflexivity|].
    destruct (references_ok refs d); [|discriminate].
    intros [= <-]. right. exists t. split; [reflexivity|].
    eexists. split; [reflexivity|]. rewrite Ht. exact I.
  - intros H. right. exists t. split; [reflexivity|].
    eapply alter_column_written; [|exact H]. intros col; split; reflexivity.
  - destruct (no_nulls t c (rows d)); [|discriminate].
    intros H. right. exists t. split; [reflexivity|].
    eapply alter_column_written; [|exact H]. intros col; split; reflexivity.
  - intros H. right. exists t. split; [reflexivity|].
    eapply alter_column_written; [|exact H]. intros col; split; reflexivity.
  - destruct (constraint_exists name d).
    + destruct (drop_foreign_key name t d) as [d1|] eqn:Hd; [|discriminate].
      destruct (drop_foreign_key_written _ _ _ _ Hd) as (tb & Ht & ->).
      intros H. apply add_foreign_key_shape in H as (tb1 & Ht1 & ->).
      rewrite lookup_table_put_table, decide_True in Ht1 by reflexivity.
      injection Ht1 as <-.
      right. exists t. split; [reflexivity|]. eexists. split.
      * simpl. apply insert_insert_eq.
      * rewrite Ht. split; [intros c0 col0 H0; eauto|]. simpl.
        rewrite dom_insert, dom_delete.
        intros x Hx. destruct (decide (x = name)) as [->|Hne]; set_solver.
    + intros H. apply add_foreign_key_written in H.
      right. exists t. split; [reflexivity|]. exact H.
  - destruct (constraint_exists name d); [intros [= <-]; left; reflexivity|].
    intros H. apply add_foreign_key_written in H.
    right. exists t. split; [reflexivity|]. exact H.
  - intros H. left. f_equal. eapply update_documents_written, H.
  - intros H. left. f_equal. eapply update_documents_written, H.
  - intros H. left. f_equal. eapply update_documents_written, H.
  - destruct (_ && _); [|discriminate]. intros [= <-]. left. reflexivity.
  - destruct (_ && _); [|discriminate].
    intros H. left. f_equal. eapply update_documents_written, H.
  - intros H. left. f_equal. eapply update_documents_written, H.
  - destruct (insertable_document_types d); [|discriminate].
    intros [= <-]. left. reflexivity.
  - destruct (_ && _); [|discriminate].
    intros H. left. f_equal. eapply update_documents_written, H.
Qed.

(** The index that a statement may create. *)
Definition created_index (sql : Statement) : option string :=
  match sql with
  | CreateIndexIfNotExists i _ _ => Some i
  | _ => None
  end.

Lemma run_indexes now sql d d' :
  run now sql d = Some d' ->
  indexes (catalog d') = indexes (catalog d)
  \/ exists i tc, created_index sql = Some i
                  /\ indexes (catalog d') = <[i := tc]> (indexes (catalog d)).
Proof.
  intros H.
  destruct sql as [t c def|i t c|t cols refs|t c|t c|t c v|name t c rt rc|name t c rt rc
                  | | | | | | | |].
  2:{ simpl in H. destruct (lookup_table t d) as [tb|]; [|discriminate].
      destruct (indexes (catalog d) !! i); [injection H as <-; left; reflexivity|].
      destruct (has_column t c d); [|discriminate].
      injection H as <-. right. exists i, (t, c). split; reflexivity. }
  all: left; simpl in H.
  - destruct (lookup_table t d) as [tb|]; [|discriminate].
    destruct (columns tb !! c); injection H as <-; reflexivity.
  - destruct (lookup_table t d) as [tb|]; [injection H as <-; reflexivity|].
    destruct (references_ok refs d); [|discriminate]. injection H as <-; reflexivity.
  - eapply alter_column_written in H as (_ & H & _); [exact H|]. split; reflexivity.
  - destruct (no_nulls t c (rows d)); [|discriminate].
    eapply alter_column_written in H as (_ & H & _); [exact H|]. split; reflexivity.
  - eapply alter_column_written in H as (_ & H & _); [exact H|]. split; reflexivity.
  - destruct (constraint_exists name d).
    + destruct (drop_foreign_key name t d) as [d1|] eqn:Hd; [|discriminate].
      destruct (drop_foreign_key_written _ _ _ _ Hd) as (tb & Ht & ->).
      apply add_foreign_key_shape in H as (tb1 & _ & ->). reflexivity.
    + apply add_foreign_key_shape in H as (tb1 & _ & ->). reflexivity.
  - destruct (constraint_exists name d); [injection H as <-; reflexivity|].
    apply add_foreign_key_shape in H as (tb1 & _ & ->). reflexivity.
  - apply update_documents_written in H. rewrite H. reflexivity.
  - apply update_documents_written in H. rewrite H. reflexivity.
  - apply update_documents_written in H. rewrite H. reflexivity.
  - destruct (_ && _); [|discriminate]. injection H as <-. reflexivity.
  - destruct (_ && _); [|discriminate].
    apply update_documents_written in H. rewrite H. reflexivity.
  - apply update_documents_written in H. rewrite H. reflexivity.
  - destruct (insertable_document_types d); [|discriminate].
    injection H as <-. reflexivity.
  - destruct (_ && _); [|discriminate].
    apply update_documents_written in H. rewrite H. reflexivity.
Qed.

(** Nothing of the catalogue of [d] is missing from [d']. *)
Definition catalog_kept (d d' : Database) : Prop :=
  (forall t tb, lookup_table t d = Some tb ->
     exists tb', lookup_table t d' = Some tb' /\ table_kept tb tb')
  /\ dom (indexes (catalog d)) ⊆ dom (indexes (catalog d')).

Lemma catalog_kept_refl d : catalog_kept d d.
Proof.
  split; [|reflexivity]. intros t tb H. exists tb. split; [exact H|apply table_kept_refl].
Qed.

Lemma catalog_kept_trans d1 d2 d3 :
  catalog_kept d1 d2 -> catalog_kept d2 d3 -> catalog_kept d1 d3.
Proof.
  intros [T1 I1] [T2 I2]. split; [|set_solver].
  intros t tb H.
  destruct (T1 t tb H) as (tb2 & H2 & K2).
  destruct (T2 t tb2 H2) as (tb3 & H3 & K3).
  exists tb3. split; [exact H3|]. eapply table_kept_trans; eassumption.
Qed.

Lemma run_catalog_kept now sql d d' :
  run now sql d = Some d' -> catalog_kept d d'.
Proof.
  intros H. split.
  - intros t tb Ht.
    destruct (run_tables _ _ _ _ H) as [E|(t0 & _ & tb' & E & K)].
    + exists tb. unfold lookup_table in *. rewrite E. split; [exact Ht|apply table_kept_refl].
    + unfold lookup_table in *. rewrite E.
      destruct (decide (t0 = t)) as [->|Hne].
      * rewrite lookup_insert_eq. exists tb'. split; [reflexivity|].
        rewrite Ht in K. exact K.
      * rewrite lookup_insert_ne by exact Hne. exists tb.
        split; [exact Ht|apply table_kept_refl].
  - destruct (run_indexes _ _ _ _ H) as [E|(i & tc & _ & E)]; rewrite E.
    + reflexivity.
    + rewrite dom_insert. set_solver.
Qed.

Lemma _exec_try_catalog_kept now sql d : catalog_kept d (_exec_try now sql d).
Proof.
  rewrite _exec_try_run. destruct (run now sql d) as [d'|] eqn:H; simpl.
  - eapply run_catalog_kept, H.
  - apply catalog_kept_refl.
Qed.

Lemma add_if_missing_catalog_kept now cols t c def d :
  catalog_kept d (add_if_missing now cols t c def d).
Proof.
  unfold add_if_missing. destruct (bool_decide _).
  - apply catalog_kept_refl.
  - apply _exec_try_catalog_kept.
Qed.

(** A statement leaves the tables it does not name alone. *)
Lemma _exec_try_lookup_table now sql d t :
  written_table sql <> Some t ->
  lookup_table t (_exec_try now sql d) = lookup_table t d.
Proof.
  intros Hw. rewrite _exec_try_run.
  destruct (run now sql d) as [d'|] eqn:H; simpl; [|reflexivity].
  destruct (run_tables _ _ _ _ H) as [E|(t0 & W & tb' & E & _)];
    unfold lookup_table; rewrite E; [reflexivity|].
  apply lookup_insert_ne. congruence.
Qed.

Lemma add_if_missing_lookup_table now cols t c def d t' :
  t <> t' ->
  lookup_table t' (add_if_missing now cols t c def d) = lookup_table t' d.
Proof.
  intros Hne. unfold add_if_missing. destruct (bool_decide _); [reflexivity|].
  apply _exec_try_lookup_table. simpl. congruence.
Qed.

Lemma _exec_try_indexes now sql d i :
  created_index sql <> Some i ->
  indexes (catalog (_exec_try now sql d)) !! i = indexes (catalog d) !! i.
Proof.
  intros Hw. rewrite _exec_try_run.
  destruct (run now sql d) as [d'|] eqn:H; simpl; [|reflexivity].
  destruct (run_indexes _ _ _ _ H) as [E|(i0 & tc & W & E)]; rewrite E; [reflexivity|].
  apply lookup_insert_ne. congruence.
Qed.

Lemma add_if_missing_indexes now cols t c def d :
  indexes (catalog (add_if_missing now cols t c def d)) = indexes (catalog d).
Proof.
  unfold add_if_missing. destruct (bool_decide _); [reflexivity|].
  rewrite _exec_try_run.
  destruct (run now _ d) as [d'|] eqn:H; simpl; [|reflexivity].
  destruct (run_indexes _ _ _ _ H) as [E|(i0 & tc & W & E)]; [exact E|discriminate].
Qed.

(** What [catalog_kept] gives for the inspector. *)
Lemma catalog_kept_has_table d d' t :
  catalog_kept d d' -> has_table t d = true -> has_table t d' = true.
Proof.
  intros [K _]. rewrite !has_table_true. intros [tb H].
  destruct (K t tb H) as (tb' & H' & _). eauto.
Qed.

Lemma catalog_kept_colnames d d' t :
  catalog_kept d d' -> _colnames t d ⊆ _colnames t d'.
Proof.
  intros [K _]. unfold _colnames.
  destruct (lookup_table t d) as [tb|] eqn:H; [|set_solver].
  destruct (K t tb H) as (tb' & -> & Kc & _).
  intros c. rewrite !elem_of_dom. intros [col Hc].
  destruct (Kc c col Hc) as (col' & Hc' & _). eauto.
Qed.

Lemma catalog_kept_index d d' i :
  catalog_kept d d' ->
  is_Some (indexes (catalog d) !! i) -> is_Some (indexes (catalog d') !! i).
Proof. intros [_ K]. rewrite <- !elem_of_dom. apply K. Qed.

(** What the inspector reads of a table depends on that table only. *)
Lemma has_table_congr t d d' :
  lookup_table t d' = lookup_table t d -> has_table t d' = has_table t d.
Proof. unfold has_table. intros ->. reflexivity. Qed.

Lemma _colnames_congr t d d' :
  lookup_table t d' = lookup_table t d -> _colnames t d' = _colnames t d.
Proof. unfold _colnames. intros ->. reflexivity. Qed.

Lemma lookup_column_congr t c d d' :
  lookup_table t d' = lookup_table t d -> lookup_column t c d' = lookup_column t c d.
Proof. unfold lookup_column. intros ->. reflexivity. Qed.

Lemma has_column_congr t c d d' :
  lookup_table t d' = lookup_table t d -> has_column t c d' = has_column t c d.
Proof. unfold has_column. intros H. rewrite (lookup_column_congr _ _ _ _ H). reflexivity. Qed.

Lemma is_key_congr t c d d' :
  lookup_table t d' = lookup_table t d -> is_key t c d' = is_key t c d.
Proof. unfold is_key. intros H. rewrite (lookup_column_congr _ _ _ _ H). reflexivity. Qed.

(** *** Adding the missing columns of a table *)

(** The table exists, the snapshot [cols] of its column names is still
    sound, and the columns [X] are there. *)
Definition cols_inv (t : string) (cols X : gset string) (d : Database) : Prop :=
  has_table t d = true /\ cols ⊆ _colnames t d /\ X ⊆ _colnames t d.

Lemma add_if_missing_id now cols t c def d :
  c ∈ cols -> add_if_missing now cols t c def d = d.
Proof. intros H. unfold add_if_missing. rewrite bool_decide_eq_true_2 by exact H. reflexivity. Qed.

Lemma add_column_colnames now t c def d :
  has_table t d = true ->
  c ∈ _colnames t (_exec_try now (AddColumnIfNotExists t c def) d).
Proof.
  rewrite has_table_true. intros [tb Ht].
  rewrite _exec_try_run. simpl. rewrite Ht.
  destruct (columns tb !! c) as [col|] eqn:Hc; simpl.
  - unfold _colnames. rewrite Ht. apply elem_of_dom. eauto.
  - unfold _colnames. rewrite lookup_table_with_rows, lookup_table_put_table.
    rewrite decide_True by reflexivity. simpl. rewrite dom_insert. set_solver.
Qed.

Lemma cols_inv_kept t cols X d d' :
  catalog_kept d d' -> cols_inv t cols X d -> cols_inv t cols X d'.
Proof.
  intros K (H1 & H2 & H3).
  pose proof (catalog_kept_colnames _ _ t K).
  split; [eapply catalog_kept_has_table; eassumption|]. split; set_solver.
Qed.

Lemma add_if_missing_inv now cols X t c def d :
  cols_inv t cols X d ->
  cols_inv t cols (X ∪ {[c]}) (add_if_missing now cols t c def d).
Proof.
  intros H.
  pose proof (cols_inv_kept _ _ _ _ _ (add_if_missing_catalog_kept now cols t c def d) H)
    as (K1 & K2 & K3).
  split; [exact K1|]. split; [exact K2|].
  apply union_subseteq. split; [exact K3|].
  apply singleton_subseteq_l.
  unfold add_if_missing in *. destruct (bool_decide (c ∈ cols)) eqn:E.
  - apply bool_decide_eq_true in E. set_solver.
  - apply add_column_colnames. apply H.
Qed.

Lemma _exec_try_inv now sql cols X t d :
  cols_inv t cols X d -> cols_inv t cols X (_exec_try now sql d).
Proof. apply cols_inv_kept, _exec_try_catalog_kept. Qed.

Lemma cols_inv_start t d :
  has_table t d = true -> cols_inv t (_colnames t d) ∅ d.
Proof. intros H. split; [exact H|]. split; set_solver. Qed.

(** *** Indexes *)

(** CREATE INDEX IF NOT EXISTS has nothing left to do: the index is there,
    or the statement fails for lack of the column. *)
Definition index_settled (i t c : string) (d : Database) : Prop :=
  is_Some (indexes (catalog d) !! i) \/ has_column t c d = false.

Lemma create_index_fixed now i t c d :
  index_settled i t c d -> _exec_try now (CreateIndexIfNotExists i t c) d = d.
Proof.
  intros H. rewrite _exec_try_run. simpl.
  destruct (lookup_table t d) as [tb|]; [|reflexivity].
  destruct (indexes (catalog d) !! i) as [x|] eqn:Hi; [reflexivity|].
  destruct H as [[x Hx]|H]; [congruence|]. rewrite H. reflexivity.
Qed.

Lemma create_index_settles now i t c d :
  index_settled i t c (_exec_try now (CreateIndexIfNotExists i t c) d).
Proof.
  rewrite _exec_try_run. simpl.
  destruct (lookup_table t d) as [tb|] eqn:Ht; simpl.
  - destruct (indexes (catalog d) !! i) as [x|] eqn:Hi; simpl; [left; eauto|].
    destruct (has_column t c d) eqn:Hc; simpl; [|right; exact Hc].
    left. unfold with_indexes; simpl. rewrite lookup_insert_eq. eauto.
  - right. unfold has_column, lookup_column. rewrite Ht.
    apply bool_decide_eq_false. intros [? ?]. discriminate.
Qed.

Lemma index_settled_kept i t c d d' :
  catalog_kept d d' -> lookup_table t d' = lookup_table t d ->
  index_settled i t c d -> index_settled i t c d'.
Proof.
  intros K E [H|H]; [left|right].
  - eapply catalog_kept_index; eassumption.
  - rewrite (has_column_congr _ _ _ _ E). exact H.
Qed.

(** *** Creating a table *)

Lemma create_table_fixed now t cols refs d :
  has_table t d = true \/ references_ok refs d = false ->
  _exec_try now (CreateTableIfNotExists t cols refs) d = d.
Proof.
  intros H. rewrite _exec_try_run. simpl.
  destruct (lookup_table t d) as [tb|] eqn:Ht; [reflexivity|].
  destruct H as [H|H].
  - apply has_table_true in H as [? ?]. congruence.
  - rewrite H. reflexivity.
Qed.

Lemma create_table_settles now t cols refs d :
  has_table t d = false ->
  let d' := _exec_try now (CreateTableIfNotExists t cols refs) d in
  (references_ok refs d = true /\
   lookup_table t d' = Some {| columns := list_to_map cols;
                               foreign_keys := reference_constraints t refs |})
  \/ (references_ok refs d = false /\ d' = d).
Proof.
  intros H d'. subst d'. apply has_table_false in H.
  rewrite _exec_try_run. simpl. rewrite H.
  destruct (references_ok refs d); simpl; [left|right; split; reflexivity].
  split; [reflexivity|].
  rewrite lookup_table_with_rows, lookup_table_put_table, decide_True by reflexivity.
  reflexivity.
Qed.

(** *** Chains of statements *)

Ltac kept :=
  repeat first
    [ apply catalog_kept_refl
    | eapply catalog_kept_trans;
      [|first [apply _exec_try_catalog_kept | apply add_if_missing_catalog_kept]] ].

Ltac other_table :=
  repeat first
    [ rewrite _exec_try_lookup_table by (simpl; congruence)
    | rewrite add_if_missing_lookup_table by (simpl; congruence) ].

(** *** residents *)

Definition RESIDENT_COLUMNS : gset string :=
  {[ "middle_name"; "marital_status"; "created_by_id"; "updated_by_id"; "updated_at";
     "is_archived"; "archived_at"; "archived_by_id" ]}.

Definition residents_settled (d : Database) : Prop :=
  has_table "residents" d = true ->
  RESIDENT_COLUMNS ⊆ _colnames "residents" d
  /\ index_settled "ix_residents_last_name" "residents" "last_name" d
  /\ index_settled "ix_residents_barangay_id" "residents" "barangay_id" d.

Lemma heal_residents_fixed now d : residents_settled d -> heal_residents now d = d.
Proof.
  intros H. unfold heal_residents.
  destruct (has_table "residents" d) eqn:E; [|reflexivity].
  destruct (H E) as (Hc & I1 & I2). cbv zeta.
  rewrite !add_if_missing_id by (apply Hc; unfold RESIDENT_COLUMNS; set_solver).
  rewrite (create_index_fixed _ _ _ _ _ I1). apply create_index_fixed, I2.
Qed.

Lemma heal_residents_settles now d : residents_settled (heal_residents now d).
Proof.
  unfold heal_residents.
  destruct (has_table "residents" d) eqn:E; [|intros H; congruence].
  intros _. cbv zeta.
  pose proof (cols_inv_start _ _ E) as H0.
  set (cols := _colnames "residents" d) in *.
  match goal with
  | |- context [_exec_try now _ (_exec_try now _ ?x)] => set (d8 := x)
  end.
  eassert (H8 : cols_inv "residents" cols _ d8).
  { subst d8. repeat apply add_if_missing_inv. exact H0. }
  destruct H8 as (_ & _ & H8).
  split; [|split].
  - rewrite (_colnames_congr "residents" d8) by (other_table; reflexivity).
    unfold RESIDENT_COLUMNS. clear -H8. set_solver.
  - eapply index_settled_kept; [apply _exec_try_catalog_kept| |apply create_index_settles].
    other_table. reflexivity.
  - apply create_index_settles.
Qed.

Lemma residents_settled_kept d d' :
  catalog_kept d d' ->
  lookup_table "residents" d' = lookup_table "residents" d ->
  residents_settled d -> residents_settled d'.
Proof.
  intros K E H Ht. rewrite (has_table_congr _ _ _ E) in Ht.
  destruct (H Ht) as (Hc & I1 & I2).
  rewrite (_colnames_congr _ _ _ E).
  split; [exact Hc|]. split; eapply index_settled_kept; eassumption.
Qed.

Lemma heal_residents_kept now d : catalog_kept d (heal_residents now d).
Proof. unfold heal_residents. destruct (has_table _ _); cbv zeta; kept. Qed.

(** *** document_types *)

Definition DOCUMENT_TYPE_COLUMNS : gset string :=
  {[ "description"; "template_path"; "requires_photo" ]}.

Definition document_types_settled (d : Database) : Prop :=
  has_table "document_types" d = true
  /\ DOCUMENT_TYPE_COLUMNS ⊆ _colnames "document_types" d.

Lemma heal_document_types_fixed now d :
  document_types_settled d -> heal_document_types now d = d.
Proof.
  intros [Ht Hc]. unfold heal_document_types. rewrite Ht. simpl. cbv zeta.
  rewrite !add_if_missing_id by (apply Hc; unfold DOCUMENT_TYPE_COLUMNS; set_solver).
  reflexivity.
Qed.

Lemma heal_document_types_settles now d :
  document_types_settled (heal_document_types now d).
Proof.
  unfold heal_document_types.
  destruct (has_table "document_types" d) eqn:E; simpl.
  - cbv zeta. pose proof (cols_inv_start _ _ E) as H0.
    set (cols := _colnames "document_types" d) in *.
    match goal with
    | |- document_types_settled ?x => eassert (H3 : cols_inv "document_types" cols _ x)
    end.
    { repeat apply add_if_missing_inv. exact H0. }
    destruct H3 as (H1 & _ & H3). split; [exact H1|].
    unfold DOCUMENT_TYPE_COLUMNS. clear -H3. set_solver.
  - destruct (create_table_settles now "document_types"
                [("id", serial_primary_key);
                 ("name", not_null_unique "VARCHAR(100)");
                 ("description", column "VARCHAR(255)");
                 ("template_path", column "VARCHAR(255)");
                 ("requires_photo", not_null_default "BOOLEAN" DefaultFalse)]
                [] d E) as [[_ H]|[H _]]; [|discriminate].
    unfold document_types_settled, CREATE_TABLE_document_types, has_table, _colnames.
    rewrite H. split; [apply bool_decide_eq_true; eauto|].
    simpl. intros c Hc. apply elem_of_dom.
    unfold DOCUMENT_TYPE_COLUMNS in Hc.
    rewrite !elem_of_union, !elem_of_singleton in Hc.
    destruct Hc as [[->| ->]| ->]; eexists; vm_compute; reflexivity.
Qed.

Lemma document_types_settled_kept d d' :
  lookup_table "document_types" d' = lookup_table "document_types" d ->
  document_types_settled d -> document_types_settled d'.
Proof.
  intros E [H1 H2]. split.
  - rewrite (has_table_congr _ _ _ E). exact H1.
  - rewrite (_colnames_congr _ _ _ E). exact H2.
Qed.

Lemma heal_document_types_kept now d : catalog_kept d (heal_document_types now d).
Proof. unfold heal_document_types. destruct (negb _); cbv zeta; kept. Qed.

Lemma heal_document_types_other now d t :
  t <> "document_types" ->
  lookup_table t (heal_document_types now d) = lookup_table t d.
Proof.
  intros Hne. unfold heal_document_types, CREATE_TABLE_document_types.
  destruct (negb _); cbv zeta; other_table; reflexivity.
Qed.

(** *** Tables created when missing *)

Lemma heal_users_table_settles now d : has_table "users" (heal_users_table now d) = true.
Proof.
  unfold heal_users_table. destruct (has_table "users" d) eqn:E; simpl; [exact E|].
  unfold CREATE_TABLE_users.
  match goal with
  | |- context [CreateTableIfNotExists ?t ?cols ?refs] =>
      destruct (create_table_settles now t cols refs d E) as [[_ H]|[H _]]; [|discriminate]
  end.
  unfold has_table. rewrite H. apply bool_decide_eq_true. eauto.
Qed.

Lemma heal_users_table_fixed now d :
  has_table "users" d = true -> heal_users_table now d = d.
Proof. intros H. unfold heal_users_table. rewrite H. reflexivity. Qed.

Lemma heal_users_table_kept now d : catalog_kept d (heal_users_table now d).
Proof. unfold heal_users_table. destruct (negb _); kept. Qed.

Lemma heal_users_table_other now d t :
  t <> "users" -> lookup_table t (heal_users_table now d) = lookup_table t d.
Proof.
  intros Hne. unfold heal_users_table, CREATE_TABLE_users.
  destruct (negb _); other_table; reflexivity.
Qed.

Lemma heal_login_attempts_settles now d :
  has_table "login_attempts" (heal_login_attempts now d) = true.
Proof.
  unfold heal_login_attempts.
  destruct (has_table "login_attempts" d) eqn:E; simpl; [exact E|].
  unfold CREATE_TABLE_login_attempts.
  match goal with
  | |- context [CreateTableIfNotExists ?t ?cols ?refs] =>
      destruct (create_table_settles now t cols refs d E) as [[_ H]|[H _]]; [|discriminate]
  end.
  unfold has_table. rewrite H. apply bool_decide_eq_true. eauto.
Qed.

Lemma heal_login_attempts_fixed now d :
  has_table "login_attempts" d = true -> heal_login_attempts now d = d.
Proof. intros H. unfold heal_login_attempts. rewrite H. reflexivity. Qed.

Lemma heal_login_attempts_kept now d : catalog_kept d (heal_login_attempts now d).
Proof. unfold heal_login_attempts. destruct (negb _); kept. Qed.

Lemma heal_login_attempts_other now d t :
  t <> "login_attempts" -> lookup_table t (heal_login_attempts now d) = lookup_table t d.
Proof.
  intros Hne. unfold heal_login_attempts, CREATE_TABLE_login_attempts.
  destruct (negb _); other_table; reflexivity.
Qed.

(** *** Tables that reference users(id) *)

(** The table is there, or its creation fails for lack of a key
    [users(id)]. *)
Definition references_users_settled (t : string) (d : Database) : Prop :=
  has_table t d = true \/ is_key "users" "id" d = false.

Lemma references_users_settled_kept t d d' :
  catalog_kept d d' -> is_key "users" "id" d' = is_key "users" "id" d ->
  references_users_settled t d -> references_users_settled t d'.
Proof.
  intros K E [H|H]; [left|right].
  - eapply catalog_kept_has_table; eassumption.
  - congruence.
Qed.

Lemma heal_transaction_logs_table_settles now d :
  references_users_settled "transaction_logs" (heal_transaction_logs_table now d).
Proof.
  unfold heal_transaction_logs_table.
  destruct (has_table "transaction_logs" d) eqn:E; simpl; [left; exact E|].
  unfold CREATE_TABLE_transaction_logs.
  match goal with
  | |- context [CreateTableIfNotExists ?t ?cols ?refs] =>
      destruct (create_table_settles now t cols refs d E) as [[_ H]|[H ->]]
  end.
  - left. unfold has_table. rewrite H. apply bool_decide_eq_true. eauto.
  - right. simpl in H. rewrite andb_true_r in H. exact H.
Qed.

Lemma heal_transaction_logs_table_fixed now d :
  references_users_settled "transaction_logs" d -> heal_transaction_logs_table now d = d.
Proof.
  intros H. unfold heal_transaction_logs_table.
  destruct (negb _); [|reflexivity].
  apply create_table_fixed. destruct H as [H|H]; [left; exact H|right].
  simpl. rewrite H. reflexivity.
Qed.

Lemma heal_transaction_logs_table_kept now d :
  catalog_kept d (heal_transaction_logs_table now d).
Proof. unfold heal_transaction_logs_table. destruct (negb _); kept. Qed.

Lemma heal_transaction_logs_table_other now d t :
  t <> "transaction_logs" ->
  lookup_table t (heal_transaction_logs_table now d) = lookup_table t d.
Proof.
  intros Hne. unfold heal_transaction_logs_table, CREATE_TABLE_transaction_logs.
  destruct (negb _); other_table; reflexivity.
Qed.

Lemma heal_login_mfa_codes_settles now d :
  references_users_settled "login_mfa_codes" (heal_login_mfa_codes now d).
Proof.
  unfold heal_login_mfa_codes.
  destruct (has_table "login_mfa_codes" d) eqn:E; simpl; [left; exact E|].
  unfold CREATE_TABLE_login_mfa_codes.
  match goal with
  | |- context [CreateTableIfNotExists ?t ?cols ?refs] =>
      destruct (create_table_settles now t cols refs d E) as [[_ H]|[H ->]]
  end.
  - left. unfold has_table. rewrite H. apply bool_decide_eq_true. eauto.
  - right. simpl in H. rewrite andb_true_r in H. exact H.
Qed.

Lemma heal_login_mfa_codes_fixed now d :
  references_users_settled "login_mfa_codes" d -> heal_login_mfa_codes now d = d.
Proof.
  intros H. unfold heal_login_mfa_codes.
  destruct (negb _); [|reflexivity].
  apply create_table_fixed. destruct H as [H|H]; [left; exact H|right].
  simpl. rewrite H. reflexivity.
Qed.

Lemma heal_login_mfa_codes_kept now d : catalog_kept d (heal_login_mfa_codes now d).
Proof. unfold heal_login_mfa_codes. destruct (negb _); kept. Qed.

Lemma heal_login_mfa_codes_other now d t :
  t <> "login_mfa_codes" ->
  lookup_table t (heal_login_mfa_codes now d) = lookup_table t d.
Proof.
  intros Hne. unfold heal_login_mfa_codes, CREATE_TABLE_login_mfa_codes.
  destruct (negb _); other_table; reflexivity.
Qed.

(** *** users: the added columns *)

Definition USER_COLUMNS : gset string := {[ "email"; "role"; "password_hash" ]}.

Definition users_settled (d : Database) : Prop :=
  has_table "users" d = true -> USER_COLUMNS ⊆ _colnames "users" d.

Lemma heal_users_fixed now d : users_settled d -> heal_users now d = d.
Proof.
  intros H. unfold heal_users.
  destruct (has_table "users" d) eqn:E; [|reflexivity]. cbv zeta.
  rewrite !add_if_missing_id by (apply (H E); unfold USER_COLUMNS; set_solver).
  reflexivity.
Qed.

Lemma heal_users_settles now d : users_settled (heal_users now d).
Proof.
  unfold heal_users.
  destruct (has_table "users" d) eqn:E; [|intros H; congruence].
  intros _. cbv zeta. pose proof (cols_inv_start _ _ E) as H0.
  set (cols := _colnames "users" d) in *.
  match goal with
  | |- _ ⊆ _colnames _ ?x => eassert (H3 : cols_inv "users" cols _ x)
  end.
  { repeat apply add_if_missing_inv. exact H0. }
  destruct H3 as (_ & _ & H3).
  unfold USER_COLUMNS. clear -H3. set_solver.
Qed.

Lemma users_settled_kept d d' :
  lookup_table "users" d' = lookup_table "users" d ->
  users_settled d -> users_settled d'.
Proof.
  intros E H Ht. rewrite (has_table_congr _ _ _ E) in Ht.
  rewrite (_colnames_congr _ _ _ E). exact (H Ht).
Qed.

Lemma heal_users_kept now d : catalog_kept d (heal_users now d).
Proof. unfold heal_users. destruct (has_table _ _); cbv zeta; kept. Qed.

Lemma heal_users_other now d t :
  t <> "users" -> lookup_table t (heal_users now d) = lookup_table t d.
Proof.
  intros Hne. unfold heal_users.
  destruct (has_table _ _); cbv zeta; other_table; reflexivity.
Qed.

(** ADD COLUMN leaves the other columns as they are. *)
Lemma add_if_missing_lookup_column now cols t c def d t' c' :
  c' <> c ->
  lookup_column t' c' (add_if_missing now cols t c def d) = lookup_column t' c' d.
Proof.
  intros Hne. unfold add_if_missing. destruct (bool_decide _); [reflexivity|].
  rewrite _exec_try_run. simpl.
  destruct (lookup_table t d) as [tb|] eqn:Ht; [|reflexivity].
  destruct (columns tb !! c) as [col|] eqn:Hc; [reflexivity|]. simpl.
  unfold lookup_column. rewrite lookup_table_with_rows, lookup_table_put_table.
  destruct (decide (t = t')) as [<-|Hn]; [|reflexivity].
  rewrite Ht. simpl. apply lookup_insert_ne. congruence.
Qed.

Lemma heal_users_is_key now d :
  is_key "users" "id" (heal_users now d) = is_key "users" "id" d.
Proof.
  unfold heal_users, is_key. destruct (has_table _ _); [|reflexivity]. cbv zeta.
  rewrite !add_if_missing_lookup_column by discriminate. reflexivity.
Qed.

(** *** Constraint names and rows that a statement leaves alone *)

(** The constraint of that name on table [t], if any. *)
Definition fk_named (name t : string) (d : Database) : option ForeignKey :=
  match lookup_table t d with
  | Some tb => foreign_keys tb !! name
  | None => None
  end.

Lemma constraint_exists_true name d :
  constraint_exists name d = true <-> exists t, is_Some (fk_named name t d).
Proof.
  unfold constraint_exists, fk_named, lookup_table.
  rewrite bool_decide_eq_true. unfold map_Exists. split.
  - intros (t & tb & Ht & H). exists t. rewrite Ht. exact H.
  - intros (t & H). destruct (tables (catalog d) !! t) as [tb|] eqn:Ht.
    + exists t, tb. split; [exact Ht|exact H].
    + destruct H; discriminate.
Qed.

Lemma constraint_exists_congr name d d' :
  (forall t, fk_named name t d' = fk_named name t d) ->
  constraint_exists name d' = constraint_exists name d.
Proof.
  intros H. apply eq_true_iff_eq. rewrite !constraint_exists_true.
  split; intros (t & Ht); exists t; [rewrite <- H|rewrite H]; exact Ht.
Qed.

(** Whether a statement may add or replace the constraint of that name. *)
Definition constrains (name : string) (sql : Statement) : bool :=
  match sql with
  | CreateTableIfNotExists t _ refs =>
      existsb (fun '(c, _, _) => String.eqb (t +:+ "_" +:+ c +:+ "_fkey") name) refs
  | ReplaceForeignKey n _ _ _ _ => String.eqb n name
  | AddForeignKeyIfMissing n _ _ _ _ => String.eqb n name
  | _ => false
  end.

Lemma reference_constraints_None name t refs :
  existsb (fun '(c, _, _) => String.eqb (t +:+ "_" +:+ c +:+ "_fkey") name) refs = false ->
  reference_constraints t refs !! name = None.
Proof.
  unfold reference_constraints.
  induction refs as [|[[c rt] rc] refs IH]; simpl; [intros _; apply lookup_empty|].
  intros H. apply orb_false_iff in H as [H1 H2].
  apply String.eqb_neq in H1.
  rewrite lookup_insert_ne by exact H1. apply IH, H2.
Qed.

Lemma fk_named_put_table name t t' tb d :
  fk_named name t (put_table t' tb d) =
  if decide (t' = t) then foreign_keys tb !! name else fk_named name t d.
Proof.
  unfold fk_named. rewrite lookup_table_put_table.
  destruct (decide (t' = t)); reflexivity.
Qed.

Lemma alter_column_fk_named t0 c f d d' name t :
  alter_column t0 c f d = Some d' -> fk_named name t d' = fk_named name t d.
Proof.
  unfold alter_column.
  destruct (lookup_table t0 d) as [tb|] eqn:Ht; [|discriminate].
  destruct (columns tb !! c); [|discriminate]. intros [= <-].
  rewrite fk_named_put_table. destruct (decide (t0 = t)) as [<-|]; [|reflexivity].
  unfold fk_named. rewrite Ht. reflexivity.
Qed.

Lemma add_foreign_key_fk_named n t0 c rt rc b d d' name t :
  n <> name ->
  add_foreign_key n t0 c rt rc b d = Some d' -> fk_named name t d' = fk_named name t d.
Proof.
  intros Hne H. apply add_foreign_key_shape in H as (tb & Ht & ->).
  rewrite fk_named_put_table. destruct (decide (t0 = t)) as [<-|]; [|reflexivity].
  unfold fk_named. rewrite Ht. simpl. apply lookup_insert_ne. exact Hne.
Qed.

Lemma run_fk_named now sql d d' name t :
  constrains name sql = false ->
  run now sql d = Some d' ->
  fk_named name t d' = fk_named name t d.
Proof.
  intros Hc H.
  destruct sql as [t0 c def|i t0 c|t0 cols refs|t0 c|t0 c|t0 c v|n t0 c rt rc|n t0 c rt rc
                  | | | | | | | |]; simpl in H, Hc.
  - destruct (lookup_table t0 d) as [tb|] eqn:Ht; [|discriminate].
    destruct (columns tb !! c); injection H as <-; [reflexivity|].
    unfold fk_named. rewrite lookup_table_with_rows, lookup_table_put_table.
    destruct (decide (t0 = t)) as [<-|]; [|reflexivity]. rewrite Ht. reflexivity.
  - destruct (lookup_table t0 d) as [tb|]; [|discriminate].
    destruct (indexes (catalog d) !! i); [injection H as <-; reflexivity|].
    destruct (has_column t0 c d); [|discriminate]. injection H as <-. reflexivity.
  - destruct (lookup_table t0 d) as [tb|] eqn:Ht; [injection H as <-; reflexivity|].
    destruct (references_ok refs d); [|discriminate]. injection H as <-.
    unfold fk_named. rewrite lookup_table_with_rows, lookup_table_put_table.
    destruct (decide (t0 = t)) as [<-|]; [|reflexivity]. rewrite Ht. simpl.
    apply reference_constraints_None, Hc.
  - eapply alter_column_fk_named, H.
  - destruct (no_nulls t0 c (rows d)); [|discriminate]. eapply alter_column_fk_named, H.
  - eapply alter_column_fk_named, H.
  - apply String.eqb_neq in Hc.
    destruct (constraint_exists n d).
    + destruct (drop_foreign_key n t0 d) as [d1|] eqn:Hd; [|discriminate].
      destruct (drop_foreign_key_written _ _ _ _ Hd) as (tb & Ht & ->).
      rewrite (add_foreign_key_fk_named _ _ _ _ _ _ _ _ _ _ Hc H).
      rewrite fk_named_put_table. destruct (decide (t0 = t)) as [<-|]; [|reflexivity].
      unfold fk_named. rewrite Ht. simpl. apply lookup_delete_ne. exact Hc.
    + eapply add_foreign_key_fk_named; eassumption.
  - apply String.eqb_neq in Hc.
    destruct (constraint_exists n d); [injection H as <-; reflexivity|].
    eapply add_foreign_key_fk_named; eassumption.
  - apply update_documents_written in H. unfold fk_named, lookup_table. rewrite H. reflexivity.
  - apply update_documents_written in H. unfold fk_named, lookup_table. rewrite H. reflexivity.
  - apply update_documents_written in H. unfold fk_named, lookup_table. rewrite H. reflexivity.
  - destruct (_ && _); [|discriminate]. injection H as <-. reflexivity.
  - destruct (_ && _); [|discriminate].
    apply update_documents_written in H. unfold fk_named, lookup_table. rewrite H. reflexivity.
  - apply update_documents_written in H. unfold fk_named, lookup_table. rewrite H. reflexivity.
  - destruct (insertable_document_types d); [|discriminate]. injection H as <-. reflexivity.
  - destruct (_ && _); [|discriminate].
    apply update_documents_written in H. unfold fk_named, lookup_table. rewrite H. reflexivity.
Qed.

Lemma _exec_try_fk_named now sql d name t :
  constrains name sql = false ->
  fk_named name t (_exec_try now sql d) = fk_named name t d.
Proof.
  intros Hc. rewrite _exec_try_run.
  destruct (run now sql d) as [d'|] eqn:H; simpl; [|reflexivity].
  eapply run_fk_named; eassumption.
Qed.

Lemma add_if_missing_fk_named now cols t0 c def d name t :
  fk_named name t (add_if_missing now cols t0 c def d) = fk_named name t d.
Proof.
  unfold add_if_missing. destruct (bool_decide _); [reflexivity|].
  apply _exec_try_fk_named. reflexivity.
Qed.

Lemma update_documents_shape needs f d d' :
  update_documents needs f d = Some d' -> d' = map_documents f d.
Proof.
  unfold update_documents. destruct (forallb _ _); [|discriminate].
  intros [= <-]. reflexivity.
Qed.

Lemma alter_column_rows t c f d d' : alter_column t c f d = Some d' -> rows d' = rows d.
Proof.
  unfold alter_column.
  destruct (lookup_table t d) as [tb|]; [|discriminate].
  destruct (columns tb !! c); [|discriminate]. intros [= <-]. reflexivity.
Qed.

Lemma add_foreign_key_rows n t c rt rc b d d' :
  add_foreign_key n t c rt rc b d = Some d' -> rows d' = rows d.
Proof. intros H. apply add_foreign_key_shape in H as (tb & _ & ->). reflexivity. Qed.

(** The rows after a statement of the catalogue that neither adds a column
    nor creates a table. *)
Lemma run_rows_ddl now sql d d' :
  match sql with
  | CreateIndexIfNotExists _ _ _ | DropNotNull _ _ | SetNotNull _ _ | SetDefault _ _ _
  | ReplaceForeignKey _ _ _ _ _ | AddForeignKeyIfMissing _ _ _ _ _ => True
  | _ => False
  end ->
  run now sql d = Some d' -> rows d' = rows d.
Proof.
  intros Hk H.
  destruct sql as [t0 c def|i t0 c|t0 cols refs|t0 c|t0 c|t0 c v|n t0 c rt rc|n t0 c rt rc
                  | | | | | | | |]; try contradiction; simpl in H.
  - destruct (lookup_table t0 d) as [tb|]; [|discriminate].
    destruct (indexes (catalog d) !! i); [injection H as <-; reflexivity|].
    destruct (has_column t0 c d); [|discriminate]. injection H as <-. reflexivity.
  - eapply alter_column_rows, H.
  - destruct (no_nulls t0 c (rows d)); [|discriminate]. eapply alter_column_rows, H.
  - eapply alter_column_rows, H.
  - destruct (constraint_exists n d).
    + destruct (drop_foreign_key n t0 d) as [d1|] eqn:Hd; [|discriminate].
      destruct (drop_foreign_key_written _ _ _ _ Hd) as (tb & Ht & ->).
      apply add_foreign_key_rows in H. exact H.
    + eapply add_foreign_key_rows, H.
  - destruct (constraint_exists n d); [injection H as <-; reflexivity|].
    eapply add_foreign_key_rows, H.
Qed.

(** Whether a statement may rewrite the [user_id] values of
    transaction_logs, or the ids of users. *)
Definition rewrites_log_users (sql : Statement) : bool :=
  match sql with
  | CreateTableIfNotExists t _ _ => String.eqb t "transaction_logs"
  | AddColumnIfNotExists t c _ => String.eqb t "transaction_logs" && String.eqb c "user_id"
  | _ => false
  end.

Definition rewrites_users (sql : Statement) : bool :=
  match sql with
  | CreateTableIfNotExists t _ _ => String.eqb t "users"
  | _ => false
  end.

Lemma run_user_rows now sql d d' :
  run now sql d = Some d' ->
  (rewrites_log_users sql = false ->
   transaction_log_users (rows d') = transaction_log_users (rows d))
  /\ (rewrites_users sql = false -> users (rows d') = users (rows d)).
Proof.
  intros H.
  destruct sql as [t0 c def|i t0 c|t0 cols refs|t0 c|t0 c|t0 c v|n t0 c rt rc|n t0 c rt rc
                  | | | | | | | |].
  1:{ simpl in *. destruct (lookup_table t0 d) as [tb|]; [|discriminate].
      destruct (columns tb !! c); injection H as <-; [split; reflexivity|].
      simpl. unfold fill_rows.
      destruct (String.eqb t0 "documents"); [split; reflexivity|].
      destruct (String.eqb t0 "transaction_logs" && String.eqb c "user_id");
        split; intros; try discriminate; reflexivity. }
  2:{ simpl in *. destruct (lookup_table t0 d) as [tb|]; [injection H as <-; split; reflexivity|].
      destruct (references_ok refs d); [|discriminate]. injection H as <-. simpl.
      split; intros ->; reflexivity. }
  1-6: rewrite (fun k => run_rows_ddl _ _ _ _ k H) by exact I; split; reflexivity.
  all: simpl in H.
  - apply update_documents_shape in H as ->. split; reflexivity.
  - apply update_documents_shape in H as ->. split; reflexivity.
  - apply update_documents_shape in H as ->. split; reflexivity.
  - destruct (_ && _); [|discriminate]. injection H as <-. split; reflexivity.
  - destruct (_ && _); [|discriminate].
    apply update_documents_shape in H as ->. split; reflexivity.
  - apply update_documents_shape in H as ->. split; reflexivity.
  - destruct (insertable_document_types d); [|discriminate].
    injection H as <-. split; reflexivity.
  - destruct (_ && _); [|discriminate].
    apply update_documents_shape in H as ->. split; reflexivity.
Qed.

Lemma _exec_try_log_users now sql d :
  rewrites_log_users sql = false ->
  transaction_log_users (rows (_exec_try now sql d)) = transaction_log_users (rows d).
Proof.
  intros Hc. rewrite _exec_try_run.
  destruct (run now sql d) as [d'|] eqn:H; simpl; [|reflexivity].
  apply (run_user_rows _ _ _ _ H), Hc.
Qed.

Lemma _exec_try_users now sql d :
  rewrites_users sql = false ->
  users (rows (_exec_try now sql d)) = users (rows d).
Proof.
  intros Hc. rewrite _exec_try_run.
  destruct (run now sql d) as [d'|] eqn:H; simpl; [|reflexivity].
  apply (run_user_rows _ _ _ _ H), Hc.
Qed.

Lemma add_if_missing_log_users now cols t c def d :
  String.eqb t "transaction_logs" && String.eqb c "user_id" = false ->
  transaction_log_users (rows (add_if_missing now cols t c def d))
  = transaction_log_users (rows d).
Proof.
  intros Hc. unfold add_if_missing. destruct (bool_decide _); [reflexivity|].
  apply _exec_try_log_users. exact Hc.
Qed.

Lemma add_if_missing_users now cols t c def d :
  users (rows (add_if_missing now cols t c def d)) = users (rows d).
Proof.
  unfold add_if_missing. destruct (bool_decide _); [reflexivity|].
  apply _exec_try_users. reflexivity.
Qed.

(** *** transaction_logs: the columns and the foreign key *)

Definition LOG_COLUMNS : gset string :=
  {[ "entity_type"; "entity_id"; "ip_address"; "user_agent"; "meta" ]}.

Definition SET_NULL_KEY : ForeignKey :=
  {| fk_column := "user_id"; fk_ref_table := "users"; fk_ref_column := "id";
     fk_on_delete_set_null := true |}.

Definition REPLACE_LOG_KEY : Statement :=
  ReplaceForeignKey "transaction_logs_user_id_fkey" "transaction_logs" "user_id" "users" "id".

(** Whether the DO block that replaces the constraint goes through. *)
Definition can_replace (d : Database) (tb : Table) : bool :=
  (negb (constraint_exists "transaction_logs_user_id_fkey" d)
   || bool_decide (is_Some (foreign_keys tb !! "transaction_logs_user_id_fkey")))
  && has_column "transaction_logs" "user_id" d
  && is_key "users" "id" d
  && references_valid "transaction_logs" "user_id" "users" "id" (rows d).

Lemma constraint_exists_false name d t tb :
  constraint_exists name d = false ->
  lookup_table t d = Some tb -> foreign_keys tb !! name = None.
Proof.
  intros H Ht. destruct (foreign_keys tb !! name) as [fk|] eqn:E; [|reflexivity].
  assert (constraint_exists name d = true); [|congruence].
  apply constraint_exists_true. exists t. unfold fk_named. rewrite Ht, E. eauto.
Qed.

Lemma replace_log_key_run now d :
  run now REPLACE_LOG_KEY d =
  match lookup_table "transaction_logs" d with
  | Some tb =>
      if can_replace d tb
      then Some (put_table "transaction_logs"
                   (put_foreign_key "transaction_logs_user_id_fkey" SET_NULL_KEY tb) d)
      else None
  | None => None
  end.
Proof.
  unfold REPLACE_LOG_KEY, can_replace. simpl.
  destruct (lookup_table "transaction_logs" d) as [tb|] eqn:Ht.
  - destruct (constraint_exists "transaction_logs_user_id_fkey" d) eqn:Hx; simpl.
    + unfold drop_foreign_key. rewrite Ht.
      destruct (foreign_keys tb !! "transaction_logs_user_id_fkey") as [fk|] eqn:Hf.
      * rewrite (bool_decide_eq_true_2 _ (ltac:(eauto) : is_Some (Some fk))). simpl.
        unfold add_foreign_key.
        rewrite lookup_table_put_table, decide_True by reflexivity.
        simpl foreign_keys. rewrite lookup_delete_eq.
        rewrite (bool_decide_eq_false_2 (is_Some None)) by (intros [? ?]; discriminate).
        assert (has_column "transaction_logs" "user_id"
                  (put_table "transaction_logs"
                     {| columns := columns tb;
                        foreign_keys := delete "transaction_logs_user_id_fkey"
                                          (foreign_keys tb) |} d)
                = has_column "transaction_logs" "user_id" d) as ->.
        { unfold has_column, lookup_column.
          rewrite lookup_table_put_table, decide_True, Ht by reflexivity. reflexivity. }
        rewrite (is_key_congr "users" "id" d)
          by (rewrite lookup_table_put_table, decide_False by discriminate; reflexivity).
        simpl rows. simpl negb. rewrite andb_true_r.
        destruct (_ && _ && _); [|reflexivity].
        f_equal. apply database_eq; try reflexivity. simpl.
        rewrite insert_insert_eq. f_equal. unfold put_foreign_key. simpl.
        f_equal. apply insert_delete_eq.
      * rewrite (bool_decide_eq_false_2 (is_Some None)) by (intros [? ?]; discriminate).
        reflexivity.
    + unfold add_foreign_key. rewrite Ht, (constraint_exists_false _ _ _ _ Hx Ht).
      rewrite (bool_decide_eq_false_2 (is_Some None)) by (intros [? ?]; discriminate).
      simpl negb. rewrite andb_true_r. reflexivity.
  - destruct (constraint_exists "transaction_logs_user_id_fkey" d).
    + unfold drop_foreign_key. rewrite Ht. reflexivity.
    + unfold add_foreign_key. rewrite Ht. reflexivity.
Qed.

Definition transaction_logs_settled (d : Database) : Prop :=
  has_table "transaction_logs" d = true ->
  LOG_COLUMNS ⊆ _colnames "transaction_logs" d
  /\ ("user_id" ∈ _colnames "transaction_logs" d ->
      (forall col, lookup_column "transaction_logs" "user_id" d = Some col ->
                   col_notnull col = false)
      /\ (forall tb, lookup_table "transaction_logs" d = Some tb ->
                     can_replace d tb = true ->
                     foreign_keys tb !! "transaction_logs_user_id_fkey" = Some SET_NULL_KEY)).

Lemma set_notnull_same b col : col_notnull col = b -> set_notnull b col = col.
Proof. destruct col; simpl; intros ->; reflexivity. Qed.

Lemma alter_column_fixed t c f d :
  (forall col, lookup_column t c d = Some col -> f col = col) ->
  default d (alter_column t c f d) = d.
Proof.
  intros H. unfold alter_column, lookup_column in *.
  destruct (lookup_table t d) as [tb|] eqn:Ht; [|reflexivity].
  destruct (columns tb !! c) as [col|] eqn:Hc; [|reflexivity]. simpl.
  apply put_table_same. rewrite Ht. f_equal. symmetry.
  apply put_column_same. rewrite (H col eq_refl). exact Hc.
Qed.

Lemma alter_column_lookup t c f d d' col :
  alter_column t c f d = Some d' ->
  lookup_column t c d' = Some col -> exists col0, col = f col0.
Proof.
  unfold alter_column.
  destruct (lookup_table t d) as [tb|] eqn:Ht; [|discriminate].
  destruct (columns tb !! c) as [col0|] eqn:Hc; [|discriminate].
  intros [= <-]. unfold lookup_column.
  rewrite lookup_table_put_table, decide_True by reflexivity. simpl.
  rewrite lookup_insert_eq. intros [= <-]. eauto.
Qed.

Lemma drop_not_null_fixed now t c d :
  (forall col, lookup_column t c d = Some col -> col_notnull col = false) ->
  _exec_try now (DropNotNull t c) d = d.
Proof.
  intros H. rewrite _exec_try_run. simpl. apply alter_column_fixed.
  intros col Hc. apply set_notnull_same, H, Hc.
Qed.

Lemma drop_not_null_settles now t c d col :
  has_column t c d = true ->
  lookup_column t c (_exec_try now (DropNotNull t c) d) = Some col ->
  col_notnull col = false.
Proof.
  intros Hc. rewrite _exec_try_run. simpl.
  destruct (alter_column t c (set_notnull false) d) as [d'|] eqn:H; simpl.
  - intros H'. destruct (alter_column_lookup _ _ _ _ _ _ H H') as (col0 & ->). reflexivity.
  - unfold alter_column, has_column, lookup_column in *.
    apply bool_decide_eq_true in Hc as [col0 Hc].
    destruct (lookup_table t d) as [tb|]; [|discriminate].
    rewrite Hc in H. discriminate.
Qed.

Lemma replace_log_key_fixed now d :
  (forall tb, lookup_table "transaction_logs" d = Some tb -> can_replace d tb = true ->
              foreign_keys tb !! "transaction_logs_user_id_fkey" = Some SET_NULL_KEY) ->
  _exec_try now REPLACE_LOG_KEY d = d.
Proof.
  intros H. rewrite _exec_try_run, replace_log_key_run.
  destruct (lookup_table "transaction_logs" d) as [tb|] eqn:Ht; [|reflexivity].
  destruct (can_replace d tb) eqn:Hc; [|reflexivity]. simpl.
  apply put_table_same. rewrite Ht. f_equal. symmetry.
  apply put_foreign_key_same. apply H; [reflexivity|exact Hc].
Qed.

Lemma replace_log_key_table now d :
  match lookup_table "transaction_logs" d with
  | Some tb =>
      (can_replace d tb = true
       /\ _exec_try now REPLACE_LOG_KEY d
          = put_table "transaction_logs"
              (put_foreign_key "transaction_logs_user_id_fkey" SET_NULL_KEY tb) d)
      \/ (can_replace d tb = false /\ _exec_try now REPLACE_LOG_KEY d = d)
  | None => _exec_try now REPLACE_LOG_KEY d = d
  end.
Proof.
  rewrite _exec_try_run, replace_log_key_run.
  destruct (lookup_table "transaction_logs" d) as [tb|] eqn:Ht; [|reflexivity].
  destruct (can_replace d tb); [left|right]; split; reflexivity.
Qed.

Lemma replace_log_key_lookup_column now d t c :
  lookup_column t c (_exec_try now REPLACE_LOG_KEY d) = lookup_column t c d.
Proof.
  pose proof (replace_log_key_table now d) as H.
  destruct (lookup_table "transaction_logs" d) as [tb|] eqn:Ht; [|rewrite H; reflexivity].
  destruct H as [[_ ->]|[_ ->]]; [|reflexivity].
  unfold lookup_column. rewrite lookup_table_put_table.
  destruct (decide ("transaction_logs" = t)) as [<-|]; [|reflexivity].
  rewrite Ht. reflexivity.
Qed.

(** What the DO block reads. *)
Definition same_for_logs (d d' : Database) : Prop :=
  lookup_table "transaction_logs" d' = lookup_table "transaction_logs" d
  /\ constraint_exists "transaction_logs_user_id_fkey" d'
     = constraint_exists "transaction_logs_user_id_fkey" d
  /\ is_key "users" "id" d' = is_key "users" "id" d
  /\ transaction_log_users (rows d') = transaction_log_users (rows d)
  /\ users (rows d') = users (rows d).

Lemma same_for_logs_trans d1 d2 d3 :
  same_for_logs d1 d2 -> same_for_logs d2 d3 -> same_for_logs d1 d3.
Proof.
  intros (A1 & A2 & A3 & A4 & A5) (B1 & B2 & B3 & B4 & B5).
  repeat split; congruence.
Qed.

Lemma can_replace_congr d d' tb :
  same_for_logs d d' -> can_replace d' tb = can_replace d tb.
Proof.
  intros (A1 & A2 & A3 & A4 & A5). unfold can_replace.
  rewrite A2, A3, (has_column_congr _ _ _ _ A1).
  f_equal. unfold references_valid. simpl. rewrite A4, A5. reflexivity.
Qed.

Lemma replace_log_key_settles now d tb :
  let d' := _exec_try now REPLACE_LOG_KEY d in
  lookup_table "transaction_logs" d' = Some tb -> can_replace d' tb = true ->
  foreign_keys tb !! "transaction_logs_user_id_fkey" = Some SET_NULL_KEY.
Proof.
  intros d'. subst d'.
  pose proof (replace_log_key_table now d) as H.
  destruct (lookup_table "transaction_logs" d) as [tb0|] eqn:Ht.
  - destruct H as [[_ ->]|[Hc ->]].
    + rewrite lookup_table_put_table, decide_True by reflexivity.
      intros [= <-] _. simpl. apply lookup_insert_eq.
    + rewrite Ht. intros [= <-]. congruence.
  - rewrite H, Ht. discriminate.
Qed.

Lemma transaction_logs_settled_kept d d' :
  same_for_logs d d' -> transaction_logs_settled d -> transaction_logs_settled d'.
Proof.
  intros S H Ht. pose proof S as (A1 & _).
  rewrite (has_table_congr _ _ _ A1) in Ht.
  destruct (H Ht) as (Hc & Hu).
  rewrite (_colnames_congr _ _ _ A1), (lookup_column_congr _ "user_id" _ _ A1), A1.
  split; [exact Hc|]. intros Hin. destruct (Hu Hin) as (N & F).
  split; [exact N|]. intros tb Htb. rewrite (can_replace_congr _ _ _ S). apply F, Htb.
Qed.

Lemma heal_transaction_logs_fixed now d :
  transaction_logs_settled d -> heal_transaction_logs now d = d.
Proof.
  intros H. unfold heal_transaction_logs.
  destruct (has_table "transaction_logs" d) eqn:E; [|reflexivity].
  destruct (H E) as (Hc & Hu). cbv zeta.
  rewrite !add_if_missing_id by (apply Hc; unfold LOG_COLUMNS; set_solver).
  destruct (bool_decide _) eqn:Hin; [|reflexivity].
  apply bool_decide_eq_true in Hin. destruct (Hu Hin) as (N & F).
  rewrite (drop_not_null_fixed _ _ _ _ N). apply replace_log_key_fixed, F.
Qed.

Lemma heal_transaction_logs_settles now d :
  transaction_logs_settled (heal_transaction_logs now d).
Proof.
  unfold heal_transaction_logs.
  destruct (has_table "transaction_logs" d) eqn:E; [|intros H; congruence].
  intros _. cbv zeta. pose proof (cols_inv_start _ _ E) as H0.
  set (lcols := _colnames "transaction_logs" d) in *.
  match goal with
  | |- context [if _ then _exec_try now _ (_exec_try now _ ?x) else _] => set (d5 := x)
  end.
  eassert (H5 : cols_inv "transaction_logs" lcols _ d5).
  { subst d5. repeat apply add_if_missing_inv. exact H0. }
  destruct (bool_decide ("user_id" ∈ lcols)) eqn:Hin.
  - apply bool_decide_eq_true in Hin.
    pose proof H5 as (_ & Hl & _).
    match goal with
    | |- context [_colnames _ (_exec_try now ?s2 (_exec_try now ?s1 d5))] =>
        pose proof (_exec_try_inv now s2 _ _ _ _ (_exec_try_inv now s1 _ _ _ _ H5))
          as (_ & _ & H7)
    end.
    split; [|intros _; split].
    + unfold LOG_COLUMNS. clear -H7. set_solver.
    + intros col. fold REPLACE_LOG_KEY. rewrite replace_log_key_lookup_column.
      apply drop_not_null_settles. apply has_column_true. set_solver.
    + apply replace_log_key_settles.
  - apply bool_decide_eq_false in Hin. destruct H5 as (_ & _ & H5).
    split.
    + unfold LOG_COLUMNS. clear -H5. set_solver.
    + intros Hu. exfalso. apply Hin.
      apply has_column_true in Hu. apply has_column_true.
      unfold has_column in *. subst d5.
      rewrite !add_if_missing_lookup_column in Hu by discriminate. exact Hu.
Qed.

Lemma heal_transaction_logs_kept now d : catalog_kept d (heal_transaction_logs now d).
Proof.
  unfold heal_transaction_logs.
  destruct (has_table _ _); cbv zeta; [destruct (bool_decide _)|]; kept.
Qed.

Lemma heal_transaction_logs_other now d t :
  t <> "transaction_logs" ->
  lookup_table t (heal_transaction_logs now d) = lookup_table t d.
Proof.
  intros Hne. unfold heal_transaction_logs.
  destruct (has_table _ _); cbv zeta; [destruct (bool_decide _)|];
    other_table; reflexivity.
Qed.

Lemma same_for_logs_refl d : same_for_logs d d.
Proof. repeat split; reflexivity. Qed.

Ltac same_for_logs_chain :=
  split; [other_table; reflexivity|];
  split; [apply constraint_exists_congr; intros ?;
          repeat first [ rewrite _exec_try_fk_named by reflexivity
                       | rewrite add_if_missing_fk_named ];
          reflexivity|];
  split; [apply is_key_congr; other_table; reflexivity|];
  split; [repeat first [ rewrite _exec_try_log_users by reflexivity
                       | rewrite add_if_missing_log_users by reflexivity ];
          reflexivity
         |repeat first [ rewrite _exec_try_users by reflexivity
                       | rewrite add_if_missing_users ];
          reflexivity].

Lemma heal_login_attempts_logs now d : same_for_logs d (heal_login_attempts now d).
Proof.
  unfold heal_login_attempts, CREATE_TABLE_login_attempts.
  destruct (negb _); [|apply same_for_logs_refl]. same_for_logs_chain.
Qed.

Lemma heal_login_mfa_codes_logs now d : same_for_logs d (heal_login_mfa_codes now d).
Proof.
  unfold heal_login_mfa_codes, CREATE_TABLE_login_mfa_codes.
  destruct (negb _); [|apply same_for_logs_refl]. same_for_logs_chain.
Qed.

Lemma heal_users_logs now d : same_for_logs d (heal_users now d).
Proof.
  split; [apply heal_users_other; discriminate|].
  split; [|split; [apply heal_users_is_key|]].
  - apply constraint_exists_congr. intros t. unfold heal_users.
    destruct (has_table _ _); [|reflexivity]. cbv zeta.
    rewrite !add_if_missing_fk_named. reflexivity.
  - unfold heal_users. destruct (has_table _ _); [|split; reflexivity]. cbv zeta.
    rewrite !add_if_missing_log_users, !add_if_missing_users by reflexivity.
    split; reflexivity.
Qed.

(** *** Columns that a statement leaves alone *)

(** Whether a statement may change the definition of column [c] of table
    [t], or add it. *)
Definition changes_column (t c : string) (sql : Statement) : bool :=
  match sql with
  | AddColumnIfNotExists t' c' _ => String.eqb t' t && String.eqb c' c
  | CreateTableIfNotExists t' _ _ => String.eqb t' t
  | DropNotNull t' c' => String.eqb t' t && String.eqb c' c
  | SetNotNull t' c' => String.eqb t' t && String.eqb c' c
  | SetDefault t' c' _ => String.eqb t' t && String.eqb c' c
  | _ => false
  end.

Lemma eqb_pair_false t' t c' c :
  String.eqb t' t && String.eqb c' c = false -> t' = t -> c' <> c.
Proof.
  intros H -> ->. rewrite !String.eqb_refl in H. discriminate.
Qed.

Lemma alter_column_lookup_column t0 c0 f d d' t c :
  String.eqb t0 t && String.eqb c0 c = false ->
  alter_column t0 c0 f d = Some d' -> lookup_column t c d' = lookup_column t c d.
Proof.
  intros Hc. unfold alter_column.
  destruct (lookup_table t0 d) as [tb|] eqn:Ht; [|discriminate].
  destruct (columns tb !! c0); [|discriminate]. intros [= <-].
  unfold lookup_column. rewrite lookup_table_put_table.
  destruct (decide (t0 = t)) as [<-|]; [|reflexivity]. rewrite Ht. simpl.
  apply lookup_insert_ne. eapply eqb_pair_false; [exact Hc|reflexivity].
Qed.

Lemma add_foreign_key_lookup_column n t0 c0 rt rc b d d' t c :
  add_foreign_key n t0 c0 rt rc b d = Some d' -> lookup_column t c d' = lookup_column t c d.
Proof.
  intros H. apply add_foreign_key_shape in H as (tb & Ht & ->).
  unfold lookup_column. rewrite lookup_table_put_table.
  destruct (decide (t0 = t)) as [<-|]; [|reflexivity]. rewrite Ht. reflexivity.
Qed.

Lemma run_lookup_column now sql d d' t c :
  changes_column t c sql = false ->
  run now sql d = Some d' ->
  lookup_column t c d' = lookup_column t c d.
Proof.
  intros Hc H.
  destruct sql as [t0 c0 def|i t0 c0|t0 cols refs|t0 c0|t0 c0|t0 c0 v|n t0 c0 rt rc
                  |n t0 c0 rt rc| | | | | | | |]; simpl in H, Hc.
  - destruct (lookup_table t0 d) as [tb|] eqn:Ht; [|discriminate].
    destruct (columns tb !! c0); injection H as <-; [reflexivity|].
    unfold lookup_column. rewrite lookup_table_with_rows, lookup_table_put_table.
    destruct (decide (t0 = t)) as [<-|]; [|reflexivity]. rewrite Ht. simpl.
    apply lookup_insert_ne. eapply eqb_pair_false; [exact Hc|reflexivity].
  - destruct (lookup_table t0 d) as [tb|]; [|discriminate].
    destruct (indexes (catalog d) !! i); [injection H as <-; reflexivity|].
    destruct (has_column t0 c0 d); [|discriminate]. injection H as <-. reflexivity.
  - destruct (lookup_table t0 d) as [tb|] eqn:Ht; [injection H as <-; reflexivity|].
    destruct (references_ok refs d); [|discriminate]. injection H as <-.
    unfold lookup_column. rewrite lookup_table_with_rows, lookup_table_put_table.
    apply String.eqb_neq in Hc. rewrite decide_False by exact Hc. reflexivity.
  - eapply alter_column_lookup_column; eassumption.
  - destruct (no_nulls t0 c0 (rows d)); [|discriminate].
    eapply alter_column_lookup_column; eassumption.
  - eapply alter_column_lookup_column; eassumption.
  - destruct (constraint_exists n d).
    + destruct (drop_foreign_key n t0 d) as [d1|] eqn:Hd; [|discriminate].
      destruct (drop_foreign_key_written _ _ _ _ Hd) as (tb & Ht & ->).
      rewrite (add_foreign_key_lookup_column _ _ _ _ _ _ _ _ t c H).
      unfold lookup_column. rewrite lookup_table_put_table.
      destruct (decide (t0 = t)) as [<-|]; [|reflexivity]. rewrite Ht. reflexivity.
    + eapply add_foreign_key_lookup_column, H.
  - destruct (constraint_exists n d); [injection H as <-; reflexivity|].
    eapply add_foreign_key_lookup_column, H.
  - apply update_documents_shape in H as ->. reflexivity.
  - apply update_documents_shape in H as ->. reflexivity.
  - apply update_documents_shape in H as ->. reflexivity.
  - destruct (_ && _); [|discriminate]. injection H as <-. reflexivity.
  - destruct (_ && _); [|discriminate].
    apply update_documents_shape in H as ->. reflexivity.
  - apply update_documents_shape in H as ->. reflexivity.
  - destruct (insertable_document_types d); [|discriminate]. injection H as <-. reflexivity.
  - destruct (_ && _); [|discriminate].
    apply update_documents_shape in H as ->. reflexivity.
Qed.

Lemma _exec_try_lookup_column now sql d t c :
  changes_column t c sql = false ->
  lookup_column t c (_exec_try now sql d) = lookup_column t c d.
Proof.
  intros Hc. rewrite _exec_try_run.
  destruct (run now sql d) as [d'|] eqn:H; simpl; [|reflexivity].
  eapply run_lookup_column; eassumption.
Qed.

(** A statement that neither adds a column nor creates a table keeps the
    column names. *)
Definition adds_columns (sql : Statement) : bool :=
  match sql with
  | AddColumnIfNotExists _ _ _ | CreateTableIfNotExists _ _ _ => true
  | _ => false
  end.

Lemma alter_column_has_column t0 c0 f d d' t c :
  alter_column t0 c0 f d = Some d' -> has_column t c d' = has_column t c d.
Proof.
  intros H. destruct (String.eqb t0 t && String.eqb c0 c) eqn:E.
  - apply andb_true_iff in E as [E1 E2].
    apply String.eqb_eq in E1, E2. subst t0 c0.
    unfold alter_column in H. unfold has_column, lookup_column.
    destruct (lookup_table t d) as [tb|] eqn:Ht; [|discriminate].
    destruct (columns tb !! c) as [col|] eqn:Hcol; [|discriminate].
    injection H as <-. rewrite lookup_table_put_table, decide_True by reflexivity.
    simpl. rewrite lookup_insert_eq.
    rewrite !bool_decide_eq_true_2 by eauto. reflexivity.
  - unfold has_column. rewrite (alter_column_lookup_column _ _ _ _ _ _ _ E H). reflexivity.
Qed.

Lemma run_has_column now sql d d' t c :
  adds_columns sql = false ->
  run now sql d = Some d' ->
  has_column t c d' = has_column t c d.
Proof.
  intros Ha H.
  destruct sql as [t0 c0 def|i t0 c0|t0 cols refs|t0 c0|t0 c0|t0 c0 v|n t0 c0 rt rc
                  |n t0 c0 rt rc| | | | | | | |]; try discriminate.
  2-4: simpl in H.
  2: eapply alter_column_has_column, H.
  2: destruct (no_nulls t0 c0 (rows d)); [|discriminate]; eapply alter_column_has_column, H.
  2: eapply alter_column_has_column, H.
  all: unfold has_column; erewrite run_lookup_column; [reflexivity| |exact H]; reflexivity.
Qed.

Lemma _exec_try_has_column now sql d t c :
  adds_columns sql = false ->
  has_column t c (_exec_try now sql d) = has_column t c d.
Proof.
  intros Hc. rewrite _exec_try_run.
  destruct (run now sql d) as [d'|] eqn:H; simpl; [|reflexivity].
  eapply run_has_column; eassumption.
Qed.

Lemma _exec_try_colnames now sql d t :
  adds_columns sql = false ->
  _colnames t (_exec_try now sql d) = _colnames t d.
Proof.
  intros Hc. apply set_eq. intros c. rewrite <- !has_column_true.
  rewrite _exec_try_has_column by exact Hc. reflexivity.
Qed.

(** *** The rows of documents *)

Lemma map_fixed {A} (f : A -> A) l : Forall (fun r => f r = r) l -> List.map f l = l.
Proof. induction 1 as [|r l H _ IH]; simpl; congruence. Qed.

Lemma map_documents_fixed f d :
  Forall (fun r => f r = r) (documents (rows d)) -> map_documents f d = d.
Proof.
  intros H. unfold map_documents. rewrite (map_fixed _ _ H).
  rewrite with_documents_same. apply with_rows_same.
Qed.

Lemma update_documents_fixed needs f d :
  (forallb (fun c => has_column "documents" c d) needs = true ->
   Forall (fun r => f r = r) (documents (rows d))) ->
  default d (update_documents needs f d) = d.
Proof.
  intros H. unfold update_documents.
  destruct (forallb _ needs); [|reflexivity]. simpl. apply map_documents_fixed, H. reflexivity.
Qed.

Lemma status_issued_fixed r : is_Some (status r) -> status_issued r = r.
Proof. destruct r as [a b s c e f]; simpl. intros [x ->]. reflexivity. Qed.

Lemma created_at_fixed r :
  (created_at r = None -> issue_date r = None) -> created_at_from_issue_date r = r.
Proof.
  destruct r as [a b s c e f]; unfold created_at_from_issue_date; simpl.
  destruct e; [reflexivity|]. intros H. rewrite (H eq_refl). reflexivity.
Qed.

Lemma issued_at_fixed r :
  (issued_at r = None -> status r = Some "issued" -> issue_date r = None) ->
  issued_at_from_issue_date r = r.
Proof.
  destruct r as [a b s c e f]; unfold issued_at_from_issue_date; simpl.
  destruct f; [reflexivity|]. destruct s as [s|]; [|reflexivity].
  destruct (String.eqb_spec s "issued") as [->|]; [|reflexivity].
  intros H. rewrite (H eq_refl eq_refl). reflexivity.
Qed.

Lemma type_id_from_doc_type_fixed ts r :
  (document_type_id r = None -> forall n, doc_type r = Some n -> ts !! n = None) ->
  type_id_from_doc_type ts r = r.
Proof.
  destruct r as [a b s c e f]; unfold type_id_from_doc_type; simpl.
  destruct b; [reflexivity|]. destruct a as [n|]; [|reflexivity].
  intros H. rewrite (H eq_refl n eq_refl). reflexivity.
Qed.

Lemma doc_type_unknown_fixed r : is_Some (doc_type r) -> doc_type_unknown r = r.
Proof. destruct r as [a b s c e f]; simpl. intros [x ->]. reflexivity. Qed.

Lemma type_id_unknown_fixed ts r :
  (document_type_id r = None -> ts !! "Unknown" = None) -> type_id_unknown ts r = r.
Proof.
  destruct r as [a b s c e f]; unfold type_id_unknown; simpl.
  destruct b; [reflexivity|]. intros H. rewrite (H eq_refl). reflexivity.
Qed.

(** The types that INSERT ... ON CONFLICT DO NOTHING leaves. *)
Lemma insert_type_kept n ts m x : ts !! m = Some x -> insert_type n ts !! m = Some x.
Proof.
  intros H. unfold insert_type. destruct (ts !! n) eqn:E; [exact H|].
  rewrite lookup_insert_ne by congruence. exact H.
Qed.

Lemma insert_type_there n ts : is_Some (insert_type n ts !! n).
Proof.
  unfold insert_type. destruct (ts !! n) eqn:E; [rewrite E; eauto|].
  rewrite lookup_insert_eq. eauto.
Qed.

Lemma insert_type_fixed n ts : is_Some (ts !! n) -> insert_type n ts = ts.
Proof. intros [x H]. unfold insert_type. rewrite H. reflexivity. Qed.

Lemma insert_type_other n ts m : m <> n -> insert_type n ts !! m = ts !! m.
Proof.
  intros Hne. unfold insert_type. destruct (ts !! n); [reflexivity|].
  apply lookup_insert_ne. congruence.
Qed.

Lemma insert_types_kept names ts m x :
  ts !! m = Some x -> fold_left (fun acc n => insert_type n acc) names ts !! m = Some x.
Proof.
  revert ts. induction names as [|n names IH]; intros ts H; simpl; [exact H|].
  apply IH, insert_type_kept, H.
Qed.

Lemma insert_types_there names ts n :
  List.In n names -> is_Some (fold_left (fun acc n => insert_type n acc) names ts !! n).
Proof.
  revert ts. induction names as [|m names IH]; intros ts; simpl; [intros []|].
  intros [->|H]; [|apply IH, H].
  destruct (insert_type_there n ts) as [x Hx].
  exists x. apply insert_types_kept, Hx.
Qed.

Lemma insert_types_fixed names ts :
  Forall (fun n => is_Some (ts !! n)) names ->
  fold_left (fun acc n => insert_type n acc) names ts = ts.
Proof.
  induction 1 as [|n names H _ IH]; simpl; [reflexivity|].
  rewrite (insert_type_fixed _ _ H). exact IH.
Qed.

Lemma doc_type_names_In rs r n :
  List.In r rs -> doc_type r = Some n -> Py.truthy n = true ->
  List.In n (doc_type_names rs).
Proof.
  intros Hr Hn Ht. apply list_elem_of_In. unfold doc_type_names.
  apply list_elem_of_omap. exists r. split; [apply list_elem_of_In, Hr|].
  rewrite Hn, Ht. reflexivity.
Qed.

Lemma doc_type_names_Forall (P : string -> Prop) rs :
  Forall (fun r => forall n, doc_type r = Some n -> Py.truthy n = true -> P n) rs ->
  Forall P (doc_type_names rs).
Proof.
  intros H. apply List.Forall_forall. intros n Hn.
  apply (proj2 (list_elem_of_In _ _)) in Hn. unfold doc_type_names in Hn.
  apply list_elem_of_omap in Hn as (r & Hr & E).
  apply (proj1 (list_elem_of_In _ _)) in Hr. rewrite List.Forall_forall in H.
  destruct (doc_type r) as [m|] eqn:Hm; [|discriminate].
  destruct (Py.truthy m) eqn:Ht; [|discriminate].
  injection E as <-. eapply H; eassumption.
Qed.

(** *** What a statement does to the rows of documents *)

Definition creates_documents (sql : Statement) : bool :=
  match sql with
  | CreateTableIfNotExists t _ _ => String.eqb t "documents"
  | _ => false
  end.

(** The function that a statement applies to every row of documents when
    it goes through. *)
Definition row_update (now : Z) (sql : Statement) (d : Database)
    : DocumentRow -> DocumentRow :=
  match sql with
  | AddColumnIfNotExists t c def =>
      if String.eqb t "documents" then fill_document c (col_default def) now else id
  | UpdateStatusIssued => status_issued
  | UpdateCreatedAt => created_at_from_issue_date
  | UpdateIssuedAt => issued_at_from_issue_date
  | UpdateTypeIdFromDocType => type_id_from_doc_type (document_types (rows d))
  | UpdateDocTypeUnknown => doc_type_unknown
  | UpdateTypeIdUnknown => type_id_unknown (document_types (rows d))
  | _ => id
  end.

Lemma run_docs now sql d d' :
  creates_documents sql = false ->
  run now sql d = Some d' ->
  documents (rows d') = documents (rows d) \/ documents (rows d') = List.map (row_update now sql d) (documents (rows d)).
Proof.
  intros Hc H.
  destruct sql as [t0 c0 def|i t0 c0|t0 cols refs|t0 c0|t0 c0|t0 c0 v|n t0 c0 rt rc
                  |n t0 c0 rt rc| | | | | | | |].
  1:{ simpl in *. destruct (lookup_table t0 d) as [tb|]; [|discriminate].
      destruct (columns tb !! c0); injection H as <-; [left; reflexivity|].
      simpl. unfold fill_rows.
      destruct (String.eqb t0 "documents"); [right; reflexivity|].
      destruct (_ && _); left; reflexivity. }
  2:{ simpl in *.
      destruct (lookup_table t0 d) as [tb|]; [injection H as <-; left; reflexivity|].
      destruct (references_ok refs d); [|discriminate]. injection H as <-. simpl.
      rewrite Hc. left. reflexivity. }
  1-6: left; rewrite (fun k => run_rows_ddl _ _ _ _ k H) by exact I; reflexivity.
  all: simpl in H.
  - apply update_documents_shape in H as ->. right. reflexivity.
  - apply update_documents_shape in H as ->. right. reflexivity.
  - apply update_documents_shape in H as ->. right. reflexivity.
  - destruct (_ && _); [|discriminate]. injection H as <-. left. reflexivity.
  - destruct (_ && _); [|discriminate].
    apply update_documents_shape in H as ->. right. reflexivity.
  - apply update_documents_shape in H as ->. right. reflexivity.
  - destruct (insertable_document_types d); [|discriminate].
    injection H as <-. left. reflexivity.
  - destruct (_ && _); [|discriminate].
    apply update_documents_shape in H as ->. right. reflexivity.
Qed.

(** A projection of the rows of documents that survives. *)
Definition keeps {X} (p : DocumentRow -> X) (d d' : Database) : Prop :=
  List.map p (documents (rows d')) = List.map p (documents (rows d)).

Lemma keeps_refl {X} (p : DocumentRow -> X) d : keeps p d d.
Proof. reflexivity. Qed.

Lemma keeps_trans {X} (p : DocumentRow -> X) d1 d2 d3 :
  keeps p d1 d2 -> keeps p d2 d3 -> keeps p d1 d3.
Proof. unfold keeps. congruence. Qed.

Lemma keeps_Forall {X} (p : DocumentRow -> X) (P : X -> Prop) d d' :
  keeps p d d' ->
  Forall (fun r => P (p r)) (documents (rows d)) -> Forall (fun r => P (p r)) (documents (rows d')).
Proof.
  unfold keeps. intros E H.
  apply (proj1 (List.Forall_map p P _)). rewrite E.
  apply (proj2 (List.Forall_map p P _)). exact H.
Qed.

Lemma _exec_try_keeps {X} (p : DocumentRow -> X) now sql d :
  creates_documents sql = false ->
  (forall r, p (row_update now sql d r) = p r) ->
  keeps p d (_exec_try now sql d).
Proof.
  intros Hc Hp. unfold keeps. rewrite _exec_try_run.
  destruct (run now sql d) as [d'|] eqn:H; simpl; [|reflexivity].
  destruct (run_docs _ _ _ _ Hc H) as [->| ->]; [reflexivity|].
  rewrite List.map_map. apply List.map_ext. exact Hp.
Qed.

Lemma add_if_missing_keeps {X} (p : DocumentRow -> X) now cols t c def d :
  (forall r, p (row_update now (AddColumnIfNotExists t c def) d r) = p r) ->
  keeps p d (add_if_missing now cols t c def d).
Proof.
  intros Hp. unfold add_if_missing. destruct (bool_decide _); [apply keeps_refl|].
  apply _exec_try_keeps; [reflexivity|exact Hp].
Qed.

Ltac keeps_chain :=
  repeat first
    [ apply keeps_refl
    | eapply keeps_trans;
      [|first [apply _exec_try_keeps; [reflexivity|intros ?; reflexivity]
              |apply add_if_missing_keeps; intros ?; reflexivity]] ].

(** *** documents *)

Definition DOCUMENT_COLUMNS : gset string :=
  {[ "document_type_id"; "status"; "created_at"; "updated_at"; "approved_at"; "issued_at";
     "is_archived"; "archived_at"; "created_by_id"; "updated_by_id"; "approved_by_id";
     "issued_by_id"; "archived_by_id" ]}.

Definition SET_DEFAULT_doc_type : Statement := SetDefault "documents" "doc_type" "Unknown".

Definition SET_NOT_NULL_document_type_id : Statement :=
  SetNotNull "documents" "document_type_id".

Definition ADD_DOCUMENT_TYPE_KEY : Statement :=
  AddForeignKeyIfMissing "documents_document_type_id_fkey" "documents"
    "document_type_id" "document_types" "id".

Definition INDEX_issue_date : Statement :=
  CreateIndexIfNotExists "ix_documents_issue_date" "documents" "issue_date".

Definition INDEX_resident_id : Statement :=
  CreateIndexIfNotExists "ix_documents_resident_id" "documents" "resident_id".

Definition INDEX_document_type_id : Statement :=
  CreateIndexIfNotExists "ix_documents_document_type_id" "documents" "document_type_id".

(** The healing of documents in five parts: status, the other columns, the
    two dates, the document types, and the constraints and indexes. *)
Definition documents_status (now : Z) (dcols : gset string) (d : Database) : Database :=
  let d := add_if_missing now dcols "documents" "status"
             (not_null_default "VARCHAR(20)" (DefaultText "draft")) d in
  _exec_try now UpdateStatusIssued d.

Definition documents_columns (now : Z) (dcols : gset string) (d : Database) : Database :=
  let d := add_if_missing now dcols "documents" "created_at"
             (with_default TIMESTAMP DefaultNow) d in
  let d := add_if_missing now dcols "documents" "updated_at" (column TIMESTAMP) d in
  let d := add_if_missing now dcols "documents" "approved_at" (column TIMESTAMP) d in
  let d := add_if_missing now dcols "documents" "issued_at" (column TIMESTAMP) d in
  let d := add_if_missing now dcols "documents" "is_archived"
             (not_null_default "BOOLEAN" DefaultFalse) d in
  let d := add_if_missing now dcols "documents" "archived_at" (column TIMESTAMP) d in
  let d := add_if_missing now dcols "documents" "created_by_id" (column "INTEGER") d in
  let d := add_if_missing now dcols "documents" "updated_by_id" (column "INTEGER") d in
  let d := add_if_missing now dcols "documents" "approved_by_id" (column "INTEGER") d in
  let d := add_if_missing now dcols "documents" "issued_by_id" (column "INTEGER") d in
  add_if_missing now dcols "documents" "archived_by_id" (column "INTEGER") d.

Definition documents_dates (now : Z) (d : Database) : Database :=
  _exec_try now UpdateIssuedAt (_exec_try now UpdateCreatedAt d).

Definition documents_types (now : Z) (g : bool) (d : Database) : Database :=
  let d := if g then backfill_from_doc_type now d else d in
  _exec_try now UpdateTypeIdUnknown (_exec_try now InsertUnknownType d).

Definition documents_constraints (now : Z) (d : Database) : Database :=
  let d := _exec_try now SET_NOT_NULL_document_type_id d in
  let d := _exec_try now ADD_DOCUMENT_TYPE_KEY d in
  let d := _exec_try now INDEX_issue_date d in
  let d := _exec_try now INDEX_resident_id d in
  _exec_try now INDEX_document_type_id d.

Lemma heal_documents_parts now d :
  heal_documents now d =
  if has_table "documents" d then
    let d0 := add_if_missing now (_colnames "documents" d) "documents" "document_type_id"
                (column "INTEGER") d in
    let dcols := _colnames "documents" d0 in
    documents_constraints now
      (documents_types now (bool_decide ("doc_type" ∈ dcols))
         (documents_dates now
            (documents_columns now dcols (documents_status now dcols d0))))
  else d.
Proof.
  unfold heal_documents.
  destruct (has_table "documents" d); [|reflexivity].
  unfold documents_constraints, documents_types, documents_dates, documents_columns,
    documents_status, SET_NOT_NULL_document_type_id, ADD_DOCUMENT_TYPE_KEY,
    INDEX_issue_date, INDEX_resident_id, INDEX_document_type_id.
  change (add_if_missing now (_colnames "documents" d) "documents" "document_type_id"
            (column "INTEGER") d)
    with (if bool_decide ("document_type_id" ∈ _colnames "documents" d) then d
          else _exec_try now
                 (AddColumnIfNotExists "documents" "document_type_id" (column "INTEGER")) d).
  destruct (bool_decide ("document_type_id" ∈ _colnames "documents" d)); reflexivity.
Qed.

Ltac open_documents :=
  unfold documents_constraints, documents_types, documents_dates, documents_columns,
    documents_status, backfill_from_doc_type, SET_NOT_NULL_document_type_id,
    ADD_DOCUMENT_TYPE_KEY, INDEX_issue_date, INDEX_resident_id, INDEX_document_type_id;
  cbv zeta.

Lemma heal_documents_kept now d : catalog_kept d (heal_documents now d).
Proof.
  rewrite heal_documents_parts. destruct (has_table _ _); [|kept].
  open_documents. destruct (bool_decide _); kept.
Qed.

Lemma heal_documents_other now d t :
  t <> "documents" -> lookup_table t (heal_documents now d) = lookup_table t d.
Proof.
  intros Hne. rewrite heal_documents_parts. destruct (has_table _ _); [|reflexivity].
  open_documents. destruct (bool_decide _); other_table; reflexivity.
Qed.

Lemma heal_documents_logs now d : same_for_logs d (heal_documents now d).
Proof.
  rewrite heal_documents_parts. destruct (has_table _ _); [|apply same_for_logs_refl].
  open_documents. destruct (bool_decide _); same_for_logs_chain.
Qed.

(** A statement that has nothing left to do. *)
Definition fixed (sql : Statement) (d : Database) : Prop :=
  forall now, _exec_try now sql d = d.

(** Whether document_types has the columns [id] and [name]. *)
Definition has_type_columns (d : Database) : bool :=
  has_column "document_types" "id" d && has_column "document_types" "name" d.

Definition status_set (r : DocumentRow) : Prop := is_Some (status r).

Definition created_at_set (r : DocumentRow) : Prop :=
  created_at r = None -> issue_date r = None.

Definition issued_at_set (r : DocumentRow) : Prop :=
  issued_at r = None -> status r = Some "issued" -> issue_date r = None.

Definition doc_type_known (ts : gmap string Z) (r : DocumentRow) : Prop :=
  forall n, doc_type r = Some n -> Py.truthy n = true -> is_Some (ts !! n).

Definition doc_type_unmatched (ts : gmap string Z) (r : DocumentRow) : Prop :=
  document_type_id r = None -> forall n, doc_type r = Some n -> ts !! n = None.

Definition doc_type_set (r : DocumentRow) : Prop := is_Some (doc_type r).

Definition no_fallback (ts : gmap string Z) (r : DocumentRow) : Prop :=
  document_type_id r = None -> ts !! "Unknown" = None.

Lemma update_status_fixed d :
  Forall status_set (documents (rows d)) -> fixed UpdateStatusIssued d.
Proof.
  intros H now. rewrite _exec_try_run. simpl. apply update_documents_fixed. intros _.
  eapply List.Forall_impl; [|exact H]. intros r. apply status_issued_fixed.
Qed.

Lemma update_created_at_fixed d :
  (has_column "documents" "issue_date" d = true ->
   Forall created_at_set (documents (rows d))) ->
  fixed UpdateCreatedAt d.
Proof.
  intros H now. rewrite _exec_try_run. simpl. apply update_documents_fixed. simpl.
  intros G. apply andb_true_iff in G as [_ G]. rewrite andb_true_r in G.
  eapply List.Forall_impl; [|exact (H G)]. intros r. apply created_at_fixed.
Qed.

Lemma update_issued_at_fixed d :
  (has_column "documents" "issue_date" d = true ->
   Forall issued_at_set (documents (rows d))) ->
  fixed UpdateIssuedAt d.
Proof.
  intros H now. rewrite _exec_try_run. simpl. apply update_documents_fixed. simpl.
  intros G. apply andb_true_iff in G as [_ G]. apply andb_true_iff in G as [G _].
  eapply List.Forall_impl; [|exact (H G)]. intros r. apply issued_at_fixed.
Qed.

Lemma insert_types_fixed_here d :
  (insertable_document_types d = true ->
   Forall (doc_type_known (document_types (rows d))) (documents (rows d))) ->
  fixed InsertTypesFromDocType d.
Proof.
  intros H now. rewrite _exec_try_run. simpl.
  destruct (has_column "documents" "doc_type" d); [|reflexivity].
  destruct (insertable_document_types d); [|reflexivity]. simpl.
  rewrite insert_types_fixed by (apply doc_type_names_Forall, H; reflexivity).
  rewrite with_document_types_same. apply with_rows_same.
Qed.

Lemma update_type_id_fixed d :
  (has_type_columns d = true ->
   Forall (doc_type_unmatched (document_types (rows d))) (documents (rows d))) ->
  fixed UpdateTypeIdFromDocType d.
Proof.
  intros H now. rewrite _exec_try_run. simpl. fold (has_type_columns d).
  destruct (has_type_columns d); [|reflexivity].
  apply update_documents_fixed. intros _.
  eapply List.Forall_impl; [|exact (H eq_refl)]. intros r. apply type_id_from_doc_type_fixed.
Qed.

Lemma set_default_same dflt col : col_default col = dflt -> set_default dflt col = col.
Proof. destruct col; simpl; intros ->; reflexivity. Qed.

Lemma set_default_fixed d :
  (forall col, lookup_column "documents" "doc_type" d = Some col ->
               col_default col = DefaultText "Unknown") ->
  fixed SET_DEFAULT_doc_type d.
Proof.
  intros H now. rewrite _exec_try_run. simpl. apply alter_column_fixed.
  intros col Hc. apply set_default_same, H, Hc.
Qed.

Lemma update_doc_type_fixed d :
  Forall doc_type_set (documents (rows d)) -> fixed UpdateDocTypeUnknown d.
Proof.
  intros H now. rewrite _exec_try_run. simpl. apply update_documents_fixed. intros _.
  eapply List.Forall_impl; [|exact H]. intros r. apply doc_type_unknown_fixed.
Qed.

Lemma insert_unknown_fixed d :
  (insertable_document_types d = true ->
   is_Some (document_types (rows d) !! "Unknown")) ->
  fixed InsertUnknownType d.
Proof.
  intros H now. rewrite _exec_try_run. simpl.
  destruct (insertable_document_types d); [|reflexivity]. simpl.
  rewrite insert_type_fixed by (apply H; reflexivity).
  rewrite with_document_types_same. apply with_rows_same.
Qed.

Lemma update_unknown_fixed d :
  (has_type_columns d = true ->
   Forall (no_fallback (document_types (rows d))) (documents (rows d))) ->
  fixed UpdateTypeIdUnknown d.
Proof.
  intros H now. rewrite _exec_try_run. simpl. fold (has_type_columns d).
  destruct (has_type_columns d); [|reflexivity].
  apply update_documents_fixed. intros _.
  eapply List.Forall_impl; [|exact (H eq_refl)]. intros r. apply type_id_unknown_fixed.
Qed.

Lemma set_not_null_fixed d :
  (no_nulls "documents" "document_type_id" (rows d) = true ->
   forall col, lookup_column "documents" "document_type_id" d = Some col ->
               col_notnull col = true) ->
  fixed SET_NOT_NULL_document_type_id d.
Proof.
  intros H now. rewrite _exec_try_run. unfold SET_NOT_NULL_document_type_id, run.
  destruct (no_nulls _ _ _); [|reflexivity].
  apply alter_column_fixed. intros col Hc. apply set_notnull_same. eapply H; eauto.
Qed.

Lemma add_document_type_key_fixed d :
  constraint_exists "documents_document_type_id_fkey" d = true
  \/ add_foreign_key "documents_document_type_id_fkey" "documents" "document_type_id"
       "document_types" "id" false d = None ->
  fixed ADD_DOCUMENT_TYPE_KEY d.
Proof.
  intros H now. rewrite _exec_try_run. unfold ADD_DOCUMENT_TYPE_KEY, run.
  destruct (constraint_exists _ d); [reflexivity|].
  destruct H as [H|H]; [discriminate|]. rewrite H. reflexivity.
Qed.

Lemma create_index_is_fixed i t c d :
  index_settled i t c d -> fixed (CreateIndexIfNotExists i t c) d.
Proof. intros H now. apply create_index_fixed, H. Qed.

(** Every statement of the healing of documents has nothing left to do. *)
Definition documents_settled (d : Database) : Prop :=
  has_table "documents" d = true ->
  DOCUMENT_COLUMNS ⊆ _colnames "documents" d
  /\ (fixed UpdateStatusIssued d /\ fixed UpdateCreatedAt d /\ fixed UpdateIssuedAt d)
  /\ ("doc_type" ∈ _colnames "documents" d ->
      fixed InsertTypesFromDocType d /\ fixed UpdateTypeIdFromDocType d
      /\ fixed SET_DEFAULT_doc_type d /\ fixed UpdateDocTypeUnknown d)
  /\ (fixed InsertUnknownType d /\ fixed UpdateTypeIdUnknown d)
  /\ (fixed SET_NOT_NULL_document_type_id d /\ fixed ADD_DOCUMENT_TYPE_KEY d)
  /\ (fixed INDEX_issue_date d /\ fixed INDEX_resident_id d
      /\ fixed INDEX_document_type_id d).

Lemma heal_documents_fixed now d : documents_settled d -> heal_documents now d = d.
Proof.
  intros H. rewrite heal_documents_parts.
  destruct (has_table "documents" d) eqn:E; [|reflexivity].
  destruct (H E) as (Hc & (U1 & U2 & U3) & Hb & (C1 & C2) & (N & F) & (I1 & I2 & I3)).
  cbv zeta.
  rewrite (add_if_missing_id now (_colnames "documents" d))
    by (apply Hc; unfold DOCUMENT_COLUMNS; set_solver).
  unfold documents_status. cbv zeta.
  rewrite add_if_missing_id by (apply Hc; unfold DOCUMENT_COLUMNS; set_solver).
  rewrite (U1 now).
  unfold documents_columns. cbv zeta.
  rewrite !add_if_missing_id by (apply Hc; unfold DOCUMENT_COLUMNS; set_solver).
  unfold documents_dates. rewrite (U2 now), (U3 now).
  unfold documents_types. cbv zeta.
  assert (B : (if bool_decide ("doc_type" ∈ _colnames "documents" d)
               then backfill_from_doc_type now d else d) = d).
  { destruct (bool_decide _) eqn:G; [|reflexivity].
    apply bool_decide_eq_true in G. destruct (Hb G) as (B1 & B2 & B3 & B4).
    unfold backfill_from_doc_type. cbv zeta.
    rewrite (B1 now), (B2 now). fold SET_DEFAULT_doc_type. rewrite (B3 now). apply B4. }
  rewrite B, (C1 now), (C2 now).
  unfold documents_constraints. cbv zeta.
  rewrite (N now), (F now), (I1 now), (I2 now). apply I3.
Qed.

(** *** documents: the status, the columns and the dates *)

Lemma has_column_map_documents t c f d :
  has_column t c (map_documents f d) = has_column t c d.
Proof. reflexivity. Qed.

Lemma update_documents_done needs f d :
  forallb (fun c => has_column "documents" c d) needs = true ->
  default d (update_documents needs f d) = map_documents f d.
Proof. intros H. unfold update_documents. rewrite H. reflexivity. Qed.

Lemma documents_status_settles now dcols d :
  has_table "documents" d = true -> dcols ⊆ _colnames "documents" d ->
  Forall status_set (documents (rows (documents_status now dcols d))).
Proof.
  intros Ht Hc. unfold documents_status. cbv zeta.
  match goal with |- context [_exec_try now _ ?x] => set (d1 := x) end.
  assert (H1 : cols_inv "documents" dcols (∅ ∪ {["status"]}) d1).
  { subst d1. apply add_if_missing_inv. split; [exact Ht|]. split; [exact Hc|set_solver]. }
  destruct H1 as (_ & _ & H1).
  assert (Hs : has_column "documents" "status" d1 = true)
    by (apply has_column_true; set_solver).
  rewrite _exec_try_run. simpl run.
  rewrite update_documents_done by (simpl; rewrite Hs; reflexivity).
  simpl. apply List.Forall_map, List.Forall_forall. intros r _.
  unfold status_set. simpl. destruct (status r); eauto.
Qed.

Lemma documents_columns_status now dcols d :
  keeps status d (documents_columns now dcols d).
Proof. unfold documents_columns. cbv zeta. keeps_chain. Qed.

Lemma documents_dates_status now d : keeps status d (documents_dates now d).
Proof. unfold documents_dates. keeps_chain. Qed.

Lemma documents_dates_settles now d :
  has_column "documents" "created_at" d = true ->
  has_column "documents" "issued_at" d = true ->
  has_column "documents" "status" d = true ->
  has_column "documents" "issue_date" d = true ->
  Forall created_at_set (documents (rows (documents_dates now d)))
  /\ Forall issued_at_set (documents (rows (documents_dates now d))).
Proof.
  intros H1 H2 H3 H4. unfold documents_dates.
  rewrite (_exec_try_run now UpdateCreatedAt). simpl run.
  rewrite update_documents_done by (simpl; rewrite H1, H4; reflexivity).
  rewrite _exec_try_run. simpl run.
  rewrite update_documents_done
    by (simpl; rewrite !has_column_map_documents, H2, H3, H4; reflexivity).
  simpl. rewrite List.map_map.
  split; apply List.Forall_map, List.Forall_forall; intros r _;
    destruct r as [a b s c e f].
  - unfold created_at_set. simpl. destruct e; [discriminate|]. intros E. exact E.
  - unfold issued_at_set. simpl. destruct f; [discriminate|].
    destruct s as [s|]; [|discriminate].
    destruct (String.eqb_spec s "issued") as [->|Hn]; [intros E _; exact E|].
    intros _ [= E]. contradiction.
Qed.

(** *** documents: the document types *)

(** What the statements of the backfill do to the rows when they go
    through ([b]) or fail. *)
Definition insert_names (b : bool) (r : Rows) : Rows :=
  if b then
    with_document_types
      (fold_left (fun acc n => insert_type n acc) (doc_type_names (documents r))
         (document_types r)) r
  else r.

Definition match_names (b : bool) (r : Rows) : Rows :=
  if b then
    with_documents (List.map (type_id_from_doc_type (document_types r)) (documents r)) r
  else r.

Definition name_unknown (b : bool) (r : Rows) : Rows :=
  if b then with_documents (List.map doc_type_unknown (documents r)) r else r.

Definition insert_unknown (b : bool) (r : Rows) : Rows :=
  if b then with_document_types (insert_type "Unknown" (document_types r)) r else r.

Definition match_unknown (b : bool) (r : Rows) : Rows :=
  if b then
    with_documents (List.map (type_id_unknown (document_types r)) (documents r)) r
  else r.

Lemma update_documents_rows needs f d :
  rows (default d (update_documents needs f d)) =
  if forallb (fun c => has_column "documents" c d) needs
  then with_documents (List.map f (documents (rows d))) (rows d) else rows d.
Proof. unfold update_documents. destruct (forallb _ _); reflexivity. Qed.

Lemma rows_insert_types now d :
  rows (_exec_try now InsertTypesFromDocType d) =
  insert_names (has_column "documents" "doc_type" d && insertable_document_types d) (rows d).
Proof. rewrite _exec_try_run. simpl. destruct (_ && _); reflexivity. Qed.

Lemma rows_update_type_id now d :
  rows (_exec_try now UpdateTypeIdFromDocType d) =
  match_names (has_type_columns d
               && (has_column "documents" "document_type_id" d
                   && has_column "documents" "doc_type" d)) (rows d).
Proof.
  rewrite _exec_try_run. simpl. fold (has_type_columns d).
  destruct (has_type_columns d); [|reflexivity]. simpl.
  rewrite update_documents_rows. simpl. rewrite andb_true_r. reflexivity.
Qed.

Lemma rows_update_doc_type now d :
  rows (_exec_try now UpdateDocTypeUnknown d) =
  name_unknown (has_column "documents" "doc_type" d) (rows d).
Proof.
  rewrite _exec_try_run. simpl. rewrite update_documents_rows. simpl.
  rewrite andb_true_r. reflexivity.
Qed.

Lemma rows_insert_unknown now d :
  rows (_exec_try now InsertUnknownType d) =
  insert_unknown (insertable_document_types d) (rows d).
Proof. rewrite _exec_try_run. simpl. destruct (insertable_document_types d); reflexivity. Qed.

Lemma rows_update_unknown now d :
  rows (_exec_try now UpdateTypeIdUnknown d) =
  match_unknown (has_type_columns d && has_column "documents" "document_type_id" d)
    (rows d).
Proof.
  rewrite _exec_try_run. simpl. fold (has_type_columns d).
  destruct (has_type_columns d); [|reflexivity]. simpl.
  rewrite update_documents_rows. simpl. rewrite andb_true_r. reflexivity.
Qed.

Lemma _exec_try_rows_ddl now sql d :
  match sql with
  | CreateIndexIfNotExists _ _ _ | DropNotNull _ _ | SetNotNull _ _ | SetDefault _ _ _
  | ReplaceForeignKey _ _ _ _ _ | AddForeignKeyIfMissing _ _ _ _ _ => True
  | _ => False
  end ->
  rows (_exec_try now sql d) = rows d.
Proof.
  intros Hk. rewrite _exec_try_run.
  destruct (run now sql d) as [d'|] eqn:H; simpl; [|reflexivity].
  eapply run_rows_ddl; eassumption.
Qed.

Lemma insertable_congr d d' :
  lookup_table "document_types" d' = lookup_table "document_types" d ->
  insertable_document_types d' = insertable_document_types d.
Proof. unfold insertable_document_types. intros ->. reflexivity. Qed.

Lemma _exec_try_insertable now sql d :
  written_table sql <> Some "document_types" ->
  insertable_document_types (_exec_try now sql d) = insertable_document_types d.
Proof. intros H. apply insertable_congr, _exec_try_lookup_table, H. Qed.

Lemma _exec_try_has_type_columns now sql d :
  adds_columns sql = false ->
  has_type_columns (_exec_try now sql d) = has_type_columns d.
Proof. intros H. unfold has_type_columns. rewrite !_exec_try_has_column by exact H. reflexivity. Qed.

Ltac guards :=
  repeat first
    [ rewrite _exec_try_has_column by reflexivity
    | rewrite _exec_try_has_type_columns by reflexivity
    | rewrite _exec_try_insertable by (simpl; congruence) ].

(** The rows after the part that deals with the document types. *)
Definition backfill_rows (g i k : bool) (r : Rows) : Rows :=
  let r := if g then name_unknown true (match_names k (insert_names i r)) else r in
  match_unknown k (insert_unknown i r).

Lemma documents_types_rows now g d :
  (g = true -> has_column "documents" "doc_type" d = true) ->
  has_column "documents" "document_type_id" d = true ->
  rows (documents_types now g d) =
  backfill_rows g (insertable_document_types d) (has_type_columns d) (rows d).
Proof.
  intros Hg Hi. unfold documents_types, backfill_rows. cbv zeta.
  rewrite rows_update_unknown. guards. rewrite rows_insert_unknown.
  destruct g.
  - unfold backfill_from_doc_type. cbv zeta. guards.
    rewrite rows_update_doc_type. guards.
    rewrite _exec_try_rows_ddl by exact I.
    rewrite rows_update_type_id. guards.
    rewrite rows_insert_types.
    rewrite (Hg eq_refl), Hi, !andb_true_r. simpl. reflexivity.
  - rewrite Hi, andb_true_r. reflexivity.
Qed.

Lemma doc_type_unmatched_backfilled t1 t4 x :
  (forall m, m <> "Unknown" -> t1 !! m = None -> t4 !! m = None) ->
  doc_type_unmatched t4
    (type_id_unknown t4 (doc_type_unknown (type_id_from_doc_type t1 x))).
Proof.
  intros H. destruct x as [a b s c e f]. unfold doc_type_unmatched. simpl.
  destruct b as [i|]; [discriminate|].
  destruct a as [m|]; simpl.
  - destruct (t1 !! m) eqn:E1; [discriminate|].
    destruct (t4 !! "Unknown") eqn:E4; [discriminate|].
    intros _ n [= <-]. destruct (decide (m = "Unknown")) as [->|Hne]; [exact E4|].
    apply H; assumption.
  - destruct (t4 !! "Unknown") eqn:E4; [discriminate|].
    intros _ n [= <-]. exact E4.
Qed.

Lemma no_fallback_backfilled ts x : no_fallback ts (type_id_unknown ts x).
Proof.
  destruct x as [a b s c e f]. unfold no_fallback. simpl.
  destruct b as [i|]; [discriminate|]. intros E. exact E.
Qed.

Lemma backfill_rows_known g k r :
  g = true ->
  let r' := backfill_rows g true k r in
  Forall (doc_type_known (document_types r')) (documents r').
Proof.
  intros ->. destruct r as [ds ts tl us].
  destruct k; simpl; rewrite ?List.Forall_map; apply List.Forall_forall;
    intros x Hx n; simpl; destruct (doc_type x) as [m|] eqn:E; simpl;
    intros [= <-] Ht;
    try apply insert_type_there;
    destruct (insert_types_there _ ts m (doc_type_names_In _ _ _ Hx E Ht)) as [v Hv];
    exists v; apply insert_type_kept, Hv.
Qed.

Lemma backfill_rows_unmatched g i r :
  g = true ->
  let r' := backfill_rows g i true r in
  Forall (doc_type_unmatched (document_types r')) (documents r').
Proof.
  intros ->. destruct r as [ds ts tl us].
  destruct i; simpl; rewrite !List.Forall_map; apply List.Forall_forall;
    intros x _; apply doc_type_unmatched_backfilled; intros m Hne Hm;
    [rewrite insert_type_other by exact Hne|]; exact Hm.
Qed.

Lemma backfill_rows_doc_type g i k r :
  g = true -> Forall doc_type_set (documents (backfill_rows g i k r)).
Proof.
  intros ->. destruct r as [ds ts tl us].
  destruct i, k; simpl; rewrite ?List.Forall_map; apply List.Forall_forall;
    intros x _; unfold doc_type_set; simpl; destruct (doc_type x); eauto.
Qed.

Lemma backfill_rows_unknown g k r :
  is_Some (document_types (backfill_rows g true k r) !! "Unknown").
Proof.
  destruct r as [ds ts tl us]. destruct g, k; simpl; apply insert_type_there.
Qed.

Lemma backfill_rows_no_fallback g i r :
  let r' := backfill_rows g i true r in
  Forall (no_fallback (document_types r')) (documents r').
Proof.
  destruct r as [ds ts tl us].
  destruct g, i; simpl; rewrite ?List.Forall_map; apply List.Forall_forall;
    intros x _; apply no_fallback_backfilled.
Qed.

Lemma alter_column_settles t c f d col :
  lookup_column t c (default d (alter_column t c f d)) = Some col ->
  exists col0, col = f col0.
Proof.
  destruct (alter_column t c f d) as [d'|] eqn:H; simpl.
  - eapply alter_column_lookup, H.
  - unfold alter_column, lookup_column in *.
    destruct (lookup_table t d) as [tb|]; [|discriminate].
    destruct (columns tb !! c); discriminate.
Qed.

Lemma documents_types_other now g d t :
  t <> "documents" -> lookup_table t (documents_types now g d) = lookup_table t d.
Proof.
  intros Hne. unfold documents_types, backfill_from_doc_type. cbv zeta.
  destruct g; other_table; reflexivity.
Qed.

Lemma documents_types_has_column now g d t c :
  has_column t c (documents_types now g d) = has_column t c d.
Proof.
  unfold documents_types, backfill_from_doc_type. cbv zeta.
  destruct g; guards; reflexivity.
Qed.

Lemma documents_types_default now d col :
  lookup_column "documents" "doc_type" (documents_types now true d) = Some col ->
  col_default col = DefaultText "Unknown".
Proof.
  unfold documents_types, backfill_from_doc_type. cbv zeta.
  rewrite !(_exec_try_lookup_column now _ _ "documents" "doc_type") by reflexivity.
  rewrite _exec_try_run. simpl run. intros H.
  apply alter_column_settles in H as (col0 & ->). reflexivity.
Qed.

Lemma documents_types_keeps {X} (p : DocumentRow -> X) now g d :
  (forall ts r, p (type_id_from_doc_type ts r) = p r) ->
  (forall r, p (doc_type_unknown r) = p r) ->
  (forall ts r, p (type_id_unknown ts r) = p r) ->
  keeps p d (documents_types now g d).
Proof.
  intros H1 H2 H3. unfold documents_types, backfill_from_doc_type. cbv zeta.
  destruct g;
    repeat (eapply keeps_trans;
            [|apply _exec_try_keeps;
              [reflexivity
              |intros r; unfold row_update;
               first [apply H1|apply H2|apply H3|reflexivity]]]);
    apply keeps_refl.
Qed.

(** *** documents: NOT NULL, the foreign key and the indexes *)

Lemma documents_constraints_rows now d : rows (documents_constraints now d) = rows d.
Proof.
  unfold documents_constraints. cbv zeta.
  rewrite !_exec_try_rows_ddl by exact I. reflexivity.
Qed.

Lemma documents_constraints_other now d t :
  t <> "documents" -> lookup_table t (documents_constraints now d) = lookup_table t d.
Proof.
  intros Hne. open_documents. other_table. reflexivity.
Qed.

Lemma documents_constraints_has_column now d t c :
  has_column t c (documents_constraints now d) = has_column t c d.
Proof. open_documents. guards. reflexivity. Qed.

Lemma documents_constraints_doc_type now d :
  lookup_column "documents" "doc_type" (documents_constraints now d)
  = lookup_column "documents" "doc_type" d.
Proof.
  open_documents.
  rewrite !(_exec_try_lookup_column now _ _ "documents" "doc_type") by reflexivity.
  reflexivity.
Qed.

Definition not_null_settled (d : Database) : Prop :=
  no_nulls "documents" "document_type_id" (rows d) = true ->
  forall col, lookup_column "documents" "document_type_id" d = Some col ->
              col_notnull col = true.

Definition type_key_settled (d : Database) : Prop :=
  constraint_exists "documents_document_type_id_fkey" d = true
  \/ add_foreign_key "documents_document_type_id_fkey" "documents" "document_type_id"
       "document_types" "id" false d = None.

Lemma set_not_null_settles now d :
  not_null_settled (_exec_try now SET_NOT_NULL_document_type_id d).
Proof.
  unfold not_null_settled. rewrite _exec_try_run.
  unfold SET_NOT_NULL_document_type_id, run.
  destruct (no_nulls "documents" "document_type_id" (rows d)) eqn:E.
  - intros _ col H. apply alter_column_settles in H as (col0 & ->). reflexivity.
  - simpl. intros H. congruence.
Qed.

Lemma add_document_type_key_settles now d :
  type_key_settled (_exec_try now ADD_DOCUMENT_TYPE_KEY d).
Proof.
  unfold type_key_settled. rewrite _exec_try_run. unfold ADD_DOCUMENT_TYPE_KEY, run.
  destruct (constraint_exists _ d) eqn:E; simpl; [left; exact E|].
  destruct (add_foreign_key _ _ _ _ _ _ d) as [d'|] eqn:H; simpl; [left|right; exact H].
  apply add_foreign_key_shape in H as (tb & Ht & ->).
  apply constraint_exists_true. exists "documents".
  rewrite fk_named_put_table, decide_True by reflexivity. simpl.
  rewrite lookup_insert_eq. eauto.
Qed.

Lemma add_foreign_key_congr n t c rt rc b d d' :
  tables (catalog d') = tables (catalog d) -> rows d' = rows d ->
  add_foreign_key n t c rt rc b d = None -> add_foreign_key n t c rt rc b d' = None.
Proof.
  intros Et Er. unfold add_foreign_key, has_column, is_key, lookup_column, lookup_table.
  rewrite Et, Er. intros H.
  destruct (tables (catalog d) !! t); [|reflexivity].
  destruct (_ && _); [discriminate|reflexivity].
Qed.

Lemma _exec_try_tables now sql d :
  written_table sql = None ->
  tables (catalog (_exec_try now sql d)) = tables (catalog d).
Proof.
  intros Hw. rewrite _exec_try_run.
  destruct (run now sql d) as [d'|] eqn:H; simpl; [|reflexivity].
  destruct (run_tables _ _ _ _ H) as [E|(t0 & W & _)]; [exact E|congruence].
Qed.

Lemma type_key_settled_index now i t c d :
  type_key_settled d -> type_key_settled (_exec_try now (CreateIndexIfNotExists i t c) d).
Proof.
  intros [H|H]; [left|right].
  - erewrite constraint_exists_congr; [exact H|]. intros t0.
    apply _exec_try_fk_named. reflexivity.
  - eapply add_foreign_key_congr; [| |exact H].
    + apply _exec_try_tables. reflexivity.
    + apply _exec_try_rows_ddl. exact I.
Qed.

Lemma documents_constraints_settles now d :
  let d' := documents_constraints now d in
  not_null_settled d' /\ type_key_settled d'
  /\ index_settled "ix_documents_issue_date" "documents" "issue_date" d'
  /\ index_settled "ix_documents_resident_id" "documents" "resident_id" d'
  /\ index_settled "ix_documents_document_type_id" "documents" "document_type_id" d'.
Proof.
  unfold documents_constraints. cbv zeta.
  unfold INDEX_issue_date, INDEX_resident_id, INDEX_document_type_id.
  split; [|split; [|split; [|split]]].
  - pose proof (set_not_null_settles now d) as H.
    unfold not_null_settled in *.
    rewrite !_exec_try_rows_ddl by exact I.
    rewrite !(_exec_try_lookup_column now _ _ "documents" "document_type_id") by reflexivity.
    rewrite _exec_try_rows_ddl in H by exact I. exact H.
  - do 3 apply type_key_settled_index. apply add_document_type_key_settles.
  - eapply index_settled_kept; [| |apply create_index_settles].
    + kept.
    + other_table. reflexivity.
  - eapply index_settled_kept; [| |apply create_index_settles].
    + kept.
    + other_table. reflexivity.
  - apply create_index_settles.
Qed.

(** *** documents: the healing settles *)

Lemma has_column_colnames t c d : has_column t c d = bool_decide (c ∈ _colnames t d).
Proof.
  destruct (has_column t c d) eqn:E; symmetry.
  - apply bool_decide_eq_true, has_column_true, E.
  - apply bool_decide_eq_false, has_column_false, E.
Qed.

Lemma documents_status_cols now dcols X d :
  cols_inv "documents" dcols X d ->
  cols_inv "documents" dcols (X ∪ {["status"]}) (documents_status now dcols d).
Proof. intros H. unfold documents_status. cbv zeta. apply _exec_try_inv, add_if_missing_inv, H. Qed.

Lemma documents_columns_cols now dcols X d :
  cols_inv "documents" dcols X d ->
  cols_inv "documents" dcols
    (X ∪ {["created_at"]} ∪ {["updated_at"]} ∪ {["approved_at"]} ∪ {["issued_at"]}
       ∪ {["is_archived"]} ∪ {["archived_at"]} ∪ {["created_by_id"]}
       ∪ {["updated_by_id"]} ∪ {["approved_by_id"]} ∪ {["issued_by_id"]}
       ∪ {["archived_by_id"]})
    (documents_columns now dcols d).
Proof.
  intros H. unfold documents_columns. cbv zeta.
  do 11 apply add_if_missing_inv. exact H.
Qed.

Lemma documents_doc_type_column now dcols d :
  lookup_column "documents" "doc_type"
    (documents_dates now (documents_columns now dcols (documents_status now dcols d)))
  = lookup_column "documents" "doc_type" d.
Proof.
  unfold documents_dates, documents_columns, documents_status. cbv zeta.
  repeat first
    [ rewrite add_if_missing_lookup_column by discriminate
    | rewrite _exec_try_lookup_column by reflexivity ].
  reflexivity.
Qed.

Lemma documents_dates_has_column now d t c :
  has_column t c (documents_dates now d) = has_column t c d.
Proof. unfold documents_dates. guards. reflexivity. Qed.

Lemma heal_documents_settles now d : documents_settled (heal_documents now d).
Proof.
  rewrite heal_documents_parts.
  destruct (has_table "documents" d) eqn:E; [|intros H; congruence].
  cbv zeta. intros _.
  set (d0 := add_if_missing now (_colnames "documents" d) "documents" "document_type_id"
               (column "INTEGER") d).
  set (dcols := _colnames "documents" d0).
  set (g := bool_decide ("doc_type" ∈ dcols)).
  set (da := documents_status now dcols d0).
  set (db := documents_columns now dcols da).
  set (dc := documents_dates now db).
  set (dd := documents_types now g dc).
  set (de := documents_constraints now dd).
  assert (H0 : cols_inv "documents" dcols (∅ ∪ {["document_type_id"]}) d0).
  { pose proof (add_if_missing_inv now _ _ _ "document_type_id" (column "INTEGER") _
                  (cols_inv_start _ _ E)) as (A & _ & C).
    fold d0 in A, C. split; [exact A|]. split; [reflexivity|exact C]. }
  pose proof (documents_columns_cols now _ _ _ (documents_status_cols now _ _ _ H0)) as Hb.
  fold da db in Hb. destruct Hb as (_ & _ & Hb).
  assert (Hcd : forall c, has_column "documents" c dc = has_column "documents" c db)
    by (intros c; apply documents_dates_has_column).
  assert (Hde : forall c, has_column "documents" c de = has_column "documents" c db).
  { intros c. subst de dd.
    rewrite documents_constraints_has_column, documents_types_has_column. apply Hcd. }
  assert (Hin : forall c, c ∈ _colnames "documents" db -> has_column "documents" c de = true)
    by (intros c Hc; rewrite Hde; apply has_column_true, Hc).
  assert (Hg : has_column "documents" "doc_type" dc = g).
  { subst g dcols dc db da. unfold has_column at 1.
    rewrite documents_doc_type_column. apply has_column_colnames. }
  assert (Hr : rows de
               = backfill_rows g (insertable_document_types dc) (has_type_columns dc)
                   (rows dc)).
  { subst de dd. rewrite documents_constraints_rows. apply documents_types_rows.
    - intros Hgt. rewrite Hg. exact Hgt.
    - rewrite Hcd. apply has_column_true. clear -Hb. set_solver. }
  assert (Hi : insertable_document_types de = insertable_document_types dc).
  { apply insertable_congr. subst de dd.
    rewrite documents_constraints_other, documents_types_other by discriminate.
    reflexivity. }
  assert (Hk : has_type_columns de = has_type_columns dc).
  { unfold has_type_columns. subst de dd.
    rewrite !documents_constraints_has_column, !documents_types_has_column. reflexivity. }
  assert (Hrows : rows de = rows dd) by apply documents_constraints_rows.
  assert (Hs : Forall status_set (documents (rows de))).
  { rewrite Hrows.
    apply (keeps_Forall status (fun s => is_Some s) dc dd);
      [apply documents_types_keeps; reflexivity|].
    apply (keeps_Forall status (fun s => is_Some s) da dc);
      [eapply keeps_trans; [apply documents_columns_status|apply documents_dates_status]|].
    apply documents_status_settles; [apply H0|reflexivity]. }
  assert (Hdates : has_column "documents" "issue_date" de = true ->
                   Forall created_at_set (documents (rows de))
                   /\ Forall issued_at_set (documents (rows de))).
  { rewrite Hde, Hrows. intros Hd.
    destruct (documents_dates_settles now db) as [A B]; try exact Hd;
      try (apply has_column_true; clear -Hb; set_solver).
    fold dc in A, B. split.
    - apply (keeps_Forall (fun r => (created_at r, issue_date r))
               (fun x => fst x = None -> snd x = None) dc dd);
        [apply documents_types_keeps; reflexivity|exact A].
    - apply (keeps_Forall (fun r => (issued_at r, status r, issue_date r))
               (fun x => fst (fst x) = None -> snd (fst x) = Some "issued" -> snd x = None)
               dc dd);
        [apply documents_types_keeps; reflexivity|exact B]. }
  destruct (documents_constraints_settles now dd) as (N & F & I1 & I2 & I3).
  fold de in N, F, I1, I2, I3.
  split; [|split; [|split; [|split; [|split]]]].
  - unfold DOCUMENT_COLUMNS. intros c Hc. apply has_column_true, Hin.
    clear -Hc Hb. set_solver.
  - split; [apply update_status_fixed, Hs|].
    split; [apply update_created_at_fixed|apply update_issued_at_fixed];
      intros Hd; apply Hdates, Hd.
  - intros Hdt. apply has_column_true in Hdt. rewrite Hde, <- Hcd, Hg in Hdt.
    split; [|split; [|split]].
    + apply insert_types_fixed_here. rewrite Hi, Hr. intros Hins. rewrite Hins.
      apply backfill_rows_known, Hdt.
    + apply update_type_id_fixed. rewrite Hk, Hr. intros Hins. rewrite Hins.
      apply backfill_rows_unmatched, Hdt.
    + apply set_default_fixed. intros col. subst de dd.
      rewrite documents_constraints_doc_type, Hdt. apply documents_types_default.
    + apply update_doc_type_fixed. rewrite Hr. apply backfill_rows_doc_type, Hdt.
  - split.
    + apply insert_unknown_fixed. rewrite Hi, Hr. intros Hins. rewrite Hins.
      apply backfill_rows_unknown.
    + apply update_unknown_fixed. rewrite Hk, Hr. intros Hins. rewrite Hins.
      apply backfill_rows_no_fallback.
  - split; [apply set_not_null_fixed, N|apply add_document_type_key_fixed, F].
  - split; [|split]; apply create_index_is_fixed; assumption.
Qed.

(** *** The whole healing *)

(** Every part of the healing has nothing left to do. *)
Definition settled (d : Database) : Prop :=
  residents_settled d
  /\ document_types_settled d
  /\ has_table "users" d = true
  /\ references_users_settled "transaction_logs" d
  /\ transaction_logs_settled d
  /\ has_table "login_attempts" d = true
  /\ references_users_settled "login_mfa_codes" d
  /\ users_settled d
  /\ documents_settled d.

Ltac stages_kept :=
  repeat first
    [ apply catalog_kept_refl
    | eapply catalog_kept_trans;
      [|first [ apply heal_documents_kept | apply heal_users_kept
              | apply heal_login_mfa_codes_kept | apply heal_login_attempts_kept
              | apply heal_transaction_logs_kept | apply heal_transaction_logs_table_kept
              | apply heal_users_table_kept | apply heal_document_types_kept
              | apply heal_residents_kept ]] ].

Ltac stages_other :=
  repeat first
    [ rewrite heal_documents_other by discriminate
    | rewrite heal_users_other by discriminate
    | rewrite heal_login_mfa_codes_other by discriminate
    | rewrite heal_login_attempts_other by discriminate
    | rewrite heal_transaction_logs_other by discriminate
    | rewrite heal_transaction_logs_table_other by discriminate
    | rewrite heal_users_table_other by discriminate
    | rewrite heal_document_types_other by discriminate ].

Lemma heal_documents_is_key now d :
  is_key "users" "id" (heal_documents now d) = is_key "users" "id" d.
Proof. apply is_key_congr, heal_documents_other. discriminate. Qed.

Lemma heal_login_mfa_codes_is_key now d :
  is_key "users" "id" (heal_login_mfa_codes now d) = is_key "users" "id" d.
Proof. apply is_key_congr, heal_login_mfa_codes_other. discriminate. Qed.

Lemma heal_login_attempts_is_key now d :
  is_key "users" "id" (heal_login_attempts now d) = is_key "users" "id" d.
Proof. apply is_key_congr, heal_login_attempts_other. discriminate. Qed.

Lemma heal_transaction_logs_is_key now d :
  is_key "users" "id" (heal_transaction_logs now d) = is_key "users" "id" d.
Proof. apply is_key_congr, heal_transaction_logs_other. discriminate. Qed.

Ltac stages_is_key :=
  rewrite ?heal_documents_is_key, ?heal_users_is_key, ?heal_login_mfa_codes_is_key,
    ?heal_login_attempts_is_key, ?heal_transaction_logs_is_key.

Lemma heal_kept dialect now d : catalog_kept d (heal dialect now d).
Proof.
  unfold heal. destruct (String.eqb dialect "postgresql"); [|apply catalog_kept_refl].
  cbv zeta. stages_kept.
Qed.

Lemma heal_settles now d : settled (heal "postgresql" now d).
Proof.
  unfold heal. simpl String.eqb. cbv iota zeta.
  split; [|split; [|split; [|split; [|split; [|split; [|split; [|split]]]]]]].
  - eapply residents_settled_kept; [| |apply (heal_residents_settles now d)].
    + stages_kept.
    + stages_other. reflexivity.
  - eapply document_types_settled_kept; [|apply heal_document_types_settles].
    stages_other. reflexivity.
  - eapply catalog_kept_has_table; [|apply heal_users_table_settles]. stages_kept.
  - eapply references_users_settled_kept; [| |apply heal_transaction_logs_table_settles].
    + stages_kept.
    + stages_is_key. reflexivity.
  - eapply transaction_logs_settled_kept; [|apply heal_transaction_logs_settles].
    eapply same_for_logs_trans; [|apply heal_documents_logs].
    eapply same_for_logs_trans; [|apply heal_users_logs].
    eapply same_for_logs_trans; [|apply heal_login_mfa_codes_logs].
    apply heal_login_attempts_logs.
  - eapply catalog_kept_has_table; [|apply heal_login_attempts_settles]. stages_kept.
  - eapply references_users_settled_kept; [| |apply heal_login_mfa_codes_settles].
    + stages_kept.
    + stages_is_key. reflexivity.
  - eapply users_settled_kept; [|apply heal_users_settles].
    stages_other. reflexivity.
  - apply heal_documents_settles.
Qed.

Lemma heal_fixed dialect now d : settled d -> heal dialect now d = d.
Proof.
  intros (H1 & H2 & H3 & H4 & H5 & H6 & H7 & H8 & H9). unfold heal.
  destruct (String.eqb dialect "postgresql"); [|reflexivity]. cbv zeta.
  rewrite (heal_residents_fixed _ _ H1), (heal_document_types_fixed _ _ H2),
    (heal_users_table_fixed _ _ H3), (heal_transaction_logs_table_fixed _ _ H4),
    (heal_transaction_logs_fixed _ _ H5), (heal_login_attempts_fixed _ _ H6),
    (heal_login_mfa_codes_fixed _ _ H7), (heal_users_fixed _ _ H8).
  apply heal_documents_fixed, H9.
Qed.


(** *** The rows that the healing leaves in place *)

(** A value that is not NULL stays; a NULL may be filled in. *)
Definition value_kept {A} (v v' : option A) : Prop := forall x, v = Some x -> v' = Some x.

Definition row_kept (d : Database) (r r' : DocumentRow) : Prop :=
  (has_column "documents" "doc_type" d = true -> value_kept (doc_type r) (doc_type r'))
  /\ (has_column "documents" "document_type_id" d = true ->
      value_kept (document_type_id r) (document_type_id r'))
  /\ (has_column "documents" "status" d = true -> value_kept (status r) (status r'))
  /\ (has_column "documents" "issue_date" d = true ->
      value_kept (issue_date r) (issue_date r'))
  /\ (has_column "documents" "created_at" d = true ->
      value_kept (created_at r) (created_at r'))
  /\ (has_column "documents" "issued_at" d = true ->
      value_kept (issued_at r) (issued_at r')).

(** No row of an existing table is lost or overwritten: the documents keep
    their values that are not NULL, the document types stay, and the rows of
    users and the [user_id] values of transaction_logs are untouched. *)
Definition rows_kept (d d' : Database) : Prop :=
  (has_table "documents" d = true ->
   Forall2 (row_kept d) (documents (rows d)) (documents (rows d')))
  /\ (has_table "document_types" d = true ->
      document_types (rows d) ⊆ document_types (rows d'))
  /\ (has_column "transaction_logs" "user_id" d = true ->
      transaction_log_users (rows d') = transaction_log_users (rows d))
  /\ (has_table "users" d = true -> users (rows d') = users (rows d)).

(** The healing is additive: nothing of the catalogue and no row is lost. *)
Definition additive (d d' : Database) : Prop := catalog_kept d d' /\ rows_kept d d'.

Lemma value_kept_refl {A} (v : option A) : value_kept v v.
Proof. intros x H. exact H. Qed.

Lemma row_kept_refl d r : row_kept d r r.
Proof. repeat split; intros _; apply value_kept_refl. Qed.

Lemma Forall2_same {A} (R : A -> A -> Prop) l : (forall x, R x x) -> Forall2 R l l.
Proof. intros H. induction l; constructor; auto. Qed.

Lemma Forall2_map_r {A} (R : A -> A -> Prop) f l :
  (forall x, R x (f x)) -> Forall2 R l (List.map f l).
Proof. intros H. induction l; simpl; constructor; auto. Qed.

Lemma rows_kept_same d d' : rows d' = rows d -> rows_kept d d'.
Proof.
  intros E. unfold rows_kept. rewrite E.
  split; [|split; [|split]]; intros _; try reflexivity.
  apply Forall2_same, row_kept_refl.
Qed.

Lemma rows_kept_map d f :
  (forall r, row_kept d r (f r)) -> rows_kept d (map_documents f d).
Proof.
  intros H. split; [|split; [|split]]; intros _; try reflexivity.
  simpl. apply Forall2_map_r, H.
Qed.

Lemma has_column_has_table t c d : has_column t c d = true -> has_table t d = true.
Proof.
  unfold has_column, has_table, lookup_column. rewrite !bool_decide_eq_true.
  destruct (lookup_table t d); [eauto|intros [? ?]; discriminate].
Qed.

Lemma catalog_kept_has_column d d' t c :
  catalog_kept d d' -> has_column t c d = true -> has_column t c d' = true.
Proof.
  intros K. rewrite !has_column_true. apply (catalog_kept_colnames _ _ t K).
Qed.

Lemma additive_refl d : additive d d.
Proof. split; [apply catalog_kept_refl|apply rows_kept_same; reflexivity]. Qed.

Lemma additive_trans d1 d2 d3 : additive d1 d2 -> additive d2 d3 -> additive d1 d3.
Proof.
  intros [K1 (A1 & A2 & A3 & A4)] [K2 (B1 & B2 & B3 & B4)].
  split; [eapply catalog_kept_trans; eassumption|].
  split; [|split; [|split]].
  - intros H. pose proof (catalog_kept_has_table _ _ _ K1 H) as H'.
    eapply Forall2_trans; [|exact (A1 H)|exact (B1 H')].
    intros r1 r2 r3 (P1 & P2 & P3 & P4 & P5 & P6) (Q1 & Q2 & Q3 & Q4 & Q5 & Q6).
    unfold value_kept in *.
    repeat split; intros Hc x Hx;
      pose proof (catalog_kept_has_column _ _ _ _ K1 Hc) as Hc'; eauto.
  - intros H. pose proof (catalog_kept_has_table _ _ _ K1 H) as H'.
    etransitivity; [exact (A2 H)|exact (B2 H')].
  - intros H. pose proof (catalog_kept_has_column _ _ _ _ K1 H) as H'.
    rewrite (B3 H'). exact (A3 H).
  - intros H. pose proof (catalog_kept_has_table _ _ _ K1 H) as H'.
    rewrite (B4 H'). exact (A4 H).
Qed.

Lemma row_kept_fill d c dflt now r :
  has_column "documents" c d = false -> row_kept d r (fill_document c dflt now r).
Proof.
  intros Hc. unfold row_kept, fill_document. simpl.
  repeat split; intros H;
    match goal with
    | |- context [String.eqb c ?f] =>
        destruct (String.eqb_spec c f) as [->|_]; [congruence|apply value_kept_refl]
    end.
Qed.

Lemma insert_types_subseteq names (ts : gmap string Z) :
  ts ⊆ fold_left (fun acc n => insert_type n acc) names ts.
Proof. apply map_subseteq_spec. intros m x. apply insert_types_kept. Qed.

Lemma insert_type_subseteq n (ts : gmap string Z) : ts ⊆ insert_type n ts.
Proof. apply map_subseteq_spec. intros m x. apply insert_type_kept. Qed.

Lemma run_rows_kept now sql d d' : run now sql d = Some d' -> rows_kept d d'.
Proof.
  intros H.
  destruct sql as [t0 c0 def|i t0 c0|t0 cols refs|t0 c0|t0 c0|t0 c0 v|n t0 c0 rt rc
                  |n t0 c0 rt rc| | | | | | | |].
  1:{ simpl in H. destruct (lookup_table t0 d) as [tb|] eqn:Ht; [|discriminate].
      destruct (columns tb !! c0) eqn:Hc; injection H as <-;
        [apply rows_kept_same; reflexivity|].
      assert (Hno : has_column t0 c0 d = false).
      { unfold has_column, lookup_column. rewrite Ht, Hc.
        apply bool_decide_eq_false. intros [? ?]. discriminate. }
      unfold rows_kept. simpl. unfold fill_rows.
      destruct (String.eqb_spec t0 "documents") as [->|_].
      - split; [|split; [|split]]; intros _; try reflexivity.
        simpl. apply Forall2_map_r. intros r. apply row_kept_fill, Hno.
      - destruct (String.eqb_spec t0 "transaction_logs") as [->|_]; simpl;
          [destruct (String.eqb_spec c0 "user_id") as [->|_]; simpl|];
          (split; [|split; [|split]]); intros Hp; try reflexivity; try congruence;
          apply Forall2_same, row_kept_refl. }
  2:{ simpl in H. destruct (lookup_table t0 d) as [tb|] eqn:Ht;
        [injection H as <-; apply rows_kept_same; reflexivity|].
      destruct (references_ok refs d); [|discriminate]. injection H as <-.
      unfold rows_kept. simpl.
      split; [|split; [|split]]; intros Hp;
        try apply has_column_has_table in Hp; apply has_table_true in Hp as [tb Hp];
        match goal with
        | |- context [String.eqb t0 ?t] =>
            destruct (String.eqb_spec t0 t) as [->|_]; [congruence|]
        end; try reflexivity.
      apply Forall2_same, row_kept_refl. }
  1-6: apply rows_kept_same; eapply run_rows_ddl; [|exact H]; exact I.
  all: simpl in H.
  - apply update_documents_shape in H as ->. apply rows_kept_map. intros r.
    repeat split; intros _; try apply value_kept_refl.
    simpl. intros x ->. reflexivity.
  - apply update_documents_shape in H as ->. apply rows_kept_map. intros r.
    repeat split; intros _; try apply value_kept_refl.
    simpl. intros x ->. reflexivity.
  - apply update_documents_shape in H as ->. apply rows_kept_map. intros r.
    repeat split; intros _; try apply value_kept_refl.
    simpl. intros x ->. reflexivity.
  - destruct (_ && _); [|discriminate]. injection H as <-.
    split; [|split; [|split]]; intros _; try reflexivity.
    + apply Forall2_same, row_kept_refl.
    + simpl. apply insert_types_subseteq.
  - destruct (_ && _); [|discriminate].
    apply update_documents_shape in H as ->. apply rows_kept_map. intros r.
    repeat split; intros _; try apply value_kept_refl.
    simpl. intros x ->. reflexivity.
  - apply update_documents_shape in H as ->. apply rows_kept_map. intros r.
    repeat split; intros _; try apply value_kept_refl.
    simpl. intros x ->. reflexivity.
  - destruct (insertable_document_types d); [|discriminate]. injection H as <-.
    split; [|split; [|split]]; intros _; try reflexivity.
    + apply Forall2_same, row_kept_refl.
    + simpl. apply insert_type_subseteq.
  - destruct (_ && _); [|discriminate].
    apply update_documents_shape in H as ->. apply rows_kept_map. intros r.
    repeat split; intros _; try apply value_kept_refl.
    simpl. intros x ->. reflexivity.
Qed.

Lemma _exec_try_additive now sql d : additive d (_exec_try now sql d).
Proof.
  rewrite _exec_try_run. destruct (run now sql d) as [d'|] eqn:H; simpl.
  - split; [eapply run_catalog_kept, H|eapply run_rows_kept, H].
  - apply additive_refl.
Qed.

Lemma add_if_missing_additive now cols t c def d :
  additive d (add_if_missing now cols t c def d).
Proof.
  unfold add_if_missing. destruct (bool_decide _).
  - apply additive_refl.
  - apply _exec_try_additive.
Qed.

Ltac additive_chain :=
  repeat first
    [ apply additive_refl
    | eapply additive_trans;
      [|first [apply _exec_try_additive | apply add_if_missing_additive]] ].

Lemma heal_residents_additive now d : additive d (heal_residents now d).
Proof. unfold heal_residents. destruct (has_table _ _); cbv zeta; additive_chain. Qed.

Lemma heal_document_types_additive now d : additive d (heal_document_types now d).
Proof. unfold heal_document_types. destruct (negb _); cbv zeta; additive_chain. Qed.

Lemma heal_users_table_additive now d : additive d (heal_users_table now d).
Proof. unfold heal_users_table. destruct (negb _); additive_chain. Qed.

Lemma heal_transaction_logs_table_additive now d :
  additive d (heal_transaction_logs_table now d).
Proof. unfold heal_transaction_logs_table. destruct (negb _); additive_chain. Qed.

Lemma heal_transaction_logs_additive now d : additive d (heal_transaction_logs now d).
Proof.
  unfold heal_transaction_logs.
  destruct (has_table _ _); cbv zeta; [destruct (bool_decide _)|]; additive_chain.
Qed.

Lemma heal_login_attempts_additive now d : additive d (heal_login_attempts now d).
Proof. unfold heal_login_attempts. destruct (negb _); additive_chain. Qed.

Lemma heal_login_mfa_codes_additive now d : additive d (heal_login_mfa_codes now d).
Proof. unfold heal_login_mfa_codes. destruct (negb _); additive_chain. Qed.

Lemma heal_users_additive now d : additive d (heal_users now d).
Proof. unfold heal_users. destruct (has_table _ _); cbv zeta; additive_chain. Qed.

Lemma heal_documents_additive now d : additive d (heal_documents now d).
Proof.
  rewrite heal_documents_parts. destruct (has_table _ _); [|apply additive_refl].
  open_documents. destruct (bool_decide _); additive_chain.
Qed.


(** *** What the healing achieves *)

Lemma map_fixed_inv {A} (f : A -> A) l : List.map f l = l -> Forall (fun r => f r = r) l.
Proof.
  induction l as [|x l IH]; simpl; intros H; [constructor|].
  injection H as H1 H2. constructor; auto.
Qed.

Lemma fixed_insert_unknown d :
  fixed InsertUnknownType d -> insertable_document_types d = true ->
  is_Some (document_types (rows d) !! "Unknown").
Proof.
  intros F Hi. specialize (F 0). rewrite _exec_try_run in F. simpl in F.
  rewrite Hi in F. simpl in F.
  apply (f_equal (fun x => document_types (rows x))) in F. simpl in F.
  rewrite <- F. apply insert_type_there.
Qed.

Lemma fixed_update_unknown d :
  fixed UpdateTypeIdUnknown d -> has_type_columns d = true ->
  has_column "documents" "document_type_id" d = true ->
  is_Some (document_types (rows d) !! "Unknown") ->
  Forall (fun r => is_Some (document_type_id r)) (documents (rows d)).
Proof.
  intros F Hk Hc [x Hx]. specialize (F 0). rewrite _exec_try_run in F. simpl in F.
  fold (has_type_columns d) in F. rewrite Hk in F.
  rewrite update_documents_done in F by (simpl; rewrite Hc; reflexivity).
  apply (f_equal (fun x => documents (rows x))) in F. simpl in F.
  apply map_fixed_inv in F. eapply List.Forall_impl; [|exact F].
  intros r Hr. destruct (document_type_id r) as [i|] eqn:E; [eauto|].
  apply (f_equal document_type_id) in Hr. simpl in Hr. rewrite E, Hx in Hr. discriminate.
Qed.

Lemma no_nulls_document_type_id r :
  Forall (fun row => is_Some (document_type_id row)) (documents r) ->
  no_nulls "documents" "document_type_id" r = true.
Proof.
  intros H. unfold no_nulls. simpl. apply forallb_forall. intros row Hr.
  apply bool_decide_eq_true. rewrite List.Forall_forall in H. apply H, Hr.
Qed.

Lemma fixed_set_not_null d col :
  fixed SET_NOT_NULL_document_type_id d ->
  no_nulls "documents" "document_type_id" (rows d) = true ->
  lookup_column "documents" "document_type_id" d = Some col ->
  col_notnull col = true.
Proof.
  intros F Hn Hc. specialize (F 0). rewrite _exec_try_run in F.
  unfold SET_NOT_NULL_document_type_id, run in F. rewrite Hn in F.
  unfold alter_column, lookup_column in *.
  destruct (lookup_table "documents" d) as [tb|] eqn:Ht; [|discriminate].
  rewrite Hc in F. simpl in F.
  apply (f_equal (lookup_column "documents" "document_type_id")) in F.
  unfold lookup_column in F.
  rewrite lookup_table_put_table, decide_True, Ht, Hc in F by reflexivity.
  simpl in F. rewrite lookup_insert_eq in F. injection F as F.
  rewrite <- F. reflexivity.
Qed.

Lemma healed_documents_typed now d :
  let d' := heal "postgresql" now d in
  has_table "documents" d' = true ->
  insertable_document_types d' = true ->
  has_type_columns d' = true ->
  Forall (fun r => is_Some (document_type_id r)) (documents (rows d'))
  /\ (forall col, lookup_column "documents" "document_type_id" d' = Some col ->
                  col_notnull col = true).
Proof.
  intros d' Ht Hi Hk.
  destruct (heal_settles now d) as (_ & _ & _ & _ & _ & _ & _ & _ & H).
  fold d' in H. destruct (H Ht) as (Hc & _ & _ & (C1 & C2) & (N & _) & _).
  assert (Hid : has_column "documents" "document_type_id" d' = true)
    by (apply has_column_true, Hc; unfold DOCUMENT_COLUMNS; set_solver).
  pose proof (fixed_update_unknown _ C2 Hk Hid (fixed_insert_unknown _ C1 Hi)) as Hall.
  split; [exact Hall|]. intros col Hcol.
  eapply fixed_set_not_null; [exact N| |exact Hcol].
  apply no_nulls_document_type_id, Hall.
Qed.

Lemma heal_residents_other now d t :
  t <> "residents" -> lookup_table t (heal_residents now d) = lookup_table t d.
Proof.
  intros Hne. unfold heal_residents.
  destruct (has_table _ _); cbv zeta; other_table; reflexivity.
Qed.

Definition usable_document_types (d : Database) : Prop :=
  insertable_document_types d = true /\ has_type_columns d = true.

Lemma usable_congr d d' :
  lookup_table "document_types" d' = lookup_table "document_types" d ->
  usable_document_types d -> usable_document_types d'.
Proof.
  intros E [H1 H2]. split.
  - rewrite (insertable_congr _ _ E). exact H1.
  - unfold has_type_columns in *. rewrite !(has_column_congr _ _ _ _ E). exact H2.
Qed.

Lemma add_if_missing_usable now cols c def d :
  c <> "name" -> col_notnull def = false \/ col_default def <> NoDefault ->
  usable_document_types d ->
  usable_document_types (add_if_missing now cols "document_types" c def d).
Proof.
  intros Hne Hdef [H1 H2]. split.
  - unfold add_if_missing. destruct (bool_decide _); [exact H1|].
    rewrite _exec_try_run. simpl.
    unfold insertable_document_types in H1.
    destruct (lookup_table "document_types" d) as [tb|] eqn:Ht; [|discriminate].
    destruct (columns tb !! c) as [x|] eqn:Hc; simpl.
    + unfold insertable_document_types. rewrite Ht. exact H1.
    + unfold insertable_document_types.
      rewrite lookup_table_with_rows, lookup_table_put_table, decide_True by reflexivity.
      simpl. rewrite lookup_insert_ne by exact Hne.
      destruct (columns tb !! "name") as [col|]; [|discriminate].
      apply andb_true_iff in H1 as [K C]. rewrite K. simpl.
      unfold can_insert_name in *. apply bool_decide_eq_true in C.
      apply bool_decide_eq_true. apply map_Forall_insert_2; [|exact C].
      right. exact Hdef.
  - unfold has_type_columns in *. apply andb_true_iff in H2 as [A B].
    rewrite !(catalog_kept_has_column _ _ _ _ (add_if_missing_catalog_kept _ _ _ _ _ _))
      by assumption.
    reflexivity.
Qed.

Lemma created_document_types_usable r d tb :
  tb = {| columns := list_to_map
                       [("id", serial_primary_key);
                        ("name", not_null_unique "VARCHAR(100)");
                        ("description", column "VARCHAR(255)");
                        ("template_path", column "VARCHAR(255)");
                        ("requires_photo", not_null_default "BOOLEAN" DefaultFalse)];
          foreign_keys := reference_constraints "document_types" [] |} ->
  usable_document_types (with_rows r (put_table "document_types" tb d)).
Proof.
  intros ->.
  unfold usable_document_types, insertable_document_types, has_type_columns, has_column,
    lookup_column.
  rewrite lookup_table_with_rows, lookup_table_put_table, decide_True by reflexivity.
  split; vm_compute; reflexivity.
Qed.

Lemma heal_document_types_usable now d :
  (has_table "document_types" d = true -> usable_document_types d) ->
  usable_document_types (heal_document_types now d).
Proof.
  intros H. unfold heal_document_types.
  destruct (has_table "document_types" d) eqn:E; simpl negb; cbv iota.
  - cbv zeta. specialize (H eq_refl).
    apply add_if_missing_usable; [discriminate|right; discriminate|].
    apply add_if_missing_usable; [discriminate|left; reflexivity|].
    apply add_if_missing_usable; [discriminate|left; reflexivity|].
    exact H.
  - apply has_table_false in E. rewrite _exec_try_run.
    unfold CREATE_TABLE_document_types, run. rewrite E.
    change (references_ok [] d) with true. cbv iota. unfold default.
    apply created_document_types_usable. reflexivity.
Qed.

Lemma heal_usable now d :
  (has_table "document_types" d = true -> usable_document_types d) ->
  usable_document_types (heal "postgresql" now d).
Proof.
  intros H. unfold heal. simpl String.eqb. cbv iota zeta.
  apply (usable_congr (heal_document_types now (heal_residents now d))).
  { stages_other. reflexivity. }
  apply heal_document_types_usable.
  assert (E : lookup_table "document_types" (heal_residents now d)
               = lookup_table "document_types" d)
    by (apply heal_residents_other; discriminate).
  rewrite (has_table_congr _ _ _ E).
  intros Ht. eapply usable_congr; [exact E|exact (H Ht)].
Qed.


(** X1: running the start-up schema healing a second time, at any later
    time, changes nothing, neither in the catalogue nor in the rows. *)
Theorem healing_twice_is_healing_once dialect now now' d :
  heal dialect now' (heal dialect now d) = heal dialect now d.
Proof.
  destruct (String.eqb dialect "postgresql") eqn:E.
  - apply String.eqb_eq in E as ->. apply heal_fixed, heal_settles.
  - unfold heal. rewrite E. reflexivity.
Qed.


(** X2: the healing only adds: every table, column (with its type and key
    flag), constraint name and index that was there is still there, no
    document row is lost or reordered and no value of a column that existed
    is overwritten or cleared, the document types are kept, and the users and
    the users the log entries refer to are untouched. *)
Theorem healing_is_additive dialect now d : additive d (heal dialect now d).
Proof.
  unfold heal. destruct (String.eqb dialect "postgresql"); [|apply additive_refl].
  cbv zeta.
  eapply additive_trans; [|apply heal_documents_additive].
  eapply additive_trans; [|apply heal_users_additive].
  eapply additive_trans; [|apply heal_login_mfa_codes_additive].
  eapply additive_trans; [|apply heal_login_attempts_additive].
  eapply additive_trans; [|apply heal_transaction_logs_additive].
  eapply additive_trans; [|apply heal_transaction_logs_table_additive].
  eapply additive_trans; [|apply heal_users_table_additive].
  eapply additive_trans; [|apply heal_document_types_additive].
  apply heal_residents_additive.
Qed.


(** X3: after the healing on PostgreSQL the tables document_types, users and
    login_attempts exist, transaction_logs and login_mfa_codes exist as soon
    as users.id is a key, and every table that exists has the columns that
    the healing adds. *)
Theorem healed_schema_is_complete now d :
  let d' := heal "postgresql" now d in
  (has_table "document_types" d' = true /\ has_table "users" d' = true
   /\ has_table "login_attempts" d' = true)
  /\ (is_key "users" "id" d' = true ->
      has_table "transaction_logs" d' = true /\ has_table "login_mfa_codes" d' = true)
  /\ DOCUMENT_TYPE_COLUMNS ⊆ _colnames "document_types" d'
  /\ USER_COLUMNS ⊆ _colnames "users" d'
  /\ (has_table "residents" d' = true -> RESIDENT_COLUMNS ⊆ _colnames "residents" d')
  /\ (has_table "transaction_logs" d' = true ->
      LOG_COLUMNS ⊆ _colnames "transaction_logs" d')
  /\ (has_table "documents" d' = true -> DOCUMENT_COLUMNS ⊆ _colnames "documents" d').
Proof.
  intros d'.
  destruct (heal_settles now d) as (R & (T1 & T2) & U & L & LS & A & M & US & D).
  fold d' in R, T1, T2, U, L, LS, A, M, US, D.
  split; [auto|]. split.
  { intros K. destruct L as [L|L]; [|congruence]. destruct M as [M|M]; [|congruence]. auto. }
  split; [exact T2|]. split; [exact (US U)|]. split; [intros H; apply (R H)|].
  split; [intros H; apply (LS H)|]. intros H; apply (D H).
Qed.


Lemma has_column_lookup t c d :
  has_column t c d = true -> exists col, lookup_column t c d = Some col.
Proof. unfold has_column. intros H. apply bool_decide_eq_true in H as [col H]. eauto. Qed.

Lemma document_type_id_in_columns : "document_type_id" ∈ DOCUMENT_COLUMNS.
Proof. unfold DOCUMENT_COLUMNS. set_solver. Qed.

(** X4: when the documents table exists and document_types is missing or
    usable (name is a key, the columns id and name exist, and every other
    column is nullable or has a default), then after the healing on
    PostgreSQL every document row has a document_type_id, the column is
    NOT NULL, and the fallback type Unknown exists. *)
Theorem healed_documents_have_a_type now d :
  has_table "documents" d = true ->
  (has_table "document_types" d = true -> usable_document_types d) ->
  Forall (fun r => is_Some (document_type_id r))
    (documents (rows (heal "postgresql" now d)))
  /\ (exists col,
        lookup_column "documents" "document_type_id" (heal "postgresql" now d) = Some col
        /\ col_notnull col = true)
  /\ is_Some (document_types (rows (heal "postgresql" now d)) !! "Unknown").
Proof.
  intros Hd Hu.
  pose proof (heal_usable now d Hu) as [Hi Hk].
  pose proof (catalog_kept_has_table _ _ "documents" (heal_kept "postgresql" now d) Hd) as Ht.
  pose proof (healed_documents_typed now d) as T. cbv zeta in T.
  pose proof (heal_settles now d) as (_ & _ & _ & _ & _ & _ & _ & _ & H).
  destruct (T Ht Hi Hk) as [Hall Hn].
  destruct (H Ht) as (Hc & _ & _ & (C1 & _) & _).
  split; [exact Hall|]. split.
  - destruct (has_column_lookup _ _ _
                (proj2 (has_column_true _ _ _) (Hc _ document_type_id_in_columns)))
      as [col Hcol].
    exists col. split; [exact Hcol|exact (Hn col Hcol)].
  - exact (fixed_insert_unknown _ C1 Hi).
Qed.

Lemma healed_documents_have_a_type_witness :
  has_table "documents" legacy = true
  /\ (has_table "document_types" legacy = true -> usable_document_types legacy)
  /\ Forall (fun r => is_Some (document_type_id r))
       (documents (rows (heal "postgresql" 100 legacy)))
  /\ (exists col,
        lookup_column "documents" "document_type_id" (heal "postgresql" 100 legacy)
        = Some col
        /\ col_notnull col = true)
  /\ is_Some (document_types (rows (heal "postgresql" 100 legacy)) !! "Unknown").
Proof.
  assert (H1 : has_table "documents" legacy = true) by (vm_compute; reflexivity).
  assert (H2 : has_table "document_types" legacy = true -> usable_document_types legacy)
    by (intros _; split; vm_compute; reflexivity).
  exact (conj H1 (conj H2 (healed_documents_have_a_type 100 legacy H1 H2))).
Defined.

(** X5: after the healing on PostgreSQL the user of a log entry may be
    NULL: when transaction_logs has a user_id column, that column is
    nullable, and its foreign key is ON DELETE SET NULL whenever the
    constraint could be replaced. *)
Theorem healed_log_entries_outlive_users now d :
  let d' := heal "postgresql" now d in
  forall tb col,
    lookup_table "transaction_logs" d' = Some tb ->
    columns tb !! "user_id" = Some col ->
    col_notnull col = false
    /\ (can_replace d' tb = true ->
        foreign_keys tb !! "transaction_logs_user_id_fkey" = Some SET_NULL_KEY).
Proof.
  intros d' tb col Ht Hc.
  destruct (heal_settles now d) as (_ & _ & _ & _ & LS & _).
  fold d' in LS.
  assert (T : has_table "transaction_logs" d' = true)
    by (apply has_table_true; rewrite Ht; eauto).
  destruct (LS T) as (_ & H).
  assert (U : "user_id" ∈ _colnames "transaction_logs" d').
  { unfold _colnames. rewrite Ht. apply elem_of_dom. eauto. }
  destruct (H U) as (N & F). split.
  - apply N. unfold lookup_column. rewrite Ht. exact Hc.
  - intros C. apply F; assumption.
Qed.

Lemma healed_log_entries_outlive_users_witness :
  exists tb col,
    lookup_table "transaction_logs" (heal "postgresql" 100 legacy_logs) = Some tb
    /\ columns tb !! "user_id" = Some col
    /\ col_notnull col = false
    /\ foreign_keys tb !! "transaction_logs_user_id_fkey" = Some SET_NULL_KEY.
Proof.
  let t := eval vm_compute in
             (lookup_table "transaction_logs" (heal "postgresql" 100 legacy_logs)) in
  lazymatch t with
  | Some ?tb =>
      let c := eval vm_compute in (columns tb !! "user_id") in
      lazymatch c with
      | Some ?col => exists tb, col
      end
  end.
  assert (H1 : lookup_table "transaction_logs" (heal "postgresql" 100 legacy_logs)
               = Some _) by (vm_compute; reflexivity).
  split; [exact H1|].
  split; [vm_compute; reflexivity|].
  match goal with
  | |- col_notnull ?col = _ /\ foreign_keys ?tb !! _ = _ =>
      destruct (healed_log_entries_outlive_users 100 legacy_logs tb col H1
                  ltac:(vm_compute; reflexivity)) as [N F]
  end.
  split; [exact N|]. apply F. vm_compute. reflexivity.
Defined.


(** *** Columns that the healing adds to documents *)

(** The stages that run before the one of documents. *)
Definition before_documents (now : Z) (d : Database) : Database :=
  heal_users now
    (heal_login_mfa_codes now
       (heal_login_attempts now
          (heal_transaction_logs now
             (heal_transaction_logs_table now
                (heal_users_table now (heal_document_types now (heal_residents now d))))))).

Lemma heal_parts now d :
  heal "postgresql" now d = heal_documents now (before_documents now d).
Proof. unfold heal, before_documents. simpl String.eqb. cbv iota zeta. reflexivity. Qed.

Lemma before_documents_table now d :
  lookup_table "documents" (before_documents now d) = lookup_table "documents" d.
Proof.
  unfold before_documents. stages_other. apply heal_residents_other. discriminate.
Qed.

Definition whole_row (r : DocumentRow) : DocumentRow := r.

Lemma heal_residents_rows now d : keeps whole_row d (heal_residents now d).
Proof. unfold heal_residents. destruct (has_table _ _); cbv zeta; keeps_chain. Qed.

Lemma heal_document_types_rows now d : keeps whole_row d (heal_document_types now d).
Proof. unfold heal_document_types. destruct (negb _); cbv zeta; keeps_chain. Qed.

Lemma heal_users_table_rows now d : keeps whole_row d (heal_users_table now d).
Proof. unfold heal_users_table. destruct (negb _); keeps_chain. Qed.

Lemma heal_transaction_logs_table_rows now d :
  keeps whole_row d (heal_transaction_logs_table now d).
Proof. unfold heal_transaction_logs_table. destruct (negb _); keeps_chain. Qed.

Lemma heal_transaction_logs_rows now d : keeps whole_row d (heal_transaction_logs now d).
Proof.
  unfold heal_transaction_logs. destruct (has_table _ _); cbv zeta; [|apply keeps_refl].
  destruct (bool_decide _); keeps_chain.
Qed.

Lemma heal_login_attempts_rows now d : keeps whole_row d (heal_login_attempts now d).
Proof. unfold heal_login_attempts. destruct (negb _); keeps_chain. Qed.

Lemma heal_login_mfa_codes_rows now d : keeps whole_row d (heal_login_mfa_codes now d).
Proof. unfold heal_login_mfa_codes. destruct (negb _); keeps_chain. Qed.

Lemma heal_users_rows now d : keeps whole_row d (heal_users now d).
Proof. unfold heal_users. destruct (has_table _ _); cbv zeta; keeps_chain. Qed.

Lemma before_documents_rows now d :
  documents (rows (before_documents now d)) = documents (rows d).
Proof.
  assert (K : keeps whole_row d (before_documents now d)).
  { unfold before_documents.
    eapply keeps_trans; [|apply heal_users_rows].
    eapply keeps_trans; [|apply heal_login_mfa_codes_rows].
    eapply keeps_trans; [|apply heal_login_attempts_rows].
    eapply keeps_trans; [|apply heal_transaction_logs_rows].
    eapply keeps_trans; [|apply heal_transaction_logs_table_rows].
    eapply keeps_trans; [|apply heal_users_table_rows].
    eapply keeps_trans; [|apply heal_document_types_rows].
    apply heal_residents_rows. }
  unfold keeps, whole_row in K. rewrite !List.map_id in K. exact K.
Qed.

Lemma _exec_try_Forall (P : DocumentRow -> Prop) now sql d :
  creates_documents sql = false ->
  (forall r, P r -> P (row_update now sql d r)) ->
  Forall P (documents (rows d)) -> Forall P (documents (rows (_exec_try now sql d))).
Proof.
  intros Hc Hp H. rewrite _exec_try_run.
  destruct (run now sql d) as [d'|] eqn:E; simpl; [|exact H].
  destruct (run_docs _ _ _ _ Hc E) as [->| ->]; [exact H|].
  apply List.Forall_map. eapply List.Forall_impl; [|exact H]. exact Hp.
Qed.

Lemma add_if_missing_Forall (P : DocumentRow -> Prop) now cols t c def d :
  (forall r, P r -> P (row_update now (AddColumnIfNotExists t c def) d r)) ->
  Forall P (documents (rows d)) ->
  Forall P (documents (rows (add_if_missing now cols t c def d))).
Proof.
  intros Hp H. unfold add_if_missing. destruct (bool_decide _); [exact H|].
  apply _exec_try_Forall; [reflexivity|exact Hp|exact H].
Qed.

(** ADD COLUMN on documents, when the column is new, gives every row the
    default. *)
Lemma add_column_fills now cols c def d :
  has_table "documents" d = true -> has_column "documents" c d = false ->
  c ∉ cols ->
  documents (rows (add_if_missing now cols "documents" c def d))
  = List.map (fill_document c (col_default def) now) (documents (rows d)).
Proof.
  intros Ht Hc Hn. unfold add_if_missing. rewrite bool_decide_eq_false_2 by exact Hn.
  apply has_table_true in Ht as [tb Ht].
  rewrite _exec_try_run. simpl. rewrite Ht.
  unfold has_column, lookup_column in Hc. rewrite Ht in Hc. simpl in Hc.
  apply bool_decide_eq_false in Hc.
  destruct (columns tb !! c) as [x|]; [exfalso; apply Hc; eauto|].
  reflexivity.
Qed.

Lemma add_if_missing_has_column now cols t c def d t' c' :
  c' <> c ->
  has_column t' c' (add_if_missing now cols t c def d) = has_column t' c' d.
Proof.
  intros Hne. unfold has_column.
  rewrite add_if_missing_lookup_column by exact Hne. reflexivity.
Qed.

Lemma add_if_missing_has_table now cols t c def d t' :
  has_table t' d = true -> has_table t' (add_if_missing now cols t c def d) = true.
Proof. apply catalog_kept_has_table, add_if_missing_catalog_kept. Qed.

Ltac row_kept_by :=
  let r := fresh "r" in let Hr := fresh "Hr" in
  intros r Hr; simpl; try rewrite Hr; first [reflexivity | exact Hr].

Ltac Forall_chain c :=
  repeat first
    [ apply _exec_try_Forall; [reflexivity|row_kept_by|]
    | lazymatch goal with
      | |- Forall _ (documents (rows (add_if_missing _ _ _ c _ _))) => fail
      | _ => apply add_if_missing_Forall; [row_kept_by|]
      end ].

Lemma heal_documents_status now d :
  has_table "documents" d = true -> has_column "documents" "status" d = false ->
  Forall (fun r => status r = Some "draft") (documents (rows (heal_documents now d))).
Proof.
  intros Ht Hs. rewrite heal_documents_parts, Ht. cbv zeta.
  set (d0 := add_if_missing now (_colnames "documents" d) "documents" "document_type_id"
               (column "INTEGER") d).
  assert (Ht0 : has_table "documents" d0 = true) by apply add_if_missing_has_table, Ht.
  assert (Hs0 : has_column "documents" "status" d0 = false).
  { unfold d0. rewrite add_if_missing_has_column by discriminate. exact Hs. }
  clearbody d0.
  set (dcols := _colnames "documents" d0).
  assert (Hn : "status" ∉ dcols) by apply has_column_false, Hs0.
  rewrite documents_constraints_rows.
  unfold documents_types, backfill_from_doc_type. cbv zeta.
  destruct (bool_decide ("doc_type" ∈ dcols));
    unfold documents_dates, documents_columns, documents_status; cbv zeta;
    Forall_chain "status".
  all: rewrite add_column_fills by assumption.
  all: apply List.Forall_map, List.Forall_forall; intros r _; reflexivity.
Qed.

Lemma heal_documents_created_at now d :
  has_table "documents" d = true -> has_column "documents" "created_at" d = false ->
  Forall (fun r => created_at r = Some now) (documents (rows (heal_documents now d))).
Proof.
  intros Ht Hs. rewrite heal_documents_parts, Ht. cbv zeta.
  set (d0 := add_if_missing now (_colnames "documents" d) "documents" "document_type_id"
               (column "INTEGER") d).
  assert (Ht0 : has_table "documents" d0 = true) by apply add_if_missing_has_table, Ht.
  assert (Hs0 : has_column "documents" "created_at" d0 = false).
  { unfold d0. rewrite add_if_missing_has_column by discriminate. exact Hs. }
  clearbody d0.
  set (dcols := _colnames "documents" d0).
  assert (Hn : "created_at" ∉ dcols) by apply has_column_false, Hs0.
  set (d1 := documents_status now dcols d0).
  assert (Ht1 : has_table "documents" d1 = true).
  { unfold d1, documents_status. cbv zeta.
    eapply catalog_kept_has_table; [apply _exec_try_catalog_kept|].
    apply add_if_missing_has_table, Ht0. }
  assert (Hs1 : has_column "documents" "created_at" d1 = false).
  { unfold d1, documents_status. cbv zeta.
    rewrite _exec_try_has_column by reflexivity.
    rewrite add_if_missing_has_column by discriminate. exact Hs0. }
  clearbody d1.
  rewrite documents_constraints_rows.
  unfold documents_types, backfill_from_doc_type. cbv zeta.
  destruct (bool_decide ("doc_type" ∈ dcols));
    unfold documents_dates, documents_columns; cbv zeta; Forall_chain "created_at".
  all: rewrite add_column_fills by assumption.
  all: apply List.Forall_map, List.Forall_forall; intros r _; reflexivity.
Qed.

(** X6: a column that the healing adds to documents holds its default in
    every existing row: when documents had no status column every row is a
    draft afterwards, and when it had no created_at column every row is
    stamped with the time of the healing; the two UPDATE statements meant
    for the old rows (status to issued, created_at to the issue date) find
    no NULL to replace. *)
Theorem added_document_columns_hold_their_default now d :
  has_table "documents" d = true ->
  (has_column "documents" "status" d = false ->
   Forall (fun r => status r = Some "draft")
     (documents (rows (heal "postgresql" now d))))
  /\ (has_column "documents" "created_at" d = false ->
      Forall (fun r => created_at r = Some now)
        (documents (rows (heal "postgresql" now d)))).
Proof.
  intros Ht. rewrite heal_parts.
  pose proof (before_documents_table now d) as E.
  rewrite <- (has_table_congr _ _ _ E) in Ht.
  split; intros Hc; rewrite <- (has_column_congr _ _ _ _ E) in Hc.
  - apply heal_documents_status; assumption.
  - apply heal_documents_created_at; assumption.
Qed.

Lemma added_document_columns_hold_their_default_witness :
  has_table "documents" legacy = true
  /\ Forall (fun r => status r = Some "draft")
       (documents (rows (heal "postgresql" 100 legacy)))
  /\ Forall (fun r => created_at r = Some 100)
       (documents (rows (heal "postgresql" 100 legacy))).
Proof.
  assert (H : has_table "documents" legacy = true) by (vm_compute; reflexivity).
  destruct (added_document_columns_hold_their_default 100 legacy H) as [H1 H2].
  split; [exact H|].
  split; [apply H1|apply H2]; vm_compute; reflexivity.
Defined.

End SchemaFacts.

(** ** The purge of expired documents (app.py) *)
Module PurgeFacts.
Import Models Web PdfUtils App Examples.
Local Open Scope Z_scope.

(** A date of the calendar: what [datetime.date] accepts. *)
Definition valid_date (d : date) : Prop :=
  1 <= year d <= 9999 /\ 1 <= month d <= 12
  /\ 1 <= day d <= days_in_month (year d) (month d).

Lemma days_in_month_bounds y m : 28 <= days_in_month y m <= 31.
Proof.
  unfold days_in_month.
  destruct (m =? 2); [destruct (is_leap y); lia|].
  destruct (_ || _); lia.
Qed.

Lemma dt_date_Some y m d :
  1 <= y <= 9999 -> 1 <= m <= 12 -> 1 <= d <= days_in_month y m ->
  dt_date y m d = Some (Date y m d).
Proof.
  intros Hy Hm Hd. unfold dt_date.
  replace (1 <=? y) with true by (symmetry; apply Z.leb_le; lia).
  replace (y <=? 9999) with true by (symmetry; apply Z.leb_le; lia).
  replace (1 <=? m) with true by (symmetry; apply Z.leb_le; lia).
  replace (m <=? 12) with true by (symmetry; apply Z.leb_le; lia).
  replace (1 <=? d) with true by (symmetry; apply Z.leb_le; lia).
  replace (d <=? days_in_month y m) with true by (symmetry; apply Z.leb_le; lia).
  reflexivity.
Qed.

Lemma dt_date_None y m d : ~ 1 <= y <= 9999 -> dt_date y m d = None.
Proof.
  intros Hy. unfold dt_date.
  destruct (1 <=? y) eqn:E1; [|reflexivity].
  destruct (y <=? 9999) eqn:E2; [|reflexivity].
  apply Z.leb_le in E1, E2. lia.
Qed.

(** X7: for a date of the calendar and any number of months, negative ones
    included, [_add_months] returns a date of the calendar when the year it
    arrives in is within 1..9999, and raises otherwise.  The date it returns
    has its month shifted by exactly that number, its day is never moved
    forward, and is kept whenever it is at most 28 (later days are clamped
    to the end of the month). *)
Theorem _add_months_is_a_calendar_date value months :
  valid_date value ->
  let year' := (12 * year value + (month value - 1) + months) / 12 in
  (1 <= year' <= 9999 ->
   exists r, _add_months value months = Some r
             /\ valid_date r
             /\ 12 * year r + month r = 12 * year value + month value + months
             /\ day r <= day value
             /\ (day value <= 28 -> day r = day value))
  /\ (~ 1 <= year' <= 9999 -> _add_months value months = None).
Proof.
  intros (Hy & Hm & Hd) year'. unfold _add_months. cbv zeta.
  set (month0 := month value - 1 + months).
  assert (Ey : year' = year value + month0 / 12).
  { unfold year', month0.
    replace (12 * year value + (month value - 1) + months)
      with (year value * 12 + (month value - 1 + months)) by lia.
    rewrite Z.div_add_l by lia. reflexivity. }
  rewrite <- Ey.
  pose proof (Z.mod_pos_bound month0 12 ltac:(lia)) as Hb.
  pose proof (Z.div_mod month0 12 ltac:(lia)) as He.
  pose proof (days_in_month_bounds year' (month0 mod 12 + 1)) as Hn.
  split.
  - intros Hr. eexists. split; [apply dt_date_Some; lia|].
    unfold valid_date. cbn [year month day]. repeat split; lia.
  - intros Hr. apply dt_date_None. exact Hr.
Qed.

Lemma _add_months_is_a_calendar_date_witness :
  valid_date (Date 2024 8 31)
  /\ (exists r, _add_months (Date 2024 8 31) 6 = Some r /\ valid_date r)
  /\ _add_months (Date 2024 8 31) 6 = Some (Date 2025 2 28)
  /\ _add_months (Date 2024 8 31) 96000 = None.
Proof.
  assert (H : valid_date (Date 2024 8 31)) by (repeat split; vm_compute; discriminate).
  destruct (_add_months_is_a_calendar_date (Date 2024 8 31) 6 H) as [Hs _].
  destruct (_add_months_is_a_calendar_date (Date 2024 8 31) 96000 H) as [_ Hn].
  split; [exact H|]. split.
  - destruct Hs as (r & Hr & Hv & _); [vm_compute; split; discriminate|].
    exists r. split; assumption.
  - split; [vm_compute; reflexivity|].
    apply Hn. vm_compute. intros [_ K]. apply K. reflexivity.
Defined.

(** What a loop of the purge collects when no row makes it raise. *)
Lemma expired_Some months before docs found :
  expired months before docs = Some found ->
  found = List.filter (fun doc => match _add_months (Document.issue_date doc) months with
                                  | Some expiry_dt => before expiry_dt
                                  | None => false
                                  end) docs.
Proof.
  revert found. induction docs as [|doc docs IH]; intros found; cbn [expired List.filter].
  - intros [= <-]. reflexivity.
  - destruct (_add_months (Document.issue_date doc) months) as [e|]; [|discriminate].
    cbn [mbind option_bind].
    destruct (expired months before docs) as [l|]; [|discriminate].
    cbn [mbind option_bind]. intros [= <-]. rewrite (IH l eq_refl).
    destruct (before e); reflexivity.
Qed.

Lemma filter_of_filter {A} (p q : A -> bool) l :
  List.filter q (List.filter p l) = List.filter (fun x => p x && q x) l.
Proof.
  induction l as [|x l IH]; [reflexivity|]. cbn [List.filter].
  destruct (p x); cbn [List.filter andb]; [destruct (q x)|]; rewrite IH; reflexivity.
Qed.

(** The rows the purge archives and the rows it deletes. *)
Definition to_archive (months : Z) (today_ : date) (doc : Document.t) : bool :=
  is_issued doc && negb (Document.is_archived doc)
  && match _add_months (Document.issue_date doc) months with
     | Some expiry_dt => date_ltb expiry_dt today_
     | None => false
     end.

Definition to_delete (months grace : Z) (today_ : date) (doc : Document.t) : bool :=
  is_issued doc && Document.is_archived doc
  && match _add_months (Document.issue_date doc) months with
     | Some expiry_dt => toordinal expiry_dt <? toordinal today_ - grace
     | None => false
     end.

(** The purge, when it does write. *)
Lemma purged_writes root months grace dry now_ today_ d fs :
  purged root months grace dry now_ today_ d fs = (d, fs)
  \/ (documents (fst (purged root months grace dry now_ today_ d fs))
       = delete_where
           (in_ids (List.map Document.id (List.filter (to_delete months grace today_)
                                            (documents d))))
           (update_where
              (in_ids (List.map Document.id (List.filter (to_archive months today_)
                                               (documents d))))
              (auto_archive now_) (documents d))
       /\ snd (purged root months grace dry now_ today_ d fs)
          = fold_left (fun acc doc =>
                         match Document.file_path doc with
                         | Some p => if Py.truthy p
                                     then delete (path_join root [p]) acc else acc
                         | None => acc
                         end)
              (List.filter (to_delete months grace today_) (documents d)) fs).
Proof.
  unfold purged, _process_expired_documents.
  destruct (months <=? 0); [left; reflexivity|].
  destruct (expired months (fun expiry_dt => date_ltb expiry_dt today_) _) as [la|] eqn:Ea;
    cbn [mbind option_bind]; [|left; reflexivity].
  unfold cutoff_date. cbv zeta.
  destruct (_ && _); cbn [mbind option_bind]; [|left; reflexivity].
  destruct (expired months (fun expiry_dt => toordinal expiry_dt <? _) _) as [ld|] eqn:Ed;
    cbn [mbind option_bind]; [|left; reflexivity].
  destruct dry; [left; reflexivity|]. right.
  apply expired_Some in Ea, Ed. rewrite filter_of_filter in Ea, Ed.
  cbn [fst snd documents with_transaction_logs with_documents].
  fold (to_archive months today_) in Ea. fold (to_delete months grace today_) in Ed.
  subst la ld. split; reflexivity.
Qed.

Lemma same_id_same_row (l : list Document.t) x y :
  NoDup (List.map Document.id l) -> In x l -> In y l ->
  Document.id x = Document.id y -> x = y.
Proof.
  induction l as [|a l IH]; simpl; [contradiction|].
  intros Hnd Hx Hy E. apply NoDup_cons in Hnd as [Ha Hnd].
  destruct Hx as [<-|Hx], Hy as [<-|Hy]; auto.
  - exfalso. apply Ha. rewrite E. apply list_elem_of_In, in_map, Hy.
  - exfalso. apply Ha. rewrite <- E. apply list_elem_of_In, in_map, Hx.
Qed.

Lemma in_ids_In ids doc :
  in_ids ids doc = true <-> In (Document.id doc) ids.
Proof.
  unfold in_ids. rewrite existsb_exists. split.
  - intros (x & Hx & E). apply Z.eqb_eq in E. congruence.
  - intros H. exists (Document.id doc). split; [exact H|apply Z.eqb_refl].
Qed.

Lemma in_ids_filter (p : Document.t -> bool) l doc :
  NoDup (List.map Document.id l) -> In doc l ->
  in_ids (List.map Document.id (List.filter p l)) doc = p doc.
Proof.
  intros Hnd Hin. destruct (p doc) eqn:E.
  - apply in_ids_In, in_map, filter_In. auto.
  - destruct (in_ids _ doc) eqn:F; [|reflexivity].
    apply in_ids_In, in_map_iff in F as (x & Hid & Hx).
    apply filter_In in Hx as [Hx Hp].
    rewrite (same_id_same_row l x doc Hnd Hx Hin Hid) in Hp. congruence.
Qed.

(** X8: the purge leaves every document in one of three states.  With
    unique ids, a document of the table is afterwards either unchanged, or
    archived in place (it was issued, not archived, and expired before
    today), or gone (it was issued, already archived, and expired before
    today minus the grace period).  So a draft is never touched, no
    document is deleted by the run that archives it, and a run that raises
    changes nothing. *)
Theorem purge_keeps_archives_or_deletes root months grace dry now_ today_ d fs doc :
  NoDup (List.map Document.id (documents d)) ->
  In doc (documents d) ->
  let d' := fst (purged root months grace dry now_ today_ d fs) in
  In doc (documents d')
  \/ (In (auto_archive now_ doc) (documents d')
      /\ is_issued doc = true /\ Document.is_archived doc = false
      /\ exists expiry_dt,
           _add_months (Document.issue_date doc) months = Some expiry_dt
           /\ date_ltb expiry_dt today_ = true)
  \/ ((forall x, In x (documents d') -> Document.id x <> Document.id doc)
      /\ is_issued doc = true /\ Document.is_archived doc = true
      /\ exists expiry_dt,
           _add_months (Document.issue_date doc) months = Some expiry_dt
           /\ toordinal expiry_dt < toordinal today_ - grace).
Proof.
  intros Hnd Hin. cbv zeta.
  destruct (purged_writes root months grace dry now_ today_ d fs) as [E|[E _]];
    [rewrite E; left; exact Hin|]. rewrite E. clear E.
  set (pa := to_archive months today_). set (pd := to_delete months grace today_).
  set (g := fun r : Document.t =>
              if in_ids (List.map Document.id (List.filter pa (documents d))) r
              then auto_archive now_ r else r).
  assert (Hg : forall r, Document.id (g r) = Document.id r)
    by (intros r; unfold g; destruct (in_ids _ r); reflexivity).
  assert (Hdel : forall r, in_ids (List.map Document.id (List.filter pd (documents d))) (g r)
                           = in_ids (List.map Document.id (List.filter pd (documents d))) r)
    by (intros r; unfold in_ids; rewrite Hg; reflexivity).
  unfold delete_where, update_where. fold g.
  destruct (pd doc) eqn:Ed.
  - right. right. pose proof Ed as Ep. unfold pd, to_delete in Ep.
    apply andb_true_iff in Ep as [Ep E3]. apply andb_true_iff in Ep as [E1 E2].
    destruct (_add_months (Document.issue_date doc) months) as [e|]; [|discriminate].
    apply Z.ltb_lt in E3. split; [|eauto].
    intros x Hx Hid. apply filter_In in Hx as [Hx Hn].
    apply in_map_iff in Hx as (r & <- & Hr).
    rewrite Hdel in Hn. rewrite Hg in Hid.
    rewrite (same_id_same_row _ r doc Hnd Hr Hin Hid) in Hn.
    rewrite (in_ids_filter pd _ doc Hnd Hin), Ed in Hn. discriminate.
  - assert (Hkeep : In (g doc) (List.filter
                                  (fun r => negb (in_ids (List.map Document.id
                                                            (List.filter pd (documents d))) r))
                                  (List.map g (documents d)))).
    { apply filter_In. split; [apply in_map, Hin|].
      rewrite Hdel, (in_ids_filter pd _ doc Hnd Hin), Ed. reflexivity. }
    unfold g at 1 in Hkeep. rewrite (in_ids_filter pa _ doc Hnd Hin) in Hkeep.
    destruct (pa doc) eqn:Ea; [right; left|left; exact Hkeep].
    unfold pa, to_archive in Ea.
    apply andb_true_iff in Ea as [Ea E3]. apply andb_true_iff in Ea as [E1 E2].
    destruct (_add_months (Document.issue_date doc) months) as [e|]; [|discriminate].
    apply negb_true_iff in E2. eauto 6.
Qed.

Lemma purge_files_step root (docs : list Document.t) (fs : FileSystem) q :
  let fs' := fold_left (fun acc doc =>
                          match Document.file_path doc with
                          | Some p => if Py.truthy p
                                      then delete (path_join root [p]) acc else acc
                          | None => acc
                          end) docs fs in
  fs' !! q = fs !! q
  \/ (fs' !! q = None
      /\ exists doc p, In doc docs /\ Document.file_path doc = Some p
                       /\ q = path_join root [p]).
Proof.
  revert fs. induction docs as [|doc docs IH]; intros fs; cbn [fold_left]; [left; reflexivity|].
  set (fs1 := match Document.file_path doc with
              | Some p => if Py.truthy p then delete (path_join root [p]) fs else fs
              | None => fs
              end).
  destruct (IH fs1) as [E|(E & d0 & p & Hin & Hp & Hq)].
  - cbv zeta in E. rewrite E. unfold fs1.
    destruct (Document.file_path doc) as [p|] eqn:Hp; [|left; reflexivity].
    destruct (Py.truthy p); [|left; reflexivity].
    destruct (decide (path_join root [p] = q)) as [<-|Hne].
    + right. split; [apply (lookup_delete_eq (M:=gmap string))|].
      exists doc, p. split; [left; reflexivity|]. split; [exact Hp|reflexivity].
    + left. apply (lookup_delete_ne (M:=gmap string)). exact Hne.
  - right. split; [exact E|]. exists d0, p. split; [right; exact Hin|]. auto.
Qed.

(** X25: the purge never writes a file, and the only files it removes are
    those of documents it deletes: a path of the disk holds afterwards what
    it held before, or it is empty and is the stored path (resolved against
    the static directory) of a document that was issued, archived, and
    expired before today minus the grace period. *)
Theorem purge_removes_only_files_of_deleted_documents
    root months grace dry now_ today_ d fs q :
  let fs' := snd (purged root months grace dry now_ today_ d fs) in
  fs' !! q = fs !! q
  \/ (fs' !! q = None
      /\ exists doc p,
           In doc (documents d) /\ Document.file_path doc = Some p
           /\ q = path_join root [p]
           /\ is_issued doc = true /\ Document.is_archived doc = true
           /\ exists expiry_dt,
                _add_months (Document.issue_date doc) months = Some expiry_dt
                /\ toordinal expiry_dt < toordinal today_ - grace).
Proof.
  cbv zeta.
  destruct (purged_writes root months grace dry now_ today_ d fs) as [E|[_ E]];
    [rewrite E; left; reflexivity|]. rewrite E. clear E.
  match goal with
  | |- context [fold_left _ ?l fs] => destruct (purge_files_step root l fs q)
                                        as [E|(E & doc & p & Hin & Hp & Hq)]
  end; [left; exact E|right].
  split; [exact E|]. exists doc, p.
  apply filter_In in Hin as [Hin Hc]. unfold to_delete in Hc.
  apply andb_true_iff in Hc as [Hc H3]. apply andb_true_iff in Hc as [H1 H2].
  destruct (_add_months (Document.issue_date doc) months) as [e|]; [|discriminate].
  apply Z.ltb_lt in H3. repeat split; try assumption. eauto.
Qed.

Lemma purge_keeps_archives_or_deletes_witness :
  NoDup (List.map Document.id (documents office_db))
  /\ In jane_clearance (documents office_db)
  /\ In (auto_archive 9000 jane_clearance)
       (documents (fst (purged "/srv/app/static" 6 30 false 9000
                          (Date 2027 5 1) office_db nothing_on_disk))).
Proof.
  assert (H1 : NoDup (List.map Document.id (documents office_db)))
    by (apply NoDup_cons; split; [apply not_elem_of_nil|apply NoDup_nil_2]).
  assert (H2 : In jane_clearance (documents office_db)) by (left; reflexivity).
  split; [exact H1|]. split; [exact H2|].
  destruct (purge_keeps_archives_or_deletes "/srv/app/static" 6 30 false 9000
              (Date 2027 5 1) office_db nothing_on_disk jane_clearance H1 H2)
    as [H|[[H _]|[_ [_ [H _]]]]].
  - vm_compute. left. reflexivity.
  - exact H.
  - discriminate H.
Defined.

End PurgeFacts.

(** ** Sanitised strings (helpers.py [get_client_ip], pdf_utils.py
    [_safe_filename]) *)
Module StringFacts.
Import Models Web Helpers PdfUtils Examples.

Fixpoint all_chars (q : ascii -> bool) (s : string) : bool :=
  match s with
  | EmptyString => true
  | String c r => q c && all_chars q r
  end.

Definition first_char (s : string) : option ascii :=
  match s with EmptyString => None | String c _ => Some c end.

Fixpoint last_char (s : string) : option ascii :=
  match s with
  | EmptyString => None
  | String c EmptyString => Some c
  | String _ r => last_char r
  end.

(** Neither the first nor the last character satisfies [p]. *)
Definition trimmed (p : ascii -> bool) (s : string) : Prop :=
  (forall c, first_char s = Some c -> p c = false)
  /\ (forall c, last_char s = Some c -> p c = false).

Lemma lstrip_by_first p s c : first_char (Py.lstrip_by p s) = Some c -> p c = false.
Proof.
  induction s as [|a r IH]; simpl; [discriminate|].
  destruct (p a) eqn:E; [exact IH|]. simpl. congruence.
Qed.

Lemma lstrip_by_all p q s : all_chars q s = true -> all_chars q (Py.lstrip_by p s) = true.
Proof.
  induction s as [|a r IH]; simpl; [reflexivity|].
  intros H. destruct (p a); [|exact H].
  apply andb_true_iff in H as [_ H]. auto.
Qed.

Lemma rstrip_by_all p q s : all_chars q s = true -> all_chars q (Py.rstrip_by p s) = true.
Proof.
  induction s as [|a r IH]; simpl; [reflexivity|].
  intros H. apply andb_true_iff in H as [Ha H]. specialize (IH H).
  destruct (Py.rstrip_by p r) as [|b r'] eqn:E.
  - destruct (p a); simpl; [reflexivity|]. rewrite Ha. reflexivity.
  - cbn [all_chars] in *. rewrite Ha. exact IH.
Qed.

Lemma rstrip_by_last p s c : last_char (Py.rstrip_by p s) = Some c -> p c = false.
Proof.
  induction s as [|a r IH]; simpl; [discriminate|].
  destruct (Py.rstrip_by p r) as [|b r'] eqn:E.
  - destruct (p a) eqn:Ea; simpl; [discriminate|]. congruence.
  - intros H. apply IH. exact H.
Qed.

Lemma rstrip_by_first p s c :
  first_char s = Some c -> p c = false -> first_char (Py.rstrip_by p s) = Some c.
Proof.
  destruct s as [|a r]; simpl; [discriminate|].
  intros [= ->] Hc. destruct (Py.rstrip_by p r); [rewrite Hc|]; reflexivity.
Qed.

Lemma rstrip_by_first_inv p s c :
  first_char (Py.rstrip_by p s) = Some c -> first_char s = Some c.
Proof.
  destruct s as [|a r]; simpl; [discriminate|].
  destruct (Py.rstrip_by p r); [destruct (p a)|]; simpl; congruence.
Qed.

Lemma strip_by_trimmed p s : trimmed p (Py.strip_by p s).
Proof.
  unfold Py.strip_by. split.
  - intros c H. apply rstrip_by_first_inv in H. eapply lstrip_by_first, H.
  - intros c H. eapply rstrip_by_last, H.
Qed.

Lemma strip_by_all p q s : all_chars q s = true -> all_chars q (Py.strip_by p s) = true.
Proof. intros H. apply rstrip_by_all, lstrip_by_all, H. Qed.

Lemma lstrip_by_fixed p s :
  (forall c, first_char s = Some c -> p c = false) -> Py.lstrip_by p s = s.
Proof.
  destruct s as [|a r]; simpl; [reflexivity|].
  intros H. rewrite (H a eq_refl). reflexivity.
Qed.

Lemma rstrip_by_fixed p s :
  (forall c, last_char s = Some c -> p c = false) -> Py.rstrip_by p s = s.
Proof.
  induction s as [|a r IH]; simpl; [reflexivity|].
  intros H. destruct r as [|b r'].
  - simpl. rewrite (H a eq_refl). reflexivity.
  - rewrite IH by exact H. reflexivity.
Qed.

Lemma strip_by_fixed p s : trimmed p s -> Py.strip_by p s = s.
Proof.
  intros [H1 H2]. unfold Py.strip_by.
  rewrite (lstrip_by_fixed _ _ H1). apply rstrip_by_fixed, H2.
Qed.

Lemma map_string_all f q s : (forall c, q (f c) = true) -> all_chars q (Py.map_string f s) = true.
Proof. intros H. induction s as [|a r IH]; simpl; [reflexivity|]. rewrite H, IH. reflexivity. Qed.

Lemma map_string_fixed f q s :
  (forall c, q c = true -> f c = c) -> all_chars q s = true -> Py.map_string f s = s.
Proof.
  intros H. induction s as [|a r IH]; simpl; [reflexivity|].
  intros Hs. apply andb_true_iff in Hs as [Ha Hs]. rewrite (H a Ha), (IH Hs). reflexivity.
Qed.

(** The characters that [_safe_filename] lets through. *)
Definition safe_char (ch : ascii) : bool :=
  Py.isalnum ch || Ascii.eqb ch "-" || Ascii.eqb ch "_".

(** X10: the name that [_safe_filename] returns is made of ASCII letters,
    digits, hyphens and underscores only, neither starts nor ends with an
    underscore, and sanitising it again returns it unchanged. *)
Theorem _safe_filename_is_safe text :
  all_chars safe_char (_safe_filename text) = true
  /\ trimmed (Ascii.eqb "_") (_safe_filename text)
  /\ _safe_filename (_safe_filename text) = _safe_filename text.
Proof.
  assert (A : all_chars safe_char (_safe_filename text) = true).
  { unfold _safe_filename. apply strip_by_all, map_string_all.
    intros c. fold (safe_char c). destruct (safe_char c) eqn:E; [exact E|reflexivity]. }
  assert (T : trimmed (Ascii.eqb "_") (_safe_filename text))
    by apply strip_by_trimmed.
  split; [exact A|]. split; [exact T|].
  unfold _safe_filename at 1.
  rewrite (map_string_fixed _ safe_char).
  - apply strip_by_fixed, T.
  - intros c H. unfold safe_char in H. rewrite H. reflexivity.
  - exact A.
Qed.

Lemma before_comma_all s :
  all_chars (fun c => negb (Ascii.eqb c ",")) (before_comma s) = true.
Proof.
  induction s as [|a r IH]; simpl; [reflexivity|].
  destruct (Ascii.eqb a ",") eqn:E; simpl; [reflexivity|]. rewrite E, IH. reflexivity.
Qed.

(** X9: when the request carries an X-Forwarded-For header, the client
    address is read from it alone (the address of the connection is not
    looked at): it is the text before the first comma without surrounding
    white space, so it contains no comma, neither starts nor ends with white
    space, and is never the empty string (an empty entry gives None). *)
Theorem get_client_ip_reads_the_forwarded_header rq :
  x_forwarded_for rq <> "" ->
  get_client_ip rq = Py.or_none (Py.strip (before_comma (x_forwarded_for rq)))
  /\ forall ip, get_client_ip rq = Some ip ->
       ip <> ""
       /\ all_chars (fun c => negb (Ascii.eqb c ",")) ip = true
       /\ trimmed Py.is_space ip.
Proof.
  intros H. unfold get_client_ip.
  assert (F : Py.truthy (x_forwarded_for rq) = true)
    by (destruct (x_forwarded_for rq); [contradiction|reflexivity]).
  rewrite F. split; [reflexivity|].
  intros ip Hip. unfold Py.or_none in Hip.
  destruct (Py.truthy (Py.strip _)) eqn:T; [|discriminate]. injection Hip as <-.
  split; [intros K; rewrite K in T; discriminate|].
  split; [apply strip_by_all, before_comma_all|apply strip_by_trimmed].
Qed.

Definition behind_proxy : Request :=
  {| method := POST; remote_addr := Some "10.0.0.7";
     x_forwarded_for := " 203.0.113.9 , 10.0.0.7";
     user_agent := Some "Mozilla/5.0"; arg_next := None; now := 0%Z;
     today := Date 2026%Z 11%Z 4%Z; time_time := 1793923200%Z; token_hex3 := "a1b2c3" |}.

Lemma get_client_ip_reads_the_forwarded_header_witness :
  x_forwarded_for behind_proxy <> ""
  /\ get_client_ip behind_proxy = Some "203.0.113.9".
Proof.
  assert (H : x_forwarded_for behind_proxy <> "") by discriminate.
  split; [exact H|].
  rewrite (proj1 (get_client_ip_reads_the_forwarded_header behind_proxy H)).
  vm_compute. reflexivity.
Defined.

End StringFacts.

(** ** Deleting a user (admin.py) *)
Module AdminFacts.
Import Models Web Helpers Admin Examples Frame.
Local Open Scope Z_scope.

Lemma delete_where_In {A} (p : A -> bool) rows r :
  In r (delete_where p rows) <-> In r rows /\ p r = false.
Proof.
  unfold delete_where. rewrite filter_In, negb_true_iff. reflexivity.
Qed.

Lemma log_action_tables rq a et ei m w :
  users (db (log_action rq a et ei m w)) = users (db w)
  /\ password_resets (db (log_action rq a et ei m w)) = password_resets (db w)
  /\ login_mfa_codes (db (log_action rq a et ei m w)) = login_mfa_codes (db w).
Proof. unfold log_action. destruct (current_user w); repeat split; reflexivity. Qed.

Lemma log_action_logs rq a et ei m w :
  transaction_logs (db (log_action rq a et ei m w)) = transaction_logs (db w)
  \/ exists u row,
       current_user w = Some u /\ TransactionLog.user_id row = Some (User.id u)
       /\ transaction_logs (db (log_action rq a et ei m w))
          = (transaction_logs (db w) ++ [row])%list.
Proof.
  unfold log_action. destruct (current_user w) as [u|]; [right|left; reflexivity].
  eexists. eexists. split; [reflexivity|]. split; [|reflexivity]. reflexivity.
Qed.

(** X11: [delete_user] either leaves the database as it was (the visitor is
    not an administrator, the user does not exist, the administrator names
    the own account, or an enforced foreign key of residents or documents
    refuses the deletion), or removes exactly the rows of that user from
    users, deletes the password resets and login codes of that user, and
    keeps the log entries of that user in place with an empty user, so that
    no row of these three tables carries the deleted id.  The tables
    residents and documents are left as they are: where their [*_by_id]
    columns are enforced foreign keys no row points to the deleted user,
    where they are not the rows keep the id.  The administrator who deletes
    is never the one deleted. *)
Theorem delete_user_detaches_the_user fk rq uid w :
  let d := db w in
  let d' := db (fst (delete_user fk rq uid w)) in
  d' = d
  \/ ((forall u, In u (users d') <-> In u (users d) /\ User.id u <> uid)
      /\ password_resets d'
         = delete_where (fun p => PasswordReset.user_id p =? uid) (password_resets d)
      /\ login_mfa_codes d'
         = delete_where (fun c => LoginMfaCode.user_id c =? uid) (login_mfa_codes d)
      /\ (exists added,
            transaction_logs d'
            = (update_where (fun l => opt_Z_eqb (TransactionLog.user_id l) uid) detach_user
                 (transaction_logs d) ++ added)%list)
      /\ Forall (fun p => PasswordReset.user_id p <> uid) (password_resets d')
      /\ Forall (fun c => LoginMfaCode.user_id c <> uid) (login_mfa_codes d')
      /\ Forall (fun l => TransactionLog.user_id l <> Some uid) (transaction_logs d')
      /\ residents d' = residents d
      /\ documents d' = documents d
      /\ (fk = true -> user_referenced uid d' = false)
      /\ exists admin, current_user w = Some admin /\ User.role admin = "admin"
                       /\ User.id admin <> uid).
Proof.
  unfold delete_user, guarded. cbv zeta.
  destruct (current_user w) as [admin|] eqn:Hcu; [|left; reflexivity].
  cbn [existsb]. rewrite orb_false_r.
  destruct (String.eqb (User.role admin) "admin") eqn:Hrole; [|left; reflexivity].
  apply String.eqb_eq in Hrole.
  destruct (get User.id uid (users (db w))) as [user|] eqn:Hget; [|left; reflexivity].
  destruct (get_id _ _ _ _ Hget) as [Hid _].
  destruct (User.id user =? User.id admin) eqn:Hself; [left; reflexivity|].
  apply Z.eqb_neq in Hself.
  destruct (fk && user_referenced (User.id user) (db w)) eqn:Hfk; [left; reflexivity|].
  right. rewrite Hid in *.
  match goal with
  | |- context [log_action rq ?a ?et ?ei ?m ?w1] =>
      set (W1 := w1); set (W2 := log_action rq a et ei m W1)
  end.
  cbn [fst db do_flash with_session].
  destruct (log_action_tables rq "Deleted user" (Some "user") None
              (Some [("username", MStr (User.username user))]) W1) as (Eu & Ep & Ec).
  pose proof (log_action_residents rq "Deleted user" (Some "user") None
                (Some [("username", MStr (User.username user))]) W1) as Er.
  pose proof (log_action_documents rq "Deleted user" (Some "user") None
                (Some [("username", MStr (User.username user))]) W1) as Ed.
  fold W2 in Eu, Ep, Ec, Er, Ed. rewrite Eu, Ep, Ec, Er, Ed.
  assert (Hlogs : Forall (fun l => TransactionLog.user_id l <> Some uid)
                    (transaction_logs (db W1))).
  { subst W1. cbn. apply List.Forall_forall. intros l Hl.
    apply update_where_inv in Hl as (l0 & _ & [[_ ->]|[Hn ->]]); [discriminate|].
    intros E. rewrite E in Hn. cbn in Hn. rewrite Z.eqb_refl in Hn. discriminate. }
  assert (Hadded : transaction_logs (db W2) = transaction_logs (db W1)
                   \/ exists row, TransactionLog.user_id row <> Some uid
                                  /\ transaction_logs (db W2)
                                     = (transaction_logs (db W1) ++ [row])%list).
  { destruct (log_action_logs rq "Deleted user" (Some "user") None
                (Some [("username", MStr (User.username user))]) W1)
      as [E|(u & row & Hu & Hrow & E)]; fold W2 in E; [left; exact E|right].
    exists row. split; [|exact E]. rewrite Hrow. intros [= K].
    unfold current_user in Hu. subst W1. cbn in Hu.
    destruct (_user_id (session w)); [|discriminate].
    apply get_id in Hu as [_ Hu]. apply delete_where_In in Hu as [_ Hu].
    apply Z.eqb_neq in Hu. contradiction. }
  split; [|split; [|split; [|split; [|split; [|split; [|split; [|split; [|split; [|split]]]]]]]]].
  - intros u. subst W1. cbn. rewrite delete_where_In, Z.eqb_neq. reflexivity.
  - reflexivity.
  - reflexivity.
  - destruct Hadded as [E|(row & _ & E)]; rewrite E.
    + exists []. subst W1. cbn. rewrite app_nil_r. reflexivity.
    + exists [row]. reflexivity.
  - subst W1. cbn. apply List.Forall_forall. intros p Hp.
    apply delete_where_In in Hp as [_ Hp]. apply Z.eqb_neq in Hp. exact Hp.
  - subst W1. cbn. apply List.Forall_forall. intros c Hc.
    apply delete_where_In in Hc as [_ Hc]. apply Z.eqb_neq in Hc. exact Hc.
  - destruct Hadded as [E|(row & Hrow & E)]; rewrite E; [exact Hlogs|].
    apply List.Forall_app. split; [exact Hlogs|]. constructor; [exact Hrow|constructor].
  - reflexivity.
  - reflexivity.
  - intros ->. cbn [andb] in Hfk. unfold user_referenced in *. rewrite Er, Ed. exact Hfk.
  - exists admin. split; [reflexivity|]. split; [exact Hrole|]. congruence.
Qed.

End AdminFacts.

(** ** Logging in (auth.py) *)
Module LoginFacts.
Import Models Web Helpers Forms Auth Examples Frame.
Local Open Scope Z_scope.

Lemma log_action_keeps_session rq a et ei m w :
  session (log_action rq a et ei m w) = session w.
Proof. unfold log_action. destruct (current_user w); reflexivity. Qed.

Lemma log_action_keeps_attempts rq a et ei m w :
  login_attempts (db (log_action rq a et ei m w)) = login_attempts (db w).
Proof. unfold log_action. destruct (current_user w); reflexivity. Qed.

Lemma user_by_username_In name d u :
  user_by_username name d = Some u -> In u (users d) /\ User.username u = name.
Proof.
  unfold user_by_username. intros H. apply find_some in H as [Hin H].
  apply String.eqb_eq in H. auto.
Qed.

Section WithHash.

Variable check_password_hash : string -> string -> bool.

(** The row that [_record_login_attempt] adds. *)
Definition attempt_row (rq : Request) (form : LoginForm) (success : bool) (w : World)
    : LoginAttempt.t :=
  let username := Py.strip (Py.or_empty (Forms.username form)) in
  {| LoginAttempt.id := next_id (List.map LoginAttempt.id (login_attempts (db w)));
     LoginAttempt.username := Py.or_none username;
     LoginAttempt.ip_address :=
       match get_client_ip rq with
       | Some ip => Py.or_none ip
       | None => None
       end;
     LoginAttempt.success := success;
     LoginAttempt.created_at := now rq |}.

(** Whether the submitted password is the one of the user with the
    submitted name. *)
Definition password_accepted (form : LoginForm) (d : Database) : bool :=
  match user_by_username (Py.strip (Py.or_empty (Forms.username form))) d with
  | Some user => check_password check_password_hash user (Py.or_empty (password form))
  | None => false
  end.

Lemma _record_login_attempt_row rq form success w :
  login_attempts
    (db (_record_login_attempt rq
           (Some (Py.strip (Py.or_empty (Forms.username form)))) (get_client_ip rq)
           success w))
  = (login_attempts (db w) ++ [attempt_row rq form success w])%list.
Proof.
  unfold _record_login_attempt, attempt_row. cbv zeta.
  cbn [db with_db login_attempts with_login_attempts Py.truthy_opt].
  unfold Py.or_none.
  destruct (get_client_ip rq) as [ip|]; cbn [Py.truthy_opt];
    destruct (Py.truthy (Py.strip (Py.or_empty (Forms.username form))));
    try destruct (Py.truthy ip); reflexivity.
Qed.

(** X12: a visitor who is not logged in is logged in by [login] only when
    the submitted password is accepted for the user of the submitted name;
    that user is then the one of the session, and is not an administrator
    unless the second factor is switched off. *)
Theorem login_needs_the_password cfg rq form w :
  is_authenticated w = false ->
  is_authenticated (fst (login check_password_hash cfg rq form w)) = true ->
  exists user,
    In user (users (db w))
    /\ User.username user = Py.strip (Py.or_empty (Forms.username form))
    /\ check_password check_password_hash user (Py.or_empty (password form)) = true
    /\ _user_id (session (fst (login check_password_hash cfg rq form w)))
       = Some (User.id user)
    /\ (User.role user <> "admin" \/ ADMIN_MFA_REQUIRED cfg = false).
Proof.
  intros Hanon. unfold login. rewrite Hanon.
  assert (Hsame : forall w', users (db w') = users (db w) ->
                             _user_id (session w') = _user_id (session w) ->
                             is_authenticated w' = true -> False).
  { intros w' Eu Es. unfold is_authenticated, current_user in *.
    rewrite Eu, Es. rewrite Hanon. discriminate. }
  destruct (login_validate_on_submit rq form); [|intros H; exfalso; eapply Hsame; eauto].
  cbv zeta.
  destruct (_is_rate_limited _ _ _ _ _);
    [intros H; exfalso; eapply Hsame; [| |exact H]; reflexivity|].
  destruct (user_by_username _ (db w)) as [user|] eqn:Hu;
    [|intros H; exfalso; eapply Hsame; [| |exact H]; reflexivity].
  apply user_by_username_In in Hu as [Hin Hname].
  destruct (check_password check_password_hash user _) eqn:Hpw; cbn [negb];
    [|intros H; exfalso; eapply Hsame; [| |exact H]; reflexivity].
  destruct (String.eqb (User.role user) "admin" && ADMIN_MFA_REQUIRED cfg) eqn:Hadmin.
  - destruct (negb (Py.truthy_opt (User.email user)));
      intros H; exfalso; eapply Hsame; [| |exact H| | |exact H]; reflexivity.
  - intros _. exists user. split; [exact Hin|]. split; [exact Hname|].
    split; [exact Hpw|]. split.
    + unfold _finalize_login. cbv zeta.
      destruct (String.eqb (User.username user) "admin" && _); cbn [fst];
        cbn [session do_flash with_session set_force_password_change flash _user_id];
        rewrite log_action_keeps_session; reflexivity.
    + apply andb_false_iff in Hadmin as [Hr|Hm]; [left|right; exact Hm].
      intros E. rewrite E in Hr. discriminate.
Qed.

(** X13: [login] records the submissions that reach the password check and
    only those.  For a visitor who is not logged in, a submission that fails
    the form validation or is rate limited adds no LoginAttempt row; every
    other submission adds exactly one, with the stripped user name, the
    client address, the time of the request, and success set exactly when
    the password was accepted (for an administrator this is before the
    second factor is asked for). *)
Theorem login_records_each_checked_submission cfg rq form w :
  is_authenticated w = false ->
  login_attempts (db (fst (login check_password_hash cfg rq form w)))
  = if login_validate_on_submit rq form
       && negb (_is_rate_limited cfg rq (db w)
                  (Some (Py.strip (Py.or_empty (Forms.username form)))) (get_client_ip rq))
    then (login_attempts (db w)
            ++ [attempt_row rq form (password_accepted form (db w)) w])%list
    else login_attempts (db w).
Proof.
  intros Hanon. unfold login, password_accepted. rewrite Hanon.
  destruct (login_validate_on_submit rq form); [|reflexivity]. cbv zeta.
  destruct (_is_rate_limited _ _ _ _ _); [reflexivity|]. cbn [andb negb].
  destruct (user_by_username _ (db w)) as [user|];
    [|cbn [fst db do_flash with_session]; apply _record_login_attempt_row].
  destruct (check_password check_password_hash user _); cbn [negb];
    [|cbn [fst db do_flash with_session]; apply _record_login_attempt_row].
  destruct (String.eqb (User.role user) "admin" && ADMIN_MFA_REQUIRED cfg).
  - destruct (negb (Py.truthy_opt (User.email user)));
      cbn [fst db do_flash with_session _start_mfa with_db login_attempts
           with_login_mfa_codes];
      apply _record_login_attempt_row.
  - unfold _finalize_login. cbv zeta.
    destruct (String.eqb (User.username user) "admin" && _); cbn [fst];
      cbn [db do_flash with_session]; rewrite log_action_keeps_attempts;
      cbn [db do_flash with_session]; apply _record_login_attempt_row.
Qed.

End WithHash.

Lemma login_needs_the_password_witness :
  is_authenticated visitor = false
  /\ is_authenticated (fst (login plain_check cfg (post_at 7000)
                              (credentials "clerk" "Clerk123!") visitor)) = true
  /\ exists user,
       In user (users (db visitor))
       /\ User.username user = "clerk"
       /\ check_password plain_check user "Clerk123!" = true
       /\ _user_id (session (fst (login plain_check cfg (post_at 7000)
                                    (credentials "clerk" "Clerk123!") visitor)))
          = Some (User.id user)
       /\ (User.role user <> "admin" \/ ADMIN_MFA_REQUIRED cfg = false).
Proof.
  assert (H1 : is_authenticated visitor = false) by (vm_compute; reflexivity).
  assert (H2 : is_authenticated (fst (login plain_check cfg (post_at 7000)
                                        (credentials "clerk" "Clerk123!") visitor)) = true)
    by (vm_compute; reflexivity).
  split; [exact H1|]. split; [exact H2|].
  exact (login_needs_the_password plain_check cfg (post_at 7000) (credentials "clerk" "Clerk123!")
           visitor H1 H2).
Defined.

Lemma login_records_each_checked_submission_witness :
  is_authenticated visitor = false
  /\ List.map LoginAttempt.success
       (login_attempts (db (fst (login plain_check cfg (post_at 7000)
                                   (credentials "boss" "guess") visitor))))
     = [false].
Proof.
  assert (H1 : is_authenticated visitor = false) by (vm_compute; reflexivity).
  split; [exact H1|].
  rewrite (login_records_each_checked_submission plain_check cfg (post_at 7000)
             (credentials "boss" "guess") visitor H1).
  vm_compute. reflexivity.
Defined.


End LoginFacts.

(** ** The life of a document (routes.py) *)
Module LifecycleFacts.
Import Models Web Helpers Forms PdfUtils Routes DocumentRoutes DocumentLifecycle Examples
  Frame.
Local Open Scope Z_scope.

Lemma unique_row (rows : list Document.t) x y :
  NoDup (List.map Document.id rows) -> In x rows -> In y rows ->
  Document.id x = Document.id y -> x = y.
Proof.
  induction rows as [|a l IH]; simpl; [contradiction|].
  intros Hnd Hx Hy E. apply NoDup_cons in Hnd as [Ha Hnd].
  destruct Hx as [<-|Hx], Hy as [<-|Hy]; auto.
  - exfalso. apply Ha. rewrite E. apply list_elem_of_In, in_map, Hy.
  - exfalso. apply Ha. rewrite <- E. apply list_elem_of_In, in_map, Hx.
Qed.

Lemma update_where_other {A} (p : A -> bool) (f : A -> A) rows r :
  In r rows -> p r = false -> In r (update_where p f rows).
Proof.
  intros Hin Hp. unfold update_where. apply in_map_iff. exists r.
  rewrite Hp. auto.
Qed.

Lemma update_where_twice {A} (p : A -> bool) (f g : A -> A) rows :
  (forall r, p (f r) = p r) ->
  update_where p g (update_where p f rows)
  = update_where p (fun r => g (f r)) rows.
Proof.
  intros Hp. unfold update_where. rewrite List.map_map. apply List.map_ext.
  intros r. destruct (p r) eqn:E; [rewrite Hp, E|rewrite E]; reflexivity.
Qed.

Section WithLibraries.

Variable strftime : datetime -> string -> string.
Variable draws : Template -> Document.t -> bool.
Variable installed : string -> bool.

(** What [finalize_document_issue] asks of the document it issues. *)
Definition may_be_issued (rq : Request) (d : Database) (document : Document.t) : Prop :=
  Document.is_archived document = false
  /\ In (Document.status document) DRAFT_LIKE_STATUSES
  /\ (forall r, resident_of d document = Some r ->
        Resident.is_archived r = false
        /\ date_ltb (Document.issue_date document) (Resident.birth_date r) = false
        /\ forall t, document_type_of d document = Some t ->
             DocumentType.requires_photo t = true ->
             Py.truthy_opt (Resident.photo_path r) = true)
  /\ date_ltb (today rq) (Document.issue_date document) = false.

(** The table of documents after [finalize_document_issue]: unchanged, or
    with the row of the document issued, and its file path set when the PDF
    was drawn. *)
Lemma finalize_document_issue_documents cfg rq id w fs :
  let w' := fst (fst (finalize_document_issue strftime draws installed cfg rq id w fs)) in
  documents (db w') = documents (db w)
  \/ exists u document g,
       current_user w = Some u
       /\ In (User.role u) ["admin"; "clerk"]
       /\ get Document.id id (documents (db w)) = Some document
       /\ may_be_issued rq (db w) document
       /\ (g = issued rq (User.id u)
           \/ exists p, g = fun x => set_file_path (Some p) (issued rq (User.id u) x))
       /\ documents (db w')
          = update_where (fun d => Document.id d =? Document.id document) g
              (documents (db w)).
Proof.
  unfold finalize_document_issue.
  destruct (current_user w) as [u|] eqn:Hu; [|left; reflexivity].
  destruct (existsb (String.eqb (User.role u)) ["admin"; "clerk"]) eqn:Hrole;
    cbn [negb]; [|left; reflexivity].
  destruct (get Document.id id (documents (db w))) as [document|] eqn:Hget;
    [|left; reflexivity].
  cbv zeta.
  destruct (Document.is_archived document) eqn:Ha; [left; reflexivity|].
  destruct (existsb (String.eqb (Document.status document)) DRAFT_LIKE_STATUSES) eqn:Hs;
    cbn [negb]; [|left; reflexivity].
  destruct (match resident_of (db w) document with
            | Some r => Resident.is_archived r | None => false end) eqn:Hr;
    [left; reflexivity|].
  destruct (match document_type_of (db w) document, resident_of (db w) document with
            | Some t, Some r => DocumentType.requires_photo t
                                && negb (Py.truthy_opt (Resident.photo_path r))
            | _, _ => false end) eqn:Hp; [left; reflexivity|].
  destruct (date_ltb (today rq) (Document.issue_date document)) eqn:Hf; [left; reflexivity|].
  destruct (match resident_of (db w) document with
            | Some r => date_ltb (Document.issue_date document) (Resident.birth_date r)
            | None => false end) eqn:Hb; [left; reflexivity|].
  right. exists u, document.
  assert (Hmay : may_be_issued rq (db w) document).
  { split; [exact Ha|]. split.
    - apply existsb_exists in Hs as (s & Hin & Es). apply String.eqb_eq in Es.
      rewrite Es. exact Hin.
    - split; [|exact Hf]. intros r Er. rewrite Er in Hr, Hb, Hp.
      split; [exact Hr|]. split; [exact Hb|]. intros t Et Hreq.
      rewrite Et, Hreq in Hp. cbn in Hp. apply negb_false_iff in Hp. exact Hp. }
  assert (Hin : In (User.role u) ["admin"; "clerk"]).
  { apply existsb_exists in Hrole as (s & Hin & Es). apply String.eqb_eq in Es.
    rewrite Es. exact Hin. }
  destruct (generate_document_pdf _ _ _ _ _ _ _) as [[fs' rel]|].
  - destruct (Py.truthy rel).
    + exists (fun x => set_file_path (Some rel) (issued rq (User.id u) x)).
      split; [reflexivity|]. split; [exact Hin|]. split; [reflexivity|].
      split; [exact Hmay|]. split; [right; eexists; reflexivity|].
      cbn [fst]. cbn [db do_flash with_session]. rewrite log_action_documents.
      unfold store_file_path. cbn [db with_db documents with_documents].
      apply update_where_twice. reflexivity.
    + exists (issued rq (User.id u)).
      split; [reflexivity|]. split; [exact Hin|]. split; [reflexivity|].
      split; [exact Hmay|]. split; [left; reflexivity|].
      cbn [fst]. cbn [db do_flash with_session]. rewrite log_action_documents.
      reflexivity.
  - exists (issued rq (User.id u)).
    split; [reflexivity|]. split; [exact Hin|]. split; [reflexivity|].
    split; [exact Hmay|]. split; [left; reflexivity|]. reflexivity.
Qed.

(** X14: with unique ids, a document that was not issued and is issued
    after [finalize_document_issue] is the one named in the request; the
    request came from an administrator or a clerk; the document was not
    archived and was a draft, pending or approved; its resident was not
    archived, had the photo that the document type requires, and was born
    on or before the issue date; the issue date is not in the future; and
    the row now carries the time of the request and the user as issuer. *)
Theorem finalize_issues_only_what_may_be_issued cfg rq id w fs doc doc' :
  NoDup (List.map Document.id (documents (db w))) ->
  In doc (documents (db w)) -> Document.status doc <> "issued" ->
  In doc' (documents
             (db (fst (fst (finalize_document_issue strftime draws installed cfg rq id w fs))))) ->
  Document.id doc' = Document.id doc -> Document.status doc' = "issued" ->
  Document.id doc = id
  /\ may_be_issued rq (db w) doc
  /\ exists u, current_user w = Some u /\ In (User.role u) ["admin"; "clerk"]
               /\ Document.issued_at doc' = Some (now rq)
               /\ Document.issued_by_id doc' = Some (User.id u).
Proof.
  intros Hnd Hin Hst Hin' Hid Hst'.
  destruct (finalize_document_issue_documents cfg rq id w fs)
    as [E|(u & document & g & Hu & Hrole & Hget & Hmay & Hg & E)];
    cbv zeta in E; rewrite E in Hin'.
  - exfalso. rewrite (unique_row _ _ _ Hnd Hin' Hin Hid) in Hst'. contradiction.
  - apply update_where_inv in Hin' as (r & Hr & [[Hp ->]|[Hp ->]]).
    + assert (Hidg : Document.id (g r) = Document.id r)
        by (destruct Hg as [->|[p ->]]; reflexivity).
      rewrite Hidg in Hid. rewrite (unique_row _ _ _ Hnd Hr Hin Hid) in *.
      apply Z.eqb_eq in Hp.
      assert (Hd : doc = document).
      { destruct (get_id _ _ _ _ Hget) as [_ Hind].
        eapply unique_row; eauto. }
      subst document. destruct (get_id _ _ _ _ Hget) as [Hdid _].
      split; [exact Hdid|]. split; [exact Hmay|].
      exists u. split; [exact Hu|]. split; [exact Hrole|].
      destruct Hg as [->|[p ->]]; split; reflexivity.
    + exfalso. rewrite (unique_row _ _ _ Hnd Hr Hin Hid) in Hst'. contradiction.
Qed.

(** X15: an issued document is frozen.  With unique ids, a row whose status
    is issued is still in the table, unchanged, after [edit_document],
    after [finalize_document_issue] and after [revise_document], whatever
    the request. *)
Theorem issued_documents_are_frozen cfg rq id form w fs doc :
  NoDup (List.map Document.id (documents (db w))) ->
  In doc (documents (db w)) -> Document.status doc = "issued" ->
  In doc (documents (db (fst (edit_document rq id form w))))
  /\ In doc (documents
               (db (fst (fst (finalize_document_issue strftime draws installed cfg rq id w fs)))))
  /\ In doc (documents (db (fst (revise_document rq id w)))).
Proof.
  intros Hnd Hin Hst. split; [|split].
  - unfold edit_document, guarded.
    destruct (current_user w) as [u|]; [|exact Hin].
    destruct (existsb _ _); [|exact Hin].
    destruct (get Document.id id (documents (db w))) as [document|] eqn:Hget; [|exact Hin].
    destruct (Document.is_archived document); [exact Hin|].
    destruct (String.eqb (Document.status document) "issued") eqn:Hs; [exact Hin|].
    cbv zeta.
    destruct (negb (document_validate_on_submit rq (db w) form)); [exact Hin|].
    destruct (get Resident.id _ _) as [resident|]; [|exact Hin].
    destruct (Resident.is_archived resident); [exact Hin|].
    destruct (match f_issue_date form with Some i => date_ltb (today rq) i | None => false end);
      [exact Hin|].
    destruct (match f_issue_date form with
              | Some i => date_ltb i (Resident.birth_date resident) | None => false end);
      [exact Hin|].
    cbn [fst]. cbn [db do_flash with_session]. rewrite log_action_documents.
    cbn [db with_db documents with_documents].
    apply update_where_other; [exact Hin|].
    apply Z.eqb_neq. intros E. apply get_id in Hget as [_ Hind].
    rewrite (unique_row _ _ _ Hnd Hin Hind E) in Hst.
    rewrite Hst in Hs. discriminate.
  - destruct (finalize_document_issue_documents cfg rq id w fs)
      as [E|(u & document & g & _ & _ & Hget & Hmay & _ & E)];
      cbv zeta in E; rewrite E; [exact Hin|].
    apply update_where_other; [exact Hin|].
    apply Z.eqb_neq. intros Eid. apply get_id in Hget as [_ Hind].
    rewrite <- (unique_row _ _ _ Hnd Hin Hind Eid) in Hmay.
    destruct Hmay as (_ & Hs & _). rewrite Hst in Hs.
    cbn in Hs. intuition discriminate.
  - unfold revise_document, guarded.
    destruct (current_user w) as [u|]; [|exact Hin].
    destruct (existsb _ _); [|exact Hin].
    destruct (get Document.id id (documents (db w))) as [document|]; [|exact Hin].
    destruct (Document.is_archived document); [exact Hin|].
    destruct (negb _); [exact Hin|].
    cbv zeta. cbn [fst]. cbn [db do_flash with_session]. rewrite log_action_documents.
    cbn [db with_db documents with_documents]. apply in_or_app. left. exact Hin.
Qed.

End WithLibraries.


Definition jane_draft : Document.t :=
  {| Document.id := 2; Document.resident_id := 1; Document.document_type_id := 1;
     Document.status := "pending"; Document.details := Some "For travel";
     Document.issue_date := Date 2026 11 2; Document.file_path := None;
     Document.created_at := 6000; Document.updated_at := None;
     Document.approved_at := None; Document.issued_at := None;
     Document.is_archived := false; Document.archived_at := None;
     Document.created_by_id := Some 3; Document.updated_by_id := None;
     Document.approved_by_id := None; Document.issued_by_id := None;
     Document.archived_by_id := None |}.

Definition busy_office : World :=
  logged_in clerk (with_documents [jane_clearance; jane_draft] office_db).

Lemma busy_office_ids : NoDup (List.map Document.id (documents (db busy_office))).
Proof.
  apply NoDup_cons. split; [|apply NoDup_cons; split; [apply not_elem_of_nil|apply NoDup_nil_2]].
  intros H. apply list_elem_of_In in H. destruct H as [H|[]]. discriminate H.
Qed.

Lemma finalize_issues_only_what_may_be_issued_witness :
  exists doc',
    In doc' (documents
               (db (fst (fst (finalize_document_issue fixed_stamp always_draws forms_installed cfg
                                (post_at 9000) 2 busy_office nothing_on_disk)))))
    /\ Document.id doc' = Document.id jane_draft
    /\ Document.status doc' = "issued"
    /\ may_be_issued (post_at 9000) (db busy_office) jane_draft
    /\ Document.issued_at doc' = Some 9000.
Proof.
  eexists. split; [vm_compute; right; left; reflexivity|].
  split; [reflexivity|]. split; [reflexivity|].
  match goal with
  | |- _ /\ Document.issued_at ?d = _ =>
      destruct (finalize_issues_only_what_may_be_issued fixed_stamp always_draws forms_installed cfg
                  (post_at 9000) 2 busy_office nothing_on_disk jane_draft d)
        as (_ & Hmay & _)
  end.
  - exact busy_office_ids.
  - right. left. reflexivity.
  - discriminate.
  - vm_compute. right. left. reflexivity.
  - reflexivity.
  - reflexivity.
  - split; [exact Hmay|reflexivity].
Defined.

Lemma issued_documents_are_frozen_witness :
  NoDup (List.map Document.id (documents (db busy_office)))
  /\ In jane_clearance (documents (db busy_office))
  /\ Document.status jane_clearance = "issued"
  /\ In jane_clearance
       (documents (db (fst (edit_document (post_at 9000) 1
                              {| f_resident_id := Some 1; f_document_type_id := Some 1;
                                 f_details := Some "changed"; resident_photo_data := None;
                                 f_issue_date := None |} busy_office)))).
Proof.
  assert (H2 : In jane_clearance (documents (db busy_office))) by (left; reflexivity).
  assert (H3 : Document.status jane_clearance = "issued") by reflexivity.
  split; [exact busy_office_ids|]. split; [exact H2|]. split; [exact H3|].
  exact (proj1 (issued_documents_are_frozen fixed_stamp always_draws forms_installed cfg (post_at 9000) 1
                  {| f_resident_id := Some 1; f_document_type_id := Some 1;
                     f_details := Some "changed"; resident_photo_data := None;
                     f_issue_date := None |} busy_office nothing_on_disk jane_clearance
                  busy_office_ids H2 H3)).
Defined.

(** The columns that [delete_document] and [restore_document] leave alone. *)
Definition same_content (a b : Document.t) : Prop :=
  Document.id a = Document.id b
  /\ Document.resident_id a = Document.resident_id b
  /\ Document.document_type_id a = Document.document_type_id b
  /\ Document.status a = Document.status b
  /\ Document.details a = Document.details b
  /\ Document.issue_date a = Document.issue_date b
  /\ Document.file_path a = Document.file_path b
  /\ Document.created_at a = Document.created_at b
  /\ Document.approved_at a = Document.approved_at b
  /\ Document.issued_at a = Document.issued_at b
  /\ Document.created_by_id a = Document.created_by_id b
  /\ Document.approved_by_id a = Document.approved_by_id b
  /\ Document.issued_by_id a = Document.issued_by_id b.

Lemma staff_guarded w u view :
  current_user w = Some u -> In (User.role u) ["admin"; "clerk"] ->
  guarded ["admin"; "clerk"] w view = view u.
Proof.
  intros Hu Hr. apply guarded_allowed; [exact Hu|].
  apply existsb_exists. exists (User.role u). split; [exact Hr|apply String.eqb_refl].
Qed.

Lemma get_update_where_id (f : Document.t -> Document.t) id rows doc :
  (forall x, Document.id (f x) = Document.id x) ->
  get Document.id id rows = Some doc ->
  get Document.id id (update_where (fun d => Document.id d =? Document.id doc) f rows)
  = Some (f doc).
Proof.
  intros Hf. unfold get, update_where. induction rows as [|r rows IH]; [discriminate|].
  cbn [List.find List.map]. destruct (Document.id r =? id) eqn:E.
  - intros [= ->]. rewrite Z.eqb_refl, Hf, E. reflexivity.
  - intros H. specialize (IH H). apply find_some in H as [_ H]. apply Z.eqb_eq in H.
    destruct (Document.id r =? Document.id doc) eqn:E2.
    + apply Z.eqb_eq in E2. rewrite E2, H, Z.eqb_refl in E. discriminate.
    + rewrite E. exact IH.
Qed.

(** X16: archiving a document and restoring it gives back the document.
    For an administrator or a clerk, [delete_document] archives the document
    whatever its status (it is kept in the table, flagged and stamped with
    the time and the user), and [restore_document] afterwards clears the
    flag and the archive stamp; all other columns are as before, except that
    updated_at and updated_by_id name the restoring request. *)
Theorem archived_document_can_be_restored rq rq' id w u doc :
  current_user w = Some u -> In (User.role u) ["admin"; "clerk"] ->
  get Document.id id (documents (db w)) = Some doc ->
  let w1 := fst (delete_document rq id w) in
  let w2 := fst (restore_document rq' id w1) in
  (exists doc1,
     get Document.id id (documents (db w1)) = Some doc1
     /\ Document.is_archived doc1 = true
     /\ Document.archived_at doc1 = Some (now rq)
     /\ Document.archived_by_id doc1 = Some (User.id u)
     /\ same_content doc doc1)
  /\ (exists doc2,
        get Document.id id (documents (db w2)) = Some doc2
        /\ Document.is_archived doc2 = false
        /\ Document.archived_at doc2 = None
        /\ Document.archived_by_id doc2 = None
        /\ Document.updated_at doc2 = Some (now rq')
        /\ Document.updated_by_id doc2 = Some (User.id u)
        /\ same_content doc doc2)
  /\ List.map Document.id (documents (db w2)) = List.map Document.id (documents (db w)).
Proof.
  intros Hu Hrole Hget w1 w2.
  assert (E1 : documents (db w1)
               = update_where (fun d => Document.id d =? Document.id doc)
                   (archive_document (now rq) (User.id u)) (documents (db w))).
  { unfold w1, delete_document. rewrite (staff_guarded _ _ _ Hu Hrole), Hget.
    cbv zeta. cbn [fst]. cbn [db do_flash with_session]. rewrite log_action_documents.
    reflexivity. }
  assert (Hu1 : current_user w1 = Some u).
  { unfold w1, delete_document. rewrite (staff_guarded _ _ _ Hu Hrole), Hget.
    cbv zeta. cbn [fst]. unfold current_user, log_action.
    cbn [db do_flash with_session session with_db users with_documents]. 
    change (current_user
              (with_db
                 (with_documents
                    (update_where (fun d => Document.id d =? Document.id doc)
                       (archive_document (now rq) (User.id u)) (documents (db w))) (db w))
                 w)) with (current_user w).
    rewrite Hu. exact Hu. }
  assert (G1 : get Document.id id (documents (db w1))
               = Some (archive_document (now rq) (User.id u) doc)).
  { rewrite E1. apply get_update_where_id; [reflexivity|exact Hget]. }
  assert (E2 : documents (db w2)
               = update_where
                   (fun d => Document.id d =? Document.id doc)
                   (unarchive_document (now rq') (User.id u)) (documents (db w1))).
  { unfold w2, restore_document. rewrite (staff_guarded _ _ _ Hu1 Hrole), G1.
    cbv zeta. cbn [fst]. cbn [db do_flash with_session]. rewrite log_action_documents.
    reflexivity. }
  split; [|split].
  - eexists. split; [exact G1|]. repeat split.
  - eexists. split.
    + rewrite E2.
      apply (get_update_where_id (unarchive_document (now rq') (User.id u)) id
               (documents (db w1)) (archive_document (now rq) (User.id u) doc));
        [reflexivity|exact G1].
    + repeat split.
  - rewrite E2, E1.
    rewrite !(update_where_keys Document.id) by reflexivity. reflexivity.
Qed.

Lemma archived_document_can_be_restored_witness :
  current_user (logged_in clerk office_db) = Some clerk
  /\ In (User.role clerk) ["admin"; "clerk"]
  /\ get Document.id 1 (documents office_db) = Some jane_clearance
  /\ exists doc2,
       get Document.id 1
         (documents (db (fst (restore_document (post_at 8000) 1
                                (fst (delete_document (post_at 7000) 1
                                        (logged_in clerk office_db)))))))
       = Some doc2
       /\ Document.is_archived doc2 = false
       /\ same_content jane_clearance doc2.
Proof.
  assert (H1 : current_user (logged_in clerk office_db) = Some clerk)
    by (vm_compute; reflexivity).
  assert (H2 : In (User.role clerk) ["admin"; "clerk"]) by (right; left; reflexivity).
  assert (H3 : get Document.id 1 (documents (db (logged_in clerk office_db)))
               = Some jane_clearance) by (vm_compute; reflexivity).
  split; [exact H1|]. split; [exact H2|]. split; [exact H3|].
  destruct (archived_document_can_be_restored (post_at 7000) (post_at 8000) 1
              (logged_in clerk office_db) clerk jane_clearance H1 H2 H3)
    as (_ & (doc2 & G & A & _ & _ & _ & _ & S) & _).
  exists doc2. split; [exact G|]. split; [exact A|exact S].
Defined.

End LifecycleFacts.

(** ** Changing and resetting a password (auth.py) *)
Module PasswordFacts.
Import Models Web Helpers Forms Auth Passwords Examples Frame AdminFacts LoginFacts.
Local Open Scope Z_scope.

Lemma anonymous_stays_anonymous (w w' : World) :
  is_authenticated w = false ->
  _user_id (session w') = _user_id (session w) ->
  List.map User.id (users (db w')) = List.map User.id (users (db w)) ->
  current_user w' = None.
Proof.
  unfold is_authenticated, current_user. intros H Es Eu. rewrite Es.
  destruct (_user_id (session w)) as [uid|]; [|reflexivity].
  destruct (get User.id uid (users (db w))) as [u|] eqn:G; [discriminate|].
  destruct (get User.id uid (users (db w'))) as [x|] eqn:G'; [|reflexivity].
  exfalso. apply get_id in G' as [Hid Hx].
  assert (Hin : In (User.id x) (List.map User.id (users (db w'))))
    by (apply in_map, Hx).
  rewrite Eu in Hin. apply in_map_iff in Hin as (y & Ey & Hy).
  unfold get in G. eapply find_none in G; [|exact Hy].
  apply Z.eqb_neq in G. congruence.
Qed.

Lemma log_action_anonymous rq a et ei m w : current_user w = None -> log_action rq a et ei m w = w.
Proof. unfold log_action. intros ->. reflexivity. Qed.

Lemma latest_reset_from best rows x :
  fold_left (fun best r =>
               match best with
               | None => Some r
               | Some b => if PasswordReset.expires_at b <? PasswordReset.expires_at r
                           then Some r else Some b
               end) rows best = Some x ->
  best = Some x \/ In x rows.
Proof.
  revert best. induction rows as [|r rows IH]; simpl; intros best H; [left; exact H|].
  apply IH in H as [H|H]; [|right; right; exact H].
  destruct best as [b|].
  - destruct (_ <? _); injection H as <-; [right; left|left]; reflexivity.
  - injection H as <-. right. left. reflexivity.
Qed.

Lemma latest_reset_In rows x : latest_reset rows = Some x -> In x rows.
Proof.
  intros H. apply latest_reset_from in H as [H|H]; [discriminate|exact H].
Qed.

Lemma candidates_after_use uid code pr rows :
  reset_candidates uid code rows = [pr] ->
  reset_candidates uid code
    (update_where (fun r => PasswordReset.id r =? PasswordReset.id pr) mark_reset_used rows)
  = [].
Proof.
  intros H.
  destruct (reset_candidates uid code (update_where _ mark_reset_used rows))
    as [|x l] eqn:E; [reflexivity|exfalso].
  assert (Hx : In x (reset_candidates uid code
                       (update_where (fun r => PasswordReset.id r =? PasswordReset.id pr)
                          mark_reset_used rows))) by (rewrite E; left; reflexivity).
  unfold reset_candidates in Hx. apply filter_In in Hx as [Hx Hc].
  apply update_where_inv in Hx as (r & Hr & [[_ ->]|[Hne ->]]).
  - cbn in Hc. rewrite andb_false_r in Hc. discriminate.
  - assert (Hin : In r (reset_candidates uid code rows))
      by (apply filter_In; split; assumption).
    rewrite H in Hin. destruct Hin as [<-|[]]. rewrite Z.eqb_refl in Hne. discriminate.
Qed.

Section WithHash.

Variable check_password_hash : string -> string -> bool.
Variable generate_password_hash : string -> string.

(** A reset request that [reset_password] accepts for the form. *)
Definition live_code (rq : Request) (form : ResetPasswordForm) (d : Database)
    (user : User.t) (pr : PasswordReset.t) : Prop :=
  user_by_username (Py.or_empty (r_username form)) d = Some user
  /\ In pr (password_resets d)
  /\ PasswordReset.user_id pr = User.id user
  /\ PasswordReset.otp_code pr = Py.or_empty (r_otp_code form)
  /\ PasswordReset.used pr = false
  /\ now rq < PasswordReset.expires_at pr.

(** X17: [reset_password] either leaves the users and the reset requests
    as they were, or it was called by a visitor who is not logged in, the
    form names an existing user and carries a code of a reset request of
    that user that is unused and not yet expired, the new password passes
    the password policy and equals its confirmation; then the password of
    the users with that id is replaced, and the request is marked used. *)
Theorem reset_password_needs_a_live_code cfg rq form w :
  let d' := db (fst (reset_password generate_password_hash cfg rq form w)) in
  (users d' = users (db w) /\ password_resets d' = password_resets (db w))
  \/ exists user pr,
       is_authenticated w = false
       /\ live_code rq form (db w) user pr
       /\ password_strength_required cfg (r_new_password form) = true
       /\ r_confirm_new_password form = r_new_password form
       /\ users d'
          = update_where (fun u => User.id u =? User.id user)
              (set_password generate_password_hash (Py.or_empty (r_new_password form)))
              (users (db w))
       /\ password_resets d'
          = update_where (fun r => PasswordReset.id r =? PasswordReset.id pr)
              mark_reset_used (password_resets (db w)).
Proof.
  unfold reset_password.
  destruct (is_authenticated w) eqn:Hanon; [left; split; reflexivity|].
  destruct (reset_validate_on_submit cfg rq form) eqn:Hv; [|left; split; reflexivity].
  destruct (user_by_username _ (db w)) as [user|] eqn:Hu; [|left; split; reflexivity].
  cbv zeta.
  destruct (latest_reset _) as [pr|] eqn:Hpr; [|left; split; reflexivity].
  destruct (now rq <? PasswordReset.expires_at pr) eqn:Hexp; [|left; split; reflexivity].
  right. exists user, pr. split; [reflexivity|].
  apply latest_reset_In in Hpr. unfold reset_candidates in Hpr.
  apply filter_In in Hpr as [Hin Hc].
  apply andb_true_iff in Hc as [Hc H3]. apply andb_true_iff in Hc as [H1 H2].
  apply Z.eqb_eq in H1. apply String.eqb_eq in H2. apply negb_true_iff in H3.
  apply Z.ltb_lt in Hexp.
  split; [repeat split; assumption|].
  unfold reset_validate_on_submit in Hv.
  apply andb_true_iff in Hv as [Hv Hconf]. apply andb_true_iff in Hv as [_ Hnew].
  apply andb_true_iff in Hnew as [_ Hnew]. apply andb_true_iff in Hconf as [_ Hconf].
  apply bool_decide_eq_true in Hconf.
  split; [exact Hnew|]. split; [exact Hconf|].
  cbn [fst]. cbn [db do_flash with_session].
  unfold log_action. destruct (current_user _); split; reflexivity.
Qed.


Lemma user_by_username_set_password name p (pw : string) rows :
  List.find (fun u => String.eqb (User.username u) name)
    (update_where p (set_password generate_password_hash pw) rows)
  = option_map (fun u => if p u then set_password generate_password_hash pw u else u)
      (List.find (fun u => String.eqb (User.username u) name) rows).
Proof.
  unfold update_where. induction rows as [|r rows IH]; [reflexivity|].
  cbn [List.map List.find].
  assert (E : User.username (if p r then set_password generate_password_hash pw r else r)
              = User.username r) by (destruct (p r); reflexivity).
  rewrite E. destruct (String.eqb (User.username r) name); [reflexivity|exact IH].
Qed.

(** X22: a reset code works once.  When [reset_password] has accepted a
    code, and the user had a single unused request with that code, a second
    submission of the same user name and code is refused, at whatever time
    and with whatever new password: the users and the reset requests stay
    as the first submission left them. *)
Theorem reset_code_works_once cfg rq rq' form form' w :
  snd (reset_password generate_password_hash cfg rq form w) = Redirect "auth.login" ->
  (forall user,
     user_by_username (Py.or_empty (r_username form)) (db w) = Some user ->
     exists pr,
       reset_candidates (User.id user) (Py.or_empty (r_otp_code form))
         (password_resets (db w)) = [pr]) ->
  r_username form' = r_username form -> r_otp_code form' = r_otp_code form ->
  let w1 := fst (reset_password generate_password_hash cfg rq form w) in
  let w2 := fst (reset_password generate_password_hash cfg rq' form' w1) in
  users (db w2) = users (db w1) /\ password_resets (db w2) = password_resets (db w1).
Proof.
  intros Hok Hone En Ec w1 w2.
  assert (H1 : exists user pr,
             is_authenticated w = false
             /\ user_by_username (Py.or_empty (r_username form)) (db w) = Some user
             /\ reset_candidates (User.id user) (Py.or_empty (r_otp_code form))
                  (password_resets (db w)) = [pr]
             /\ session w1
                = flash "Your password has been reset. You may now log in." "success"
                    (session w)
             /\ users (db w1)
                = update_where (fun u => User.id u =? User.id user)
                    (set_password generate_password_hash
                       (Py.or_empty (r_new_password form))) (users (db w))
             /\ password_resets (db w1)
                = update_where (fun r => PasswordReset.id r =? PasswordReset.id pr)
                    mark_reset_used (password_resets (db w))).
  { unfold w1. clear w1 w2. unfold reset_password in *.
    destruct (is_authenticated w); [discriminate|].
    destruct (reset_validate_on_submit cfg rq form); [|discriminate].
    destruct (user_by_username _ (db w)) as [user|] eqn:Hu; [|discriminate].
    destruct (Hone user eq_refl) as [pr Hpr]. cbv zeta in *. rewrite Hpr in *.
    cbn [latest_reset fold_left] in *.
    destruct (now rq <? PasswordReset.expires_at pr); [|discriminate].
    exists user, pr. split; [reflexivity|]. split; [reflexivity|]. split; [exact Hpr|].
    cbn [fst]. cbn [db session do_flash with_session]. unfold log_action.
    destruct (current_user _); repeat split; reflexivity. }
  destruct H1 as (user & pr & Hanon & Hu & Hpr & Es & Eu & Er).
  unfold w2, reset_password.
  destruct (is_authenticated w1); [split; reflexivity|].
  destruct (reset_validate_on_submit cfg rq' form'); [|split; reflexivity].
  rewrite En, Ec. unfold user_by_username in *.
  rewrite Eu, user_by_username_set_password, Hu. cbn [option_map]. cbv zeta.
  assert (Hid : User.id (if User.id user =? User.id user
                         then set_password generate_password_hash
                                (Py.or_empty (r_new_password form)) user
                         else user) = User.id user)
    by (destruct (_ =? _); reflexivity).
  rewrite Hid, Er, (candidates_after_use _ _ _ _ Hpr).
  cbn [latest_reset fold_left fst]. rewrite <- Eu, <- Er. split; reflexivity.
Qed.

(** X18: neither [forgot_password] nor [reset_password] leaves a trace in
    the audit log or in the login attempts, whatever the request: both
    run for visitors who are not logged in only, for whom [log_action]
    records nothing, and a wrong code is not counted as a failed attempt. *)
Theorem password_recovery_is_not_logged cfg rq forgot reset w :
  let d1 := db (fst (forgot_password rq forgot w)) in
  let d2 := db (fst (reset_password generate_password_hash cfg rq reset w)) in
  transaction_logs d1 = transaction_logs (db w)
  /\ login_attempts d1 = login_attempts (db w)
  /\ transaction_logs d2 = transaction_logs (db w)
  /\ login_attempts d2 = login_attempts (db w).
Proof.
  cbv zeta. unfold forgot_password, reset_password.
  destruct (is_authenticated w) eqn:Hanon; [repeat split; reflexivity|].
  split; [|split; [|split]].
  1,2: destruct (forgot_validate_on_submit rq forgot); [|reflexivity];
       destruct (user_by_username _ (db w)) as [user|]; [|reflexivity];
       cbn [fst]; cbn [db do_flash with_session];
       rewrite log_action_anonymous by (apply (anonymous_stays_anonymous w); auto);
       reflexivity.
  all: destruct (reset_validate_on_submit cfg rq reset); [|reflexivity];
       destruct (user_by_username _ (db w)) as [user|]; [|reflexivity]; cbv zeta;
       destruct (latest_reset _) as [pr|]; [|reflexivity];
       destruct (now rq <? PasswordReset.expires_at pr); [|reflexivity];
       cbn [fst]; cbn [db do_flash with_session];
       rewrite log_action_anonymous; [reflexivity|];
       apply (anonymous_stays_anonymous w); [exact Hanon|reflexivity|];
       cbn [db with_db users with_password_resets with_users];
       apply update_where_keys; reflexivity.
Qed.

(** X19: [forgot_password] answers a visitor who is not logged in the same
    way whether or not the user name exists: the response and the session,
    with its flashed message, do not depend on the database. *)
Theorem forgot_password_does_not_tell rq form w1 w2 :
  is_authenticated w1 = false -> is_authenticated w2 = false ->
  session w1 = session w2 ->
  snd (forgot_password rq form w1) = snd (forgot_password rq form w2)
  /\ session (fst (forgot_password rq form w1))
     = session (fst (forgot_password rq form w2)).
Proof.
  intros H1 H2 Es. unfold forgot_password. rewrite H1, H2.
  destruct (forgot_validate_on_submit rq form); [|split; [reflexivity|exact Es]].
  split; [reflexivity|]. cbn [fst]. cbn [session do_flash with_session].
  assert (S : forall w, is_authenticated w = false ->
                session
                  match user_by_username (Py.or_empty (f_username form)) (db w) with
                  | Some user =>
                      log_action rq
                        ("Requested password reset for '" +:+ User.username user +:+ "'")
                        None None None
                        (with_db
                           (with_password_resets
                              (password_resets (db w) ++
                               [{| PasswordReset.id :=
                                     next_id (List.map PasswordReset.id (password_resets (db w)));
                                   PasswordReset.user_id := User.id user;
                                   PasswordReset.otp_code := Py.upper (token_hex3 rq);
                                   PasswordReset.expires_at := now rq + seconds (10 * 60);
                                   PasswordReset.used := false;
                                   PasswordReset.created_at := now rq |}]) (db w)) w)
                  | None => w
                  end = session w).
  { intros w Hw. destruct (user_by_username _ (db w)); [|reflexivity].
    unfold log_action. destruct (current_user _); reflexivity. }
  rewrite (S w1 H1), (S w2 H2), Es. reflexivity.
Qed.

(** X20: [reset_password] does tell.  For a visitor who is not logged in
    and a form that passes validation, the message flashed is the one about
    the user name exactly when no user has the submitted name; for an
    existing user the message is another one. *)
Theorem reset_password_tells_unknown_names cfg rq form w :
  is_authenticated w = false ->
  reset_validate_on_submit cfg rq form = true ->
  (_flashes (session (fst (reset_password generate_password_hash cfg rq form w)))
   = (_flashes (session w) ++ [("danger", "Invalid username or OTP code.")])%list)
  <-> user_by_username (Py.or_empty (r_username form)) (db w) = None.
Proof.
  intros Hanon Hv. unfold reset_password. rewrite Hanon, Hv.
  destruct (user_by_username _ (db w)) as [user|]; [|split; reflexivity].
  cbv zeta. split; [|discriminate]. intros H. exfalso.
  destruct (latest_reset _) as [pr|].
  - destruct (now rq <? PasswordReset.expires_at pr).
    + cbn [fst] in H. cbn [session do_flash with_session flash _flashes] in H.
      unfold log_action in H. destruct (current_user _);
        cbn [session with_db _flashes] in H;
        apply app_inv_head in H; discriminate.
    + cbn in H. apply app_inv_head in H. discriminate.
  - cbn in H. apply app_inv_head in H. discriminate.
Qed.

(** X21: [change_password] either leaves the users as they were, or it was
    called by a logged-in user whose current password was accepted, with a
    new password that passes the policy and equals its confirmation; then
    the password of that user alone is replaced and the forced password
    change is lifted from the session. *)
Theorem change_password_needs_the_current_password cfg rq form w :
  let w' := fst (change_password check_password_hash generate_password_hash cfg rq form w) in
  users (db w') = users (db w)
  \/ exists u,
       current_user w = Some u
       /\ check_password check_password_hash u (Py.or_empty (current_password form)) = true
       /\ password_strength_required cfg (c_new_password form) = true
       /\ c_confirm_new_password form = c_new_password form
       /\ users (db w')
          = update_where (fun x => User.id x =? User.id u)
              (set_password generate_password_hash (Py.or_empty (c_new_password form)))
              (users (db w))
       /\ force_password_change (session w') = false.
Proof.
  unfold change_password, guarded.
  destruct (current_user w) as [u|] eqn:Hu; [|left; reflexivity].
  destruct (change_validate_on_submit cfg rq form) eqn:Hv; [|left; reflexivity].
  destruct (check_password check_password_hash u _) eqn:Hpw; cbn [negb];
    [|left; reflexivity].
  right. exists u. split; [reflexivity|]. split; [exact Hpw|].
  unfold change_validate_on_submit in Hv.
  apply andb_true_iff in Hv as [Hv Hconf]. apply andb_true_iff in Hv as [_ Hnew].
  apply andb_true_iff in Hnew as [_ Hnew]. apply andb_true_iff in Hconf as [_ Hconf].
  apply bool_decide_eq_true in Hconf.
  split; [exact Hnew|]. split; [exact Hconf|].
  cbv zeta. cbn [fst]. cbn [db session do_flash with_session flash force_password_change].
  rewrite (proj1 (log_action_tables _ _ _ _ _ _)), log_action_keeps_session.
  split; reflexivity.
Qed.

End WithHash.


Definition clerk_code : PasswordReset.t :=
  {| PasswordReset.id := 1; PasswordReset.user_id := 3;
     PasswordReset.otp_code := "A1B2C3"; PasswordReset.expires_at := 9000;
     PasswordReset.used := false; PasswordReset.created_at := 1000 |}.

Definition recovering : World :=
  {| db := with_password_resets [clerk_code] staff_db; session := anonymous_session |}.

Definition reset_form (name code password : string) : ResetPasswordForm :=
  {| r_username := Some name; r_otp_code := Some code;
     r_new_password := Some password; r_confirm_new_password := Some password |}.

Lemma reset_code_works_once_witness :
  snd (reset_password plain_hash default_policy (post_at 7000)
         (reset_form "clerk" "A1B2C3" "N3w-Passw0rd!") recovering)
  = Redirect "auth.login"
  /\ List.map User.password_hash
       (users (db (fst (reset_password plain_hash default_policy (post_at 7500)
                          (reset_form "clerk" "A1B2C3" "0ther-Passw0rd!")
                          (fst (reset_password plain_hash default_policy (post_at 7000)
                                  (reset_form "clerk" "A1B2C3" "N3w-Passw0rd!")
                                  recovering))))))
     = ["Admin123!"; "Chief123!"; "N3w-Passw0rd!"].
Proof.
  assert (H1 : snd (reset_password plain_hash default_policy (post_at 7000)
                      (reset_form "clerk" "A1B2C3" "N3w-Passw0rd!") recovering)
               = Redirect "auth.login") by (vm_compute; reflexivity).
  split; [exact H1|].
  rewrite (proj1 (reset_code_works_once plain_hash default_policy (post_at 7000)
                    (post_at 7500) (reset_form "clerk" "A1B2C3" "N3w-Passw0rd!")
                    (reset_form "clerk" "A1B2C3" "0ther-Passw0rd!") recovering H1
                    ltac:(intros user Hu; vm_compute in Hu; injection Hu as <-;
                          exists clerk_code; vm_compute; reflexivity)
                    eq_refl eq_refl)).
  vm_compute. reflexivity.
Defined.

Definition nobody : World := {| db := empty_db; session := anonymous_session |}.

Lemma forgot_password_does_not_tell_witness :
  is_authenticated visitor = false /\ is_authenticated nobody = false
  /\ session visitor = session nobody
  /\ snd (forgot_password (post_at 7000) {| f_username := Some "clerk" |} visitor)
     = snd (forgot_password (post_at 7000) {| f_username := Some "clerk" |} nobody).
Proof.
  assert (H1 : is_authenticated visitor = false) by (vm_compute; reflexivity).
  assert (H2 : is_authenticated nobody = false) by (vm_compute; reflexivity).
  assert (H3 : session visitor = session nobody) by reflexivity.
  split; [exact H1|]. split; [exact H2|]. split; [exact H3|].
  exact (proj1 (forgot_password_does_not_tell (post_at 7000) {| f_username := Some "clerk" |}
                  visitor nobody H1 H2 H3)).
Defined.

Lemma reset_password_tells_unknown_names_witness :
  is_authenticated visitor = false
  /\ reset_validate_on_submit default_policy (post_at 7000)
       (reset_form "ghost" "A1B2C3" "N3w-Passw0rd!") = true
  /\ _flashes (session (fst (reset_password plain_hash default_policy (post_at 7000)
                               (reset_form "ghost" "A1B2C3" "N3w-Passw0rd!") visitor)))
     = [("danger", "Invalid username or OTP code.")].
Proof.
  assert (H1 : is_authenticated visitor = false) by (vm_compute; reflexivity).
  assert (H2 : reset_validate_on_submit default_policy (post_at 7000)
                 (reset_form "ghost" "A1B2C3" "N3w-Passw0rd!") = true)
    by (vm_compute; reflexivity).
  split; [exact H1|]. split; [exact H2|].
  apply (proj2 (reset_password_tells_unknown_names plain_hash default_policy (post_at 7000)
                  (reset_form "ghost" "A1B2C3" "N3w-Passw0rd!") visitor H1 H2)).
  vm_compute. reflexivity.
Defined.

End PasswordFacts.

(** ** Drawing and downloading a PDF (pdf_utils.py, routes.py) *)
Module DownloadFacts.
Import Models Web Helpers Forms PdfUtils DocumentRoutes Examples Frame.
Local Open Scope Z_scope.

(** Where [_template_pdf_path] looks for the form of the residency
    certificate. *)
Definition residency_form (cfg : Config) : string :=
  path_join (path_join (root_path cfg) [".."; "template_assets"; "pdf"])
    ["CERTIFICATE-OF-RESIDENCY.pdf"].

Lemma residency_form_truthy cfg : Py.truthy (residency_form cfg) = true.
Proof.
  unfold residency_form. generalize (path_join (root_path cfg) [".."; "template_assets"; "pdf"]).
  intros a. unfold path_join. cbn [fold_left]. unfold join2.
  change (Py.starts_with "/" "CERTIFICATE-OF-RESIDENCY.pdf") with false. cbv iota.
  destruct (negb (Py.truthy a) || ends_with_slash a); destruct a; reflexivity.
Qed.

(** X23: a document type whose template key is residency, or whose name
    contains residency, is drawn by [_generate_residency_pdf]: with the
    overlay on the residency form when that form is installed, and with
    [_template_residency] when it is missing.  No other document type gets
    either of the two layouts, so the two later tests for residency in
    [generate_document_pdf] are never reached. *)
Theorem residency_is_drawn_on_the_form_or_plain installed cfg d doc :
  let is_residency :=
    String.eqb (template_key d doc) "residency"
    || Py.contains "residency" (Py.lower (doc_type_name d doc)) in
  (choose_template installed cfg d doc = residency_overlay
   <-> is_residency = true /\ installed (residency_form cfg) = true)
  /\ (choose_template installed cfg d doc = residency
      <-> is_residency = true /\ installed (residency_form cfg) = false).
Proof.
  assert (finish : forall (t : Template) (r i : bool),
            (t = residency_overlay -> r = true /\ i = true) ->
            (r = true /\ i = true -> t = residency_overlay) ->
            (t = residency -> r = true /\ i = false) ->
            (r = true /\ i = false -> t = residency) ->
            (t = residency_overlay <-> r = true /\ i = true)
            /\ (t = residency <-> r = true /\ i = false))
    by (intros; split; split; assumption).
  cbv zeta. unfold choose_template. cbv zeta.
  destruct (String.eqb (template_key d doc) "residency"
            || Py.contains "residency" (Py.lower (doc_type_name d doc))) eqn:R.
  - unfold _generate_residency_pdf, _template_pdf_path. cbv zeta.
    fold (residency_form cfg).
    destruct (installed (residency_form cfg)); [rewrite residency_form_truthy|];
      apply finish; intros H; first [discriminate H | destruct H; discriminate
                                    | split; reflexivity | reflexivity].
  - apply orb_false_iff in R as [K C]. rewrite K.
    repeat match goal with
           | |- context [if ?b then _ else _] => destruct b
           end;
      apply finish; intros H; first [discriminate H | destruct H; discriminate].
Qed.

Section WithLibraries.

Variable strftime : datetime -> string -> string.
Variable draws : Template -> Document.t -> bool.
Variable installed : string -> bool.

Lemma store_file_path_user doc p w : current_user (store_file_path doc p w) = current_user w.
Proof. reflexivity. Qed.

(** The entry that a served download leaves in the log. *)
Definition download_entry (rq : Request) (u : User.t) (doc : Document.t)
    (rows : list TransactionLog.t) : TransactionLog.t :=
  log_row rq u rows "Downloaded document PDF" (Some "document") (Some (Document.id doc))
    (Some [meta_int "resident_id" (Document.resident_id doc);
           meta_int "document_type_id" (Document.document_type_id doc)]).

(** X24: the download route hands out a file only to an administrator or a
    clerk, only for a document that is issued and not archived, and every
    file it hands out is recorded: exactly one entry is appended to the
    log, for that user and that document. *)
Theorem download_serves_only_issued_documents cfg rq id w fs w' fs' p :
  download_document_pdf strftime draws installed cfg rq id w fs = (w', fs', SendFile p) ->
  exists u doc,
    current_user w = Some u
    /\ In (User.role u) ["admin"; "clerk"]
    /\ get Document.id id (documents (db w)) = Some doc
    /\ Document.status doc = "issued"
    /\ Document.is_archived doc = false
    /\ transaction_logs (db w')
       = (transaction_logs (db w) ++ [download_entry rq u doc (transaction_logs (db w))])%list.
Proof.
  unfold download_document_pdf. cbv zeta.
  destruct (current_user w) as [u|] eqn:Hu; [|discriminate].
  destruct (existsb (String.eqb (User.role u)) ["admin"; "clerk"]) eqn:Hrole;
    cbn [negb]; [|discriminate].
  destruct (get Document.id id (documents (db w))) as [doc|] eqn:Hget; [|discriminate].
  destruct (Document.is_archived doc) eqn:Ha; [discriminate|].
  destruct (String.eqb (Document.status doc) "issued") eqn:Hs; cbn [negb]; [|discriminate].
  intros H. exists u, doc. split; [reflexivity|]. split.
  { apply existsb_exists in Hrole as (s & Hin & Es). apply String.eqb_eq in Es.
    rewrite Es. exact Hin. }
  split; [reflexivity|]. split; [apply String.eqb_eq, Hs|]. split; [exact Ha|].
  assert (L : forall w0, current_user w0 = Some u ->
                transaction_logs (db w0) = transaction_logs (db w) ->
                forall a et ei m,
                  transaction_logs (db (log_action rq a et ei m w0))
                  = (transaction_logs (db w)
                       ++ [log_row rq u (transaction_logs (db w)) a et ei m])%list).
  { intros w0 H0 E0 a et ei m. unfold log_action. rewrite H0. cbn. rewrite E0. reflexivity. }
  unfold download_entry.
  destruct (negb (Py.truthy_opt (Document.file_path doc))).
  - destruct (generate_document_pdf strftime draws installed cfg rq (db w) doc fs)
      as [[fs1 rel1]|]; [|discriminate].
    destruct (Py.truthy rel1); [|discriminate].
    destruct (negb (exists_ _ fs1)).
    + destruct (generate_document_pdf strftime draws installed cfg rq _ _ fs1)
        as [[fs2 rel2]|]; [|discriminate].
      destruct (negb (exists_ _ fs2)); [discriminate|].
      injection H as <- _ _. apply L; [|reflexivity].
      rewrite !store_file_path_user. exact Hu.
    + injection H as <- _ _. apply L; [|reflexivity].
      rewrite !store_file_path_user. exact Hu.
  - destruct (negb (exists_ _ fs)).
    + destruct (generate_document_pdf strftime draws installed cfg rq (db w) doc fs)
        as [[fs1 rel1]|]; [|discriminate].
      destruct (negb (exists_ _ fs1)); [discriminate|].
      injection H as <- _ _. apply L; [|reflexivity].
      rewrite !store_file_path_user. exact Hu.
    + injection H as <- _ _. apply L; [exact Hu|reflexivity].
Qed.

End WithLibraries.

Definition filed_clearance : Document.t := set_file_path (Some "c.pdf") jane_clearance.

Definition small_cfg : Config := default_config "/a".

Definition filed_office : World :=
  logged_in clerk (with_documents [filed_clearance] office_db).

Definition one_file : FileSystem :=
  {[ "/a/static/c.pdf" := {| pdf_template := generic; pdf_document := jane_clearance |} ]}.

Lemma download_serves_only_issued_documents_witness :
  exists w' fs' p,
    download_document_pdf fixed_stamp always_draws forms_installed small_cfg (post_at 7000) 1
      filed_office one_file = (w', fs', SendFile p)
    /\ exists u doc,
         current_user filed_office = Some u
         /\ In (User.role u) ["admin"; "clerk"]
         /\ get Document.id 1 (documents (db filed_office)) = Some doc
         /\ Document.status doc = "issued"
         /\ Document.is_archived doc = false
         /\ transaction_logs (db w')
            = (transaction_logs (db filed_office)
                 ++ [download_entry (post_at 7000) u doc
                       (transaction_logs (db filed_office))])%list.
Proof.
  assert (H : exists w' fs' p,
             download_document_pdf fixed_stamp always_draws forms_installed small_cfg (post_at 7000) 1
               filed_office one_file = (w', fs', SendFile p))
    by (do 3 eexists; vm_compute; reflexivity).
  destruct H as (w' & fs' & p & H). exists w', fs', p. split; [exact H|].
  exact (download_serves_only_issued_documents fixed_stamp always_draws forms_installed small_cfg
           (post_at 7000) 1 filed_office one_file w' fs' p H).
Defined.

End DownloadFacts.

(** ** The forced password change (auth.py, app.py) *)
Module SessionFacts.
Import Models Web Helpers Forms Auth SessionSecurity Examples Frame LoginFacts.
Local Open Scope Z_scope.

Section WithHash.

Variable check_password_hash : string -> string -> bool.

(** The endpoints that the hook lets through while a password change is
    due. *)
Definition let_through (endpoint : option string) : bool :=
  Py.starts_with "static" (Py.or_empty endpoint)
  || existsb (String.eqb (Py.or_empty endpoint)) ["auth.change_password"; "auth.logout"].

(** X26: the account admin with the password admin is held until the
    password is changed.  When [_finalize_login] completes the login of the
    user named admin whose password is still admin, the session is flagged;
    from then on the hook that runs before every request answers every
    endpoint other than the password form, logout and the static files with
    a redirect (to the password form, or to the login page once the session
    has idled out), so no other view runs. *)
Theorem default_admin_must_change_the_password
    rq user remember next_page action w idle_timeout endpoint rq' :
  User.username user = "admin" ->
  check_password check_password_hash user "admin" = true ->
  let w1 := fst (_finalize_login check_password_hash rq user remember next_page action w) in
  force_password_change (session w1) = true
  /\ snd (_finalize_login check_password_hash rq user remember next_page action w)
     = Redirect "auth.change_password"
  /\ (is_authenticated w1 = true -> let_through endpoint = false ->
      snd (enforce_session_security idle_timeout endpoint rq' w1)
      = Some (Redirect "auth.change_password")
      \/ (snd (enforce_session_security idle_timeout endpoint rq' w1)
          = Some (Redirect "auth.login")
          /\ is_authenticated (fst (enforce_session_security idle_timeout endpoint rq' w1))
             = false)).
Proof.
  intros Hname Hpw w1.
  assert (E : _finalize_login check_password_hash rq user remember next_page action w
              = (do_flash "Please change the default admin password before continuing."
                   "warning"
                   (with_session
                      (set_force_password_change true
                         (session
                            (log_action rq action (Some "user") (Some (User.id user))
                               (Some [("username", MStr (User.username user));
                                      ("role", MStr (User.role user))])
                               (with_session (login_user rq user (session w)) w))))
                      (log_action rq action (Some "user") (Some (User.id user))
                         (Some [("username", MStr (User.username user));
                                ("role", MStr (User.role user))])
                         (with_session (login_user rq user (session w)) w))),
                 Redirect "auth.change_password")).
  { unfold _finalize_login. cbv zeta. rewrite Hname, Hpw. reflexivity. }
  assert (F : force_password_change (session w1) = true)
    by (unfold w1; rewrite E; reflexivity).
  split; [exact F|]. split; [rewrite E; reflexivity|].
  clearbody w1. clear E. intros Hauth Hthrough.
  unfold let_through in Hthrough. apply orb_false_iff in Hthrough as [Hs Ha].
  unfold enforce_session_security. rewrite Hauth. cbn [negb]. cbv zeta. rewrite Hs.
  destruct ((0 <? idle_timeout) && _) eqn:Hexp.
  - right. split; [reflexivity|]. reflexivity.
  - left. destruct (0 <? idle_timeout);
      cbn [session with_session set_last_activity force_password_change];
      rewrite F, Ha; reflexivity.
Qed.

End WithHash.

Definition default_admin : User.t := mk_user 9 "admin" (Some "admin@example.com") "admin" "admin".

Definition fresh_install : World :=
  {| db := with_users [default_admin] empty_db; session := anonymous_session |}.

Lemma default_admin_must_change_the_password_witness :
  User.username default_admin = "admin"
  /\ check_password plain_check default_admin "admin" = true
  /\ snd (enforce_session_security 0 (Some "main.list_residents") (post_at 8000)
            (fst (_finalize_login plain_check (post_at 7000) default_admin false None
                    "Logged in (MFA)" fresh_install)))
     = Some (Redirect "auth.change_password").
Proof.
  assert (H1 : User.username default_admin = "admin") by reflexivity.
  assert (H2 : check_password plain_check default_admin "admin" = true)
    by (vm_compute; reflexivity).
  split; [exact H1|]. split; [exact H2|].
  destruct (default_admin_must_change_the_password plain_check (post_at 7000) default_admin
              false None "Logged in (MFA)" fresh_install 0 (Some "main.list_residents")
              (post_at 8000) H1 H2) as (_ & _ & H).
  destruct H as [H|[H _]].
  - vm_compute. reflexivity.
  - vm_compute. reflexivity.
  - exact H.
  - vm_compute in H. discriminate H.
Defined.


(** X27: [logout] is recorded before it ends the session.  For a logged-in
    user it appends one entry to the log, under that user, and leaves a
    session in which nobody is logged in and no pending second factor or
    forced password change remains; an idle session that the hook expires
    ends the same way, but without a log entry. *)
Theorem logout_is_recorded_and_ends_the_session rq w u :
  current_user w = Some u ->
  let w' := fst (logout rq w) in
  is_authenticated w' = false
  /\ session w'
     = flash "You have been logged out." "success" (clear_login (session w))
  /\ transaction_logs (db w')
     = (transaction_logs (db w)
          ++ [log_row rq u (transaction_logs (db w)) "Logged out" (Some "user")
                (Some (User.id u))
                (Some [("username", MStr (User.username u));
                       ("role", MStr (User.role u))])])%list
  /\ forall idle_timeout endpoint rq',
       snd (enforce_session_security idle_timeout endpoint rq' w)
       = Some (Redirect "auth.login") ->
       is_authenticated (fst (enforce_session_security idle_timeout endpoint rq' w)) = false
       /\ db (fst (enforce_session_security idle_timeout endpoint rq' w)) = db w.
Proof.
  intros Hu w'.
  assert (E : w' = do_flash "You have been logged out." "success"
                     (with_session
                        (clear_login
                           (session
                              (log_action rq "Logged out" (Some "user") (Some (User.id u))
                                 (Some [("username", MStr (User.username u));
                                        ("role", MStr (User.role u))]) w)))
                        (log_action rq "Logged out" (Some "user") (Some (User.id u))
                           (Some [("username", MStr (User.username u));
                                  ("role", MStr (User.role u))]) w))).
  { unfold w', logout, guarded. rewrite Hu. reflexivity. }
  rewrite E. clear E w'. split; [reflexivity|]. split.
  { cbn [session do_flash with_session]. rewrite log_action_keeps_session. reflexivity. }
  split.
  { cbn [db do_flash with_session]. unfold log_action. rewrite Hu. reflexivity. }
  intros idle_timeout endpoint rq'. unfold enforce_session_security.
  destruct (negb (is_authenticated w)); [discriminate|]. cbv zeta.
  destruct (Py.starts_with "static" (Py.or_empty endpoint)); [discriminate|].
  destruct ((0 <? idle_timeout) && _).
  - intros _. split; reflexivity.
  - destruct (_ && _); discriminate.
Qed.

Lemma logout_is_recorded_and_ends_the_session_witness :
  current_user (logged_in clerk staff_db) = Some clerk
  /\ is_authenticated (fst (logout (post_at 7000) (logged_in clerk staff_db))) = false
  /\ List.map TransactionLog.action
       (transaction_logs (db (fst (logout (post_at 7000) (logged_in clerk staff_db)))))
     = ["Logged out"].
Proof.
  assert (H : current_user (logged_in clerk staff_db) = Some clerk)
    by (vm_compute; reflexivity).
  destruct (logout_is_recorded_and_ends_the_session (post_at 7000)
              (logged_in clerk staff_db) clerk H) as (H1 & _ & H3 & _).
  split; [exact H|]. split; [exact H1|]. rewrite H3. reflexivity.
Defined.

End SessionFacts.
